(** * A shallow embedding of the voice-assistant backend

    The development follows the Python sources under
    [voice-assistant/backend]:

    - [models/conversation.py]      ([ConversationSession], [ConversationManager])
    - [services/voice_pipeline.py]  ([VoicePipeline])
    - [services/groq_service.py]    ([GroqService.optimize_for_voice])
    - [services/elevenlabs_service.py] ([ElevenLabsService.text_to_speech])
    - [services/analytics_service.py]  ([AnalyticsService])
    - [main.py]                     (the three module-level service objects,
                                     [websocket_endpoint])

    Conventions of the embedding.

    - A Python [float] is the rational number ([Q]) it denotes; a Python
      [int] is a [Z]. Readings of the clock and the seconds between two of
      them are kept exact. The averages, percentages and roundings that
      the analytics and the manager compute ([sum], [/], [*], [round])
      round every result to the nearest binary64 number ([to_double]); a
      result beyond the range of binary64 (an infinity) is not modelled.
    - A naive [datetime] is the number of microseconds since a fixed
      midnight; a [date] is the number of days since that midnight.
      An ISO-format string of a [datetime] is kept as the [datetime] itself
      ([isoformat] and [fromisoformat] are inverse to each other).
    - A Python [dict] that is iterated is an insertion-ordered association
      list ([Dict]); a [dict] that is only looked up is a [gmap].
    - Methods are computations in a state-and-exception monad [M]: the state
      is the object together with the environment [Env] (the system clock
      and the log of calls made to the external capabilities).
    - The handlers of the websocket connections are coroutines of one
      event loop: a step relation interleaves them at their [await]s, over
      a store in which the sessions are shared objects ([Server]). *)

From Stdlib Require Import ZArith QArith Qabs Qpower Lia Lqa Ascii String
  Sorted.
From stdpp Require Import base list strings gmap pretty.

Local Open Scope Z_scope.

(** ** Python values *)

Definition datetime : Type := Z.
Definition date : Type := Z.
Definition bytes : Type := list Byte.byte.

Definition microseconds_per_second : Z := 1000000.
Definition microseconds_per_hour : Z := 3600 * microseconds_per_second.
Definition microseconds_per_day : Z := 24 * microseconds_per_hour.

(** [timedelta.total_seconds()] of the difference [later - earlier]. *)
Definition total_seconds (later earlier : datetime) : Q :=
  Qred (Qmake (later - earlier) 1000000).

(** [datetime.date()] and [datetime.hour]. *)
Definition date_of (t : datetime) : date := t / microseconds_per_day.
Definition hour_of (t : datetime) : Z := (t / microseconds_per_hour) mod 24.

(** [timedelta(days=n)]. *)
Definition timedelta_days (n : Z) : Z := n * microseconds_per_day.

(** [l[-n:]] for a positive [n]: the last [n] elements, all of [l] when it
    is shorter. *)
Definition last_n {A : Type} (n : nat) (l : list A) : list A :=
  drop (length l - n) l.

(** [l[:n]]. *)
Definition first_n {A : Type} (n : nat) (l : list A) : list A := take n l.

(** Rounding of a rational to the nearest integer, halves to the even
    neighbour. *)
Definition round_half_even (q : Q) : Z :=
  let n := Qnum q in
  let d := Z.pos (Qden q) in
  let fl := n / d in
  let r := n mod d in
  match (2 * r) ?= d with
  | Lt => fl
  | Gt => fl + 1
  | Eq => if Z.even fl then fl else fl + 1
  end.

(** The exponent of a positive rational: the [k] with
    [2 ^ k <= q < 2 ^ (k + 1)]. *)
Definition ilog2 (q : Q) : Z :=
  let k := Z.log2 (Qnum q) - Z.log2 (Z.pos (Qden q)) in
  if Qle_bool (2 ^ k) q then k else k - 1.

(** The binary64 number nearest to a rational, halves to the even
    significand: 53 bits of significand above [2 ^ -1022], multiples of
    [2 ^ -1074] below. It is what a float operation returns for the exact
    result [q], as long as the result is within the range of binary64. *)
Definition to_double (q : Q) : Q :=
  if Qeq_bool q 0 then 0%Q
  else
    let e := Z.max (ilog2 (Qabs q) - 52) (-1074) in
    Qred (inject_Z (round_half_even (q / 2 ^ e)) * 2 ^ e).

(** [x + y], [x * y] and [x / y] on floats; an [int] operand is converted
    to a float first. *)
Definition fadd (x y : Q) : Q := to_double (to_double x + to_double y).
Definition fmul (x y : Q) : Q := to_double (to_double x * to_double y).
Definition fdiv (x y : Q) : Q := to_double (to_double x / to_double y).

(** [a / b] on two [int]s: the float nearest to the quotient. *)
Definition true_div (a b : Z) : Q := to_double (inject_Z a / inject_Z b).

(** [sum(xs)] on floats: from 0, from the left, each addition rounded
    (as CPython adds them up to version 3.11; later versions compensate
    the rounding errors of the additions). *)
Definition fsum (xs : list Q) : Q := fold_left fadd xs 0%Q.

(** [(a / b) * 100] on two [int]s. *)
Definition percentage (a b : Z) : Q := fmul (true_div a b) 100.

(** [round(x, 2)] on a float: the float nearest to the decimal with two
    places that is nearest to [x], halves to the even neighbour. *)
Definition round2 (x : Q) : Q :=
  to_double (Qmake (round_half_even (to_double x * 100)) 100).

(** One entry of a conversation history: the dictionaries
    [{"role", "content", "timestamp", "confidence"}] of a session and
    [{"role", "content"}] of the pipeline's own store. A key that is absent
    is [None]. *)
Record Message : Type := mkMessage {
  role : string;
  content : string;
  timestamp : option datetime;
  confidence : option Q
}.

(** ** Insertion-ordered dictionaries *)

Module Dict.
Section Dict.
Context {K V : Type} `{EqDecision K}.

Fixpoint get (k : K) (d : list (K * V)) : option V :=
  match d with
  | [] => None
  | (k', v) :: d' => if decide (k = k') then Some v else get k d'
  end.

(** [d[k] = v]: an existing key keeps its position, a new key goes last. *)
Fixpoint set (k : K) (v : V) (d : list (K * V)) : list (K * V) :=
  match d with
  | [] => [(k, v)]
  | (k', v') :: d' =>
      if decide (k = k') then (k, v) :: d' else (k', v') :: set k v d'
  end.

(** [del d[k]] for a key that is present. *)
Fixpoint del (k : K) (d : list (K * V)) : list (K * V) :=
  match d with
  | [] => []
  | (k', v') :: d' =>
      if decide (k = k') then d' else (k', v') :: del k d'
  end.

Definition keys (d : list (K * V)) : list K := map fst d.
Definition values (d : list (K * V)) : list V := map snd d.

(** [max(d, key=d.get)]: the first key whose value is the largest; [None]
    on the empty dictionary (where Python raises). *)
Fixpoint argmax_from (lt : V -> V -> bool) (best : K * V)
    (d : list (K * V)) : K :=
  match d with
  | [] => fst best
  | kv :: d' =>
      if lt (snd best) (snd kv) then argmax_from lt kv d'
      else argmax_from lt best d'
  end.

Definition argmax (lt : V -> V -> bool) (d : list (K * V)) : option K :=
  match d with
  | [] => None
  | kv :: d' => Some (argmax_from lt kv d')
  end.
End Dict.
End Dict.

(** ** The environment and the monad of methods *)

(** A call made to one of the four external capabilities, with its
    arguments. *)
Inductive Event : Type :=
| Transcribe (audio_data : bytes)
| Retrieve (query : string) (user_id : option string)
    (conversation_history : list Message)
| Generate (user_message context : string)
    (conversation_history : list Message) (system_prompt : string)
| Synthesize (text : string).

(** [clock n] is what the [n]-th reading of the system clock returns;
    [ticks] counts the readings made so far and [calls] logs the capability
    calls made so far, oldest first. *)
Record Env : Type := mkEnv {
  clock : nat -> datetime;
  ticks : nat;
  calls : list Event
}.

Definition exn : Type := string.

Inductive outcome (A : Type) : Type :=
| Return (a : A)
| Raise (e : exn).
Arguments Return {A} a.
Arguments Raise {A} e.

(** The value of an outcome, when there is one. *)
Definition returned {A : Type} (o : outcome A) : option A :=
  match o with
  | Return a => Some a
  | Raise _ => None
  end.

Definition M (St A : Type) : Type := Env * St -> outcome A * (Env * St).

Definition ret {St A : Type} (a : A) : M St A := fun w => (Return a, w).

Definition bind {St A B : Type} (m : M St A) (k : A -> M St B) : M St B :=
  fun w =>
    match m w with
    | (Return a, w') => k a w'
    | (Raise e, w') => (Raise e, w')
    end.

Definition raise {St A : Type} (e : exn) : M St A := fun w => (Raise e, w).

(** [try: body except Exception as e: handler e]. What [body] did to the
    state before it raised is kept. *)
Definition try_except {St A : Type} (body : M St A) (handler : exn -> M St A)
    : M St A :=
  fun w =>
    match body w with
    | (Return a, w') => (Return a, w')
    | (Raise e, w') => handler e w'
    end.

Definition get_self {St : Type} : M St St := fun w => (Return (snd w), w).

Definition put_self {St : Type} (s : St) : M St unit :=
  fun w => (Return tt, (fst w, s)).

(** The environment after one more reading of the clock, and after one
    more call of a capability. *)
Definition tick (e : Env) : Env :=
  {| clock := clock e; ticks := S (ticks e); calls := calls e |}.

Definition logged (ev : Event) (e : Env) : Env :=
  {| clock := clock e; ticks := ticks e; calls := calls e ++ [ev] |}.

(** [datetime.now()]. *)
Definition datetime_now {St : Type} : M St datetime :=
  fun w => (Return (clock (fst w) (ticks (fst w))), (tick (fst w), snd w)).

(** [time.time()], in seconds. *)
Definition seconds_of (t : datetime) : Q := Qred (Qmake t 1000000).

Definition time_time {St : Type} : M St Q :=
  bind datetime_now (fun t => ret (seconds_of t)).

(** A call of an external capability: it may answer differently at each
    call (it sees the calls already made), it may raise, and the call is
    logged. *)
Definition invoke {St A : Type} (ev : Event)
    (capability : list Event -> outcome A) : M St A :=
  fun w => (capability (calls (fst w)), (logged ev (fst w), snd w)).

Declare Scope monad_scope.
Delimit Scope monad_scope with monad.
Notation "x <- m ;; k" := (bind m (fun x => k))
  (at level 100, m at next level, right associativity) : monad_scope.
Notation "m ;;; k" := (bind m (fun _ => k))
  (at level 100, right associativity) : monad_scope.

(** [for x in xs: body x], the loop state threaded through the monad. *)
Fixpoint for_each {St A : Type} (xs : list A) (body : A -> M St unit)
    : M St unit :=
  match xs with
  | [] => ret tt
  | x :: xs' => bind (body x) (fun _ => for_each xs' body)
  end.

(** [[f(x) for x in xs]] when [f] is a method: the calls are made from the
    left, and the first one that raises ends the loop. *)
Fixpoint map_M {St A B : Type} (f : A -> M St B) (xs : list A)
    : M St (list B) :=
  match xs with
  | [] => ret []
  | x :: xs' =>
      bind (f x) (fun y => bind (map_M f xs') (fun ys => ret (y :: ys)))
  end.

(** [l.sort(key=key, reverse=True)] and [sorted(l, key=key, reverse=True)]:
    the largest key first, and the elements of one key in the order they
    had. [insert_desc x l] puts [x] before the first element whose key is
    not larger than its own. *)
Fixpoint insert_desc {A : Type} (key : A -> Z) (x : A) (l : list A) : list A :=
  match l with
  | [] => [x]
  | y :: l' =>
      if Z.leb (key y) (key x) then x :: y :: l'
      else y :: insert_desc key x l'
  end.

Definition sort_desc {A : Type} (key : A -> Z) (l : list A) : list A :=
  foldr (insert_desc key) [] l.

(** ** models/conversation.py *)

Module ConversationSession.

Record t : Type := mk {
  id : string;
  client_id : string;
  user_id : option string;
  start_time : datetime;
  end_time : option datetime;
  status : string;
  total_interactions : Z;
  conversation_history : list Message;
  metadata : list (string * string)
}.

(** The constructor of the dataclass, with its defaults: no end time,
    the status ["active"], no interaction and an empty history. *)
Definition init (id client_id : string) (user_id : option string)
    (start_time : datetime) (metadata : list (string * string)) : t :=
  {| id := id; client_id := client_id; user_id := user_id;
     start_time := start_time; end_time := None; status := "active";
     total_interactions := 0; conversation_history := [];
     metadata := metadata |}.

(** [ConversationSession.add_interaction]. The two readings of
    [datetime.now()] are [now_user] and [now_assistant]. *)
Definition add_interaction (now_user now_assistant : datetime)
    (user_message ai_response : string) (confidence : Q) (self : t) : t :=
  let history :=
    conversation_history self ++
      [ {| role := "user"; content := user_message;
           timestamp := Some now_user; confidence := Some confidence |};
        {| role := "assistant"; content := ai_response;
           timestamp := Some now_assistant; confidence := None |} ] in
  {| id := id self;
     client_id := client_id self;
     user_id := user_id self;
     start_time := start_time self;
     end_time := end_time self;
     status := status self;
     total_interactions := total_interactions self + 1;
     conversation_history :=
       if decide (50 < length history)%nat then last_n 50 history
       else history;
     metadata := metadata self |}.

(** [ConversationSession.get_duration]: the clock is read only when the
    session has no end time. *)
Definition get_duration {St : Type} (self : t) : M St Q :=
  match end_time self with
  | Some e => ret (total_seconds e (start_time self))
  | None =>
      bind datetime_now (fun now => ret (total_seconds now (start_time self)))
  end.

(** The session after [end_session] has ended it at the time [now]. *)
Definition ended (now : datetime) (self : t) : t :=
  {| id := id self;
     client_id := client_id self;
     user_id := user_id self;
     start_time := start_time self;
     end_time := Some now;
     status := "ended";
     total_interactions := total_interactions self;
     conversation_history := conversation_history self;
     metadata := metadata self |}.

(** One completed exchange as [add_interaction] receives it, with the
    two clock readings it makes. *)
Record exchange : Type := mk_exchange {
  user_message : string;
  ai_response : string;
  reported_confidence : Q;
  now_user : datetime;
  now_assistant : datetime
}.

(** The two messages an exchange puts into the history. *)
Definition messages_of (x : exchange) : list Message :=
  [ mkMessage "user" (user_message x) (Some (now_user x))
      (Some (reported_confidence x));
    mkMessage "assistant" (ai_response x) (Some (now_assistant x)) None ].

(** A sequence of calls of [add_interaction] on one session. *)
Definition add_interactions (xs : list exchange) (self : t) : t :=
  fold_left
    (fun s x =>
       add_interaction (now_user x) (now_assistant x) (user_message x)
         (ai_response x) (reported_confidence x) s)
    xs self.

End ConversationSession.

(** The dictionary [ConversationSession.to_dict] returns and
    [ConversationSession.from_dict] reads. A key that is absent, or that
    holds [None], is [None]. *)
Module SessionDict.

Record t : Type := mk {
  id : option string;
  client_id : option string;
  user_id : option string;
  start_time : option datetime;
  end_time : option datetime;
  status : option string;
  total_interactions : option Z;
  conversation_history : option (list Message);
  metadata : option (list (string * string));
  duration : option Q
}.

(** [ConversationSession.to_dict]. *)
Definition to_dict {St : Type} (self : ConversationSession.t) : M St t :=
  bind (ConversationSession.get_duration self)
    (fun duration =>
       ret {| id := Some (ConversationSession.id self);
              client_id := Some (ConversationSession.client_id self);
              user_id := ConversationSession.user_id self;
              start_time := Some (ConversationSession.start_time self);
              end_time := ConversationSession.end_time self;
              status := Some (ConversationSession.status self);
              total_interactions :=
                Some (ConversationSession.total_interactions self);
              conversation_history :=
                Some (ConversationSession.conversation_history self);
              metadata := Some (ConversationSession.metadata self);
              duration := Some duration |}).

(** [ConversationSession.from_dict]: the keys ["id"], ["client_id"] and
    ["start_time"] are read with [data[...]], in this order, and the others
    with [data.get]. *)
Definition from_dict (data : t) : outcome ConversationSession.t :=
  match id data with
  | None => Raise "KeyError: 'id'"
  | Some session_id =>
      match client_id data with
      | None => Raise "KeyError: 'client_id'"
      | Some client =>
          match start_time data with
          | None => Raise "KeyError: 'start_time'"
          | Some start =>
              Return
                {| ConversationSession.id := session_id;
                   ConversationSession.client_id := client;
                   ConversationSession.user_id := user_id data;
                   ConversationSession.start_time := start;
                   ConversationSession.end_time := end_time data;
                   ConversationSession.status :=
                     default "active" (status data);
                   ConversationSession.total_interactions :=
                     default 0 (total_interactions data);
                   ConversationSession.conversation_history :=
                     default [] (conversation_history data);
                   ConversationSession.metadata :=
                     default [] (metadata data) |}
          end
      end
  end.

End SessionDict.

(** The dictionary [ConversationManager.get_session_analytics] returns. *)
Module SessionAnalytics.
Record t : Type := mk {
  session_id : string;
  client_id : string;
  user_id : option string;
  duration : Q;
  total_interactions : Z;
  status : string;
  start_time : datetime;
  end_time : option datetime;
  conversation_length : Z;
  average_confidence : Q
}.
End SessionAnalytics.

(** The dictionary [ConversationManager.get_all_sessions_analytics]
    returns. *)
Module AllSessionsAnalytics.
Record t : Type := mk {
  total_sessions : Z;
  active_sessions : Z;
  completed_sessions : Z;
  average_duration : Q;
  total_interactions : Z;
  average_interactions_per_session : Q
}.
End AllSessionsAnalytics.

Definition Qltb (a b : Q) : bool := negb (Qle_bool b a).

Module ConversationManager.

Record t : Type := mk {
  active_sessions : list (string * ConversationSession.t);
  session_history : list ConversationSession.t;
  max_active_sessions : nat
}.

(** [ConversationManager.__init__]. *)
Definition init : t :=
  {| active_sessions := []; session_history := [];
     max_active_sessions := 1000 |}.

Local Open Scope monad_scope.

(** [get_session]. *)
Definition get_session (client_id : string)
    : M t (option ConversationSession.t) :=
  self <- get_self ;;
  ret (Dict.get client_id (active_sessions self)).

(** [end_session]: the session gets its end time and the status
    ["ended"], joins the history and leaves the active sessions. *)
Definition end_session (client_id : string)
    : M t (option ConversationSession.t) :=
  self <- get_self ;;
  match Dict.get client_id (active_sessions self) with
  | Some session =>
      now <- datetime_now ;;
      let session' := ConversationSession.ended now session in
      put_self
        {| active_sessions := Dict.del client_id (active_sessions self);
           session_history := session_history self ++ [session'];
           max_active_sessions := max_active_sessions self |} ;;;
      ret (Some session')
  | None => ret None
  end.

(** [add_interaction]. *)
Definition add_interaction (client_id user_message ai_response : string)
    (confidence : Q) : M t bool :=
  self <- get_self ;;
  match Dict.get client_id (active_sessions self) with
  | Some session =>
      now_user <- datetime_now ;;
      now_assistant <- datetime_now ;;
      put_self
        {| active_sessions :=
             Dict.set client_id
               (ConversationSession.add_interaction now_user now_assistant
                  user_message ai_response confidence session)
               (active_sessions self);
           session_history := session_history self;
           max_active_sessions := max_active_sessions self |} ;;;
      ret true
  | None => ret false
  end.

(** The test of [_cleanup_old_sessions]: the session started more than
    3600 seconds before [current_time]. *)
Definition is_old (current_time : datetime) (session : ConversationSession.t)
    : bool :=
  Qltb 3600
    (total_seconds current_time (ConversationSession.start_time session)).

(** The client ids [_cleanup_old_sessions] collects, in the order of the
    dictionary. *)
Definition sessions_to_remove (current_time : datetime)
    (active : list (string * ConversationSession.t)) : list string :=
  map fst (filter (fun kv => is_old current_time (snd kv) = true) active).

(** [_cleanup_old_sessions]. *)
Definition _cleanup_old_sessions : M t unit :=
  current_time <- datetime_now ;;
  self <- get_self ;;
  for_each (sessions_to_remove current_time (active_sessions self))
    (fun client_id => end_session client_id ;;; ret tt).

(** [create_session]. [uuid4] is the string [str(uuid.uuid4())] returns;
    the start time of the new session is read from the clock when the
    session object is built, before any cleaning up. *)
Definition create_session (uuid4 client_id : string)
    (user_id : option string) : M t ConversationSession.t :=
  start <- datetime_now ;;
  let session :=
    ConversationSession.init uuid4 client_id user_id start
      [("created_by", "voice_assistant"); ("version", "1.0")] in
  self <- get_self ;;
  (if decide (max_active_sessions self <= length (active_sessions self))%nat
   then _cleanup_old_sessions else ret tt) ;;;
  self <- get_self ;;
  put_self
    {| active_sessions := Dict.set client_id session (active_sessions self);
       session_history := session_history self;
       max_active_sessions := max_active_sessions self |} ;;;
  ret session.

(** Sessions ended one after the other, the first at the [n]-th reading
    of the clock. *)
Fixpoint ended_in_turn (clock : nat -> datetime) (n : nat)
    (sessions : list ConversationSession.t) : list ConversationSession.t :=
  match sessions with
  | [] => []
  | session :: sessions' =>
      ConversationSession.ended (clock n) session
      :: ended_in_turn clock (S n) sessions'
  end.

(** [_calculate_average_confidence]. *)
Definition _calculate_average_confidence (session : ConversationSession.t)
    : Q :=
  let user_messages :=
    filter (fun msg => role msg = "user" /\ is_Some (confidence msg))
      (ConversationSession.conversation_history session) in
  match user_messages with
  | [] => 0%Q
  | _ =>
      fdiv
        (fsum (map (fun msg => default 0%Q (confidence msg)) user_messages))
        (inject_Z (Z.of_nat (length user_messages)))
  end.

(** The session [get_session_analytics] reports on: the active one of the
    client, or else the first one of the history with that client id. *)
Definition session_of_client (client_id : string) (self : t)
    : option ConversationSession.t :=
  match Dict.get client_id (active_sessions self) with
  | Some session => Some session
  | None =>
      find
        (fun hist_session =>
           bool_decide (ConversationSession.client_id hist_session = client_id))
        (session_history self)
  end.

(** [get_session_analytics]. *)
Definition get_session_analytics (client_id : string)
    : M t (option SessionAnalytics.t) :=
  self <- get_self ;;
  match session_of_client client_id self with
  | Some session =>
      duration <- ConversationSession.get_duration session ;;
      ret
        (Some
           {| SessionAnalytics.session_id := ConversationSession.id session;
              SessionAnalytics.client_id :=
                ConversationSession.client_id session;
              SessionAnalytics.user_id := ConversationSession.user_id session;
              SessionAnalytics.duration := duration;
              SessionAnalytics.total_interactions :=
                ConversationSession.total_interactions session;
              SessionAnalytics.status := ConversationSession.status session;
              SessionAnalytics.start_time :=
                ConversationSession.start_time session;
              SessionAnalytics.end_time := ConversationSession.end_time session;
              SessionAnalytics.conversation_length :=
                Z.of_nat
                  (length (ConversationSession.conversation_history session));
              SessionAnalytics.average_confidence :=
                _calculate_average_confidence session |})
  | None => ret None
  end.

(** [get_all_sessions_analytics]. *)
Definition get_all_sessions_analytics : M t AllSessionsAnalytics.t :=
  self <- get_self ;;
  let all_sessions := map snd (active_sessions self) ++ session_history self in
  match all_sessions with
  | [] =>
      ret {| AllSessionsAnalytics.total_sessions := 0;
             AllSessionsAnalytics.active_sessions := 0;
             AllSessionsAnalytics.completed_sessions := 0;
             AllSessionsAnalytics.average_duration := 0%Q;
             AllSessionsAnalytics.total_interactions := 0;
             AllSessionsAnalytics.average_interactions_per_session := 0%Q |}
  | _ =>
      durations <- map_M ConversationSession.get_duration all_sessions ;;
      let total_interactions :=
        fold_left Z.add
          (map ConversationSession.total_interactions all_sessions) 0 in
      ret {| AllSessionsAnalytics.total_sessions :=
               Z.of_nat (length all_sessions);
             AllSessionsAnalytics.active_sessions :=
               Z.of_nat (length (active_sessions self));
             AllSessionsAnalytics.completed_sessions :=
               Z.of_nat (length (session_history self));
             AllSessionsAnalytics.average_duration :=
               fdiv (fsum durations)
                 (inject_Z (Z.of_nat (length all_sessions)));
             AllSessionsAnalytics.total_interactions := total_interactions;
             AllSessionsAnalytics.average_interactions_per_session :=
               true_div total_interactions
                 (Z.of_nat (length all_sessions)) |}
  end.

(** The session [export_session_data] exports: the first active one with
    the session id, or else the first one of the history. *)
Definition session_of_id (session_id : string) (self : t)
    : option ConversationSession.t :=
  match
    find (fun s => bool_decide (ConversationSession.id s = session_id))
      (map snd (active_sessions self))
  with
  | Some session => Some session
  | None =>
      find (fun s => bool_decide (ConversationSession.id s = session_id))
        (session_history self)
  end.

(** [export_session_data]. *)
Definition export_session_data (session_id : string)
    : M t (option SessionDict.t) :=
  self <- get_self ;;
  match session_of_id session_id self with
  | Some session =>
      data <- SessionDict.to_dict session ;;
      ret (Some data)
  | None => ret None
  end.

(** The sessions of a user, the active ones first, as [get_user_sessions]
    meets them. *)
Definition sessions_of_user (user_id : string) (self : t)
    : list ConversationSession.t :=
  filter (fun s => ConversationSession.user_id s = Some user_id)
    (map snd (active_sessions self))
  ++ filter (fun s => ConversationSession.user_id s = Some user_id)
       (session_history self).

(** [get_user_sessions]: the dictionaries are sorted on their start time,
    the most recent first. *)
Definition get_user_sessions (user_id : string) : M t (list SessionDict.t) :=
  self <- get_self ;;
  user_sessions <- map_M SessionDict.to_dict (sessions_of_user user_id self) ;;
  ret (sort_desc (fun data => default 0 (SessionDict.start_time data))
         user_sessions).

End ConversationManager.

(** ** Python string methods, on ASCII text *)

Module Str.

Definition is_space (c : ascii) : bool :=
  let n := nat_of_ascii c in
  ((9 <=? n) && (n <=? 13) || (28 <=? n) && (n <=? 32))%nat.

Definition is_upper (c : ascii) : bool :=
  let n := nat_of_ascii c in ((65 <=? n) && (n <=? 90))%nat.

(** [\w] of a regular expression. *)
Definition is_word (c : ascii) : bool :=
  let n := nat_of_ascii c in
  ((48 <=? n) && (n <=? 57) || (65 <=? n) && (n <=? 90)
   || (97 <=? n) && (n <=? 122) || (n =? 95))%nat.

Definition lower_char (c : ascii) : ascii :=
  if is_upper c then ascii_of_nat (nat_of_ascii c + 32) else c.

(** [s.lower()]. *)
Fixpoint lower (s : string) : string :=
  match s with
  | EmptyString => EmptyString
  | String c s' => String (lower_char c) (lower s')
  end.

Fixpoint lstrip (s : string) : string :=
  match s with
  | EmptyString => EmptyString
  | String c s' => if is_space c then lstrip s' else s
  end.

(** [s.rstrip()]: a character stays when it is not a space or when
    something stays after it. *)
Fixpoint rstrip (s : string) : string :=
  match s with
  | EmptyString => EmptyString
  | String c s' =>
      match rstrip s' with
      | EmptyString => if is_space c then EmptyString else String c EmptyString
      | r => String c r
      end
  end.

(** [s.strip()]. *)
Definition strip (s : string) : string := rstrip (lstrip s).

(** [needle in s]. *)
Fixpoint contains (needle s : string) : bool :=
  String.prefix needle s
  || match s with
     | EmptyString => false
     | String _ s' => contains needle s'
     end.

(** [s.replace(old, new)] for a non-empty [old]: occurrences are found
    from the left and do not overlap; [skip] characters of a found
    occurrence are still to be passed over. *)
Fixpoint replace_from (skip : nat) (old new s : string) : string :=
  match s with
  | EmptyString => EmptyString
  | String c s' =>
      match skip with
      | S k => replace_from k old new s'
      | O =>
          if String.prefix old s
          then new +:+ replace_from (String.length old - 1) old new s'
          else String c (replace_from 0 old new s')
      end
  end.

Definition replace (old new s : string) : string := replace_from 0 old new s.

(** [re.sub(r'[^\w\s]', '', s)]. *)
Fixpoint remove_punctuation (s : string) : string :=
  match s with
  | EmptyString => EmptyString
  | String c s' =>
      if is_word c || is_space c then String c (remove_punctuation s')
      else remove_punctuation s'
  end.

(** [s.split()]: the maximal runs of characters that are not spaces;
    [word] is the run being read, reversed. *)
Fixpoint split_from (word : list ascii) (s : string) : list string :=
  match s with
  | EmptyString =>
      match word with
      | [] => []
      | _ => [string_of_list_ascii (rev word)]
      end
  | String c s' =>
      if is_space c then
        match word with
        | [] => split_from [] s'
        | _ => string_of_list_ascii (rev word) :: split_from [] s'
        end
      else split_from (c :: word) s'
  end.

Definition split (s : string) : list string := split_from [] s.

(** [sep.join(words)]. *)
Fixpoint join (sep : string) (words : list string) : string :=
  match words with
  | [] => EmptyString
  | [w] => w
  | w :: ws => w +:+ sep +:+ join sep ws
  end.

(** [any(k in s for k in keywords)] and
    [sum(1 for k in keywords if k in s)]. *)
Definition any_in (keywords : list string) (s : string) : bool :=
  existsb (fun k => contains k s) keywords.

Definition count_in (keywords : list string) (s : string) : Z :=
  Z.of_nat (length (filter (fun k => contains k s = true) keywords)).

End Str.

(** ** The external capabilities

    The pipeline owns one object per capability. The three capabilities it
    awaits inside its [try] block are taken as arbitrary procedures: each
    sees the calls already made, and answers or raises. The synthesis
    capability is [ElevenLabsService.text_to_speech] of the sources, around
    an arbitrary vendor call [generate]. *)

Module DeepgramService.
(** The dictionary a transcription returns; a key may be absent. *)
Record result : Type := mk_result {
  transcript : option string;
  confidence : option Q
}.
Record t : Type := mk {
  transcribe_audio_chunk : bytes -> list Event -> outcome (option result)
}.
End DeepgramService.

Module RAGService.
Record t : Type := mk {
  retrieve_context :
    string -> option string -> list Message -> list Event -> outcome string
}.
End RAGService.

Module GroqService.
Record t : Type := mk {
  generate_response :
    string -> string -> list Message -> string -> list Event ->
    outcome (option string)
}.

(** The substitution table of [optimize_for_voice], in its order. *)
Definition replacements : list (string * string) :=
  [ ("e.g.", "for example"); ("i.e.", "that is"); ("etc.", "and so on");
    ("&", "and"); ("@", "at"); ("#", "number"); ("%", "percent");
    ("$", "dollars") ].

(** [GroqService.optimize_for_voice]. *)
Definition optimize_for_voice (text : string) : string :=
  let text := Str.replace "_" "" (Str.replace "*" "" (Str.replace "**" "" text)) in
  let text :=
    fold_left (fun text r => Str.replace (fst r) (snd r) text)
      replacements text in
  let text := Str.replace ". " ". ... " text in
  let text := Str.replace "? " "? ... " text in
  let text := Str.replace "! " "! ... " text in
  text.
End GroqService.

Module ElevenLabsService.
Record t : Type := mk {
  generate : string -> list Event -> outcome bytes
}.

Local Open Scope monad_scope.

(** [ElevenLabsService.text_to_speech]: whatever the vendor call raises
    is caught, and the answer is then [None]. *)
Definition text_to_speech {St : Type} (self : t) (text : string)
    : M St (option bytes) :=
  try_except
    (audio_bytes <- invoke (Synthesize text) (generate self text) ;;
     ret (Some audio_bytes))
    (fun _ => ret None).

(** What [text_to_speech] answers when [past] are the calls made so
    far. *)
Definition answer (self : t) (text : string) (past : list Event)
    : option bytes :=
  match generate self text past with
  | Return audio_bytes => Some audio_bytes
  | Raise _ => None
  end.
End ElevenLabsService.

(** ** services/voice_pipeline.py *)

Module VoiceResponse.
Record t : Type := mk {
  audio_data : option bytes;
  transcript : string;
  ai_response : string;
  confidence : Q;
  processing_time : Q;
  session_id : string
}.
End VoiceResponse.

(** The dictionary the pipeline keeps per session id. The key
    ["last_interaction"] is absent until the first update. *)
Module SessionContext.
Record t : Type := mk {
  history : list Message;
  user_id : option string;
  start_time : Q;
  total_interactions : Z;
  last_interaction : option Q
}.
End SessionContext.

(** The dictionary [VoicePipeline.get_session_analytics] returns. *)
Module PipelineSessionAnalytics.
Record t : Type := mk {
  session_id : string;
  duration : Q;
  total_interactions : Z;
  last_interaction : Q;
  conversation_length : Z;
  user_id : option string
}.
End PipelineSessionAnalytics.

(** One event of a streaming transcription: the dictionary with the keys
    ["transcript"] and ["is_final"], either of which may be absent. *)
Module StreamEvent.
Record t : Type := mk {
  transcript : option string;
  is_final : option bool
}.
End StreamEvent.

Module VoicePipeline.

Record t : Type := mk {
  deepgram : DeepgramService.t;
  elevenlabs : ElevenLabsService.t;
  groq : GroqService.t;
  rag : RAGService.t;
  min_confidence_threshold : Q;
  max_processing_time : Q;
  enable_streaming : bool;
  active_sessions : gmap string SessionContext.t
}.

(** [VoicePipeline.__init__], around the four service objects. *)
Definition init (deepgram : DeepgramService.t)
    (elevenlabs : ElevenLabsService.t) (groq : GroqService.t)
    (rag : RAGService.t) : t :=
  {| deepgram := deepgram; elevenlabs := elevenlabs; groq := groq;
     rag := rag; min_confidence_threshold := 0.7%Q;
     max_processing_time := 5%Q; enable_streaming := true;
     active_sessions := ∅ |}.

Definition set_active_sessions (sessions : gmap string SessionContext.t)
    (self : t) : t :=
  {| deepgram := deepgram self; elevenlabs := elevenlabs self;
     groq := groq self; rag := rag self;
     min_confidence_threshold := min_confidence_threshold self;
     max_processing_time := max_processing_time self;
     enable_streaming := enable_streaming self;
     active_sessions := sessions |}.

Definition clarification_text : string :=
  "I'm sorry, I didn't catch that clearly. Could you please repeat your question?".

Definition apology_text : string :=
  "I apologize, but I'm having trouble processing your request right now. Could you please try again?".

Definition error_response : string :=
  "I'm sorry, I encountered a technical issue. Please try again or speak with a human agent.".

(** [_get_customer_service_prompt]. *)
Definition _get_customer_service_prompt : string :=
"You are an expert AI customer service representative. Your goals are:

1. SOLVE PROBLEMS: Focus on resolving the customer's issue quickly and effectively
2. BE EMPATHETIC: Show understanding and care for customer concerns
3. STAY PROFESSIONAL: Maintain a helpful, courteous tone at all times
4. BE CONCISE: Keep responses brief but complete - this is a voice conversation
5. USE CONTEXT: Leverage provided information to give personalized responses
6. ESCALATE WHEN NEEDED: If you can't help, offer to connect with a human agent

Voice Conversation Guidelines:
- Speak naturally and conversationally
- Use short, clear sentences
- Avoid technical jargon unless necessary
- Confirm understanding when handling complex requests
- Express empathy for frustrations or problems

Remember: The customer called for help. Your job is to provide excellent service and leave them satisfied with their experience.".

Local Open Scope monad_scope.

(** The context a session id gets at its first access. *)
Definition fresh_context (now : Q) : SessionContext.t :=
  {| SessionContext.history := [];
     SessionContext.user_id := None;
     SessionContext.start_time := now;
     SessionContext.total_interactions := 0;
     SessionContext.last_interaction := None |}.

(** [_get_session_context]. *)
Definition _get_session_context (session_id : string)
    : M t SessionContext.t :=
  self <- get_self ;;
  match active_sessions self !! session_id with
  | Some context => ret context
  | None =>
      now <- time_time ;;
      put_self
        (set_active_sessions
           (<[session_id := fresh_context now]> (active_sessions self))
           self) ;;;
      ret (fresh_context now)
  end.

(** The history after one more exchange, cut to its last 20 messages. *)
Definition extended_history (history : list Message)
    (user_message ai_response : string) : list Message :=
  let history :=
    history ++ [ mkMessage "user" user_message None None;
                 mkMessage "assistant" ai_response None None ] in
  if decide (20 < length history)%nat then last_n 20 history else history.

(** The context after one more exchange, at the clock reading [now]. *)
Definition updated_context (context : SessionContext.t)
    (user_message ai_response : string) (now : Q) : SessionContext.t :=
  {| SessionContext.history :=
       extended_history (SessionContext.history context)
         user_message ai_response;
     SessionContext.user_id := SessionContext.user_id context;
     SessionContext.start_time := SessionContext.start_time context;
     SessionContext.total_interactions :=
       SessionContext.total_interactions context + 1;
     SessionContext.last_interaction := Some now |}.

(** [_update_session_context]. *)
Definition _update_session_context
    (session_id user_message ai_response : string) : M t unit :=
  context <- _get_session_context session_id ;;
  now <- time_time ;;
  self <- get_self ;;
  put_self
    (set_active_sessions
       (<[session_id := updated_context context user_message ai_response now]>
          (active_sessions self))
       self).

(** What [_get_session_context] returns in the environment [e] and the
    state [self], and the environment and state it leaves. *)
Definition accessed_context (session_id : string) (e : Env) (self : t)
    : SessionContext.t :=
  default (fresh_context (seconds_of (clock e (ticks e))))
    (active_sessions self !! session_id).

Definition after_access (session_id : string) (e : Env) (self : t)
    : Env * t :=
  match active_sessions self !! session_id with
  | Some _ => (e, self)
  | None =>
      (tick e,
       set_active_sessions
         (<[session_id := fresh_context (seconds_of (clock e (ticks e)))]>
            (active_sessions self))
         self)
  end.

(** [_generate_clarification_response]. *)
Definition _generate_clarification_response (session_id : string)
    (start_time : Q) : M t VoiceResponse.t :=
  self <- get_self ;;
  clarification_audio <-
    ElevenLabsService.text_to_speech (elevenlabs self) clarification_text ;;
  now <- time_time ;;
  ret {| VoiceResponse.audio_data := clarification_audio;
         VoiceResponse.transcript := "";
         VoiceResponse.ai_response := clarification_text;
         VoiceResponse.confidence := 0%Q;
         VoiceResponse.processing_time := Qred (now - start_time);
         VoiceResponse.session_id := session_id |}.

(** The transcript of a transcription result when the test
    [not transcription_result or not transcription_result.get("transcript")]
    fails, with the confidence [.get("confidence", 0.0)]. *)
Definition usable (transcription_result : option DeepgramService.result)
    : option (string * Q) :=
  match transcription_result with
  | Some r =>
      match DeepgramService.transcript r with
      | Some s =>
          if decide (s = "") then None
          else Some (s, default 0%Q (DeepgramService.confidence r))
      | None => None
      end
  | None => None
  end.

(** The reply after the test [if not ai_response]. *)
Definition reply_or_apology (ai_response : option string) : string :=
  match ai_response with
  | Some s => if decide (s = "") then apology_text else s
  | None => apology_text
  end.

(** The [try] block of [process_audio_chunk]. *)
Definition process_audio_chunk_try (audio_data : bytes)
    (session_id : string) (start_time : Q) : M t VoiceResponse.t :=
  self <- get_self ;;
  transcription_result <-
    invoke (Transcribe audio_data)
      (DeepgramService.transcribe_audio_chunk (deepgram self) audio_data) ;;
  match usable transcription_result with
  | None =>
      now <- time_time ;;
      ret {| VoiceResponse.audio_data := None;
             VoiceResponse.transcript := "";
             VoiceResponse.ai_response := "";
             VoiceResponse.confidence := 0%Q;
             VoiceResponse.processing_time := Qred (now - start_time);
             VoiceResponse.session_id := session_id |}
  | Some (transcript, confidence) =>
      if Qltb confidence (min_confidence_threshold self) then
        _generate_clarification_response session_id start_time
      else
        session_context <- _get_session_context session_id ;;
        rag_context <-
          invoke
            (Retrieve transcript (SessionContext.user_id session_context)
               (SessionContext.history session_context))
            (RAGService.retrieve_context (rag self) transcript
               (SessionContext.user_id session_context)
               (SessionContext.history session_context)) ;;
        generated <-
          invoke
            (Generate transcript rag_context
               (SessionContext.history session_context)
               _get_customer_service_prompt)
            (GroqService.generate_response (groq self) transcript
               rag_context (SessionContext.history session_context)
               _get_customer_service_prompt) ;;
        let ai_response := reply_or_apology generated in
        let voice_optimized_response :=
          GroqService.optimize_for_voice ai_response in
        audio_response <-
          ElevenLabsService.text_to_speech (elevenlabs self)
            voice_optimized_response ;;
        _update_session_context session_id transcript ai_response ;;;
        now <- time_time ;;
        ret {| VoiceResponse.audio_data := audio_response;
               VoiceResponse.transcript := transcript;
               VoiceResponse.ai_response := ai_response;
               VoiceResponse.confidence := confidence;
               VoiceResponse.processing_time := Qred (now - start_time);
               VoiceResponse.session_id := session_id |}
  end.

(** The [except Exception] block of [process_audio_chunk]. *)
Definition process_audio_chunk_except (session_id : string)
    (start_time : Q) (e : exn) : M t VoiceResponse.t :=
  now <- time_time ;;
  self <- get_self ;;
  error_audio <-
    ElevenLabsService.text_to_speech (elevenlabs self) error_response ;;
  ret {| VoiceResponse.audio_data := error_audio;
         VoiceResponse.transcript := "";
         VoiceResponse.ai_response := error_response;
         VoiceResponse.confidence := 0%Q;
         VoiceResponse.processing_time := Qred (now - start_time);
         VoiceResponse.session_id := session_id |}.

(** [process_audio_chunk]. *)
Definition process_audio_chunk (audio_data : bytes) (session_id : string)
    : M t VoiceResponse.t :=
  start_time <- time_time ;;
  try_except (process_audio_chunk_try audio_data session_id start_time)
    (process_audio_chunk_except session_id start_time).

(** One of the capabilities awaited in the [try] block raises [ex], in a
    call made in the environment [e] and the state [self]: the
    transcription, or, once the transcription has a transcript with enough
    confidence, the retrieval, or, once the retrieval has answered, the
    generation. *)
Inductive stage_raises (audio_data : bytes) (session_id : string) (e : Env)
    (self : t) (ex : exn) : Prop :=
| transcription_raised :
    DeepgramService.transcribe_audio_chunk (deepgram self) audio_data
      (calls e) = Raise ex ->
    stage_raises audio_data session_id e self ex
| retrieval_raised (tr : option DeepgramService.result) (transcript : string)
    (confidence : Q) :
    DeepgramService.transcribe_audio_chunk (deepgram self) audio_data
      (calls e) = Return tr ->
    usable tr = Some (transcript, confidence) ->
    Qltb confidence (min_confidence_threshold self) = false ->
    RAGService.retrieve_context (rag self) transcript
      (SessionContext.user_id
         (accessed_context session_id (logged (Transcribe audio_data) (tick e))
            self))
      (SessionContext.history
         (accessed_context session_id (logged (Transcribe audio_data) (tick e))
            self))
      (calls e ++ [Transcribe audio_data]) = Raise ex ->
    stage_raises audio_data session_id e self ex
| generation_raised (tr : option DeepgramService.result) (transcript : string)
    (confidence : Q) (rag_context : string) :
    DeepgramService.transcribe_audio_chunk (deepgram self) audio_data
      (calls e) = Return tr ->
    usable tr = Some (transcript, confidence) ->
    Qltb confidence (min_confidence_threshold self) = false ->
    RAGService.retrieve_context (rag self) transcript
      (SessionContext.user_id
         (accessed_context session_id (logged (Transcribe audio_data) (tick e))
            self))
      (SessionContext.history
         (accessed_context session_id (logged (Transcribe audio_data) (tick e))
            self))
      (calls e ++ [Transcribe audio_data]) = Return rag_context ->
    GroqService.generate_response (groq self) transcript rag_context
      (SessionContext.history
         (accessed_context session_id (logged (Transcribe audio_data) (tick e))
            self))
      _get_customer_service_prompt
      (calls e ++
       [Transcribe audio_data;
        Retrieve transcript
          (SessionContext.user_id
             (accessed_context session_id
                (logged (Transcribe audio_data) (tick e)) self))
          (SessionContext.history
             (accessed_context session_id
                (logged (Transcribe audio_data) (tick e)) self))]) =
      Raise ex ->
    stage_raises audio_data session_id e self ex.

(** [cleanup_session]. *)
Definition cleanup_session (session_id : string) : M t unit :=
  self <- get_self ;;
  match active_sessions self !! session_id with
  | Some _ =>
      put_self
        (set_active_sessions (delete session_id (active_sessions self)) self)
  | None => ret tt
  end.

(** [get_session_analytics]: the clock is read only for a session id that
    the store knows. *)
Definition get_session_analytics (session_id : string)
    : M t (option PipelineSessionAnalytics.t) :=
  self <- get_self ;;
  match active_sessions self !! session_id with
  | None => ret None
  | Some context =>
      current_time <- time_time ;;
      ret
        (Some
           {| PipelineSessionAnalytics.session_id := session_id;
              PipelineSessionAnalytics.duration :=
                Qred (current_time - SessionContext.start_time context);
              PipelineSessionAnalytics.total_interactions :=
                SessionContext.total_interactions context;
              PipelineSessionAnalytics.last_interaction :=
                default (SessionContext.start_time context)
                  (SessionContext.last_interaction context);
              PipelineSessionAnalytics.conversation_length :=
                Z.of_nat (length (SessionContext.history context));
              PipelineSessionAnalytics.user_id :=
                SessionContext.user_id context |})
  end.

(** The audio [process_streaming_audio] hands to the pipeline for every
    final transcription: [b"mock_audio_data"]. *)
Definition mock_audio : bytes := list_byte_of_string "mock_audio_data".

(** The loop of [process_streaming_audio] over the events the streaming
    transcription yields: the responses yielded, oldest first, and the
    exception that ended the loop, if one did. An event that is final and
    has no transcript raises a [KeyError]. *)
Fixpoint stream_loop (events : list StreamEvent.t) (session_id : string)
    : M t (list VoiceResponse.t * option exn) :=
  match events with
  | [] => ret ([], None)
  | transcription :: events' =>
      if default false (StreamEvent.is_final transcription) then
        match StreamEvent.transcript transcription with
        | None => ret ([], Some "KeyError: 'transcript'")
        | Some _ =>
            answer <-
              try_except
                (response <- process_audio_chunk mock_audio session_id ;;
                 ret (inl response))
                (fun e => ret (inr e)) ;;
            match answer with
            | inl response =>
                rest <- stream_loop events' session_id ;;
                ret (response :: fst rest, snd rest)
            | inr e => ret ([], Some e)
            end
        end
      else stream_loop events' session_id
  end.

(** [process_streaming_audio]: the responses it yields when the streaming
    transcription yields [events] and then ends, with the exception
    [ends] or without one. Whatever is raised is logged, and the
    generator ends. *)
Definition process_streaming_audio (events : list StreamEvent.t)
    (ends : option exn) (session_id : string) : M t (list VoiceResponse.t) :=
  yielded <- stream_loop events session_id ;;
  ret (fst yielded).

(** Calls of [process_audio_chunk] made one after the other, each with
    its audio and its session id. *)
Definition process_audio_chunks (chunks : list (bytes * string))
    : M t (list VoiceResponse.t) :=
  map_M (fun chunk => process_audio_chunk (fst chunk) (snd chunk)) chunks.

End VoicePipeline.

(** ** services/analytics_service.py *)

Module CallData.
Record t : Type := mk {
  session_id : string;
  client_id : string;
  user_id : option string;
  start_time : datetime;
  end_time : datetime;
  duration : Q;
  total_interactions : Z;
  status : string;
  conversation_history : list Message;
  metadata : list (string * string)
}.
End CallData.

Module InteractionData.
Record t : Type := mk {
  session_id : string;
  timestamp : datetime;
  user_message : string;
  confidence : Q;
  intent : string;
  question_category : string
}.
End InteractionData.

Module ErrorData.
Record t : Type := mk {
  timestamp : datetime;
  error_type : string;
  error_message : string;
  session_id : option string
}.
End ErrorData.

(** The dictionary [get_call_analytics] returns. *)
Module Analytics.
Record overview : Type := mk_overview {
  total_calls : Z;
  calls_today : Z;
  calls_this_week : Z;
  calls_this_month : Z;
  average_duration : Q;
  average_interactions : Q;
  success_rate : Q;
  peak_hour : Z
}.
Record trends : Type := mk_trends {
  daily_calls : list (date * Z);
  hourly_distribution : list (Z * Z);
  duration_trend : list (date * Q);
  interaction_trend : list (date * Q)
}.
Record performance : Type := mk_performance {
  average_response_time : Q;
  error_rate : Q;
  user_satisfaction : Q
}.
Record t : Type := mk {
  overview_of : overview;
  trends_of : trends;
  performance_of : performance
}.
End Analytics.

(** The dictionary [get_common_questions] returns, and its return value:
    the empty list when no interaction is logged or something fails, the
    dictionary otherwise. *)
Module CommonQuestions.
Record entry : Type := mk_entry {
  pattern : string;
  count : Z;
  percentage : Q;
  examples : list string
}.
Record t : Type := mk {
  common_patterns : list entry;
  intent_distribution : list (string * Z);
  category_distribution : list (string * Z);
  total_questions : Z
}.
Inductive answer : Type :=
| empty_list
| questions (report : t).
End CommonQuestions.

(** The dictionary [get_error_analytics] returns. *)
Module ErrorAnalytics.
Record t : Type := mk {
  total_errors : Z;
  error_types : list (string * Z);
  recent_errors : list ErrorData.t
}.
End ErrorAnalytics.

Module AnalyticsService.

Record t : Type := mk {
  call_logs : list CallData.t;
  interaction_logs : list InteractionData.t;
  error_logs : list ErrorData.t;
  performance_metrics : list (list (string * string));
  question_patterns : list (string * Z);
  intent_categories : list (string * Z)
}.

(** [AnalyticsService.__init__]. *)
Definition init : t :=
  {| call_logs := []; interaction_logs := []; error_logs := [];
     performance_metrics := [];
     question_patterns := []; intent_categories := [] |}.

Definition intent_patterns : list (string * list string) :=
  [ ("billing_inquiry",
     ["bill"; "charge"; "payment"; "invoice"; "cost"; "price"; "fee"]);
    ("technical_support",
     ["not working"; "error"; "problem"; "issue"; "broken"; "fix"; "help"]);
    ("account_access",
     ["login"; "password"; "account"; "access"; "locked"; "reset"]);
    ("product_information",
     ["what is"; "how does"; "features"; "benefits"; "compare"]);
    ("cancellation", ["cancel"; "unsubscribe"; "terminate"; "end"; "stop"]);
    ("complaint",
     ["angry"; "frustrated"; "disappointed"; "terrible"; "awful"; "bad"]);
    ("compliment",
     ["great"; "excellent"; "amazing"; "wonderful"; "love"; "perfect"]);
    ("general_question",
     ["question"; "ask"; "wondering"; "curious"; "information"]) ].

(** [_classify_intent]: the scores that are positive, in the order of the
    table, and the first intent with the largest score. *)
Definition _classify_intent (message : string) : string :=
  let message := Str.lower message in
  let intent_scores :=
    filter (fun kv => 0 < snd kv)
      (map (fun p => (fst p, Str.count_in (snd p) message)) intent_patterns) in
  match Dict.argmax Z.ltb intent_scores with
  | Some intent => intent
  | None => "general_question"
  end.

Definition categories : list (string * list string) :=
  [ ("account_management", ["account"; "profile"; "settings"; "personal"]);
    ("billing_payment", ["bill"; "payment"; "charge"; "invoice"; "cost"]);
    ("technical_issues",
     ["error"; "problem"; "not working"; "broken"; "issue"]);
    ("product_features",
     ["feature"; "how to"; "what is"; "can i"; "does it"]);
    ("service_inquiry", ["service"; "support"; "help"; "assistance"]);
    ("other", []) ].

(** [_categorize_question]. *)
Definition _categorize_question (question : string) : string :=
  let question := Str.lower question in
  match find (fun p => Str.any_in (snd p) question) categories with
  | Some p => fst p
  | None => "other"
  end.

(** The table of patterns after [_update_question_patterns]. *)
Definition updated_patterns (question : string)
    (patterns : list (string * Z)) : list (string * Z) :=
  let normalized := Str.remove_punctuation (Str.lower question) in
  let words := Str.split normalized in
  if decide (3 <= length words)%nat then
    let pattern := Str.join " " (first_n 3 words) in
    Dict.set pattern (default 0 (Dict.get pattern patterns) + 1) patterns
  else patterns.

Local Open Scope monad_scope.

(** [_update_question_patterns]. *)
Definition _update_question_patterns (question : string) : M t unit :=
  self <- get_self ;;
  put_self
    {| call_logs := call_logs self;
       interaction_logs := interaction_logs self;
       error_logs := error_logs self;
       performance_metrics := performance_metrics self;
       question_patterns := updated_patterns question (question_patterns self);
       intent_categories := intent_categories self |}.

(** The body of the loop of [_process_interactions]. The default of
    [interaction.get("timestamp", datetime.now().isoformat())] is
    computed whether it is used or not. *)
Definition process_interaction (session_id : string) (interaction : Message)
    : M t unit :=
  if decide (role interaction = "user") then
    let question := Str.strip (Str.lower (content interaction)) in
    now <- datetime_now ;;
    let interaction_data :=
      {| InteractionData.session_id := session_id;
         InteractionData.timestamp := default now (timestamp interaction);
         InteractionData.user_message := question;
         InteractionData.confidence :=
           default 1%Q (confidence interaction);
         InteractionData.intent := _classify_intent question;
         InteractionData.question_category :=
           _categorize_question question |} in
    self <- get_self ;;
    put_self
      {| call_logs := call_logs self;
         interaction_logs := interaction_logs self ++ [interaction_data];
         error_logs := error_logs self;
         performance_metrics := performance_metrics self;
         question_patterns := question_patterns self;
         intent_categories := intent_categories self |} ;;;
    _update_question_patterns question
  else ret tt.

(** [_process_interactions]. *)
Definition _process_interactions (conversation_history : list Message)
    (session_id : string) : M t unit :=
  try_except
    (for_each conversation_history (process_interaction session_id))
    (fun _ => ret tt).

(** [save_call_data]. *)
Definition save_call_data (session : ConversationSession.t) : M t unit :=
  try_except
    (end_time <-
       match ConversationSession.end_time session with
       | Some e => ret e
       | None => datetime_now
       end ;;
     duration <- ConversationSession.get_duration session ;;
     let call_data :=
       {| CallData.session_id := ConversationSession.id session;
          CallData.client_id := ConversationSession.client_id session;
          CallData.user_id := ConversationSession.user_id session;
          CallData.start_time := ConversationSession.start_time session;
          CallData.end_time := end_time;
          CallData.duration := duration;
          CallData.total_interactions :=
            ConversationSession.total_interactions session;
          CallData.status := ConversationSession.status session;
          CallData.conversation_history :=
            ConversationSession.conversation_history session;
          CallData.metadata := ConversationSession.metadata session |} in
     self <- get_self ;;
     put_self
       {| call_logs := call_logs self ++ [call_data];
          interaction_logs := interaction_logs self;
          error_logs := error_logs self;
          performance_metrics := performance_metrics self;
          question_patterns := question_patterns self;
          intent_categories := intent_categories self |} ;;;
     _process_interactions
       (ConversationSession.conversation_history session)
       (ConversationSession.id session))
    (fun _ => ret tt).

(** The record [save_call_data] logs for a session that has ended at
    [t_end]. *)
Definition call_data_of (session : ConversationSession.t) (t_end : datetime)
    : CallData.t :=
  {| CallData.session_id := ConversationSession.id session;
     CallData.client_id := ConversationSession.client_id session;
     CallData.user_id := ConversationSession.user_id session;
     CallData.start_time := ConversationSession.start_time session;
     CallData.end_time := t_end;
     CallData.duration :=
       total_seconds t_end (ConversationSession.start_time session);
     CallData.total_interactions :=
       ConversationSession.total_interactions session;
     CallData.status := ConversationSession.status session;
     CallData.conversation_history :=
       ConversationSession.conversation_history session;
     CallData.metadata := ConversationSession.metadata session |}.

(** [_get_empty_analytics]. *)
Definition _get_empty_analytics : Analytics.t :=
  {| Analytics.overview_of :=
       {| Analytics.total_calls := 0; Analytics.calls_today := 0;
          Analytics.calls_this_week := 0; Analytics.calls_this_month := 0;
          Analytics.average_duration := 0%Q;
          Analytics.average_interactions := 0%Q;
          Analytics.success_rate := 0%Q; Analytics.peak_hour := 0 |};
     Analytics.trends_of :=
       {| Analytics.daily_calls := []; Analytics.hourly_distribution := [];
          Analytics.duration_trend := []; Analytics.interaction_trend := [] |};
     Analytics.performance_of :=
       {| Analytics.average_response_time := 0%Q;
          Analytics.error_rate := 0%Q;
          Analytics.user_satisfaction := 0%Q |} |}.

(** [d[k] += 1] on a [defaultdict(int)] and [d[k].append(x)] on a
    [defaultdict(list)]. *)
Definition increment {K : Type} `{EqDecision K} (k : K)
    (d : list (K * Z)) : list (K * Z) :=
  Dict.set k (default 0 (Dict.get k d) + 1) d.

Definition append_to {K V : Type} `{EqDecision K} (k : K) (x : V)
    (d : list (K * list V)) : list (K * list V) :=
  Dict.set k (default [] (Dict.get k d) ++ [x]) d.

(** The table [hour_distribution] of [get_call_analytics]. *)
Definition hour_distribution (logs : list CallData.t) : list (Z * Z) :=
  fold_left (fun d call => increment (hour_of (CallData.start_time call)) d)
    logs [].

(** The hours at which the calls of a log started, in the order of the
    log, and the number of times an hour occurs among them. *)
Definition start_hours (logs : list CallData.t) : list Z :=
  map (fun call => hour_of (CallData.start_time call)) logs.

Definition occurrences (h : Z) (hs : list Z) : Z :=
  Z.of_nat (length (filter (fun x => x = h) hs)).

(** [max(hour_distribution, key=hour_distribution.get) if hour_distribution
    else 0]. *)
Definition peak_hour_of (distribution : list (Z * Z)) : Z :=
  default 0 (Dict.argmax Z.ltb distribution).

(** [sum(xs) / len(xs) if xs else 0], on floats and on [int]s. *)
Definition mean_or_zero (xs : list Q) : Q :=
  match xs with
  | [] => 0%Q
  | _ => fdiv (fsum xs) (inject_Z (Z.of_nat (length xs)))
  end.

Definition mean_of_counts_or_zero (ns : list Z) : Q :=
  match ns with
  | [] => 0%Q
  | _ => true_div (fold_left Z.add ns 0) (Z.of_nat (length ns))
  end.

(** The 30 days of a trend: for [i] from 0 to 29 the clock is read, the
    day [i] days before is looked up, and the list is reversed at the
    end. *)
Fixpoint trend_from {A : Type} (lookup : date -> A) (i : Z) (n : nat)
    : M t (list (date * A)) :=
  match n with
  | O => ret []
  | S n' =>
      now <- datetime_now ;;
      let day := date_of now - i in
      rest <- trend_from lookup (i + 1) n' ;;
      ret ((day, lookup day) :: rest)
  end.

Definition trend {A : Type} (lookup : date -> A) : M t (list (date * A)) :=
  trend_data <- trend_from lookup 0 30 ;;
  ret (rev trend_data).

(** [_get_daily_call_trend]. *)
Definition _get_daily_call_trend : M t (list (date * Z)) :=
  self <- get_self ;;
  let daily_counts :=
    fold_left
      (fun d call => increment (date_of (CallData.start_time call)) d)
      (call_logs self) [] in
  trend (fun day => default 0 (Dict.get day daily_counts)).

(** [_get_duration_trend]. *)
Definition _get_duration_trend : M t (list (date * Q)) :=
  self <- get_self ;;
  let daily_durations :=
    fold_left
      (fun d call =>
         append_to (date_of (CallData.start_time call))
           (CallData.duration call) d)
      (call_logs self) [] in
  trend
    (fun day =>
       round2 (mean_or_zero (default [] (Dict.get day daily_durations)))).

(** [_get_interaction_trend]. *)
Definition _get_interaction_trend : M t (list (date * Q)) :=
  self <- get_self ;;
  let daily_interactions :=
    fold_left
      (fun d call =>
         append_to (date_of (CallData.start_time call))
           (CallData.total_interactions call) d)
      (call_logs self) [] in
  trend
    (fun day =>
       round2
         (mean_of_counts_or_zero
            (default [] (Dict.get day daily_interactions)))).

(** [_get_average_response_time]. *)
Definition _get_average_response_time : Q := 1.2%Q.

Definition count_status (status : string) (logs : list CallData.t) : Z :=
  Z.of_nat (length (filter (fun call => CallData.status call = status) logs)).

(** [_get_error_rate]. *)
Definition _get_error_rate (self : t) : Q :=
  match call_logs self with
  | [] => 0%Q
  | _ =>
      round2
        (percentage (count_status "error" (call_logs self))
           (Z.of_nat (length (call_logs self))))
  end.

Definition positive_words : list string :=
  ["thank"; "great"; "good"; "helpful"; "perfect"].
Definition negative_words : list string :=
  ["bad"; "terrible"; "awful"; "frustrated"; "angry"].

(** A logged message mentions one of the given words. *)
Definition mentions (words : list string) (log : InteractionData.t) : Prop :=
  Str.any_in words (Str.lower (InteractionData.user_message log)) = true.

#[global] Instance mentions_dec (words : list string) (log : InteractionData.t) :
  Decision (mentions words log).
Proof. unfold mentions. apply _. Defined.

(** The loop of [_estimate_user_satisfaction]: the counters
    [(positive_indicators, negative_indicators)] after the logs. *)
Definition count_indicators (logs : list InteractionData.t) : Z * Z :=
  fold_left
    (fun counters log =>
       let message := Str.lower (InteractionData.user_message log) in
       let positive_indicators :=
         if Str.any_in positive_words message then fst counters + 1
         else fst counters in
       let negative_indicators :=
         if Str.any_in negative_words message then snd counters + 1
         else snd counters in
       (positive_indicators, negative_indicators))
    logs (0, 0).

(** [_estimate_user_satisfaction]. *)
Definition _estimate_user_satisfaction (self : t) : Q :=
  match interaction_logs self with
  | [] => 0%Q
  | _ =>
      let counters := count_indicators (interaction_logs self) in
      let total_indicators := fst counters + snd counters in
      if decide (total_indicators = 0) then 75%Q
      else
        let satisfaction := percentage (fst counters) total_indicators in
        round2 satisfaction
  end.

Definition count_calls (P : CallData.t -> Prop) `{forall c, Decision (P c)}
    (logs : list CallData.t) : Z :=
  Z.of_nat (length (filter P logs)).

(** The dictionary ["overview"] of [get_call_analytics], for a non-empty
    log. *)
Definition overview_at (now : datetime) (self : t) : Analytics.overview :=
  let today := date_of now in
  let week_ago := now - timedelta_days 7 in
  let month_ago := now - timedelta_days 30 in
  let total_calls := Z.of_nat (length (call_logs self)) in
  let avg_duration :=
    if decide (0 < total_calls)
    then fdiv (fsum (map CallData.duration (call_logs self)))
           (inject_Z total_calls)
    else 0%Q in
  let avg_interactions :=
    if decide (0 < total_calls)
    then true_div
           (fold_left Z.add
              (map CallData.total_interactions (call_logs self)) 0)
           total_calls
    else 0%Q in
  let successful_calls := count_status "ended" (call_logs self) in
  let success_rate :=
    if decide (0 < total_calls)
    then percentage successful_calls total_calls
    else 0%Q in
  {| Analytics.total_calls := total_calls;
     Analytics.calls_today :=
       count_calls (fun call => date_of (CallData.start_time call) = today)
         (call_logs self);
     Analytics.calls_this_week :=
       count_calls (fun call => week_ago <= CallData.start_time call)
         (call_logs self);
     Analytics.calls_this_month :=
       count_calls (fun call => month_ago <= CallData.start_time call)
         (call_logs self);
     Analytics.average_duration := round2 avg_duration;
     Analytics.average_interactions := round2 avg_interactions;
     Analytics.success_rate := round2 success_rate;
     Analytics.peak_hour :=
       peak_hour_of (hour_distribution (call_logs self)) |}.

(** [get_call_analytics]. *)
Definition get_call_analytics : M t Analytics.t :=
  try_except
    (self <- get_self ;;
     match call_logs self with
     | [] => ret _get_empty_analytics
     | _ =>
         now <- datetime_now ;;
         let overview := overview_at now self in
         daily_calls <- _get_daily_call_trend ;;
         duration_trend <- _get_duration_trend ;;
         interaction_trend <- _get_interaction_trend ;;
         ret {| Analytics.overview_of := overview;
                Analytics.trends_of :=
                  {| Analytics.daily_calls := daily_calls;
                     Analytics.hourly_distribution :=
                       hour_distribution (call_logs self);
                     Analytics.duration_trend := duration_trend;
                     Analytics.interaction_trend := interaction_trend |};
                Analytics.performance_of :=
                  {| Analytics.average_response_time :=
                       _get_average_response_time;
                     Analytics.error_rate := _get_error_rate self;
                     Analytics.user_satisfaction :=
                       _estimate_user_satisfaction self |} |}
     end)
    (fun _ => ret _get_empty_analytics).

(** [Counter(xs)] of a list: the number of occurrences of each element,
    the keys in the order of first occurrence. *)
Definition counter {K : Type} `{EqDecision K} (xs : list K) : list (K * Z) :=
  fold_left (fun d x => increment x d) xs [].

(** [Counter.most_common()] and [Counter.most_common(n)]: the entries
    by decreasing count, entries of one count in the order they had;
    none for an [n] that is not positive. *)
Definition most_common {K : Type} (counts : list (K * Z)) : list (K * Z) :=
  sort_desc snd counts.

Definition most_common_n {K : Type} (n : Z) (counts : list (K * Z))
    : list (K * Z) :=
  first_n (Z.to_nat n) (most_common counts).

(** The entry of ["common_patterns"] for a pattern and its count. *)
Definition common_pattern (logs : list InteractionData.t)
    (pattern_count : string * Z) : CommonQuestions.entry :=
  let pattern := fst pattern_count in
  let count := snd pattern_count in
  {| CommonQuestions.pattern := pattern;
     CommonQuestions.count := count;
     CommonQuestions.percentage :=
       round2 (percentage count (Z.of_nat (length logs)));
     CommonQuestions.examples :=
       first_n 3
         (map InteractionData.user_message
            (filter
               (fun log =>
                  Str.contains pattern
                    (Str.lower (InteractionData.user_message log)) = true)
               logs)) |}.

(** [get_common_questions]. *)
Definition get_common_questions (limit : Z) : M t CommonQuestions.answer :=
  try_except
    (self <- get_self ;;
     match interaction_logs self with
     | [] => ret CommonQuestions.empty_list
     | _ =>
         let pattern_counts := question_patterns self in
         let intent_counts :=
           counter (map InteractionData.intent (interaction_logs self)) in
         let category_counts :=
           counter
             (map InteractionData.question_category (interaction_logs self)) in
         let common_patterns :=
           map (common_pattern (interaction_logs self))
             (most_common_n limit pattern_counts) in
         ret
           (CommonQuestions.questions
              {| CommonQuestions.common_patterns := common_patterns;
                 CommonQuestions.intent_distribution :=
                   most_common intent_counts;
                 CommonQuestions.category_distribution :=
                   most_common category_counts;
                 CommonQuestions.total_questions :=
                   Z.of_nat (length (interaction_logs self)) |})
     end)
    (fun _ => ret CommonQuestions.empty_list).

(** [log_error]. *)
Definition log_error (error_type error_message : string)
    (session_id : option string) : M t unit :=
  now <- datetime_now ;;
  let error_data :=
    {| ErrorData.timestamp := now;
       ErrorData.error_type := error_type;
       ErrorData.error_message := error_message;
       ErrorData.session_id := session_id |} in
  self <- get_self ;;
  put_self
    {| call_logs := call_logs self;
       interaction_logs := interaction_logs self;
       error_logs := error_logs self ++ [error_data];
       performance_metrics := performance_metrics self;
       question_patterns := question_patterns self;
       intent_categories := intent_categories self |}.

(** [get_error_analytics]. The errors are sorted on the ISO text of
    their time, which orders them as the times themselves. *)
Definition get_error_analytics : M t ErrorAnalytics.t :=
  self <- get_self ;;
  match error_logs self with
  | [] =>
      ret {| ErrorAnalytics.total_errors := 0;
             ErrorAnalytics.error_types := [];
             ErrorAnalytics.recent_errors := [] |}
  | _ =>
      let error_types :=
        counter (map ErrorData.error_type (error_logs self)) in
      let recent_errors :=
        first_n 10 (sort_desc ErrorData.timestamp (error_logs self)) in
      ret {| ErrorAnalytics.total_errors :=
               Z.of_nat (length (error_logs self));
             ErrorAnalytics.error_types := error_types;
             ErrorAnalytics.recent_errors := recent_errors |}
  end.

End AnalyticsService.

(** ** main.py: the three service objects of the process *)

Module Main.

Record t : Type := mk {
  voice_pipeline : VoicePipeline.t;
  analytics_service : AnalyticsService.t;
  conversation_manager : ConversationManager.t
}.

(** A method of one of the three objects, run in the process. *)
Definition on_voice_pipeline {A : Type} (m : M VoicePipeline.t A) : M t A :=
  fun w =>
    let r := m (fst w, voice_pipeline (snd w)) in
    (fst r,
     (fst (snd r),
      {| voice_pipeline := snd (snd r);
         analytics_service := analytics_service (snd w);
         conversation_manager := conversation_manager (snd w) |})).

Definition on_analytics_service {A : Type} (m : M AnalyticsService.t A)
    : M t A :=
  fun w =>
    let r := m (fst w, analytics_service (snd w)) in
    (fst r,
     (fst (snd r),
      {| voice_pipeline := voice_pipeline (snd w);
         analytics_service := snd (snd r);
         conversation_manager := conversation_manager (snd w) |})).

Definition on_conversation_manager {A : Type}
    (m : M ConversationManager.t A) : M t A :=
  fun w =>
    let r := m (fst w, conversation_manager (snd w)) in
    (fst r,
     (fst (snd r),
      {| voice_pipeline := voice_pipeline (snd w);
         analytics_service := analytics_service (snd w);
         conversation_manager := snd (snd r) |})).

(** [websocket_endpoint], at the connection of a client: the session is
    created without a user id. *)
Definition connect (uuid4 client_id : string) : M t ConversationSession.t :=
  on_conversation_manager
    (ConversationManager.create_session uuid4 client_id None).

(** [websocket_endpoint], on a message of type ["audio_chunk"]. *)
Definition audio_chunk (session : ConversationSession.t) (data : bytes)
    : M t VoiceResponse.t :=
  on_voice_pipeline
    (VoicePipeline.process_audio_chunk data (ConversationSession.id session)).

End Main.

(** ** main.py: the websocket endpoint *)

Module Websocket.

(** A dictionary the endpoint hands to [json.dumps] and sends. *)
Inductive Frame : Type :=
| ai_response (audio_data : option bytes) (transcript : string)
    (confidence : Q)
| call_started (session_id : string) (message : string)
| call_ended (message : string).

(** What [receive_text] and the reading of the message give at one turn
    of the loop: a message of one of the three types the endpoint knows,
    a message of another type, a text that cannot be read (it is no
    JSON, or a key that is read is missing), or the disconnection of the
    client. *)
Inductive Incoming : Type :=
| audio_chunk (data : bytes)
| start_call
| end_call
| other_type
| unreadable (ex : exn)
| disconnect.

(** The socket: sending may fail; it sees the frames sent so far. *)
Record t : Type := mk {
  send_text : Frame -> list Frame -> outcome unit
}.

(** [json.dumps] of a frame: bytes cannot be written as JSON. *)
Definition json_dumps (frame : Frame) : outcome Frame :=
  match frame with
  | ai_response (Some _) _ _ =>
      Raise "TypeError: Object of type bytes is not JSON serializable"
  | _ => Return frame
  end.

End Websocket.

Module Endpoint.

(** One connection, followed from the moment it is accepted to the end
    of its [finally] block with no other handler running in between;
    the handlers of several connections running in turn are the subject
    of [Server] below. The state is the process, the connections of
    [active_connections] and the frames sent on the socket of the
    connection that is followed. *)
Record t : Type := mk {
  process : Main.t;
  active_connections : list (string * Websocket.t);
  sent : list Websocket.Frame
}.

Local Open Scope monad_scope.

(** [try: body finally: cleanup]. *)
Definition try_finally {St A : Type} (body : M St A) (cleanup : M St unit)
    : M St A :=
  fun w =>
    match body w with
    | (Return a, w') => bind cleanup (fun _ => ret a) w'
    | (Raise e, w') => bind cleanup (fun _ => raise e) w'
    end.

(** A method run in the process of the endpoint. *)
Definition on_process {A : Type} (m : M Main.t A) : M t A :=
  fun w =>
    let r := m (fst w, process (snd w)) in
    (fst r,
     (fst (snd r),
      {| process := snd (snd r);
         active_connections := active_connections (snd w);
         sent := sent (snd w) |})).

(** [await websocket.send_text(json.dumps(frame))]. *)
Definition send (websocket : Websocket.t) (frame : Websocket.Frame)
    : M t unit :=
  fun w =>
    match Websocket.json_dumps frame with
    | Raise ex => (Raise ex, w)
    | Return text =>
        match Websocket.send_text websocket text (sent (snd w)) with
        | Raise ex => (Raise ex, w)
        | Return _ =>
            (Return tt,
             (fst w,
              {| process := process (snd w);
                 active_connections := active_connections (snd w);
                 sent := sent (snd w) ++ [text] |}))
        end
    end.

Definition greeting : string :=
  "Hello! I'm your AI assistant. How can I help you today?".
Definition farewell : string := "Thank you for calling. Have a great day!".

(** The loop [while True] of [websocket_endpoint], over what the client
    does; a client that does nothing more has disconnected. *)
Fixpoint serve (websocket : Websocket.t) (session : ConversationSession.t)
    (incoming : list Websocket.Incoming) : M t unit :=
  match incoming with
  | [] => raise "WebSocketDisconnect"
  | message :: incoming' =>
      match message with
      | Websocket.disconnect => raise "WebSocketDisconnect"
      | Websocket.unreadable ex => raise ex
      | Websocket.audio_chunk data =>
          response <- on_process (Main.audio_chunk session data) ;;
          send websocket
            (Websocket.ai_response (VoiceResponse.audio_data response)
               (VoiceResponse.transcript response)
               (VoiceResponse.confidence response)) ;;;
          serve websocket session incoming'
      | Websocket.start_call =>
          send websocket
            (Websocket.call_started (ConversationSession.id session)
               greeting) ;;;
          serve websocket session incoming'
      | Websocket.end_call =>
          on_process
            (Main.on_analytics_service
               (AnalyticsService.save_call_data session)) ;;;
          send websocket (Websocket.call_ended farewell)
      | Websocket.other_type => serve websocket session incoming'
      end
  end.

(** The [finally] block. *)
Definition disconnected (client_id : string) : M t unit :=
  self <- get_self ;;
  match Dict.get client_id (active_connections self) with
  | Some _ =>
      put_self
        {| process := process self;
           active_connections := Dict.del client_id (active_connections self);
           sent := sent self |}
  | None => ret tt
  end ;;;
  on_process
    (Main.on_conversation_manager (ConversationManager.end_session client_id))
  ;;;
  ret tt.

(** [websocket_endpoint], once the connection is accepted. Both handlers
    only log. *)
Definition websocket_endpoint (websocket : Websocket.t)
    (uuid4 client_id : string) (incoming : list Websocket.Incoming)
    : M t unit :=
  self <- get_self ;;
  put_self
    {| process := process self;
       active_connections :=
         Dict.set client_id websocket (active_connections self);
       sent := sent self |} ;;;
  try_finally
    (try_except
       (session <- on_process (Main.connect uuid4 client_id) ;;
        serve websocket session incoming)
       (fun _ => ret tt))
    (disconnected client_id).

End Endpoint.

(** ** main.py: the connections of one process, interleaved

    The handlers of the connections are coroutines of one event loop. A
    handler runs until it awaits its socket ([receive_text],
    [send_text]); the handlers of the other connections run in between,
    on the same manager, the same analytics and the same dictionary of
    connections. A session is an object: the dictionary of the manager,
    its history and the handler that created the session hold the same
    object, and what one of them does to it the others see. So the
    sessions live in a store of objects, and the manager and the
    handlers hold addresses of the store. *)

#[global] Instance session_inhabited : Inhabited ConversationSession.t :=
  populate (ConversationSession.init "" "" None 0 []).

(** [ConversationManager], its sessions held as objects. *)
Module SharedManager.

Record t : Type := mk {
  objects : list ConversationSession.t;
  active_sessions : list (string * nat);
  session_history : list nat;
  max_active_sessions : nat
}.

(** [ConversationManager.__init__]. *)
Definition init : t :=
  {| objects := []; active_sessions := []; session_history := [];
     max_active_sessions := 1000 |}.

(** The object at an address. *)
Definition deref (session : nat) (self : t) : ConversationSession.t :=
  objects self !!! session.

Local Open Scope monad_scope.

(** [end_session]: the object of the client gets its end time and the
    status ["ended"], joins the history and leaves the active sessions. *)
Definition end_session (client_id : string) : M t (option nat) :=
  self <- get_self ;;
  match Dict.get client_id (active_sessions self) with
  | Some session =>
      now <- datetime_now ;;
      put_self
        {| objects :=
             <[session := ConversationSession.ended now (deref session self)]>
               (objects self);
           active_sessions := Dict.del client_id (active_sessions self);
           session_history := session_history self ++ [session];
           max_active_sessions := max_active_sessions self |} ;;;
      ret (Some session)
  | None => ret None
  end.

(** The client ids [_cleanup_old_sessions] collects, in the order of the
    dictionary. *)
Definition sessions_to_remove (current_time : datetime) (self : t)
    : list string :=
  map fst
    (filter
       (fun kv =>
          ConversationManager.is_old current_time (deref (snd kv) self)
          = true)
       (active_sessions self)).

(** [_cleanup_old_sessions]. *)
Definition _cleanup_old_sessions : M t unit :=
  current_time <- datetime_now ;;
  self <- get_self ;;
  for_each (sessions_to_remove current_time self)
    (fun client_id => end_session client_id ;;; ret tt).

(** [create_session]: the new object is built first, its start time read
    from the clock; it is what the caller gets. *)
Definition create_session (uuid4 client_id : string)
    (user_id : option string) : M t nat :=
  start <- datetime_now ;;
  self <- get_self ;;
  let session := length (objects self) in
  put_self
    {| objects :=
         objects self ++
         [ ConversationSession.init uuid4 client_id user_id start
             [("created_by", "voice_assistant"); ("version", "1.0")] ];
       active_sessions := active_sessions self;
       session_history := session_history self;
       max_active_sessions := max_active_sessions self |} ;;;
  (if decide (max_active_sessions self <= length (active_sessions self))%nat
   then _cleanup_old_sessions else ret tt) ;;;
  self <- get_self ;;
  put_self
    {| objects := objects self;
       active_sessions := Dict.set client_id session (active_sessions self);
       session_history := session_history self;
       max_active_sessions := max_active_sessions self |} ;;;
  ret session.

(** The manager is in order: no two clients share an object, the active
    sessions are objects of the store that are not in the history, the
    sessions of the history are objects of the store, and every object
    is without interaction, since nothing in the process calls
    [add_interaction], and ended exactly when it is in the history. *)
Definition consistent (m : t) : Prop :=
  NoDup (map fst (active_sessions m))
  /\ NoDup (map snd (active_sessions m))
  /\ (forall kv, kv ∈ active_sessions m ->
        (snd kv < length (objects m))%nat /\ snd kv ∉ session_history m)
  /\ (forall a, a ∈ session_history m -> (a < length (objects m))%nat)
  /\ (forall a, (a < length (objects m))%nat ->
        ConversationSession.total_interactions (deref a m) = 0
        /\ ConversationSession.conversation_history (deref a m) = []
        /\ ConversationSession.status (deref a m) =
           if decide (a ∈ session_history m) then "ended" else "active").

(** From [m] to [m']: no object is dropped and no object changes its
    id, its client or its start; the history grows at its end. *)
Definition keeps (m m' : t) : Prop :=
  (length (objects m) <= length (objects m'))%nat
  /\ max_active_sessions m' = max_active_sessions m
  /\ (forall a, (a < length (objects m))%nat ->
        ConversationSession.id (deref a m') = ConversationSession.id (deref a m)
        /\ ConversationSession.client_id (deref a m') =
           ConversationSession.client_id (deref a m))
  /\ exists new, session_history m' = session_history m ++ new.

(** From [m] to [m'], the session the entry of a client refers to is
    ended, if the client has an entry, and nothing else is done. *)
Definition ends_entry (client_id : string) (m m' : t) : Prop :=
  match Dict.get client_id (active_sessions m) with
  | Some session =>
      exists t_end,
        objects m' =
        <[session := ConversationSession.ended t_end (deref session m)]>
          (objects m)
        /\ active_sessions m' = Dict.del client_id (active_sessions m)
        /\ session_history m' = session_history m ++ [session]
        /\ max_active_sessions m' = max_active_sessions m
  | None => m' = m
  end.

(** What the manager holds, session by session: the state of
    [ConversationManager]. *)
Definition by_value (self : t) : ConversationManager.t :=
  {| ConversationManager.active_sessions :=
       map (fun kv => (fst kv, deref (snd kv) self)) (active_sessions self);
     ConversationManager.session_history :=
       map (fun session => deref session self) (session_history self);
     ConversationManager.max_active_sessions := max_active_sessions self |}.

End SharedManager.

Module Server.

(** The module-level objects of [main.py]. *)
Record t : Type := mk {
  voice_pipeline : VoicePipeline.t;
  analytics_service : AnalyticsService.t;
  conversation_manager : SharedManager.t;
  active_connections : list (string * Websocket.t)
}.

Local Open Scope monad_scope.

(** A method of one of the three objects, run in the process. *)
Definition on_voice_pipeline {A : Type} (m : M VoicePipeline.t A) : M t A :=
  fun w =>
    let r := m (fst w, voice_pipeline (snd w)) in
    (fst r,
     (fst (snd r),
      {| voice_pipeline := snd (snd r);
         analytics_service := analytics_service (snd w);
         conversation_manager := conversation_manager (snd w);
         active_connections := active_connections (snd w) |})).

Definition on_analytics_service {A : Type} (m : M AnalyticsService.t A)
    : M t A :=
  fun w =>
    let r := m (fst w, analytics_service (snd w)) in
    (fst r,
     (fst (snd r),
      {| voice_pipeline := voice_pipeline (snd w);
         analytics_service := snd (snd r);
         conversation_manager := conversation_manager (snd w);
         active_connections := active_connections (snd w) |})).

Definition on_conversation_manager {A : Type} (m : M SharedManager.t A)
    : M t A :=
  fun w =>
    let r := m (fst w, conversation_manager (snd w)) in
    (fst r,
     (fst (snd r),
      {| voice_pipeline := voice_pipeline (snd w);
         analytics_service := analytics_service (snd w);
         conversation_manager := snd (snd r);
         active_connections := active_connections (snd w) |})).

(** The object of a session, as the process has it now. *)
Definition session_object (session : nat) : M t ConversationSession.t :=
  self <- get_self ;;
  ret (SharedManager.deref session (conversation_manager self)).

(** Where a handler stands when it does not run: the connection is
    accepted and nothing is done yet; it awaits [receive_text]; it awaits
    [process_audio_chunk], which has the response; it awaits the
    [send_text] of a text, after which the loop goes on or is left; it
    has returned.

    [process_audio_chunk] awaits the capabilities, so a handler can be
    overtaken while it is in it. The pipeline shares nothing with the
    manager, the analytics and the connections: what the other handlers
    do to these in the meantime they do before the call or after it. The
    call is therefore one stretch, after which the handler can be
    overtaken. *)
Inductive Next : Type := go_on | leave.

Inductive Stage : Type :=
| accepted
| receiving (session : nat)
| replying (session : nat) (response : VoiceResponse.t)
| sending (session : nat) (text : Websocket.Frame) (next : Next)
| finished.

(** A handler of [websocket_endpoint]: its socket, the id [uuid4] will
    give its session, its client id, what the client is still to do,
    the frames sent on the socket, and where it stands. *)
Record Handler : Type := mkHandler {
  websocket : Websocket.t;
  uuid4 : string;
  client_id : string;
  incoming : list Websocket.Incoming;
  sent : list Websocket.Frame;
  stage : Stage
}.

Definition at_stage (stage : Stage) (h : Handler) : Handler :=
  {| websocket := websocket h; uuid4 := uuid4 h; client_id := client_id h;
     incoming := incoming h; sent := sent h; stage := stage |}.

(** The [finally] block; the handler has then returned. *)
Definition finally (h : Handler) : M t Handler :=
  self <- get_self ;;
  match Dict.get (client_id h) (active_connections self) with
  | Some _ =>
      put_self
        {| voice_pipeline := voice_pipeline self;
           analytics_service := analytics_service self;
           conversation_manager := conversation_manager self;
           active_connections :=
             Dict.del (client_id h) (active_connections self) |}
  | None => ret tt
  end ;;;
  on_conversation_manager (SharedManager.end_session (client_id h)) ;;;
  ret (at_stage finished h).

(** A stretch of the [try] block, up to the next [await] of the socket:
    when it raises, the handler that catches the exception only logs,
    and the [finally] block follows at once. *)
Definition in_try (h : Handler) (stretch : M t Handler) : M t Handler :=
  fun w =>
    match stretch w with
    | (Return h', w') => (Return h', w')
    | (Raise _, w') => finally h w'
    end.

(** [json.dumps(frame)], inside the [try] block. *)
Definition json_dumps (frame : Websocket.Frame) : M t Websocket.Frame :=
  fun w => (Websocket.json_dumps frame, w).

(** What a handler does from one [await] of its socket to the next. A
    client that does nothing more has disconnected. *)
Definition resume (h : Handler) : M t Handler :=
  match stage h with
  | accepted =>
      self <- get_self ;;
      put_self
        {| voice_pipeline := voice_pipeline self;
           analytics_service := analytics_service self;
           conversation_manager := conversation_manager self;
           active_connections :=
             Dict.set (client_id h) (websocket h) (active_connections self) |}
      ;;;
      in_try h
        (session <- on_conversation_manager
                      (SharedManager.create_session (uuid4 h) (client_id h)
                         None) ;;
         ret (at_stage (receiving session) h))
  | receiving session =>
      match incoming h with
      | [] => in_try h (raise "WebSocketDisconnect")
      | message :: incoming' =>
          let h :=
            {| websocket := websocket h; uuid4 := uuid4 h;
               client_id := client_id h; incoming := incoming';
               sent := sent h; stage := stage h |} in
          in_try h
            match message with
            | Websocket.disconnect => raise "WebSocketDisconnect"
            | Websocket.unreadable ex => raise ex
            | Websocket.audio_chunk data =>
                object <- session_object session ;;
                response <- on_voice_pipeline
                              (VoicePipeline.process_audio_chunk data
                                 (ConversationSession.id object)) ;;
                ret (at_stage (replying session response) h)
            | Websocket.start_call =>
                object <- session_object session ;;
                text <- json_dumps
                          (Websocket.call_started
                             (ConversationSession.id object)
                             Endpoint.greeting) ;;
                ret (at_stage (sending session text go_on) h)
            | Websocket.end_call =>
                object <- session_object session ;;
                on_analytics_service
                  (AnalyticsService.save_call_data object) ;;;
                text <- json_dumps (Websocket.call_ended Endpoint.farewell) ;;
                ret (at_stage (sending session text leave) h)
            | Websocket.other_type => ret (at_stage (receiving session) h)
            end
      end
  | replying session response =>
      in_try h
        (text <- json_dumps
                   (Websocket.ai_response (VoiceResponse.audio_data response)
                      (VoiceResponse.transcript response)
                      (VoiceResponse.confidence response)) ;;
         ret (at_stage (sending session text go_on) h))
  | sending session text next =>
      match Websocket.send_text (websocket h) text (sent h) with
      | Raise _ => finally h
      | Return _ =>
          let h :=
            {| websocket := websocket h; uuid4 := uuid4 h;
               client_id := client_id h; incoming := incoming h;
               sent := sent h ++ [text]; stage := stage h |} in
          match next with
          | go_on => ret (at_stage (receiving session) h)
          | leave => finally h
          end
      end
  | finished => ret h
  end.

(** The process: the clock and the log of the capabilities, the shared
    objects, and the handlers of the connections accepted so far. *)
Record Process : Type := mkProcess {
  env : Env;
  shared : t;
  handlers : list Handler
}.

(** One step of the event loop. A connection is accepted; or a handler
    that has not returned runs from where it stands to its next [await];
    or another route of [main.py] runs, which reads the clock, calls the
    capabilities and acts on the voice pipeline, and on nothing else. *)
Inductive step : Process -> Process -> Prop :=
| step_accept (p : Process) (h : Handler) :
    stage h = accepted ->
    step p
      {| env := env p; shared := shared p; handlers := handlers p ++ [h] |}
| step_resume (p : Process) (i : nat) (h h' : Handler) (e' : Env) (s' : t) :
    handlers p !! i = Some h ->
    stage h <> finished ->
    resume h (env p, shared p) = (Return h', (e', s')) ->
    step p {| env := e'; shared := s'; handlers := <[i := h']> (handlers p) |}
| step_route (p : Process) (e' : Env) (voice_pipeline' : VoicePipeline.t) :
    clock e' = clock (env p) ->
    (ticks (env p) <= ticks e')%nat ->
    step p
      {| env := e';
         shared :=
           {| voice_pipeline := voice_pipeline';
              analytics_service := analytics_service (shared p);
              conversation_manager := conversation_manager (shared p);
              active_connections := active_connections (shared p) |};
         handlers := handlers p |}.

(** The runs of the process, and the process at its start: no session
    and no connection yet. *)
Definition runs : Process -> Process -> Prop := rtc step.

Definition starts (p : Process) : Prop :=
  conversation_manager (shared p) = SharedManager.init
  /\ active_connections (shared p) = []
  /\ handlers p = [].

(** The steps a handler can still make, at most. *)
Definition steps_left (h : Handler) : nat :=
  match stage h with
  | accepted => 4 * length (incoming h) + 2
  | receiving _ => 4 * length (incoming h) + 1
  | replying _ _ => 4 * length (incoming h) + 3
  | sending _ _ _ => 4 * length (incoming h) + 2
  | finished => 0
  end.

(** The session a handler holds. *)
Definition session_of (h : Handler) : option nat :=
  match stage h with
  | receiving session | replying session _ | sending session _ _ =>
      Some session
  | accepted | finished => None
  end.

(** The handler holds an object of the store, the one with its id and
    its client. *)
Definition holds (m : SharedManager.t) (h : Handler) : Prop :=
  forall session,
    session_of h = Some session ->
    (session < length (SharedManager.objects m))%nat
    /\ ConversationSession.id (SharedManager.deref session m) = uuid4 h
    /\ ConversationSession.client_id (SharedManager.deref session m)
       = client_id h.

Definition sound (p : Process) : Prop :=
  SharedManager.consistent (conversation_manager (shared p))
  /\ NoDup (map fst (active_connections (shared p)))
  /\ Forall (holds (conversation_manager (shared p))) (handlers p).

(** What a stretch of a handler, from [h] to [h'], does to the shared
    objects. *)
Definition advances (h : Handler) (s : t) (h' : Handler) (s' : t) : Prop :=
  SharedManager.consistent (conversation_manager s')
  /\ SharedManager.keeps (conversation_manager s) (conversation_manager s')
  /\ NoDup (map fst (active_connections s'))
  /\ holds (conversation_manager s') h'
  /\ (steps_left h' < steps_left h)%nat
  /\ client_id h' = client_id h
  /\ uuid4 h' = uuid4 h
  /\ (stage h' = finished ->
      Dict.get (client_id h) (active_connections s') = None
      /\ Dict.get (client_id h)
           (SharedManager.active_sessions (conversation_manager s')) = None
      /\ SharedManager.ends_entry (client_id h) (conversation_manager s)
           (conversation_manager s')).

(** The handler at place [i] takes its turn; a schedule is a list of
    turns. *)
Definition turn (i : nat) (p : Process) : Process :=
  match handlers p !! i with
  | Some h =>
      match stage h, resume h (env p, shared p) with
      | finished, _ => p
      | _, (Return h', (e', s')) =>
          {| env := e'; shared := s'; handlers := <[i := h']> (handlers p) |}
      | _, (Raise _, _) => p
      end
  | None => p
  end.

Definition schedule (turns : list nat) (p : Process) : Process :=
  fold_left (fun p i => turn i p) turns p.

End Server.

(** ** Concrete runs *)

Module Scenario.

(** A session as [create_session] builds it, and 26 exchanges. *)
Definition session : ConversationSession.t :=
  ConversationSession.init "session-1" "client-1" None 0
    [("created_by", "voice_assistant"); ("version", "1.0")].

Definition exchange_at (i : nat) : ConversationSession.exchange :=
  ConversationSession.mk_exchange "what is my bill" "it is five dollars"
    0.9%Q (2 * Z.of_nat i) (2 * Z.of_nat i + 1).

Definition exchanges (n : nat) : list ConversationSession.exchange :=
  map exchange_at (seq 0 n).

(** A clock that advances by a quarter of a second at each reading, and
    no call made yet. *)
Definition env0 : Env :=
  {| clock := fun n => Z.of_nat n * 250000; ticks := 0; calls := [] |}.

(** Capabilities with fixed answers: a transcription that hears one
    sentence with a given confidence, one that fails, a retrieval that
    finds nothing, a generation with one reply, a voice without sound. *)
Definition hears (confidence : Q) : DeepgramService.t :=
  DeepgramService.mk
    (fun _ _ =>
       Return
         (Some
            (DeepgramService.mk_result (Some "what is my bill")
               (Some confidence)))).

Definition fails : DeepgramService.t :=
  DeepgramService.mk (fun _ _ => Raise "connection lost").

Definition finds_nothing : RAGService.t :=
  RAGService.mk (fun _ _ _ _ => Return "").

Definition replies : GroqService.t :=
  GroqService.mk (fun _ _ _ _ _ => Return (Some "Your bill is $5.")).

Definition voice : ElevenLabsService.t :=
  ElevenLabsService.mk (fun _ _ => Return []).

Definition pipeline (deepgram : DeepgramService.t) : VoicePipeline.t :=
  VoicePipeline.init deepgram voice replies finds_nothing.

(** The process of [main.py] with a transcription that is confident, a
    client that connects, and one audio chunk of that client. *)
Definition process : Main.t :=
  {| Main.voice_pipeline := pipeline (hears 0.9);
     Main.analytics_service := AnalyticsService.init;
     Main.conversation_manager := ConversationManager.init |}.

Definition connected : outcome ConversationSession.t * (Env * Main.t) :=
  Main.connect "session-1" "client-1" (env0, process).

Definition chunk_processed : outcome VoiceResponse.t * (Env * Main.t) :=
  Main.audio_chunk session [] (snd connected).

(** A manager as [__init__] leaves it, to which 1000 clients connect one
    after the other, under a clock whose readings are one microsecond
    apart. *)
Definition microsecond_clock : Env :=
  {| clock := fun n => Z.of_nat n; ticks := 0; calls := [] |}.

Definition client (i : nat) : string := pretty i.

Definition crowded : Env * ConversationManager.t :=
  snd
    (for_each (seq 0 1000)
       (fun i =>
          bind
            (ConversationManager.create_session ("session-" +:+ pretty i)
               (client i) None)
            (fun _ => ret tt))
       (microsecond_clock, ConversationManager.init)).

(** A manager with a ceiling of two sessions and two active sessions,
    one started at 0 and one 5000 seconds later, and a clock that reads
    7200 seconds and a little more. *)
Definition two_hours_later : Env :=
  {| clock := fun n => 7200 * microseconds_per_second + Z.of_nat n;
     ticks := 0; calls := [] |}.

Definition two_sessions : ConversationManager.t :=
  {| ConversationManager.active_sessions :=
       [ ("client-a", ConversationSession.init "session-a" "client-a" None 0 []);
         ("client-b",
          ConversationSession.init "session-b" "client-b" None
            (5000 * microseconds_per_second) []) ];
     ConversationManager.session_history := [];
     ConversationManager.max_active_sessions := 2 |}.

(** A call that started at the given hour of day 0, lasted 42 seconds
    and ended normally, with the messages of its users. *)
Definition call_at (hour : Z) (said : list string) : ConversationSession.t :=
  {| ConversationSession.id := "session-" +:+ pretty hour;
     ConversationSession.client_id := "client-" +:+ pretty hour;
     ConversationSession.user_id := None;
     ConversationSession.start_time := hour * microseconds_per_hour;
     ConversationSession.end_time :=
       Some (hour * microseconds_per_hour + 42 * microseconds_per_second);
     ConversationSession.status := "ended";
     ConversationSession.total_interactions := Z.of_nat (length said);
     ConversationSession.conversation_history :=
       flat_map
         (fun text =>
            [ mkMessage "user" text (Some (hour * microseconds_per_hour))
                (Some 0.9%Q);
              mkMessage "assistant" "I see."
                (Some (hour * microseconds_per_hour)) None ])
         said;
     ConversationSession.metadata := [] |}.

(** The analytics service after the given calls have been saved, and the
    analytics it then reports, at 6 p.m. of day 0. *)
Definition evening : Env :=
  {| clock := fun n => 18 * microseconds_per_hour + Z.of_nat n;
     ticks := 0; calls := [] |}.

(** The messages of a caller: one says thanks, two complain. *)
Definition mixed_feelings : list string :=
  ["Thank you"; "This is bad"; "Awful service"].

(** The messages of many callers: so many say thanks, so many complain. *)
Definition poll (thanks complaints : nat) : list string :=
  replicate thanks "Thank you" ++ replicate complaints "This is bad".

Definition recorded (sessions : list ConversationSession.t)
    : Env * AnalyticsService.t :=
  snd
    (for_each sessions AnalyticsService.save_call_data
       (evening, AnalyticsService.init)).

Definition reported (sessions : list ConversationSession.t)
    : outcome Analytics.t :=
  fst (AnalyticsService.get_call_analytics (recorded sessions)).

(** Capabilities for the edge cases: a transcription that is sure of an
    empty transcript, a retrieval whose index is down, a generation that
    has nothing to say. *)
Definition hears_silence : DeepgramService.t :=
  DeepgramService.mk
    (fun _ _ =>
       Return (Some (DeepgramService.mk_result (Some "") (Some 0.99%Q)))).

Definition index_down : RAGService.t :=
  RAGService.mk (fun _ _ _ _ => Raise "index unavailable").

Definition speechless : GroqService.t :=
  GroqService.mk (fun _ _ _ _ _ => Return None).

(** A socket on which every frame goes out, and the endpoint of a
    process in which nothing has happened yet. *)
Definition socket : Websocket.t := Websocket.mk (fun _ _ => Return tt).

Definition endpoint : Endpoint.t :=
  {| Endpoint.process := process;
     Endpoint.active_connections := [];
     Endpoint.sent := [] |}.

(** Two connections of one client: the first to be accepted goes away
    without a word, the second ends its call. *)
Definition caller (uuid4 : string) (incoming : list Websocket.Incoming)
    : Server.Handler :=
  {| Server.websocket := socket; Server.uuid4 := uuid4;
     Server.client_id := "client-1"; Server.incoming := incoming;
     Server.sent := []; Server.stage := Server.accepted |}.

Definition opening : Server.Process :=
  {| Server.env := env0;
     Server.shared :=
       {| Server.voice_pipeline := Main.voice_pipeline process;
          Server.analytics_service := AnalyticsService.init;
          Server.conversation_manager := SharedManager.init;
          Server.active_connections := [] |};
     Server.handlers := [] |}.

Definition two_connections : Server.Process :=
  {| Server.env := Server.env opening;
     Server.shared := Server.shared opening;
     Server.handlers :=
       [ caller "session-1" [Websocket.disconnect];
         caller "session-2" [Websocket.end_call] ] |}.

End Scenario.

(** * Properties *)

(** ** Lists and the monad *)

Section ListFacts.
Context {A : Type}.

Lemma last_n_short (n : nat) (l : list A) :
  (length l <= n)%nat -> last_n n l = l.
Proof.
  intros Hle. unfold last_n.
  replace (length l - n)%nat with 0%nat by lia. reflexivity.
Qed.

Lemma length_last_n (n : nat) (l : list A) :
  length (last_n n l) = Nat.min n (length l).
Proof. unfold last_n. rewrite length_drop. lia. Qed.

(** Cutting before appending changes nothing once the result is cut. *)
Lemma last_n_app_last_n (n : nat) (l l' : list A) :
  last_n n (last_n n l ++ l') = last_n n (l ++ l').
Proof.
  destruct (decide (length l <= n)%nat) as [Hle | Hgt].
  - now rewrite (last_n_short n l Hle).
  - unfold last_n at 1 3. rewrite !length_app, length_last_n.
    replace (Nat.min n (length l) + length l' - n)%nat
      with (length l') by lia.
    replace (length l + length l' - n)%nat
      with ((length l - n) + length l')%nat by lia.
    unfold last_n.
    rewrite <- (drop_drop (l ++ l') (length l') (length l - n)).
    rewrite (drop_app_le l l' (length l - n)) by lia.
    reflexivity.
Qed.
End ListFacts.

(** ** The context window of a session (models/conversation.py) *)

Section ContextWindow.
Import ConversationSession.

(** One call: the history becomes the last 50 messages of the extended
    history. *)
Lemma add_interaction_history tu ta u a c (s : t) :
  conversation_history (add_interaction tu ta u a c s) =
  last_n 50
    (conversation_history s ++ messages_of (mk_exchange u a c tu ta)).
Proof.
  unfold add_interaction, messages_of. cbn.
  case_decide as Hlen; [reflexivity |].
  symmetry. apply last_n_short. lia.
Qed.

Lemma add_interaction_counter tu ta u a c (s : t) :
  total_interactions (add_interaction tu ta u a c s) =
  total_interactions s + 1.
Proof. reflexivity. Qed.

Lemma add_interactions_snoc xs x (s : t) :
  add_interactions (xs ++ [x]) s =
  add_interaction (now_user x) (now_assistant x) (user_message x)
    (ai_response x) (reported_confidence x) (add_interactions xs s).
Proof. unfold add_interactions. now rewrite fold_left_app. Qed.

Lemma add_interactions_history xs (s : t) :
  (length (conversation_history s) <= 50)%nat ->
  conversation_history (add_interactions xs s) =
  last_n 50 (conversation_history s ++ flat_map messages_of xs).
Proof.
  intros Hs. induction xs as [| x xs IH] using rev_ind.
  - cbn. rewrite app_nil_r. symmetry. now apply last_n_short.
  - rewrite add_interactions_snoc, add_interaction_history, IH.
    rewrite last_n_app_last_n, flat_map_app. cbn.
    now rewrite <- app_assoc.
Qed.

Lemma add_interactions_counter xs (s : t) :
  total_interactions (add_interactions xs s) =
  total_interactions s + Z.of_nat (length xs).
Proof.
  induction xs as [| x xs IH] using rev_ind.
  - cbn. lia.
  - rewrite add_interactions_snoc, add_interaction_counter, IH.
    rewrite length_app. cbn. lia.
Qed.

Lemma length_flat_map_messages_of (xs : list exchange) :
  length (flat_map messages_of xs) = (2 * length xs)%nat.
Proof. induction xs as [| x xs IH]; cbn; [reflexivity | rewrite IH; lia]. Qed.

(** C3. Whatever exchanges are added to a session whose history holds at
    most 50 messages, the history afterwards holds at most 50 messages,
    and they are the last 50 messages of everything the session has
    seen, in the order in which they came: the oldest ones are the ones
    dropped. *)
Theorem context_window_fifo (s : t) (xs : list exchange) :
  (length (conversation_history s) <= 50)%nat ->
  (length (conversation_history (add_interactions xs s)) <= 50)%nat
  /\ conversation_history (add_interactions xs s) =
     last_n 50 (conversation_history s ++ flat_map messages_of xs)
  /\ exists evicted,
       conversation_history s ++ flat_map messages_of xs =
       evicted ++ conversation_history (add_interactions xs s).
Proof.
  intros Hs. rewrite (add_interactions_history xs s Hs).
  split; [rewrite length_last_n; lia |].
  split; [reflexivity |].
  exists (take (length (conversation_history s ++ flat_map messages_of xs) - 50)
            (conversation_history s ++ flat_map messages_of xs)).
  unfold last_n. now rewrite take_drop.
Qed.

End ContextWindow.

(** A new session and 26 exchanges: the window holds at most 50 messages. *)
Lemma context_window_fifo_witness :
  (length (ConversationSession.conversation_history Scenario.session) <= 50)%nat
  /\ (length
        (ConversationSession.conversation_history
           (ConversationSession.add_interactions (Scenario.exchanges 26)
              Scenario.session)) <= 50)%nat.
Proof.
  split; [cbn; lia |].
  apply (context_window_fifo Scenario.session (Scenario.exchanges 26)).
  cbn; lia.
Defined.

(** ** The interaction counter of a session (models/conversation.py) *)

Section InteractionCounter.
Import ConversationSession.

Lemma counter_below_window_length :
  (50 < length
          (conversation_history Scenario.session ++
           flat_map messages_of (Scenario.exchanges 26)))%nat
  /\ total_interactions
       (add_interactions (Scenario.exchanges 26) Scenario.session) = 26
  /\ length
       (conversation_history
          (add_interactions (Scenario.exchanges 26) Scenario.session)) = 50%nat
  /\ ~ (Z.of_nat
          (length
             (conversation_history
                (add_interactions (Scenario.exchanges 26) Scenario.session)))
        <= total_interactions
             (add_interactions (Scenario.exchanges 26) Scenario.session)).
Proof.
  assert (Hc : total_interactions
                 (add_interactions (Scenario.exchanges 26) Scenario.session)
               = 26) by (vm_compute; reflexivity).
  assert (Hl : length
                 (conversation_history
                    (add_interactions (Scenario.exchanges 26)
                       Scenario.session)) = 50%nat)
    by (vm_compute; reflexivity).
  rewrite Hc, Hl. repeat split; try lia.
  rewrite length_app, length_flat_map_messages_of. cbn. lia.
Qed.

(** C4, as the code has it. The counter of a session grows by one with
    every exchange added, whatever the window drops. A session that
    started empty holds [min (2 * n) 50] messages after [n] exchanges,
    two per exchange: the window is never longer than twice the counter,
    and an exchange is dropped from it exactly when the counter passes
    25. *)
Theorem interaction_counter_counts_exchanges :
  (forall (s : t) (xs : list exchange),
      total_interactions (add_interactions xs s) =
      total_interactions s + Z.of_nat (length xs))
  /\ (forall id client user start md (xs : list exchange),
        total_interactions
          (add_interactions xs (init id client user start md)) =
        Z.of_nat (length xs)
        /\ length
             (conversation_history
                (add_interactions xs (init id client user start md))) =
           Nat.min (2 * length xs) 50
        /\ Z.of_nat
             (length
                (conversation_history
                   (add_interactions xs (init id client user start md))))
           <= 2 * total_interactions
                    (add_interactions xs (init id client user start md))).
Proof.
  split; [intros s xs; apply add_interactions_counter |].
  intros id client user start md xs.
  rewrite add_interactions_counter, add_interactions_history by (cbn; lia).
  rewrite length_last_n. cbn [init total_interactions conversation_history].
  rewrite app_nil_l, length_flat_map_messages_of.
  repeat split; lia.
Qed.

End InteractionCounter.

(** ** The monad *)

Section MonadFacts.
Context {St : Type}.

Lemma bind_Return {A B : Type} (m : M St A) (k : A -> M St B) w a w' :
  m w = (Return a, w') -> bind m k w = k a w'.
Proof. intros H. unfold bind. now rewrite H. Qed.

Lemma bind_Raise {A B : Type} (m : M St A) (k : A -> M St B) w e w' :
  m w = (Raise e, w') -> bind m k w = (Raise e, w').
Proof. intros H. unfold bind. now rewrite H. Qed.

Lemma try_except_Return {A : Type} (m : M St A) h w a w' :
  m w = (Return a, w') -> try_except m h w = (Return a, w').
Proof. intros H. unfold try_except. now rewrite H. Qed.

Lemma try_except_Raise {A : Type} (m : M St A) h w e w' :
  m w = (Raise e, w') -> try_except m h w = h e w'.
Proof. intros H. unfold try_except. now rewrite H. Qed.

Lemma time_time_run (e : Env) (s : St) :
  time_time (e, s) = (Return (seconds_of (clock e (ticks e))), (tick e, s)).
Proof. reflexivity. Qed.

(** The synthesis never raises: it answers with audio or with [None]. *)
Lemma text_to_speech_run (self : ElevenLabsService.t) (text : string)
    (e : Env) (s : St) :
  ElevenLabsService.text_to_speech self text (e, s) =
  (Return (ElevenLabsService.answer self text (calls e)),
   (logged (Synthesize text) e, s)).
Proof.
  unfold ElevenLabsService.text_to_speech, ElevenLabsService.answer,
    try_except, bind, invoke, ret. cbn.
  destruct (ElevenLabsService.generate self text (calls e)); reflexivity.
Qed.
End MonadFacts.

Lemma Qltb_lt (a b : Q) : Qltb a b = true <-> (a < b)%Q.
Proof.
  unfold Qltb. rewrite negb_true_iff. split.
  - intros H. apply Qnot_le_lt. intros Hle.
    apply Qle_bool_iff in Hle. congruence.
  - intros H. destruct (Qle_bool b a) eqn:E; [| reflexivity].
    apply Qle_bool_iff in E. exfalso. now apply (Qlt_not_le a b).
Qed.

(** ** The pipeline (services/voice_pipeline.py) *)

Section Pipeline.
Import VoicePipeline.

Lemma _get_session_context_run (sid : string) (e : Env) (p : t) :
  _get_session_context sid (e, p) =
  (Return (accessed_context sid e p), after_access sid e p).
Proof.
  unfold _get_session_context, accessed_context, after_access, bind,
    get_self. cbn.
  destruct (active_sessions p !! sid); reflexivity.
Qed.

Lemma after_access_lookup (sid : string) (e : Env) (p : t) :
  active_sessions (snd (after_access sid e p)) !! sid =
  Some (accessed_context sid e p).
Proof.
  unfold after_access, accessed_context.
  destruct (active_sessions p !! sid) eqn:E; cbn; [exact E |].
  apply lookup_insert_eq.
Qed.

Lemma after_access_lookup_ne (sid sid' : string) (e : Env) (p : t) :
  sid <> sid' ->
  active_sessions (snd (after_access sid e p)) !! sid' =
  active_sessions p !! sid'.
Proof.
  intros Hne. unfold after_access.
  destruct (active_sessions p !! sid); cbn; [reflexivity |].
  now apply lookup_insert_ne.
Qed.

Lemma after_access_services (sid : string) (e : Env) (p : t) :
  deepgram (snd (after_access sid e p)) = deepgram p
  /\ elevenlabs (snd (after_access sid e p)) = elevenlabs p
  /\ groq (snd (after_access sid e p)) = groq p
  /\ rag (snd (after_access sid e p)) = rag p
  /\ min_confidence_threshold (snd (after_access sid e p)) =
     min_confidence_threshold p.
Proof.
  unfold after_access. destruct (active_sessions p !! sid); now cbn.
Qed.

Lemma after_access_env (sid : string) (e : Env) (p : t) :
  calls (fst (after_access sid e p)) = calls e
  /\ clock (fst (after_access sid e p)) = clock e.
Proof.
  unfold after_access. destruct (active_sessions p !! sid); now cbn.
Qed.

Lemma _update_session_context_run sid u a (e : Env) (p : t) :
  _update_session_context sid u a (e, p) =
  (Return tt,
   (tick (fst (after_access sid e p)),
    set_active_sessions
      (<[sid :=
           updated_context (accessed_context sid e p) u a
             (seconds_of
                (clock (fst (after_access sid e p))
                   (ticks (fst (after_access sid e p)))))]>
         (active_sessions (snd (after_access sid e p))))
      (snd (after_access sid e p)))).
Proof.
  unfold _update_session_context.
  rewrite (bind_Return _ _ _ _ _ (_get_session_context_run sid e p)).
  destruct (after_access sid e p) as [e1 p1]. reflexivity.
Qed.

(** The handler of [process_audio_chunk] always returns the error
    outcome. *)
Lemma process_audio_chunk_except_run sid t0 ex (e : Env) (p : t) :
  process_audio_chunk_except sid t0 ex (e, p) =
  (Return
     {| VoiceResponse.audio_data :=
          ElevenLabsService.answer (elevenlabs p) error_response (calls e);
        VoiceResponse.transcript := "";
        VoiceResponse.ai_response := error_response;
        VoiceResponse.confidence := 0%Q;
        VoiceResponse.processing_time :=
          Qred (seconds_of (clock e (ticks e)) - t0);
        VoiceResponse.session_id := sid |},
   (logged (Synthesize error_response) (tick e), p)).
Proof.
  unfold process_audio_chunk_except.
  rewrite (bind_Return _ _ _ _ _ (time_time_run e p)).
  unfold get_self at 1. unfold bind at 1. cbn [snd].
  rewrite (bind_Return _ _ _ _ _ (text_to_speech_run _ _ _ _)).
  reflexivity.
Qed.

Lemma process_audio_chunk_unfold audio sid (e : Env) (p : t) :
  process_audio_chunk audio sid (e, p) =
  try_except
    (process_audio_chunk_try audio sid (seconds_of (clock e (ticks e))))
    (process_audio_chunk_except sid (seconds_of (clock e (ticks e))))
    (tick e, p).
Proof. reflexivity. Qed.

Lemma process_audio_chunk_returns audio sid (e : Env) (p : t) :
  exists resp w', process_audio_chunk audio sid (e, p) = (Return resp, w').
Proof.
  rewrite process_audio_chunk_unfold.
  destruct (process_audio_chunk_try audio sid
              (seconds_of (clock e (ticks e))) (tick e, p))
    as [[resp | ex] [e1 p1]] eqn:Htry.
  - exists resp, (e1, p1). now apply try_except_Return.
  - rewrite (try_except_Raise _ _ _ _ _ Htry).
    rewrite process_audio_chunk_except_run. eauto.
Qed.

(** A stage that raises makes the [try] block raise: the transcription,
    and, once the gate is passed, the retrieval and the generation. *)
Lemma transcription_raises audio sid t0 (e : Env) (p : t) ex :
  DeepgramService.transcribe_audio_chunk (deepgram p) audio (calls e) =
    Raise ex ->
  process_audio_chunk_try audio sid t0 (e, p) =
  (Raise ex, (logged (Transcribe audio) e, p)).
Proof.
  intros Htr. unfold process_audio_chunk_try.
  unfold get_self at 1. unfold bind at 1. cbn [snd].
  unfold invoke at 1. unfold bind at 1. cbn [fst snd].
  now rewrite Htr.
Qed.

Lemma retrieval_raises audio sid t0 (e : Env) (p : t) tr transcript conf ex :
  DeepgramService.transcribe_audio_chunk (deepgram p) audio (calls e) =
    Return tr ->
  usable tr = Some (transcript, conf) ->
  Qltb conf (min_confidence_threshold p) = false ->
  RAGService.retrieve_context (rag p) transcript
    (SessionContext.user_id
       (accessed_context sid (logged (Transcribe audio) e) p))
    (SessionContext.history
       (accessed_context sid (logged (Transcribe audio) e) p))
    (calls e ++ [Transcribe audio]) = Raise ex ->
  exists w', process_audio_chunk_try audio sid t0 (e, p) = (Raise ex, w').
Proof.
  intros Htr Hus Hgate Hrag. unfold process_audio_chunk_try.
  unfold get_self at 1. unfold bind at 1. cbn [snd].
  unfold invoke at 1. unfold bind at 1. cbn [fst snd].
  rewrite Htr, Hus, Hgate.
  rewrite (bind_Return _ _ _ _ _ (_get_session_context_run _ _ _)).
  pose proof (after_access_env sid (logged (Transcribe audio) e) p)
    as [Hcalls _].
  destruct (after_access sid (logged (Transcribe audio) e) p) as [e2 p2].
  cbn [fst snd] in *.
  unfold invoke at 1. unfold bind at 1. cbn [fst snd].
  rewrite Hcalls. cbn [logged calls]. rewrite Hrag. eauto.
Qed.

Lemma generation_raises audio sid t0 (e : Env) (p : t) tr transcript conf
    rag_context ex :
  DeepgramService.transcribe_audio_chunk (deepgram p) audio (calls e) =
    Return tr ->
  usable tr = Some (transcript, conf) ->
  Qltb conf (min_confidence_threshold p) = false ->
  RAGService.retrieve_context (rag p) transcript
    (SessionContext.user_id
       (accessed_context sid (logged (Transcribe audio) e) p))
    (SessionContext.history
       (accessed_context sid (logged (Transcribe audio) e) p))
    (calls e ++ [Transcribe audio]) = Return rag_context ->
  GroqService.generate_response (groq p) transcript rag_context
    (SessionContext.history
       (accessed_context sid (logged (Transcribe audio) e) p))
    _get_customer_service_prompt
    (calls e ++
     [Transcribe audio;
      Retrieve transcript
        (SessionContext.user_id
           (accessed_context sid (logged (Transcribe audio) e) p))
        (SessionContext.history
           (accessed_context sid (logged (Transcribe audio) e) p))]) =
    Raise ex ->
  exists w', process_audio_chunk_try audio sid t0 (e, p) = (Raise ex, w').
Proof.
  intros Htr Hus Hgate Hrag Hgen. unfold process_audio_chunk_try.
  unfold get_self at 1. unfold bind at 1. cbn [snd].
  unfold invoke at 1. unfold bind at 1. cbn [fst snd].
  rewrite Htr, Hus, Hgate.
  rewrite (bind_Return _ _ _ _ _ (_get_session_context_run _ _ _)).
  pose proof (after_access_env sid (logged (Transcribe audio) e) p)
    as [Hcalls _].
  destruct (after_access sid (logged (Transcribe audio) e) p) as [e2 p2].
  cbn [fst snd] in *.
  unfold invoke at 1. unfold bind at 1. cbn [fst snd].
  rewrite Hcalls. cbn [logged calls]. rewrite Hrag.
  unfold invoke at 1. unfold bind at 1. cbn [fst snd logged calls].
  rewrite Hcalls. cbn [logged calls]. rewrite <- app_assoc. cbn [app].
  rewrite Hgen. eauto.
Qed.

Lemma stage_raises_try audio sid (e : Env) (p : t) ex :
  stage_raises audio sid e p ex ->
  exists w',
    process_audio_chunk_try audio sid (seconds_of (clock e (ticks e)))
      (tick e, p) = (Raise ex, w').
Proof.
  intros [Htr | tr transcript conf Htr Hus Hgate Hrag
          | tr transcript conf rag_context Htr Hus Hgate Hrag Hgen].
  - eexists. now apply transcription_raises.
  - now apply (retrieval_raises audio sid _ (tick e) p tr transcript conf ex).
  - now apply (generation_raises audio sid _ (tick e) p tr transcript conf
                 rag_context ex).
Qed.

(** C1. [process_audio_chunk] returns a response for every audio input
    and session id, in every state: no exception leaves it. When its
    [try] block raises, the response is the error outcome: an empty
    transcript, the fixed apology, the confidence 0, whatever audio the
    synthesis gives for the apology, and as processing time the clock
    reading of the handler minus the one taken at the start. The [try]
    block raises, in particular, whenever the transcription, the retrieval
    or the generation raises. *)
Theorem process_audio_chunk_total audio sid (e : Env) (p : t) :
  (exists resp w',
      process_audio_chunk audio sid (e, p) = (Return resp, w'))
  /\ (forall ex e1 p1,
        process_audio_chunk_try audio sid (seconds_of (clock e (ticks e)))
          (tick e, p) = (Raise ex, (e1, p1)) ->
        process_audio_chunk audio sid (e, p) =
        (Return
           {| VoiceResponse.audio_data :=
                ElevenLabsService.answer (elevenlabs p1) error_response
                  (calls e1);
              VoiceResponse.transcript := "";
              VoiceResponse.ai_response := error_response;
              VoiceResponse.confidence := 0%Q;
              VoiceResponse.processing_time :=
                Qred (seconds_of (clock e1 (ticks e1))
                      - seconds_of (clock e (ticks e)));
              VoiceResponse.session_id := sid |},
         (logged (Synthesize error_response) (tick e1), p1)))
  /\ (forall ex,
        stage_raises audio sid e p ex ->
        exists error_audio now w',
          process_audio_chunk audio sid (e, p) =
          (Return
             {| VoiceResponse.audio_data := error_audio;
                VoiceResponse.transcript := "";
                VoiceResponse.ai_response := error_response;
                VoiceResponse.confidence := 0%Q;
                VoiceResponse.processing_time :=
                  Qred (now - seconds_of (clock e (ticks e)));
                VoiceResponse.session_id := sid |},
           w')).
Proof.
  split; [apply process_audio_chunk_returns |].
  assert (Hhandled : forall ex e1 p1,
             process_audio_chunk_try audio sid
               (seconds_of (clock e (ticks e))) (tick e, p) =
             (Raise ex, (e1, p1)) ->
             process_audio_chunk audio sid (e, p) =
             (Return
                {| VoiceResponse.audio_data :=
                     ElevenLabsService.answer (elevenlabs p1) error_response
                       (calls e1);
                   VoiceResponse.transcript := "";
                   VoiceResponse.ai_response := error_response;
                   VoiceResponse.confidence := 0%Q;
                   VoiceResponse.processing_time :=
                     Qred (seconds_of (clock e1 (ticks e1))
                           - seconds_of (clock e (ticks e)));
                   VoiceResponse.session_id := sid |},
              (logged (Synthesize error_response) (tick e1), p1))).
  { intros ex e1 p1 Htry. rewrite process_audio_chunk_unfold.
    rewrite (try_except_Raise _ _ _ _ _ Htry).
    apply process_audio_chunk_except_run. }
  split; [exact Hhandled |].
  intros ex Hstage.
  destruct (stage_raises_try audio sid e p ex Hstage) as [[e1 p1] Htry].
  rewrite (Hhandled ex e1 p1 Htry). eauto.
Qed.

End Pipeline.

Section PipelineRuns.
Import VoicePipeline.

Lemma usable_Some r s :
  DeepgramService.transcript r = Some s -> s <> "" ->
  usable (Some r) = Some (s, default 0%Q (DeepgramService.confidence r)).
Proof.
  intros Hs Hne. unfold usable. rewrite Hs.
  destruct (decide (s = "")); [contradiction | reflexivity].
Qed.

Lemma after_access_known (sid : string) (e : Env) (p : t) c :
  active_sessions p !! sid = Some c ->
  after_access sid e p = (e, p) /\ accessed_context sid e p = c.
Proof.
  intros H. unfold after_access, accessed_context. now rewrite H.
Qed.

(** The [try] block up to the confidence gate, when the gate is passed:
    what remains is the run from the access to the store onwards. *)
Lemma process_audio_chunk_try_passed audio sid t0 (e : Env) (p : t)
    tr transcript conf :
  DeepgramService.transcribe_audio_chunk (deepgram p) audio (calls e) =
    Return tr ->
  usable tr = Some (transcript, conf) ->
  Qltb conf (min_confidence_threshold p) = false ->
  forall rag_context generated,
  RAGService.retrieve_context (rag p) transcript
    (SessionContext.user_id
       (accessed_context sid (logged (Transcribe audio) e) p))
    (SessionContext.history
       (accessed_context sid (logged (Transcribe audio) e) p))
    (calls e ++ [Transcribe audio]) = Return rag_context ->
  GroqService.generate_response (groq p) transcript rag_context
    (SessionContext.history
       (accessed_context sid (logged (Transcribe audio) e) p))
    _get_customer_service_prompt
    (calls e ++
     [Transcribe audio;
      Retrieve transcript
        (SessionContext.user_id
           (accessed_context sid (logged (Transcribe audio) e) p))
        (SessionContext.history
           (accessed_context sid (logged (Transcribe audio) e) p))]) =
    Return generated ->
  exists e' audio_response now t_end,
    process_audio_chunk_try audio sid t0 (e, p) =
    (Return
       {| VoiceResponse.audio_data := audio_response;
          VoiceResponse.transcript := transcript;
          VoiceResponse.ai_response := reply_or_apology generated;
          VoiceResponse.confidence := conf;
          VoiceResponse.processing_time := Qred (t_end - t0);
          VoiceResponse.session_id := sid |},
     (e',
      set_active_sessions
        (<[sid :=
             updated_context
               (accessed_context sid (logged (Transcribe audio) e) p)
               transcript (reply_or_apology generated) now]>
           (active_sessions
              (snd (after_access sid (logged (Transcribe audio) e) p))))
        (snd (after_access sid (logged (Transcribe audio) e) p))))
    /\ calls e' =
       calls e ++
       [Transcribe audio;
        Retrieve transcript
          (SessionContext.user_id
             (accessed_context sid (logged (Transcribe audio) e) p))
          (SessionContext.history
             (accessed_context sid (logged (Transcribe audio) e) p));
        Generate transcript rag_context
          (SessionContext.history
             (accessed_context sid (logged (Transcribe audio) e) p))
          _get_customer_service_prompt;
        Synthesize
          (GroqService.optimize_for_voice (reply_or_apology generated))].
Proof.
  intros Htr Hus Hgate rag_context generated Hrag Hgen.
  unfold process_audio_chunk_try.
  unfold get_self at 1. unfold bind at 1. cbn [snd].
  unfold invoke at 1. unfold bind at 1. cbn [fst snd].
  rewrite Htr, Hus, Hgate.
  rewrite (bind_Return _ _ _ _ _ (_get_session_context_run _ _ _)).
  set (e1 := logged (Transcribe audio) e) in *.
  set (c0 := accessed_context sid e1 p) in *.
  pose proof (after_access_lookup sid e1 p) as Hc0.
  pose proof (after_access_env sid e1 p) as [Hcalls _].
  destruct (after_access sid e1 p) as [e2 p2] eqn:Hacc. cbn [fst snd] in *.
  fold c0 in Hc0.
  unfold invoke at 1. unfold bind at 1. cbn [fst snd].
  rewrite Hcalls. cbn [e1 logged calls]. rewrite Hrag.
  unfold invoke at 1. unfold bind at 1. cbn [fst snd logged calls].
  rewrite Hcalls. cbn [e1 logged calls]. rewrite <- app_assoc. cbn [app].
  rewrite Hgen.
  rewrite (bind_Return _ _ _ _ _ (text_to_speech_run _ _ _ _)).
  rewrite (bind_Return _ _ _ _ _ (_update_session_context_run _ _ _ _ _)).
  destruct (after_access_known sid
              (logged
                 (Synthesize
                    (GroqService.optimize_for_voice
                       (reply_or_apology generated)))
                 (logged
                    (Generate transcript rag_context
                       (SessionContext.history c0)
                       _get_customer_service_prompt)
                    (logged
                       (Retrieve transcript (SessionContext.user_id c0)
                          (SessionContext.history c0)) e2))) p2 c0 Hc0)
    as [Hacc' Hctx'].
  rewrite Hacc', Hctx'. cbn [fst snd].
  rewrite (bind_Return _ _ _ _ _ (time_time_run _ _)).
  do 4 eexists. split; [reflexivity |].
  cbn [tick logged calls]. rewrite Hcalls. cbn [e1 logged calls].
  now rewrite <- !app_assoc.
Qed.

(** The [try] block when the transcription is below the threshold. *)
Lemma process_audio_chunk_try_clarifies audio sid t0 (e : Env) (p : t)
    tr transcript conf :
  DeepgramService.transcribe_audio_chunk (deepgram p) audio (calls e) =
    Return tr ->
  usable tr = Some (transcript, conf) ->
  Qltb conf (min_confidence_threshold p) = true ->
  process_audio_chunk_try audio sid t0 (e, p) =
  (Return
     {| VoiceResponse.audio_data :=
          ElevenLabsService.answer (elevenlabs p) clarification_text
            (calls e ++ [Transcribe audio]);
        VoiceResponse.transcript := "";
        VoiceResponse.ai_response := clarification_text;
        VoiceResponse.confidence := 0%Q;
        VoiceResponse.processing_time :=
          Qred (seconds_of (clock e (ticks e)) - t0);
        VoiceResponse.session_id := sid |},
   ({| clock := clock e; ticks := S (ticks e);
       calls := calls e ++ [Transcribe audio; Synthesize clarification_text] |},
    p)).
Proof.
  intros Htr Hus Hgate.
  unfold process_audio_chunk_try.
  unfold get_self at 1. unfold bind at 1. cbn [snd].
  unfold invoke at 1. unfold bind at 1. cbn [fst snd].
  rewrite Htr, Hus, Hgate.
  unfold _generate_clarification_response.
  unfold get_self at 1. unfold bind at 1. cbn [snd].
  rewrite (bind_Return _ _ _ _ _ (text_to_speech_run _ _ _ _)).
  rewrite (bind_Return _ _ _ _ _ (time_time_run _ _)).
  unfold ret, tick, logged. cbn [clock ticks calls].
  now rewrite <- app_assoc.
Qed.

(** C2. When the transcription has a transcript and its confidence (0
    when it reports none) is below the threshold of the pipeline, the
    [try] block itself returns, so the handler of errors does not run,
    and [process_audio_chunk] returns the clarification: an empty
    transcript, the fixed request to repeat, the confidence 0. The only
    capabilities called are the transcription and the synthesis of the
    request: neither retrieval nor generation is called, and the store
    of contexts is left as it was. *)
Theorem low_confidence_asks_to_repeat audio sid (e : Env) (p : t) r s :
  DeepgramService.transcribe_audio_chunk (deepgram p) audio (calls e) =
    Return (Some r) ->
  DeepgramService.transcript r = Some s ->
  s <> "" ->
  (default 0 (DeepgramService.confidence r) < min_confidence_threshold p)%Q ->
  process_audio_chunk audio sid (e, p) =
  (Return
     {| VoiceResponse.audio_data :=
          ElevenLabsService.answer (elevenlabs p) clarification_text
            (calls e ++ [Transcribe audio]);
        VoiceResponse.transcript := "";
        VoiceResponse.ai_response := clarification_text;
        VoiceResponse.confidence := 0%Q;
        VoiceResponse.processing_time :=
          Qred (seconds_of (clock e (S (ticks e)))
                - seconds_of (clock e (ticks e)));
        VoiceResponse.session_id := sid |},
   ({| clock := clock e; ticks := S (S (ticks e));
       calls := calls e ++ [Transcribe audio; Synthesize clarification_text] |},
    p))
  /\ (exists resp w',
        process_audio_chunk_try audio sid (seconds_of (clock e (ticks e)))
          (tick e, p) = (Return resp, w'))
  /\ clarification_text <> error_response.
Proof.
  intros Htr Hs Hne Hlow.
  apply Qltb_lt in Hlow.
  pose proof (process_audio_chunk_try_clarifies audio sid
                (seconds_of (clock e (ticks e))) (tick e) p (Some r) s _
                Htr (usable_Some r s Hs Hne) Hlow) as Hrun.
  split; [| split].
  - rewrite process_audio_chunk_unfold.
    now rewrite (try_except_Return _ _ _ _ _ Hrun).
  - eauto.
  - discriminate.
Qed.

End PipelineRuns.

(** A transcription that fails: the [try] block raises and the call
    returns the error outcome, a quarter of a second after its start. *)
Lemma process_audio_chunk_total_witness :
  VoicePipeline.stage_raises [] "session-1" Scenario.env0
    (Scenario.pipeline Scenario.fails) "connection lost"
  /\ VoicePipeline.process_audio_chunk_try [] "session-1"
       (seconds_of (clock Scenario.env0 (ticks Scenario.env0)))
       (tick Scenario.env0, Scenario.pipeline Scenario.fails) =
     (Raise "connection lost",
      (logged (Transcribe []) (tick Scenario.env0),
       Scenario.pipeline Scenario.fails))
  /\ fst (VoicePipeline.process_audio_chunk [] "session-1"
            (Scenario.env0, Scenario.pipeline Scenario.fails)) =
     Return
       {| VoiceResponse.audio_data := Some [];
          VoiceResponse.transcript := "";
          VoiceResponse.ai_response := VoicePipeline.error_response;
          VoiceResponse.confidence := 0%Q;
          VoiceResponse.processing_time := (1 # 4)%Q;
          VoiceResponse.session_id := "session-1" |}.
Proof.
  split; [apply VoicePipeline.transcription_raised; reflexivity |].
  split; [reflexivity |].
  rewrite (proj1 (proj2 (process_audio_chunk_total [] "session-1"
                           Scenario.env0 (Scenario.pipeline Scenario.fails)))
             "connection lost"
             (logged (Transcribe []) (tick Scenario.env0))
             (Scenario.pipeline Scenario.fails) eq_refl).
  reflexivity.
Defined.

(** A transcription heard with the confidence 0.5, under the threshold 0.7
    of [__init__]: the call asks to repeat, and only the transcription and
    the synthesis have been called. *)
Lemma low_confidence_asks_to_repeat_witness :
  (0.5 < VoicePipeline.min_confidence_threshold
           (Scenario.pipeline (Scenario.hears 0.5)))%Q
  /\ fst (VoicePipeline.process_audio_chunk [] "session-1"
            (Scenario.env0, Scenario.pipeline (Scenario.hears 0.5))) =
     Return
       {| VoiceResponse.audio_data := Some [];
          VoiceResponse.transcript := "";
          VoiceResponse.ai_response := VoicePipeline.clarification_text;
          VoiceResponse.confidence := 0%Q;
          VoiceResponse.processing_time := (1 # 4)%Q;
          VoiceResponse.session_id := "session-1" |}
  /\ calls (fst (snd (VoicePipeline.process_audio_chunk [] "session-1"
                        (Scenario.env0,
                         Scenario.pipeline (Scenario.hears 0.5))))) =
     [Transcribe []; Synthesize VoicePipeline.clarification_text].
Proof.
  assert (Hlow : (0.5 < VoicePipeline.min_confidence_threshold
                          (Scenario.pipeline (Scenario.hears 0.5)))%Q)
    by reflexivity.
  split; [exact Hlow |].
  destruct (low_confidence_asks_to_repeat [] "session-1" Scenario.env0
              (Scenario.pipeline (Scenario.hears 0.5))
              (DeepgramService.mk_result (Some "what is my bill")
                 (Some 0.5%Q))
              "what is my bill" eq_refl eq_refl
              ltac:(discriminate) Hlow) as [Hrun _].
  rewrite Hrun. split; reflexivity.
Defined.

(** ** The session update of a successful call *)

Section SessionUpdate.
Import VoicePipeline.

(** A client connects and one chunk of it is processed with success: the
    response carries the transcript and the reply, the store of the
    pipeline has the exchange, and the session the Session Manager holds
    for the client still has an empty history and a counter of 0. *)
Lemma successful_chunk_bypasses_session_manager :
  fst Scenario.connected = Return Scenario.session
  /\ fst Scenario.chunk_processed =
     Return
       {| VoiceResponse.audio_data := Some [];
          VoiceResponse.transcript := "what is my bill";
          VoiceResponse.ai_response := "Your bill is $5.";
          VoiceResponse.confidence := 0.9%Q;
          VoiceResponse.processing_time := (3 # 4)%Q;
          VoiceResponse.session_id := "session-1" |}
  /\ SessionContext.total_interactions
       <$> (active_sessions
              (Main.voice_pipeline (snd (snd Scenario.chunk_processed)))
            !! "session-1") = Some 1
  /\ ConversationManager.active_sessions
       (Main.conversation_manager (snd (snd Scenario.chunk_processed))) =
     [("client-1", Scenario.session)]
  /\ ConversationManager.session_history
       (Main.conversation_manager (snd (snd Scenario.chunk_processed))) = []
  /\ ConversationSession.conversation_history Scenario.session = []
  /\ ConversationSession.total_interactions Scenario.session <> 0 + 1.
Proof.
  repeat split; try (vm_compute; reflexivity). discriminate.
Qed.

Lemma extended_history_last_n (history : list Message) u a :
  extended_history history u a =
  last_n 20
    (history ++ [mkMessage "user" u None None;
                 mkMessage "assistant" a None None]).
Proof.
  unfold extended_history. case_decide as Hlen; [reflexivity |].
  symmetry. apply last_n_short. lia.
Qed.

Lemma Qltb_false_iff (a b : Q) : Qltb a b = false <-> ~ (a < b)%Q.
Proof.
  rewrite <- Qltb_lt. destruct (Qltb a b); split; intros H;
    congruence || (exfalso; now apply H) || reflexivity.
Qed.

(** The whole call on the path that passes the gate and on which the
    retrieval and the generation answer. *)
Lemma process_audio_chunk_succeeds audio sid (e : Env) (p : t) r s
    rag_context generated :
  let c0 :=
    default (fresh_context (seconds_of (clock e (S (ticks e)))))
      (active_sessions p !! sid) in
  DeepgramService.transcribe_audio_chunk (deepgram p) audio (calls e) =
    Return (Some r) ->
  DeepgramService.transcript r = Some s ->
  s <> "" ->
  ~ (default 0 (DeepgramService.confidence r)
     < min_confidence_threshold p)%Q ->
  RAGService.retrieve_context (rag p) s (SessionContext.user_id c0)
    (SessionContext.history c0) (calls e ++ [Transcribe audio]) =
    Return rag_context ->
  GroqService.generate_response (groq p) s rag_context
    (SessionContext.history c0) _get_customer_service_prompt
    (calls e ++
     [Transcribe audio;
      Retrieve s (SessionContext.user_id c0) (SessionContext.history c0)]) =
    Return generated ->
  exists resp e' p' now,
    process_audio_chunk audio sid (e, p) = (Return resp, (e', p'))
    /\ VoiceResponse.transcript resp = s
    /\ VoiceResponse.ai_response resp = reply_or_apology generated
    /\ VoiceResponse.session_id resp = sid
    /\ active_sessions p' !! sid =
       Some (updated_context c0 s (reply_or_apology generated) now)
    /\ (forall sid', sid <> sid' ->
          active_sessions p' !! sid' = active_sessions p !! sid')
    /\ calls e' =
       calls e ++
       [Transcribe audio;
        Retrieve s (SessionContext.user_id c0) (SessionContext.history c0);
        Generate s rag_context (SessionContext.history c0)
          _get_customer_service_prompt;
        Synthesize
          (GroqService.optimize_for_voice (reply_or_apology generated))].
Proof.
  intros c0 Htr Hs Hne Hgate Hrag Hgen.
  apply Qltb_false_iff in Hgate.
  destruct (process_audio_chunk_try_passed audio sid
              (seconds_of (clock e (ticks e))) (tick e) p (Some r) s _
              Htr (usable_Some r s Hs Hne) Hgate rag_context generated
              Hrag Hgen)
    as (e' & audio_response & now & t_end & Hrun & Hcalls).
  rewrite process_audio_chunk_unfold.
  rewrite (try_except_Return _ _ _ _ _ Hrun).
  do 4 eexists. split; [reflexivity |]. cbn.
  repeat split; try assumption.
  - apply lookup_insert_eq.
  - intros sid' Hsid. rewrite lookup_insert_ne by assumption.
    now apply after_access_lookup_ne.
Qed.

(** C5, as the code has it. On a call that passes the gate and on which
    retrieval and generation answer, the exchange of the transcript and
    the reply goes into the pipeline's own store of contexts, under the
    session id: the history there becomes the last 20 messages of the
    old history followed by the two new messages, and the counter there
    grows by one; the contexts of the other session ids stay as they
    were. The Session Manager is not involved: handling an audio chunk
    leaves the conversation manager of the process as it was. *)
Theorem successful_chunk_updates_pipeline_store audio sid (e : Env) (p : t)
    r s rag_context generated :
  let c0 :=
    default (fresh_context (seconds_of (clock e (S (ticks e)))))
      (active_sessions p !! sid) in
  DeepgramService.transcribe_audio_chunk (deepgram p) audio (calls e) =
    Return (Some r) ->
  DeepgramService.transcript r = Some s ->
  s <> "" ->
  ~ (default 0 (DeepgramService.confidence r)
     < min_confidence_threshold p)%Q ->
  RAGService.retrieve_context (rag p) s (SessionContext.user_id c0)
    (SessionContext.history c0) (calls e ++ [Transcribe audio]) =
    Return rag_context ->
  GroqService.generate_response (groq p) s rag_context
    (SessionContext.history c0) _get_customer_service_prompt
    (calls e ++
     [Transcribe audio;
      Retrieve s (SessionContext.user_id c0) (SessionContext.history c0)]) =
    Return generated ->
  (exists resp e' p' c',
      process_audio_chunk audio sid (e, p) = (Return resp, (e', p'))
      /\ VoiceResponse.transcript resp = s
      /\ VoiceResponse.ai_response resp = reply_or_apology generated
      /\ active_sessions p' !! sid = Some c'
      /\ SessionContext.history c' =
         last_n 20
           (SessionContext.history c0 ++
            [mkMessage "user" s None None;
             mkMessage "assistant" (reply_or_apology generated) None None])
      /\ SessionContext.total_interactions c' =
         SessionContext.total_interactions c0 + 1
      /\ (forall sid', sid <> sid' ->
            active_sessions p' !! sid' = active_sessions p !! sid'))
  /\ (forall session data (w : Env * Main.t),
        Main.conversation_manager (snd (snd (Main.audio_chunk session data w)))
        = Main.conversation_manager (snd w)).
Proof.
  intros c0 Htr Hs Hne Hgate Hrag Hgen. split; [| reflexivity].
  destruct (process_audio_chunk_succeeds audio sid e p r s rag_context
              generated Htr Hs Hne Hgate Hrag Hgen)
    as (resp & e' & p' & now & Hrun & Ht & Ha & _ & Hctx & Hother & _).
  exists resp, e', p',
    (updated_context c0 s (reply_or_apology generated) now).
  repeat split; try assumption.
  cbn. apply extended_history_last_n.
Qed.

End SessionUpdate.

(** A transcription heard with the confidence 0.9: the store of the
    pipeline holds the exchange under the session id, with a counter of 1. *)
Lemma successful_chunk_updates_pipeline_store_witness :
  ~ (0.9 < VoicePipeline.min_confidence_threshold
             (Scenario.pipeline (Scenario.hears 0.9)))%Q
  /\ exists c',
       VoicePipeline.active_sessions
         (snd (snd (VoicePipeline.process_audio_chunk [] "session-1"
                      (Scenario.env0, Scenario.pipeline (Scenario.hears 0.9)))))
       !! "session-1" = Some c'
       /\ SessionContext.total_interactions c' = 1
       /\ length (SessionContext.history c') = 2%nat.
Proof.
  assert (Hgate : ~ (0.9 < VoicePipeline.min_confidence_threshold
                             (Scenario.pipeline (Scenario.hears 0.9)))%Q)
    by (intros H; vm_compute in H; discriminate H).
  split; [exact Hgate |].
  destruct (successful_chunk_updates_pipeline_store [] "session-1"
              Scenario.env0 (Scenario.pipeline (Scenario.hears 0.9))
              (DeepgramService.mk_result (Some "what is my bill")
                 (Some 0.9%Q))
              "what is my bill" "" (Some "Your bill is $5.")
              eq_refl eq_refl ltac:(discriminate) Hgate eq_refl eq_refl)
    as [(resp & e' & p' & c' & Hrun & _ & _ & Hctx & Hhist & Htotal & _) _].
  rewrite Hrun. exists c'. split; [exact Hctx |].
  split; [exact Htotal |]. rewrite Hhist. reflexivity.
Defined.

(** ** Unknown session ids *)

Section UnknownSession.
Import VoicePipeline.

(** C10. A session id that the pipeline's store does not know is not
    rejected. The call returns a response in any case. The first access
    to the store creates, under the session id, a context with an empty
    history, no user id and a counter of 0. A call that passes the gate
    is run against that context: the retrieval is called without a user
    id and with an empty history, and when retrieval and generation
    answer, the context holds afterwards the one exchange of the call
    and a counter of 1. *)
Theorem unknown_session_gets_fresh_context audio sid (e : Env) (p : t) :
  active_sessions p !! sid = None ->
  (exists resp w',
      process_audio_chunk audio sid (e, p) = (Return resp, w'))
  /\ _get_session_context sid (e, p) =
     (Return
        {| SessionContext.history := [];
           SessionContext.user_id := None;
           SessionContext.start_time := seconds_of (clock e (ticks e));
           SessionContext.total_interactions := 0;
           SessionContext.last_interaction := None |},
      (tick e,
       set_active_sessions
         (<[sid :=
              {| SessionContext.history := [];
                 SessionContext.user_id := None;
                 SessionContext.start_time :=
                   seconds_of (clock e (ticks e));
                 SessionContext.total_interactions := 0;
                 SessionContext.last_interaction := None |}]>
            (active_sessions p))
         p))
  /\ (forall r s rag_context generated,
        DeepgramService.transcribe_audio_chunk (deepgram p) audio (calls e)
          = Return (Some r) ->
        DeepgramService.transcript r = Some s ->
        s <> "" ->
        ~ (default 0 (DeepgramService.confidence r)
           < min_confidence_threshold p)%Q ->
        RAGService.retrieve_context (rag p) s None []
          (calls e ++ [Transcribe audio]) = Return rag_context ->
        GroqService.generate_response (groq p) s rag_context []
          _get_customer_service_prompt
          (calls e ++ [Transcribe audio; Retrieve s None []]) =
          Return generated ->
        exists resp e' p' now,
          process_audio_chunk audio sid (e, p) = (Return resp, (e', p'))
          /\ VoiceResponse.transcript resp = s
          /\ VoiceResponse.ai_response resp = reply_or_apology generated
          /\ VoiceResponse.session_id resp = sid
          /\ active_sessions p' !! sid =
             Some
               {| SessionContext.history :=
                    [mkMessage "user" s None None;
                     mkMessage "assistant" (reply_or_apology generated)
                       None None];
                  SessionContext.user_id := None;
                  SessionContext.start_time :=
                    seconds_of (clock e (S (ticks e)));
                  SessionContext.total_interactions := 1;
                  SessionContext.last_interaction := Some now |}
          /\ calls e' =
             calls e ++
             [Transcribe audio; Retrieve s None [];
              Generate s rag_context [] _get_customer_service_prompt;
              Synthesize
                (GroqService.optimize_for_voice
                   (reply_or_apology generated))]).
Proof.
  intros Hnone. split; [apply process_audio_chunk_returns |].
  split.
  - rewrite _get_session_context_run.
    unfold accessed_context, after_access. now rewrite Hnone.
  - intros r s rag_context generated Htr Hs Hne Hgate Hrag Hgen.
    pose proof (process_audio_chunk_succeeds audio sid e p r s rag_context
                  generated) as Hrun.
    cbv zeta in Hrun. rewrite Hnone in Hrun.
    cbn [default fresh_context SessionContext.user_id
           SessionContext.history] in Hrun.
    destruct (Hrun Htr Hs Hne Hgate Hrag Hgen)
      as (resp & e' & p' & now & Hp & Ht & Ha & Hid & Hctx & _ & Hcalls).
    exists resp, e', p', now. repeat split; assumption.
Qed.

End UnknownSession.

(** A pipeline as [__init__] leaves it knows no session id, and the call
    returns. *)
Lemma unknown_session_gets_fresh_context_witness :
  VoicePipeline.active_sessions (Scenario.pipeline (Scenario.hears 0.9))
    !! "session-1" = None
  /\ exists resp w',
       VoicePipeline.process_audio_chunk [] "session-1"
         (Scenario.env0, Scenario.pipeline (Scenario.hears 0.9)) =
       (Return resp, w').
Proof.
  split; [reflexivity |].
  apply (unknown_session_gets_fresh_context [] "session-1" Scenario.env0
           (Scenario.pipeline (Scenario.hears 0.9)) eq_refl).
Defined.

(** ** Creating a session at the ceiling (models/conversation.py) *)

Section Eviction.
Import ConversationManager.

(** 1000 sessions started within a millisecond fill the manager. One
    more client connects: the call returns the new session, no session
    has been ended, the session that started first is still active, and
    1001 sessions are active under a ceiling of 1000. *)
Lemma young_sessions_are_not_evicted :
  length (active_sessions (snd Scenario.crowded)) = 1000%nat
  /\ max_active_sessions (snd Scenario.crowded) = 1000%nat
  /\ session_history (snd Scenario.crowded) = []
  /\ fst (create_session "session-1000" "1000" None Scenario.crowded) =
     Return
       (ConversationSession.init "session-1000" "1000" None 1000
          [("created_by", "voice_assistant"); ("version", "1.0")])
  /\ session_history
       (snd (snd (create_session "session-1000" "1000" None
                    Scenario.crowded))) = []
  /\ ConversationSession.start_time
       <$> Dict.get "0"
             (active_sessions
                (snd (snd (create_session "session-1000" "1000" None
                             Scenario.crowded)))) = Some 0
  /\ length
       (active_sessions
          (snd (snd (create_session "session-1000" "1000" None
                       Scenario.crowded)))) = 1001%nat.
Proof.
  remember Scenario.crowded as crowd eqn:Hcrowd.
  vm_compute in Hcrowd. subst crowd.
  vm_compute. repeat split; reflexivity.
Qed.

Lemma get_app_fresh {V : Type} (k : string) (v : V) pre rest :
  k ∉ map fst pre -> Dict.get k (pre ++ (k, v) :: rest) = Some v.
Proof.
  induction pre as [| [k' v'] pre IH]; cbn; intros Hk.
  - now rewrite decide_True.
  - rewrite decide_False by (intros ->; apply Hk; left).
    apply IH. intros Hin. apply Hk. now right.
Qed.

Lemma del_app_fresh {V : Type} (k : string) (v : V) pre rest :
  k ∉ map fst pre -> Dict.del k (pre ++ (k, v) :: rest) = pre ++ rest.
Proof.
  induction pre as [| [k' v'] pre IH]; cbn; intros Hk.
  - now rewrite decide_True.
  - rewrite decide_False by (intros ->; apply Hk; left).
    f_equal. apply IH. intros Hin. apply Hk. now right.
Qed.

Lemma end_session_run (k : string) (e : Env) (m : t) v :
  Dict.get k (active_sessions m) = Some v ->
  end_session k (e, m) =
  (Return (Some (ConversationSession.ended (clock e (ticks e)) v)),
   (tick e,
    {| active_sessions := Dict.del k (active_sessions m);
       session_history :=
         session_history m
         ++ [ConversationSession.ended (clock e (ticks e)) v];
       max_active_sessions := max_active_sessions m |})).
Proof.
  intros Hget. unfold end_session, bind, get_self. cbn. now rewrite Hget.
Qed.

(** The loop of [_cleanup_old_sessions] over the old sessions of [rest],
    the sessions of [pre] being kept. *)
Lemma cleanup_loop (now : datetime) rest :
  forall pre hist mx clk n cs,
    NoDup (map fst (pre ++ rest)) ->
    for_each (sessions_to_remove now rest)
      (fun client_id => bind (end_session client_id) (fun _ => ret tt))
      ({| clock := clk; ticks := n; calls := cs |},
       {| active_sessions := pre ++ rest; session_history := hist;
          max_active_sessions := mx |}) =
    (Return tt,
     ({| clock := clk;
         ticks :=
           n + length (filter (fun kv => is_old now (snd kv) = true) rest);
         calls := cs |},
      {| active_sessions :=
           pre ++ filter (fun kv => is_old now (snd kv) <> true) rest;
         session_history :=
           hist
           ++ ended_in_turn clk n
                (map snd
                   (filter (fun kv => is_old now (snd kv) = true) rest));
         max_active_sessions := mx |})).
Proof.
  unfold sessions_to_remove.
  induction rest as [| [k v] rest IH]; intros pre hist mx clk n cs Hnd.
  - cbn. unfold ret. now rewrite Nat.add_0_r, !app_nil_r.
  - destruct (is_old now v) eqn:Hold.
    + rewrite filter_cons_True by exact Hold.
      rewrite (filter_cons_False (fun kv => is_old now (snd kv) <> true))
        by (cbn; rewrite Hold; tauto).
      cbn [map fst for_each].
      assert (Hk : k ∉ map fst pre).
      { rewrite map_app in Hnd. cbn in Hnd.
        apply NoDup_app in Hnd as (_ & Hdis & _).
        intros Hin. apply (Hdis k Hin). left. }
      erewrite bind_Return; cycle 1.
      { erewrite bind_Return; [reflexivity |].
        apply end_session_run. cbn. now apply get_app_fresh. }
      cbn [active_sessions session_history max_active_sessions].
      rewrite del_app_fresh by exact Hk.
      unfold tick. cbn [clock ticks calls].
      rewrite IH.
      * cbn [length map snd ended_in_turn].
        rewrite <- app_assoc. cbn [app].
        now rewrite Nat.add_succ_comm.
      * rewrite map_app in *. cbn in Hnd.
        apply NoDup_app in Hnd as (Hpre & Hdis & Hrest).
        apply NoDup_app. split; [assumption |]. split.
        -- intros x Hx Hx'. apply (Hdis x Hx). now right.
        -- now apply NoDup_cons in Hrest as [_ ?].
    + rewrite filter_cons_False by (cbn; rewrite Hold; discriminate).
      rewrite (filter_cons_True (fun kv => is_old now (snd kv) <> true))
        by (cbn; rewrite Hold; discriminate).
      specialize (IH (pre ++ [(k, v)]) hist mx clk n cs).
      rewrite <- !app_assoc in IH. cbn [app] in IH.
      apply IH. exact Hnd.
Qed.

(** [_cleanup_old_sessions] as a whole. *)
Lemma _cleanup_old_sessions_run (e : Env) (m : t) :
  NoDup (map fst (active_sessions m)) ->
  _cleanup_old_sessions (e, m) =
  (Return tt,
   ({| clock := clock e;
       ticks :=
         S (ticks e)
         + length
             (filter
                (fun kv => is_old (clock e (ticks e)) (snd kv) = true)
                (active_sessions m));
       calls := calls e |},
    {| active_sessions :=
         filter (fun kv => is_old (clock e (ticks e)) (snd kv) <> true)
           (active_sessions m);
       session_history :=
         session_history m
         ++ ended_in_turn (clock e) (S (ticks e))
              (map snd
                 (filter
                    (fun kv => is_old (clock e (ticks e)) (snd kv) = true)
                    (active_sessions m)));
       max_active_sessions := max_active_sessions m |})).
Proof.
  intros Hnd. destruct m as [active hist mx]. destruct e as [clk n cs].
  unfold _cleanup_old_sessions.
  unfold datetime_now at 1. unfold bind at 1. cbn [fst snd].
  unfold get_self at 1. unfold bind at 1.
  cbn [fst snd tick clock ticks calls active_sessions session_history
         max_active_sessions].
  apply (cleanup_loop (clk n) active [] hist mx clk (S n) cs). exact Hnd.
Qed.

(** A session is old when it started more than 3600 seconds, that is
    3600000000 microseconds, before the current time. *)
Lemma is_old_spec (now : datetime) (session : ConversationSession.t) :
  is_old now session = true <->
  3600 * microseconds_per_second
  < now - ConversationSession.start_time session.
Proof.
  unfold is_old, total_seconds. rewrite Qltb_lt.
  rewrite (Qred_correct
             (Qmake (now - ConversationSession.start_time session) 1000000)).
  unfold Qlt, microseconds_per_second. cbn. lia.
Qed.

(** C6, as the code has it. A call of [create_session] made while the
    number of active sessions is at or above the ceiling returns the new
    session in every case: there is no failure for lack of capacity.
    Before the new session is admitted, every active session that
    started more than 3600 seconds before the current time is ended and
    moved to the history, in the order of the dictionary, and every
    other active session stays: a session never goes while one that
    started no later stays, and when no session is that old none goes
    and the new session is admitted above the ceiling. *)
Theorem create_session_at_ceiling uuid4 client_id user_id (e : Env) (m : t) :
  NoDup (map fst (active_sessions m)) ->
  (max_active_sessions m <= length (active_sessions m))%nat ->
  let session :=
    ConversationSession.init uuid4 client_id user_id (clock e (ticks e))
      [("created_by", "voice_assistant"); ("version", "1.0")] in
  let now := clock e (S (ticks e)) in
  let old :=
    filter (fun kv => is_old now (snd kv) = true) (active_sessions m) in
  let young :=
    filter (fun kv => is_old now (snd kv) <> true) (active_sessions m) in
  create_session uuid4 client_id user_id (e, m) =
  (Return session,
   ({| clock := clock e; ticks := S (S (ticks e)) + length old;
       calls := calls e |},
    {| active_sessions := Dict.set client_id session young;
       session_history :=
         session_history m
         ++ ended_in_turn (clock e) (S (S (ticks e))) (map snd old);
       max_active_sessions := max_active_sessions m |}))
  /\ (forall kv kv',
        kv ∈ old -> kv' ∈ active_sessions m ->
        ConversationSession.start_time (snd kv')
        <= ConversationSession.start_time (snd kv) ->
        kv' ∈ old)
  /\ (forall kv,
        kv ∈ old <->
        kv ∈ active_sessions m
        /\ 3600 * microseconds_per_second
           < now - ConversationSession.start_time (snd kv)).
Proof.
  intros Hnd Hfull session now old young.
  assert (Hold : forall kv,
             kv ∈ old <->
             kv ∈ active_sessions m
             /\ 3600 * microseconds_per_second
                < now - ConversationSession.start_time (snd kv)).
  { intros kv. unfold old. rewrite list_elem_of_filter, is_old_spec. tauto. }
  split; [| split; [| exact Hold]].
  - unfold create_session.
    unfold datetime_now at 1. unfold bind at 1. cbn [fst snd].
    unfold get_self at 1. unfold bind at 1. cbn [snd].
    rewrite decide_True by exact Hfull.
    rewrite (bind_Return _ _ _ _ _ (_cleanup_old_sessions_run (tick e) m Hnd)).
    reflexivity.
  - intros kv kv' Hkv Hkv' Hle. apply Hold. apply Hold in Hkv.
    split; [assumption | lia].
Qed.

End Eviction.

(** Two sessions under a ceiling of two, one started 7200 seconds ago and
    one 2200 seconds ago: the first is ended and moved to the history, the
    second stays, and the new session is admitted. *)
Lemma create_session_at_ceiling_witness :
  NoDup (map fst (ConversationManager.active_sessions Scenario.two_sessions))
  /\ (ConversationManager.max_active_sessions Scenario.two_sessions
      <= length (ConversationManager.active_sessions Scenario.two_sessions))%nat
  /\ map fst
       (ConversationManager.active_sessions
          (snd (snd (ConversationManager.create_session "session-c" "client-c"
                       None (Scenario.two_hours_later, Scenario.two_sessions)))))
     = ["client-b"; "client-c"]
  /\ map ConversationSession.client_id
       (ConversationManager.session_history
          (snd (snd (ConversationManager.create_session "session-c" "client-c"
                       None (Scenario.two_hours_later, Scenario.two_sessions)))))
     = ["client-a"].
Proof.
  assert (Hnd : NoDup
                  (map fst
                     (ConversationManager.active_sessions
                        Scenario.two_sessions)))
    by (apply (bool_decide_unpack _); vm_compute; exact I).
  assert (Hfull : (ConversationManager.max_active_sessions
                     Scenario.two_sessions
                   <= length
                        (ConversationManager.active_sessions
                           Scenario.two_sessions))%nat)
    by (cbn; lia).
  split; [exact Hnd |]. split; [exact Hfull |].
  rewrite (proj1 (create_session_at_ceiling "session-c" "client-c" None
                    Scenario.two_hours_later Scenario.two_sessions Hnd Hfull)).
  split; reflexivity.
Defined.

(** ** The analytics (services/analytics_service.py) *)

Section AnalyticsRuns.
Import AnalyticsService.

(** Processing one message returns and leaves the log of calls alone. *)
Lemma process_interaction_run sid msg (e : Env) (a : t) :
  exists e' a',
    process_interaction sid msg (e, a) = (Return tt, (e', a'))
    /\ call_logs a' = call_logs a
    /\ clock e' = clock e.
Proof.
  unfold process_interaction. case_decide.
  - do 2 eexists. split; [reflexivity |]. now cbn.
  - do 2 eexists. split; [reflexivity |]. now cbn.
Qed.

Lemma process_interactions_run sid history :
  forall (e : Env) (a : t),
  exists e' a',
    for_each history (process_interaction sid) (e, a) = (Return tt, (e', a'))
    /\ call_logs a' = call_logs a
    /\ clock e' = clock e.
Proof.
  induction history as [| msg history IH]; intros e a.
  - do 2 eexists. split; [reflexivity |]. now cbn.
  - destruct (process_interaction_run sid msg e a)
      as (e1 & a1 & Hrun & Hlogs & Hclock).
    destruct (IH e1 a1) as (e2 & a2 & Hrun2 & Hlogs2 & Hclock2).
    exists e2, a2. cbn [for_each].
    rewrite (bind_Return _ _ _ _ _ Hrun). rewrite Hrun2.
    repeat split; congruence.
Qed.

Lemma save_call_data_run session t_end (e : Env) (a : t) :
  ConversationSession.end_time session = Some t_end ->
  exists e' a',
    save_call_data session (e, a) = (Return tt, (e', a'))
    /\ call_logs a' = call_logs a ++ [call_data_of session t_end].
Proof.
  intros Hend. unfold save_call_data, ConversationSession.get_duration.
  rewrite Hend.
  destruct (process_interactions_run (ConversationSession.id session)
              (ConversationSession.conversation_history session) e
              {| call_logs := call_logs a ++ [call_data_of session t_end];
                 interaction_logs := interaction_logs a;
                 error_logs := error_logs a;
                 performance_metrics := performance_metrics a;
                 question_patterns := question_patterns a;
                 intent_categories := intent_categories a |})
    as (e' & a' & Hrun & Hlogs & _).
  exists e', a'. split; [| exact Hlogs].
  apply try_except_Return.
  unfold ret at 1. unfold bind at 1.
  unfold ret at 1. unfold bind at 1.
  unfold get_self at 1. unfold bind at 1. cbn [snd].
  unfold put_self at 1. unfold bind at 1. cbn [fst].
  unfold _process_interactions.
  now apply try_except_Return.
Qed.

(** A trend is computed without failure and changes no log. *)
Lemma trend_from_run {A : Type} (lookup : date -> A) n :
  forall i (e : Env) (a : t),
  exists l e',
    trend_from lookup i n (e, a) = (Return l, (e', a)).
Proof.
  induction n as [| n IH]; intros i e a.
  - do 2 eexists. reflexivity.
  - cbn [trend_from]. unfold datetime_now at 1. unfold bind at 1.
    cbn [fst snd].
    destruct (IH (i + 1) (tick e) a) as (l & e' & Hrun).
    rewrite (bind_Return _ _ _ _ _ Hrun). do 2 eexists. reflexivity.
Qed.

Lemma trend_run {A : Type} (lookup : date -> A) (e : Env) (a : t) :
  exists l e', trend lookup (e, a) = (Return l, (e', a)).
Proof.
  unfold trend. destruct (trend_from_run lookup 30 0 e a) as (l & e' & Hrun).
  rewrite (bind_Return _ _ _ _ _ Hrun). do 2 eexists. reflexivity.
Qed.

(** [get_call_analytics] on a log that is not empty: the [try] block
    returns, and the overview is the one computed at the first reading
    of the clock. *)
Lemma get_call_analytics_run (e : Env) (a : t) :
  call_logs a <> [] ->
  exists trends e',
    get_call_analytics (e, a) =
    (Return
       {| Analytics.overview_of := overview_at (clock e (ticks e)) a;
          Analytics.trends_of := trends;
          Analytics.performance_of :=
            {| Analytics.average_response_time := _get_average_response_time;
               Analytics.error_rate := _get_error_rate a;
               Analytics.user_satisfaction := _estimate_user_satisfaction a |}
       |},
     (e', a))
    /\ Analytics.hourly_distribution trends = hour_distribution (call_logs a).
Proof.
  intros Hne. unfold get_call_analytics.
  destruct (trend_run
              (fun day =>
                 default 0
                   (Dict.get day
                      (fold_left
                         (fun d call =>
                            increment (date_of (CallData.start_time call)) d)
                         (call_logs a) []))) (tick e) a)
    as (l1 & e1 & H1).
  destruct (trend_run
              (fun day =>
                 round2
                   (mean_or_zero
                      (default []
                         (Dict.get day
                            (fold_left
                               (fun d call =>
                                  append_to
                                    (date_of (CallData.start_time call))
                                    (CallData.duration call) d)
                               (call_logs a) []))))) e1 a)
    as (l2 & e2 & H2).
  destruct (trend_run
              (fun day =>
                 round2
                   (mean_of_counts_or_zero
                      (default []
                         (Dict.get day
                            (fold_left
                               (fun d call =>
                                  append_to
                                    (date_of (CallData.start_time call))
                                    (CallData.total_interactions call) d)
                               (call_logs a) []))))) e2 a)
    as (l3 & e3 & H3).
  exists {| Analytics.daily_calls := l1;
            Analytics.hourly_distribution := hour_distribution (call_logs a);
            Analytics.duration_trend := l2;
            Analytics.interaction_trend := l3 |}, e3.
  split.
  - apply try_except_Return.
    unfold get_self at 1. unfold bind at 1. cbn [snd].
    destruct (call_logs a) as [| c logs] eqn:Hlogs; [contradiction |].
    unfold datetime_now at 1. unfold bind at 1. cbn [fst snd].
    unfold _get_daily_call_trend at 1.
    unfold get_self at 1. unfold bind at 1. unfold bind at 1.
    cbn [snd]. rewrite ?Hlogs. rewrite H1.
    unfold _get_duration_trend at 1.
    unfold get_self at 1. unfold bind at 1. unfold bind at 1.
    cbn [snd]. rewrite ?Hlogs. rewrite H2.
    unfold _get_interaction_trend at 1.
    unfold get_self at 1. unfold bind at 1. unfold bind at 1.
    cbn [snd]. rewrite ?Hlogs. rewrite H3.
    reflexivity.
  - reflexivity.
Qed.

End AnalyticsRuns.

Section CallAnalytics.
Import AnalyticsService.

(** C7. With no call recorded, [get_call_analytics] returns the
    aggregate in which every number is 0 and every series is empty.
    After one call has been recorded whose duration is 42 seconds and
    whose status is ["ended"], it reports one call, a success rate of
    100 and an average duration of 42. *)
Theorem call_analytics_zero_and_one (e e2 : Env) (a0 : t)
    (session : ConversationSession.t) (t_end : datetime) :
  call_logs a0 = [] ->
  ConversationSession.status session = "ended" ->
  ConversationSession.end_time session = Some t_end ->
  t_end - ConversationSession.start_time session
  = 42 * microseconds_per_second ->
  get_call_analytics (e, a0) =
  (Return
     (Analytics.mk
        (Analytics.mk_overview 0 0 0 0 0%Q 0%Q 0%Q 0)
        (Analytics.mk_trends [] [] [] [])
        (Analytics.mk_performance 0%Q 0%Q 0%Q)),
   (e, a0))
  /\ exists agg w,
       get_call_analytics (e2, snd (snd (save_call_data session (e, a0)))) =
       (Return agg, w)
       /\ Analytics.total_calls (Analytics.overview_of agg) = 1
       /\ Analytics.success_rate (Analytics.overview_of agg) = 100%Q
       /\ Analytics.average_duration (Analytics.overview_of agg) = 42%Q.
Proof.
  intros Hzero Hstatus Hend Hduration. split.
  - unfold get_call_analytics, try_except, bind, get_self. cbn [snd].
    now rewrite Hzero.
  - destruct (save_call_data_run session t_end e a0 Hend)
      as (e' & a' & Hsave & Hlogs).
    rewrite Hsave, Hzero in *. cbn [snd app] in *.
    destruct (get_call_analytics_run e2 a') as (trends & e3 & Hrun & _).
    { rewrite Hlogs. discriminate. }
    do 2 eexists. split; [exact Hrun |].
    cbn [Analytics.overview_of]. unfold overview_at. rewrite Hlogs.
    cbn [length map Analytics.total_calls Analytics.success_rate
           Analytics.average_duration call_data_of CallData.duration].
    unfold count_status. rewrite filter_cons_True by exact Hstatus.
    unfold total_seconds. rewrite Hduration.
    repeat split; vm_compute; reflexivity.
Qed.

End CallAnalytics.

(** One call of 42 seconds that ended normally, recorded in a service
    without calls. *)
Lemma call_analytics_zero_and_one_witness :
  AnalyticsService.call_logs AnalyticsService.init = []
  /\ ConversationSession.status (Scenario.call_at 15 []) = "ended"
  /\ exists agg w,
       AnalyticsService.get_call_analytics
         (Scenario.evening,
          snd (snd (AnalyticsService.save_call_data (Scenario.call_at 15 [])
                      (Scenario.evening, AnalyticsService.init)))) =
       (Return agg, w)
       /\ Analytics.total_calls (Analytics.overview_of agg) = 1
       /\ Analytics.success_rate (Analytics.overview_of agg) = 100%Q
       /\ Analytics.average_duration (Analytics.overview_of agg) = 42%Q.
Proof.
  split; [reflexivity |]. split; [reflexivity |].
  apply (call_analytics_zero_and_one Scenario.evening Scenario.evening
           AnalyticsService.init (Scenario.call_at 15 [])
           (15 * microseconds_per_hour + 42 * microseconds_per_second)
           eq_refl eq_refl eq_refl).
  reflexivity.
Defined.

(** ** Dictionaries in insertion order *)

Section DictFacts.
Context {K V : Type} `{EqDecision K}.
Implicit Types (d : list (K * V)) (k : K) (v : V).

Lemma get_set k' k v d :
  Dict.get k' (Dict.set k v d) =
  if decide (k' = k) then Some v else Dict.get k' d.
Proof.
  induction d as [| [k0 v0] d IH]; cbn.
  - repeat case_decide; congruence.
  - repeat (case_decide; cbn); congruence.
Qed.

Lemma get_None k d : Dict.get k d = None <-> k ∉ map fst d.
Proof.
  induction d as [| [k0 v0] d IH]; cbn.
  - split; [intros _ Hin; inversion Hin | reflexivity].
  - case_decide as Hk.
    + subst. split; [discriminate | intros Hn; exfalso; apply Hn; left].
    + rewrite IH. rewrite not_elem_of_cons. tauto.
Qed.

Lemma get_Some_elem k v d : Dict.get k d = Some v -> (k, v) ∈ d.
Proof.
  induction d as [| [k0 v0] d IH]; cbn; [discriminate |].
  case_decide as Hk.
  - intros [= <-]. subst. left.
  - intros Hget. right. now apply IH.
Qed.

Lemma elem_get k v d : NoDup (map fst d) -> (k, v) ∈ d -> Dict.get k d = Some v.
Proof.
  induction d as [| [k0 v0] d IH]; cbn; intros Hnd Hin.
  - inversion Hin.
  - apply NoDup_cons in Hnd as [Hk0 Hnd].
    apply elem_of_cons in Hin as [[= -> ->] | Hin].
    + now rewrite decide_True.
    + rewrite decide_False; [now apply IH |].
      intros ->. apply Hk0. apply list_elem_of_fmap. now exists (k0, v).
Qed.

Lemma set_present k v d :
  k ∈ map fst d -> map fst (Dict.set k v d) = map fst d.
Proof.
  induction d as [| [k0 v0] d IH]; cbn; intros Hin.
  - inversion Hin.
  - case_decide as Hk; cbn; [now subst |].
    f_equal. apply IH. apply elem_of_cons in Hin as [-> | Hin]; tauto.
Qed.

Lemma set_absent k v d : k ∉ map fst d -> Dict.set k v d = d ++ [(k, v)].
Proof.
  induction d as [| [k0 v0] d IH]; cbn; intros Hout; [reflexivity |].
  apply not_elem_of_cons in Hout as [Hne Hout].
  rewrite decide_False by exact Hne. f_equal. now apply IH.
Qed.

(** [max(d, key=d.get)] on integers: the entries before the one chosen
    are smaller, those after it are not larger. *)
Lemma argmax_from_split (d' : list (K * Z)) :
  forall l1 best l2,
    (forall kv, kv ∈ l1 -> snd kv < snd best) ->
    (forall kv, kv ∈ l2 -> snd kv <= snd best) ->
    exists l1' b' l2',
      l1 ++ best :: l2 ++ d' = l1' ++ b' :: l2'
      /\ Dict.argmax_from Z.ltb best d' = fst b'
      /\ (forall kv, kv ∈ l1' -> snd kv < snd b')
      /\ (forall kv, kv ∈ l2' -> snd kv <= snd b').
Proof.
  induction d' as [| kv d' IH]; intros l1 best l2 H1 H2; cbn.
  - exists l1, best, l2. rewrite app_nil_r. auto.
  - destruct (Z.ltb_spec (snd best) (snd kv)) as [Hlt | Hge].
    + destruct (IH (l1 ++ best :: l2) kv []) as (l1' & b' & l2' & Heq & Hrest).
      * intros x Hx. apply elem_of_app in Hx as [Hx | Hx].
        -- specialize (H1 x Hx). lia.
        -- apply elem_of_cons in Hx as [-> | Hx]; [lia |].
           specialize (H2 x Hx). lia.
      * intros x Hx. inversion Hx.
      * exists l1', b', l2'. split; [| exact Hrest].
        rewrite <- Heq. now rewrite <- app_assoc.
    + destruct (IH l1 best (l2 ++ [kv])) as (l1' & b' & l2' & Heq & Hrest).
      * exact H1.
      * intros x Hx. apply elem_of_app in Hx as [Hx | Hx]; [now apply H2 |].
        apply list_elem_of_singleton in Hx as ->. lia.
      * exists l1', b', l2'. split; [| exact Hrest].
        rewrite <- Heq. now rewrite <- app_assoc.
Qed.

Lemma argmax_split (d : list (K * Z)) k :
  Dict.argmax Z.ltb d = Some k ->
  exists (l1 : list (K * Z)) (v : Z) (l2 : list (K * Z)),
    d = l1 ++ (k, v) :: l2
    /\ (forall kv, kv ∈ l1 -> snd kv < v)
    /\ (forall kv, kv ∈ l2 -> snd kv <= v).
Proof.
  destruct d as [| best d']; cbn; [discriminate |]. intros [= <-].
  destruct (argmax_from_split d' [] best [])
    as (l1 & [k v] & l2 & Heq & Hk & H1 & H2).
  - intros kv Hkv. inversion Hkv.
  - intros kv Hkv. inversion Hkv.
  - exists l1, v, l2. cbn in *. rewrite Hk. auto.
Qed.
End DictFacts.

(** ** The peak hour *)

Section PeakHour.
Import AnalyticsService.

(** The table of hours after the hours [hs], from the empty table. *)
Lemma hour_distribution_start_hours (logs : list CallData.t) :
  hour_distribution logs =
  fold_left (fun d h => increment h d) (start_hours logs) [].
Proof.
  unfold hour_distribution, start_hours.
  generalize (@nil (Z * Z)). induction logs as [| c logs IH]; intros d.
  - reflexivity.
  - cbn. apply IH.
Qed.

Lemma occurrences_snoc (h x : Z) (hs : list Z) :
  occurrences h (hs ++ [x]) =
  occurrences h hs + (if decide (x = h) then 1 else 0).
Proof.
  unfold occurrences. rewrite filter_app, length_app.
  case_decide as Hx.
  - rewrite filter_cons_True by exact Hx. cbn. lia.
  - rewrite filter_cons_False by exact Hx. cbn. lia.
Qed.

Lemma occurrences_absent (h : Z) (hs : list Z) :
  h ∉ hs -> occurrences h hs = 0.
Proof.
  intros Hout. unfold occurrences.
  induction hs as [| x hs IH]; [reflexivity |].
  apply not_elem_of_cons in Hout as [Hne Hout].
  rewrite filter_cons_False by congruence. now apply IH.
Qed.

Lemma occurrences_present (h : Z) (hs : list Z) :
  h ∈ hs -> 0 < occurrences h hs.
Proof.
  intros Hin. unfold occurrences.
  induction hs as [| x hs IH]; [inversion Hin |].
  destruct (decide (x = h)) as [-> | Hne].
  - rewrite filter_cons_True by reflexivity. cbn. lia.
  - rewrite filter_cons_False by exact Hne.
    apply elem_of_cons in Hin as [-> | Hin]; [contradiction | now apply IH].
Qed.

(** The table built from the hours [hs]: each hour of [hs] is a key once,
    its value is the number of its occurrences, and the keys stand in the
    order in which the hours first occur. *)
Lemma tally_spec (hs : list Z) :
  let d := fold_left (fun d h => increment h d) hs [] in
  NoDup (map fst d)
  /\ (forall h,
        Dict.get h d =
        if decide (h ∈ hs) then Some (occurrences h hs) else None)
  /\ (forall a p,
        map fst d !! a = Some p ->
        exists i,
          hs !! i = Some p
          /\ forall j h',
               (j < i)%nat -> hs !! j = Some h' ->
               exists b, (b < a)%nat /\ map fst d !! b = Some h').
Proof.
  induction hs as [| x hs IH] using rev_ind; cbn zeta.
  - cbn. split; [constructor |]. split.
    + intros h. rewrite decide_False; [reflexivity | intros Hin; inversion Hin].
    + intros a p Ha. destruct a; discriminate Ha.
  - rewrite fold_left_app. cbn [fold_left].
    cbn zeta in IH. destruct IH as (Hnd & Hget & Hord).
    set (d := fold_left (fun d h => increment h d) hs []) in *.
    unfold increment.
    destruct (decide (x ∈ hs)) as [Hin | Hout].
    + (* an hour seen before: its value grows, the keys stay *)
      assert (Hkey : x ∈ map fst d).
      { apply dec_stable. intros Hn. apply get_None in Hn.
        rewrite Hget, decide_True in Hn by exact Hin. discriminate. }
      split; [now rewrite set_present |]. split.
      * intros h. rewrite get_set, occurrences_snoc, !Hget.
        rewrite (decide_True (P := x ∈ hs)) by exact Hin. cbn [default].
        destruct (decide (h = x)) as [-> | Hne].
        -- rewrite !decide_True; [reflexivity | reflexivity |].
           apply elem_of_app. now left.
        -- rewrite (decide_False (P := x = h)) by congruence.
           rewrite Z.add_0_r.
           destruct (decide (h ∈ hs)) as [Hh | Hh].
           ++ rewrite decide_True; [reflexivity |]. apply elem_of_app. now left.
           ++ rewrite decide_False; [reflexivity |].
              rewrite elem_of_app, list_elem_of_singleton. tauto.
      * intros a p Ha. rewrite set_present in Ha by exact Hkey.
        destruct (Hord a p Ha) as (i & Hi & Hbefore).
        exists i. split.
        -- rewrite lookup_app_l; [exact Hi |]. now apply lookup_lt_Some in Hi.
        -- intros j h' Hj Hjh. rewrite set_present by exact Hkey.
           apply (Hbefore j h' Hj).
           apply lookup_lt_Some in Hi.
           rewrite lookup_app_l in Hjh by lia. exact Hjh.
    + (* a new hour: a new key at the end, with the value 1 *)
      assert (Hkey : x ∉ map fst d).
      { apply get_None. now rewrite Hget, decide_False. }
      rewrite set_absent by exact Hkey. rewrite map_app. cbn [map fst].
      split.
      { apply NoDup_app. split; [exact Hnd |]. split.
        - intros y Hy Hy'. apply list_elem_of_singleton in Hy' as ->.
          contradiction.
        - apply NoDup_singleton. }
      split.
      * intros h.
        rewrite <- (set_absent x (default 0 (Dict.get x d) + 1) d Hkey).
        rewrite get_set, occurrences_snoc, !Hget.
        rewrite (decide_False (P := x ∈ hs)) by exact Hout. cbn [default].
        destruct (decide (h = x)) as [-> | Hne].
        -- rewrite !decide_True; [| reflexivity |].
           ++ now rewrite occurrences_absent.
           ++ rewrite elem_of_app, list_elem_of_singleton. tauto.
        -- rewrite (decide_False (P := x = h)) by congruence.
           rewrite Z.add_0_r.
           destruct (decide (h ∈ hs)) as [Hh | Hh].
           ++ rewrite decide_True; [reflexivity |]. apply elem_of_app. now left.
           ++ rewrite decide_False; [reflexivity |].
              rewrite elem_of_app, list_elem_of_singleton. tauto.
      * intros a p Ha.
        destruct (decide (a < length (map fst d))%nat) as [Hlt | Hge].
        -- rewrite lookup_app_l in Ha by exact Hlt.
           destruct (Hord a p Ha) as (i & Hi & Hbefore).
           exists i. split.
           ++ rewrite lookup_app_l; [exact Hi |].
              now apply lookup_lt_Some in Hi.
           ++ intros j h' Hj Hjh.
              apply lookup_lt_Some in Hi.
              rewrite lookup_app_l in Hjh by lia.
              destruct (Hbefore j h' Hj Hjh) as (b & Hb & Hbh).
              exists b. split; [exact Hb |].
              rewrite lookup_app_l; [exact Hbh |]. lia.
        -- rewrite lookup_app_r in Ha by lia.
           destruct (a - length (map fst d))%nat eqn:Hdiff;
             [| destruct n; discriminate Ha].
           injection Ha as <-.
           exists (length hs). split.
           ++ rewrite lookup_app_r by lia. now rewrite Nat.sub_diag.
           ++ intros j h' Hj Hjh. rewrite lookup_app_l in Hjh by exact Hj.
              assert (Hh' : h' ∈ map fst d).
              { apply dec_stable. intros Hn. apply get_None in Hn.
                rewrite Hget, decide_True in Hn; [discriminate |].
                eapply list_elem_of_lookup_2. exact Hjh. }
              apply list_elem_of_lookup_1 in Hh' as (b & Hb).
              exists b. split.
              ** apply lookup_lt_Some in Hb. lia.
              ** rewrite lookup_app_l; [exact Hb |].
                 now apply lookup_lt_Some in Hb.
Qed.

(** The peak hour of a table built from the hours [hs], which are not
    none: no hour occurs more often, and every hour met in [hs] before the
    first occurrence of the peak hour occurs less often. *)
Lemma peak_hour_of_tally (hs : list Z) :
  hs <> [] ->
  let p := peak_hour_of (fold_left (fun d h => increment h d) hs []) in
  (forall h, occurrences h hs <= occurrences p hs)
  /\ exists i,
       hs !! i = Some p
       /\ forall j h',
            (j < i)%nat -> hs !! j = Some h' ->
            occurrences h' hs < occurrences p hs.
Proof.
  intros Hne. destruct (tally_spec hs) as (Hnd & Hget & Hord).
  cbn zeta in *.
  set (d := fold_left (fun d h => increment h d) hs []) in *.
  assert (Hvalue : forall k v, (k, v) ∈ d -> k ∈ hs /\ v = occurrences k hs).
  { intros k v Hkv. apply (elem_get k v d Hnd) in Hkv.
    rewrite Hget in Hkv. case_decide; [| discriminate].
    injection Hkv as <-. auto. }
  unfold peak_hour_of.
  destruct (Dict.argmax Z.ltb d) as [p |] eqn:Hmax.
  2:{ exfalso. destruct d as [| kv d'] eqn:Hd; [| discriminate Hmax].
      destruct hs as [| x hs']; [contradiction |].
      specialize (Hget x). rewrite decide_True in Hget by left.
      discriminate Hget. }
  change (default 0 (Some p)) with p.
  destruct (argmax_split d p Hmax) as (l1 & v & l2 & Hd & Hbefore & Hafter).
  assert (Hp : p ∈ hs /\ v = occurrences p hs).
  { apply Hvalue. rewrite Hd. apply elem_of_app. right. left. }
  destruct Hp as [Hp ->]. split.
  - intros h. destruct (decide (h ∈ hs)) as [Hh | Hh].
    + specialize (Hget h). rewrite decide_True in Hget by exact Hh.
      apply get_Some_elem in Hget. rewrite Hd in Hget.
      apply elem_of_app in Hget as [Hin | Hin].
      * specialize (Hbefore _ Hin). cbn in Hbefore. lia.
      * apply elem_of_cons in Hin as [[= -> _] | Hin]; [lia |].
        specialize (Hafter _ Hin). cbn in Hafter. lia.
    + rewrite (occurrences_absent h hs Hh).
      pose proof (occurrences_present p hs Hp). lia.
  - destruct (Hord (length l1) p) as (i & Hi & Hearlier).
    { rewrite Hd, map_app, lookup_app_r by (rewrite length_map; lia).
      now rewrite length_map, Nat.sub_diag. }
    exists i. split; [exact Hi |].
    intros j h' Hj Hjh.
    destruct (Hearlier j h' Hj Hjh) as (b & Hb & Hbh).
    rewrite Hd, map_app, lookup_app_l in Hbh by (rewrite length_map; lia).
    rewrite list_lookup_fmap in Hbh.
    destruct (l1 !! b) as [[k v'] |] eqn:Hl1; [| discriminate Hbh].
    injection Hbh as ->.
    apply list_elem_of_lookup_2 in Hl1.
    specialize (Hbefore _ Hl1). cbn in Hbefore.
    destruct (Hvalue h' v') as [_ ->]; [| exact Hbefore].
    rewrite Hd. apply elem_of_app. now left.
Qed.

(** Two calls are recorded, the first started at 15 h and the second at
    9 h: each hour has one call, and the peak hour reported is 15. *)
Lemma peak_hour_prefers_first_recorded :
  Analytics.hourly_distribution
    <$> (Analytics.trends_of
           <$> returned
                 (Scenario.reported
                    [Scenario.call_at 15 []; Scenario.call_at 9 []])) =
  Some [(15, 1); (9, 1)]
  /\ Analytics.peak_hour
       <$> (Analytics.overview_of
              <$> returned
                    (Scenario.reported
                       [Scenario.call_at 15 []; Scenario.call_at 9 []])) =
     Some 15
  /\ 9 < 15.
Proof. split; [| split]; [vm_compute; reflexivity .. | lia]. Qed.

(** C8, as the code has it. On a log of calls that is not empty,
    [get_call_analytics] reports as peak hour an hour at which the most
    calls started; when several hours have that many calls, it is the one
    among them whose first call was recorded first: every call recorded
    before the first call of the peak hour started at an hour with fewer
    calls. *)
Theorem peak_hour_is_first_mode (e : Env) (a : t) :
  call_logs a <> [] ->
  exists agg w,
    get_call_analytics (e, a) = (Return agg, w)
    /\ (forall h,
          occurrences h (start_hours (call_logs a))
          <= occurrences (Analytics.peak_hour (Analytics.overview_of agg))
               (start_hours (call_logs a)))
    /\ exists i,
         start_hours (call_logs a) !! i =
         Some (Analytics.peak_hour (Analytics.overview_of agg))
         /\ forall j h',
              (j < i)%nat -> start_hours (call_logs a) !! j = Some h' ->
              occurrences h' (start_hours (call_logs a))
              < occurrences (Analytics.peak_hour (Analytics.overview_of agg))
                  (start_hours (call_logs a)).
Proof.
  intros Hne.
  destruct (get_call_analytics_run e a Hne) as (trends & e' & Hrun & _).
  do 2 eexists. split; [exact Hrun |].
  cbn [Analytics.overview_of]. unfold overview_at.
  cbn [Analytics.peak_hour].
  rewrite hour_distribution_start_hours.
  apply (peak_hour_of_tally (start_hours (call_logs a))).
  unfold start_hours. destruct (call_logs a); [contradiction | discriminate].
Qed.

End PeakHour.

(** Two recorded calls, started at 15 h and at 9 h. *)
Lemma peak_hour_is_first_mode_witness :
  AnalyticsService.call_logs
    (snd (Scenario.recorded [Scenario.call_at 15 []; Scenario.call_at 9 []]))
  <> []
  /\ exists agg w,
       AnalyticsService.get_call_analytics
         (fst (Scenario.recorded
                 [Scenario.call_at 15 []; Scenario.call_at 9 []]),
          snd (Scenario.recorded
                 [Scenario.call_at 15 []; Scenario.call_at 9 []])) =
       (Return agg, w)
       /\ forall h,
            AnalyticsService.occurrences h
              (AnalyticsService.start_hours
                 (AnalyticsService.call_logs
                    (snd (Scenario.recorded
                            [Scenario.call_at 15 []; Scenario.call_at 9 []]))))
            <= AnalyticsService.occurrences
                 (Analytics.peak_hour (Analytics.overview_of agg))
                 (AnalyticsService.start_hours
                    (AnalyticsService.call_logs
                       (snd (Scenario.recorded
                               [Scenario.call_at 15 [];
                                Scenario.call_at 9 []])))).
Proof.
  assert (Hne : AnalyticsService.call_logs
                  (snd (Scenario.recorded
                          [Scenario.call_at 15 []; Scenario.call_at 9 []]))
                <> [])
    by (vm_compute; discriminate).
  split; [exact Hne |].
  destruct (peak_hour_is_first_mode
              (fst (Scenario.recorded
                      [Scenario.call_at 15 []; Scenario.call_at 9 []]))
              (snd (Scenario.recorded
                      [Scenario.call_at 15 []; Scenario.call_at 9 []]))
              Hne)
    as (agg & w & Hrun & Hmode & _).
  exists agg, w. split; [exact Hrun | exact Hmode].
Defined.

(** ** Floats: rounding to binary64 and to two decimals *)

Section Floats.

Lemma round_half_even_between (q : Q) (lo hi : Z) :
  (inject_Z lo <= q)%Q -> (q <= inject_Z hi)%Q ->
  lo <= round_half_even q <= hi.
Proof.
  destruct q as [n d]. unfold Qle, inject_Z, round_half_even.
  cbn [Qnum Qden]. intros Hlo Hhi.
  pose proof (Z.div_mod n (Z.pos d) ltac:(lia)) as Hdm.
  pose proof (Z.mod_pos_bound n (Z.pos d) ltac:(lia)) as Hb.
  set (fl := n / Z.pos d) in *. set (r := n mod Z.pos d) in *.
  destruct (Z.compare_spec (2 * r) (Z.pos d)); [destruct (Z.even fl) | |];
    nia.
Qed.

Lemma round_half_even_ge (q : Q) (lo : Z) :
  (inject_Z lo <= q)%Q -> lo <= round_half_even q.
Proof.
  destruct q as [n d]. unfold Qle, inject_Z, round_half_even.
  cbn [Qnum Qden]. intros Hlo.
  pose proof (Z.div_mod n (Z.pos d) ltac:(lia)) as Hdm.
  pose proof (Z.mod_pos_bound n (Z.pos d) ltac:(lia)) as Hb.
  set (fl := n / Z.pos d) in *. set (r := n mod Z.pos d) in *.
  destruct (Z.compare_spec (2 * r) (Z.pos d)); [destruct (Z.even fl) | |];
    nia.
Qed.

Lemma round_half_even_le (q : Q) (hi : Z) :
  (q <= inject_Z hi)%Q -> round_half_even q <= hi.
Proof.
  destruct q as [n d]. unfold Qle, inject_Z, round_half_even.
  cbn [Qnum Qden]. intros Hhi.
  pose proof (Z.div_mod n (Z.pos d) ltac:(lia)) as Hdm.
  pose proof (Z.mod_pos_bound n (Z.pos d) ltac:(lia)) as Hb.
  set (fl := n / Z.pos d) in *. set (r := n mod Z.pos d) in *.
  destruct (Z.compare_spec (2 * r) (Z.pos d)); [destruct (Z.even fl) | |];
    nia.
Qed.

Lemma round_half_even_close (q : Q) :
  2 * Z.abs (round_half_even q * Z.pos (Qden q) - Qnum q) <= Z.pos (Qden q).
Proof.
  unfold round_half_even.
  pose proof (Z.div_mod (Qnum q) (Z.pos (Qden q)) ltac:(lia)) as Hdm.
  pose proof (Z.mod_pos_bound (Qnum q) (Z.pos (Qden q)) ltac:(lia)) as Hb.
  set (fl := Qnum q / Z.pos (Qden q)) in *.
  set (r := Qnum q mod Z.pos (Qden q)) in *.
  destruct (Z.compare_spec (2 * r) (Z.pos (Qden q))); [destruct (Z.even fl) | |];
    lia.
Qed.

Lemma round_half_even_near (q : Q) :
  (Qabs (inject_Z (round_half_even q) - q) <= 1 # 2)%Q.
Proof.
  pose proof (round_half_even_close q) as H.
  set (r := round_half_even q) in *.
  destruct q as [n d]. cbn [Qnum Qden] in H.
  unfold Qle, Qabs, Qminus, Qplus, Qopp, inject_Z. cbn [Qnum Qden]. lia.
Qed.

Lemma pow2_pos (e : Z) : (0 < 2 ^ e)%Q.
Proof. apply Qpower_0_lt. reflexivity. Qed.

Lemma ilog2_le (q : Q) : (0 < q)%Q -> (2 ^ ilog2 q <= q)%Q.
Proof.
  intros Hq. unfold ilog2.
  set (a := Z.log2 (Qnum q)). set (b := Z.log2 (Z.pos (Qden q))).
  destruct (Qle_bool (2 ^ (a - b)) q) eqn:Htest.
  - apply Qle_bool_iff. exact Htest.
  - assert (Hn : 0 < Qnum q).
    { destruct q as [n d]. unfold Qlt in Hq. cbn in Hq |- *. lia. }
    pose proof (Z.log2_spec (Qnum q) Hn) as [Ha _].
    pose proof (Z.log2_spec (Z.pos (Qden q)) ltac:(lia)) as [_ Hb].
    fold a in Ha. fold b in Hb.
    pose proof (Z.log2_nonneg (Qnum q)) as Ha0. fold a in Ha0.
    pose proof (Z.log2_nonneg (Z.pos (Qden q))) as Hb0. fold b in Hb0.
    replace (a - b - 1) with (a - Z.succ b) by lia.
    rewrite Qpower_minus by discriminate.
    change 2%Q with (inject_Z 2).
    rewrite <- !Zpower_Qpower by lia.
    apply Qle_shift_div_r.
    + change 0%Q with (inject_Z 0). rewrite <- Zlt_Qlt. lia.
    + destruct q as [n d]. unfold Qle, Qmult, inject_Z. cbn [Qnum Qden] in *.
      set (A := 2 ^ a) in *. set (B := 2 ^ Z.succ b) in *. nia.
Qed.

Lemma ilog2_lt (q : Q) (k : Z) : (0 < q)%Q -> (q < 2 ^ k)%Q -> ilog2 q < k.
Proof.
  intros Hq Hk. apply (Qpower_lt_compat_l_inv 2); [| reflexivity].
  eapply Qle_lt_trans; [apply ilog2_le; exact Hq | exact Hk].
Qed.

(** The power of two of an exponent that is not positive is the inverse
    of a whole number. *)
Lemma pow2_inverse (e : Z) :
  e <= 0 -> (inject_Z (2 ^ (- e)) * 2 ^ e == 1)%Q.
Proof.
  intros He. rewrite Zpower_Qpower by lia.
  change (inject_Z 2) with 2%Q.
  rewrite <- Qpower_plus by discriminate.
  replace (- e + e) with 0 by lia. reflexivity.
Qed.

Lemma to_double_unfold (q : Q) :
  ~ (q == 0)%Q ->
  let e := Z.max (ilog2 (Qabs q) - 52) (-1074) in
  (to_double q == inject_Z (round_half_even (q / 2 ^ e)) * 2 ^ e)%Q.
Proof.
  intros Hq e. unfold to_double.
  destruct (Qeq_bool q 0) eqn:Hz.
  - apply Qeq_bool_iff in Hz. contradiction.
  - rewrite Qred_correct. reflexivity.
Qed.

Lemma to_double_zero (q : Q) : (q == 0)%Q -> to_double q = 0%Q.
Proof.
  intros Hq. unfold to_double. apply Qeq_bool_iff in Hq. rewrite Hq.
  reflexivity.
Qed.

Lemma to_double_nonneg (q : Q) : (0 <= q)%Q -> (0 <= to_double q)%Q.
Proof.
  intros Hq. destruct (Qeq_dec q 0) as [Hz | Hz].
  - rewrite (to_double_zero q Hz). apply Qle_refl.
  - rewrite (to_double_unfold q Hz).
    set (e := Z.max _ _). pose proof (pow2_pos e) as HP.
    apply Qmult_le_0_compat; [| apply Qlt_le_weak; exact HP].
    change 0%Q with (inject_Z 0). rewrite <- Zle_Qle.
    apply round_half_even_ge. change (inject_Z 0) with 0%Q.
    apply Qle_shift_div_l; [exact HP |]. rewrite Qmult_0_l. exact Hq.
Qed.

(** The exponent of a number below [2 ^ k] in absolute value. *)
Lemma exponent_le (q : Q) (k : Z) :
  ~ (q == 0)%Q -> (Qabs q < 2 ^ k)%Q -> -1021 <= k ->
  Z.max (ilog2 (Qabs q) - 52) (-1074) <= k - 53.
Proof.
  intros Hq Hk Hmin.
  assert (ilog2 (Qabs q) < k); [| lia].
  apply ilog2_lt; [| exact Hk].
  destruct (Qle_lt_or_eq _ _ (Qabs_nonneg q)) as [H | H]; [exact H |].
  exfalso. apply Hq. symmetry in H.
  assert (Hle : (Qabs q <= 0)%Q) by (rewrite H; apply Qle_refl).
  apply Qabs_Qle_condition in Hle. destruct Hle as [H1 H2].
  apply Qle_antisym; [exact H2 | exact H1].
Qed.

(** Rounding to a double does not cross a whole number that a double
    holds. *)
Lemma to_double_le (q : Q) (B : Z) :
  (q <= inject_Z B)%Q -> 0 <= B < 2 ^ 53 -> (to_double q <= inject_Z B)%Q.
Proof.
  intros Hq HB. destruct (Qeq_dec q 0) as [Hz | Hz].
  { rewrite (to_double_zero q Hz). change 0%Q with (inject_Z 0).
    rewrite <- Zle_Qle. lia. }
  rewrite (to_double_unfold q Hz).
  set (e := Z.max _ _). pose proof (pow2_pos e) as HP.
  destruct (Qlt_le_dec 0 q) as [Hpos | Hneg].
  - assert (He : e <= 0).
    { pose proof (exponent_le q 53 Hz) as H. fold e in H.
      assert (e <= 53 - 53) as He'; [apply H; [| lia] | lia].
      rewrite Qabs_pos by (apply Qlt_le_weak; exact Hpos).
      eapply Qle_lt_trans; [exact Hq |].
      change 2%Q with (inject_Z 2). rewrite <- Zpower_Qpower by lia.
      rewrite <- Zlt_Qlt. lia. }
    pose proof (pow2_inverse e He) as Hinv.
    set (N := 2 ^ (- e)) in *.
    assert (HN : (0 < inject_Z N)%Q).
    { change 0%Q with (inject_Z 0). rewrite <- Zlt_Qlt.
      apply Z.pow_pos_nonneg; lia. }
    assert (Hm : round_half_even (q / 2 ^ e) <= B * N).
    { apply round_half_even_le. rewrite inject_Z_mult.
      apply Qle_shift_div_r; [exact HP |].
      rewrite <- Qmult_assoc, Hinv, Qmult_1_r. exact Hq. }
    rewrite Zle_Qle in Hm. rewrite inject_Z_mult in Hm.
    apply (Qmult_le_compat_r _ _ (2 ^ e)) in Hm;
      [| apply Qlt_le_weak; exact HP].
    rewrite <- Qmult_assoc, Hinv, Qmult_1_r in Hm. exact Hm.
  - apply Qle_trans with 0%Q.
    + assert (Hm : round_half_even (q / 2 ^ e) <= 0).
      { apply round_half_even_le. change (inject_Z 0) with 0%Q.
        apply Qle_shift_div_r; [exact HP |]. rewrite Qmult_0_l. exact Hneg. }
      rewrite Zle_Qle in Hm.
      apply (Qmult_le_compat_r _ _ (2 ^ e)) in Hm;
        [| apply Qlt_le_weak; exact HP].
      rewrite Qmult_0_l in Hm. exact Hm.
    + change 0%Q with (inject_Z 0). rewrite <- Zle_Qle. lia.
Qed.

(** Rounding to a double moves a number by at most half a unit in the
    last place. *)
Lemma to_double_close (q : Q) (k : Z) :
  (Qabs q < 2 ^ k)%Q -> -1021 <= k ->
  (Qabs (to_double q - q) <= 2 ^ (k - 54))%Q.
Proof.
  intros Hk Hmin. destruct (Qeq_dec q 0) as [Hz | Hz].
  { rewrite (to_double_zero q Hz).
    assert (H : (0 - q == 0)%Q) by (rewrite Hz; reflexivity).
    rewrite H. apply Qlt_le_weak, pow2_pos. }
  pose proof (exponent_le q k Hz Hk Hmin) as He.
  rewrite (to_double_unfold q Hz).
  set (e := Z.max _ _) in *. pose proof (pow2_pos e) as HP.
  pose proof (round_half_even_near (q / 2 ^ e)) as Hnear.
  set (m := inject_Z (round_half_even (q / 2 ^ e))) in *.
  assert (Heq : (m * 2 ^ e - q == (m - q / 2 ^ e) * 2 ^ e)%Q).
  { field. intros H. rewrite H in HP. discriminate. }
  rewrite Heq, Qabs_Qmult.
  rewrite (Qabs_pos (2 ^ e)) by (apply Qlt_le_weak; exact HP).
  apply Qle_trans with ((1 # 2) * 2 ^ e)%Q.
  - apply Qmult_le_compat_r; [exact Hnear | apply Qlt_le_weak; exact HP].
  - replace (k - 54) with (-1 + (k - 53)) by lia.
    rewrite Qpower_plus by discriminate.
    change (2 ^ (-1))%Q with (1 # 2)%Q.
    apply Qmult_le_l; [reflexivity |].
    apply Qpower_le_compat_l; [exact He | discriminate].
Qed.

Lemma Qabs_small (q : Q) (hi : Q) (k : Z) :
  (0 <= q)%Q -> (q <= hi)%Q -> (hi < 2 ^ k)%Q -> (Qabs q < 2 ^ k)%Q.
Proof.
  intros H0 H1 H2. rewrite Qabs_pos by exact H0.
  eapply Qle_lt_trans; [exact H1 | exact H2].
Qed.

(** Between nought and a hundred, rounding to a double moves a number by
    at most [2 ^ -47]. *)
Lemma to_double_percent (q : Q) :
  (0 <= q)%Q -> (q <= 100)%Q ->
  (0 <= to_double q)%Q /\ (to_double q <= 100)%Q
  /\ (- (1 # 140737488355328) <= to_double q - q)%Q
  /\ (to_double q - q <= 1 # 140737488355328)%Q.
Proof.
  intros H0 H1. split; [apply to_double_nonneg; exact H0 |].
  split; [apply (to_double_le q 100); [exact H1 | lia] |].
  apply Qabs_Qle_condition.
  apply (to_double_close q 7); [| lia].
  apply (Qabs_small q 100); [exact H0 | exact H1 | reflexivity].
Qed.

Lemma to_double_unit (q : Q) :
  (0 <= q)%Q -> (q <= 1)%Q -> (to_double q <= 1)%Q.
Proof. intros H0 H1. apply (to_double_le q 1); [exact H1 | lia]. Qed.

Lemma ratio_unit (a b : Z) :
  0 <= a <= b -> 0 < b ->
  (0 <= inject_Z a / inject_Z b)%Q /\ (inject_Z a / inject_Z b <= 1)%Q.
Proof.
  intros Ha Hb. destruct b as [| b | b]; try lia.
  unfold Qdiv, Qmult, Qinv, Qle, inject_Z. cbn [Qnum Qden]. nia.
Qed.

(** [(a / b) * 100], for a part [a] of a whole [b], is a percentage, and
    [2 ^ -39] away from the exact one at most. *)
Lemma percentage_spec (a b : Z) :
  0 <= a <= b -> 0 < b ->
  (0 <= percentage a b)%Q /\ (percentage a b <= 100)%Q
  /\ (Qabs (percentage a b - inject_Z a / inject_Z b * 100)
      <= 1 # 549755813888)%Q.
Proof.
  intros Ha Hb. unfold percentage, fmul, true_div.
  destruct (ratio_unit a b Ha Hb) as [Hr0 Hr1].
  set (r := (inject_Z a / inject_Z b)%Q) in *.
  assert (Hr100 : (r <= 100)%Q) by lra.
  destruct (to_double_percent r Hr0 Hr100) as (Hy0 & _ & Hy1 & Hy2).
  pose proof (to_double_unit r Hr0 Hr1) as Hy3.
  set (y := to_double r) in *.
  assert (Hy100 : (y <= 100)%Q) by lra.
  destruct (to_double_percent y Hy0 Hy100) as (Hz0 & _ & Hz1 & Hz2).
  pose proof (to_double_unit y Hy0 Hy3) as Hz3.
  set (y' := to_double y) in *.
  replace (to_double 100) with 100%Q by (vm_compute; reflexivity).
  assert (Hp0 : (0 <= y' * 100)%Q) by lra.
  assert (Hp1 : (y' * 100 <= 100)%Q) by lra.
  destruct (to_double_percent (y' * 100) Hp0 Hp1) as (Hw0 & Hw1 & Hw2 & Hw3).
  set (z := to_double (y' * 100)) in *.
  split; [exact Hw0 |]. split; [exact Hw1 |].
  apply Qabs_Qle_condition. lra.
Qed.

(** Rounding to two decimals keeps a percentage a percentage, and moves
    it by little more than half a hundredth. *)
Lemma round2_spec (q : Q) :
  (0 <= q)%Q -> (q <= 100)%Q ->
  (0 <= round2 q)%Q /\ (round2 q <= 100)%Q
  /\ (Qabs (round2 q - q) <= 5001 # 1000000)%Q.
Proof.
  intros H0 H1. unfold round2.
  destruct (to_double_percent q H0 H1) as (Hx0 & Hx1 & Hx2 & Hx3).
  set (x := to_double q) in *.
  destruct (round_half_even_between (x * 100) 0 10000) as [Hn0 Hn1].
  { change (inject_Z 0) with 0%Q. lra. }
  { change (inject_Z 10000) with 10000%Q. lra. }
  pose proof (round_half_even_near (x * 100)) as Hnear.
  apply Qabs_Qle_condition in Hnear.
  set (n := round_half_even (x * 100)) in *.
  assert (Hw : (n # 100 == inject_Z n / 100)%Q).
  { rewrite (Qmake_Qdiv n 100). reflexivity. }
  rewrite Zle_Qle in Hn0, Hn1.
  change (inject_Z 0) with 0%Q in Hn0.
  change (inject_Z 10000) with 10000%Q in Hn1.
  assert (Hw' : ((n # 100) * 100 == inject_Z n)%Q) by (rewrite Hw; field).
  clear Hw. set (w := (n # 100)%Q) in *. set (m := inject_Z n) in *.
  clearbody w m.
  assert (Hw0 : (0 <= w)%Q) by lra.
  assert (Hw1 : (w <= 100)%Q) by lra.
  destruct (to_double_percent w Hw0 Hw1) as (Hr0 & Hr1 & Hr2 & Hr3).
  split; [exact Hr0 |]. split; [exact Hr1 |].
  apply Qabs_Qle_condition. lra.
Qed.

Lemma round2_percent (q : Q) :
  (0 <= q)%Q -> (q <= 100)%Q -> (0 <= round2 q)%Q /\ (round2 q <= 100)%Q.
Proof.
  intros H0 H1. destruct (round2_spec q H0 H1) as (H & H' & _).
  split; [exact H | exact H'].
Qed.

Lemma percentage_between (a b : Z) :
  0 <= a <= b -> 0 < b ->
  (0 <= percentage a b)%Q /\ (percentage a b <= 100)%Q.
Proof.
  intros Ha Hb. destruct (percentage_spec a b Ha Hb) as (H & H' & _).
  split; [exact H | exact H'].
Qed.

Lemma round2_percentage_close (a b : Z) :
  0 <= a <= b -> 0 < b ->
  (Qabs (round2 (percentage a b) - inject_Z a / inject_Z b * 100)
   <= 1 # 100)%Q.
Proof.
  intros Ha Hb. destruct (percentage_spec a b Ha Hb) as (H0 & H1 & H2).
  destruct (round2_spec _ H0 H1) as (_ & _ & H3).
  apply Qabs_Qle_condition in H2, H3. apply Qabs_Qle_condition. lra.
Qed.

(** A sum of floats is not the sum of the numbers: twenty-five times 0.9
    add up to a float whose twenty-fifth is 0.8999999999999997, and the
    product [(23 / 160) * 100] is a float below 14.375, which [round]
    takes to 14.37. The float nearest to 2.675 is below it, and [round]
    takes it to 2.67. *)
Lemma floats_round_every_step :
  fdiv (fsum (replicate 25 0.9%Q)) 25
  = to_double (8999999999999997 # 10000000000000000)
  /\ fdiv (fsum (replicate 25 0.9%Q)) 25 <> to_double 0.9
  /\ round2 (percentage 23 160) = to_double (1437 # 100)
  /\ round2 2.675%Q = to_double (267 # 100).
Proof. repeat split; vm_compute; reflexivity || discriminate. Qed.

End Floats.

(** ** The satisfaction estimate *)

Section Satisfaction.
Import AnalyticsService.

(** The loop counts, side by side, the messages that mention a positive
    word and those that mention a negative word. *)
Lemma count_indicators_from (logs : list InteractionData.t) :
  forall p n,
    fold_left
      (fun counters log =>
         let message := Str.lower (InteractionData.user_message log) in
         let positive_indicators :=
           if Str.any_in positive_words message then fst counters + 1
           else fst counters in
         let negative_indicators :=
           if Str.any_in negative_words message then snd counters + 1
           else snd counters in
         (positive_indicators, negative_indicators))
      logs (p, n) =
    (p + Z.of_nat (length (filter (mentions positive_words) logs)),
     n + Z.of_nat (length (filter (mentions negative_words) logs))).
Proof.
  induction logs as [| log logs IH]; intros p n.
  - cbn. f_equal; lia.
  - cbn [fold_left fst snd]. rewrite IH.
    destruct (Str.any_in positive_words
                (Str.lower (InteractionData.user_message log))) eqn:Hp;
      destruct (Str.any_in negative_words
                  (Str.lower (InteractionData.user_message log))) eqn:Hn;
      rewrite ?(filter_cons_True (mentions positive_words)),
        ?(filter_cons_False (mentions positive_words)),
        ?(filter_cons_True (mentions negative_words)),
        ?(filter_cons_False (mentions negative_words))
        by (unfold mentions; congruence);
      cbn [length]; f_equal; lia.
Qed.

Lemma count_indicators_spec (logs : list InteractionData.t) :
  count_indicators logs =
  (Z.of_nat (length (filter (mentions positive_words) logs)),
   Z.of_nat (length (filter (mentions negative_words) logs))).
Proof. unfold count_indicators. now rewrite count_indicators_from. Qed.

(** A call without any message of the user is recorded: no text is
    logged, so no word is found, and the estimate reported is 0, not 75.
    A call with one message of thanks and two complaints is recorded: the
    estimate reported is the float 33.33, not a third of 100. *)
Lemma satisfaction_is_neither_baseline_nor_ratio :
  interaction_logs (snd (Scenario.recorded [Scenario.call_at 15 []])) = []
  /\ Analytics.user_satisfaction
       <$> (Analytics.performance_of
              <$> returned (Scenario.reported [Scenario.call_at 15 []])) =
     Some 0%Q
  /\ ~ (0 == 75)%Q
  /\ count_indicators
       (interaction_logs
          (snd (Scenario.recorded
                  [Scenario.call_at 10 Scenario.mixed_feelings]))) = (1, 2)
  /\ Analytics.user_satisfaction
       <$> (Analytics.performance_of
              <$> returned
                    (Scenario.reported
                       [Scenario.call_at 10 Scenario.mixed_feelings])) =
     Some (to_double (3333 # 100))
  /\ ~ (to_double (3333 # 100) == inject_Z 1 / inject_Z (1 + 2) * 100)%Q
  /\ ~ (to_double (3333 # 100) == percentage 1 (1 + 2))%Q.
Proof.
  repeat split; try (vm_compute; reflexivity);
    intros H; vm_compute in H; discriminate H.
Qed.

(** C9, as the code has it. The estimate counts the logged messages that
    mention a positive word and those that mention a negative word. With
    no logged message it is 0. With logged messages none of which mentions
    such a word it is the baseline 75. Otherwise it is the float
    [(positive / (positive + negative)) * 100] rounded by [round(., 2)]:
    a float between 0 and 100, within a hundredth of the exact
    percentage. It is what [get_call_analytics] reports as user
    satisfaction on a log of calls that is not empty. *)
Theorem user_satisfaction_estimate (a : t) :
  let positive :=
    Z.of_nat (length (filter (mentions positive_words) (interaction_logs a))) in
  let negative :=
    Z.of_nat (length (filter (mentions negative_words) (interaction_logs a))) in
  let ratio := (inject_Z positive / inject_Z (positive + negative) * 100)%Q in
  count_indicators (interaction_logs a) = (positive, negative)
  /\ (interaction_logs a = [] -> _estimate_user_satisfaction a = 0%Q)
  /\ (interaction_logs a <> [] -> positive + negative = 0 ->
      _estimate_user_satisfaction a = 75%Q)
  /\ (positive + negative <> 0 ->
      _estimate_user_satisfaction a =
      round2 (percentage positive (positive + negative))
      /\ (0 <= _estimate_user_satisfaction a)%Q
      /\ (_estimate_user_satisfaction a <= 100)%Q
      /\ (Qabs (_estimate_user_satisfaction a - ratio) <= 1 # 100)%Q)
  /\ (forall e : Env,
        call_logs a <> [] ->
        exists agg w,
          get_call_analytics (e, a) = (Return agg, w)
          /\ Analytics.user_satisfaction (Analytics.performance_of agg) =
             _estimate_user_satisfaction a).
Proof.
  intros positive negative ratio.
  pose proof (count_indicators_spec (interaction_logs a)) as Hcount.
  fold positive negative in Hcount.
  split; [exact Hcount |].
  unfold _estimate_user_satisfaction. rewrite Hcount. cbn [fst snd].
  split; [| split; [| split]].
  - intros ->. reflexivity.
  - intros Hne Hzero. destruct (interaction_logs a); [contradiction |].
    now rewrite decide_True.
  - intros Hhits.
    assert (Hlogs : interaction_logs a <> []).
    { intros Hnil. apply Hhits. subst positive negative.
      now rewrite Hnil. }
    assert (Heq : match interaction_logs a with
                  | [] => 0%Q
                  | _ :: _ =>
                      if decide (positive + negative = 0) then 75%Q
                      else
                        round2
                          (percentage positive (positive + negative))
                  end = round2 (percentage positive (positive + negative))).
    { destruct (interaction_logs a); [contradiction |].
      now rewrite decide_False. }
    rewrite Heq. split; [reflexivity |].
    assert (Hpart : 0 <= positive <= positive + negative)
      by (subst positive negative; lia).
    assert (Hwhole : 0 < positive + negative)
      by (subst positive negative; lia).
    destruct (percentage_spec positive (positive + negative) Hpart Hwhole)
      as (H0 & H100 & _).
    destruct (round2_percent _ H0 H100) as [Hlo Hhi].
    split; [exact Hlo |]. split; [exact Hhi |].
    apply round2_percentage_close; assumption.
  - intros e Hne.
    destruct (get_call_analytics_run e a Hne) as (trends & e' & Hrun & _).
    do 2 eexists. split; [exact Hrun |].
    cbn [Analytics.performance_of Analytics.user_satisfaction].
    unfold _estimate_user_satisfaction. now rewrite Hcount.
Qed.

End Satisfaction.

(** Twenty-three messages of thanks and 137 complaints: the product
    [(23 / 160) * 100] is a float, and the estimate is 14.37. *)
Lemma user_satisfaction_estimate_witness :
  AnalyticsService._estimate_user_satisfaction
    (snd (Scenario.recorded [Scenario.call_at 10 (Scenario.poll 23 137)])) =
  to_double (1437 # 100).
Proof.
  destruct (user_satisfaction_estimate
              (snd (Scenario.recorded
                      [Scenario.call_at 10 (Scenario.poll 23 137)])))
    as (_ & _ & _ & Hratio & _).
  destruct Hratio as [Hvalue _].
  { vm_compute. discriminate. }
  rewrite Hvalue. vm_compute. reflexivity.
Defined.

(** * Further properties *)

(** ** Sorting *)

Section SortFacts.
Context {A : Type} (key : A -> Z).

Lemma insert_desc_perm (x : A) (l : list A) :
  Permutation (insert_desc key x l) (x :: l).
Proof.
  induction l as [| y l IH]; cbn; [reflexivity |].
  destruct (Z.leb (key y) (key x)); [reflexivity |].
  rewrite IH. apply Permutation_swap.
Qed.

Lemma sort_desc_perm (l : list A) : Permutation (sort_desc key l) l.
Proof.
  induction l as [| x l IH]; cbn; [reflexivity |].
  rewrite insert_desc_perm. now rewrite IH.
Qed.

Lemma insert_desc_sorted (x : A) (l : list A) :
  StronglySorted (fun a b => key b <= key a) l ->
  StronglySorted (fun a b => key b <= key a) (insert_desc key x l).
Proof.
  induction 1 as [| y l Hl IH Hy]; cbn.
  - repeat constructor.
  - destruct (Z.leb_spec (key y) (key x)) as [Hle | Hgt].
    + constructor; [now constructor |].
      constructor; [exact Hle |].
      eapply Forall_impl; [exact Hy |]. cbn. intros z Hz. lia.
    + constructor; [exact IH |].
      rewrite (insert_desc_perm x l). constructor; [lia | exact Hy].
Qed.

Lemma sort_desc_sorted (l : list A) :
  StronglySorted (fun a b => key b <= key a) (sort_desc key l).
Proof.
  induction l as [| x l IH]; cbn; [constructor |].
  now apply insert_desc_sorted.
Qed.

(** The elements of one key keep their order. *)
Lemma insert_desc_filter (k : Z) (x : A) (s : list A) :
  filter (fun a => key a = k) (insert_desc key x s) =
  filter (fun a => key a = k) (x :: s).
Proof.
  induction s as [| y s IHs]; [reflexivity |].
  cbn [insert_desc].
  destruct (Z.leb_spec (key y) (key x)) as [Hle | Hgt]; [reflexivity |].
  rewrite (filter_cons _ y), IHs, !(filter_cons _ x), (filter_cons _ y).
  destruct (decide (key x = k)) as [Hx | Hx];
    destruct (decide (key y = k)) as [Hy | Hy]; try reflexivity.
  lia.
Qed.

Lemma sort_desc_stable (k : Z) (l : list A) :
  filter (fun a => key a = k) (sort_desc key l) =
  filter (fun a => key a = k) l.
Proof.
  induction l as [| x l IH]; [reflexivity |].
  cbn [sort_desc foldr]. rewrite insert_desc_filter.
  fold (sort_desc key l). rewrite !(filter_cons _ x), IH. reflexivity.
Qed.
End SortFacts.

(** ** The life of a session in the manager (models/conversation.py) *)

Section SessionLife.
Import ConversationManager.

Lemma get_del_same {V : Type} (k : string) (d : list (string * V)) :
  NoDup (map fst d) -> Dict.get k (Dict.del k d) = None.
Proof.
  induction d as [| [k0 v0] d IH]; cbn; intros Hnd; [reflexivity |].
  apply NoDup_cons in Hnd as [Hk0 Hnd].
  case_decide as Hk.
  - subst. now apply get_None.
  - cbn. rewrite decide_False by exact Hk. now apply IH.
Qed.

(** X1. Ending the session of a client a second time does nothing: once
    [end_session] has run for a client, a second call returns [None] and
    changes neither the active sessions nor the history, so the history
    holds the session once; [get_session] returns [None] as well. *)
Theorem end_session_twice (k : string) (e : Env) (m : t) :
  NoDup (map fst (active_sessions m)) ->
  exists r e1 m1,
    end_session k (e, m) = (Return r, (e1, m1))
    /\ session_history m1 =
       session_history m ++ match r with Some s => [s] | None => [] end
    /\ end_session k (e1, m1) = (Return None, (e1, m1))
    /\ get_session k (e1, m1) = (Return None, (e1, m1)).
Proof.
  intros Hnd.
  destruct (Dict.get k (active_sessions m)) as [s |] eqn:Hget.
  - rewrite (end_session_run k e m s Hget). do 3 eexists.
    split; [reflexivity |]. split; [reflexivity |].
    unfold end_session, get_session, bind, get_self, ret.
    cbn [snd active_sessions]. rewrite (get_del_same k _ Hnd). auto.
  - exists None, e, m. unfold end_session, get_session, bind, get_self, ret.
    cbn [snd]. rewrite Hget. rewrite app_nil_r. destruct m. auto.
Qed.

(** X2. [add_interaction] of the manager with a client that has no active
    session returns [False] and changes nothing, the clock is not read.
    With a client that has one it returns [True]: that session gets the
    exchange, stamped with the next two readings of the clock, the other
    sessions and the order of the clients stay, and so does the
    history. *)
Theorem manager_add_interaction (k u a : string) (c : Q) (e : Env) (m : t) :
  match Dict.get k (active_sessions m) with
  | None => add_interaction k u a c (e, m) = (Return false, (e, m))
  | Some s =>
      exists m1,
        add_interaction k u a c (e, m) =
        (Return true, (tick (tick e), m1))
        /\ Dict.get k (active_sessions m1) =
           Some
             (ConversationSession.add_interaction (clock e (ticks e))
                (clock e (S (ticks e))) u a c s)
        /\ (forall k', k' <> k ->
              Dict.get k' (active_sessions m1) =
              Dict.get k' (active_sessions m))
        /\ map fst (active_sessions m1) = map fst (active_sessions m)
        /\ session_history m1 = session_history m
        /\ max_active_sessions m1 = max_active_sessions m
  end.
Proof.
  destruct (Dict.get k (active_sessions m)) as [s |] eqn:Hget.
  - eexists. unfold add_interaction, bind, get_self. cbn [snd].
    rewrite Hget. cbn.
    split; [reflexivity |].
    cbn [active_sessions session_history max_active_sessions].
    split; [| split; [| split]].
    + rewrite get_set. now rewrite decide_True.
    + intros k' Hk'. rewrite get_set. now rewrite decide_False.
    + apply set_present. apply dec_stable. intros Hn.
      apply get_None in Hn. congruence.
    + auto.
  - unfold add_interaction, bind, get_self. cbn [snd]. now rewrite Hget.
Qed.

End SessionLife.

(** A manager with two sessions, whose first client is ended twice. *)
Lemma end_session_twice_witness :
  NoDup (map fst (ConversationManager.active_sessions Scenario.two_sessions))
  /\ exists r e1 m1,
       ConversationManager.end_session "client-a"
         (Scenario.two_hours_later, Scenario.two_sessions) =
       (Return r, (e1, m1))
       /\ ConversationManager.end_session "client-a" (e1, m1) =
          (Return None, (e1, m1)).
Proof.
  assert (Hnd : NoDup
                  (map fst
                     (ConversationManager.active_sessions
                        Scenario.two_sessions)))
    by (apply (bool_decide_unpack _); vm_compute; exact I).
  split; [exact Hnd |].
  destruct (end_session_twice "client-a" Scenario.two_hours_later
              Scenario.two_sessions Hnd)
    as (r & e1 & m1 & Hrun & _ & Hagain & _).
  exists r, e1, m1. split; [exact Hrun | exact Hagain].
Defined.

(** ** Sessions as dictionaries (models/conversation.py) *)

Section SessionDicts.

(** X3. A session exported with [to_dict] and read back with [from_dict] is
    the session itself, whatever the state and the clock, and the export
    carries its duration. A dictionary that has only the keys ["id"],
    ["client_id"] and ["start_time"] is read as the session the constructor
    builds from them: active, without user, interaction or message. *)
Theorem session_dict_round_trip {St : Type} (s : ConversationSession.t)
    (w : Env * St) :
  (exists data w',
      SessionDict.to_dict s w = (Return data, w')
      /\ SessionDict.from_dict data = Return s
      /\ is_Some (SessionDict.duration data))
  /\ forall id client start,
       SessionDict.from_dict
         (SessionDict.mk (Some id) (Some client) None (Some start) None None
            None None None None) =
       Return (ConversationSession.init id client None start []).
Proof.
  split; [| reflexivity].
  unfold SessionDict.to_dict, ConversationSession.get_duration.
  destruct s as [id cl us st en stt ti hist md].
  destruct en as [t_end |]; cbn; do 2 eexists; (split; [reflexivity |]);
    cbn; split; eauto.
Qed.

Lemma to_dict_run {St : Type} (s : ConversationSession.t) (w : Env * St) :
  exists data w',
    SessionDict.to_dict s w = (Return data, w')
    /\ SessionDict.from_dict data = Return s
    /\ snd w' = snd w.
Proof.
  unfold SessionDict.to_dict, ConversationSession.get_duration.
  destruct s as [id cl us st en stt ti hist md].
  destruct en as [t_end |]; cbn; do 2 eexists; (split; [reflexivity |]);
    cbn; split; eauto.
Qed.

Lemma to_dicts_run {St : Type} (l : list ConversationSession.t) :
  forall w : Env * St,
  exists ds w',
    map_M SessionDict.to_dict l w = (Return ds, w')
    /\ map SessionDict.from_dict ds = map Return l
    /\ snd w' = snd w.
Proof.
  induction l as [| s l IH]; intros w.
  - exists [], w. auto.
  - destruct (to_dict_run s w) as (d & w1 & Hd & Hback & Hst).
    destruct (IH w1) as (ds & w2 & Hds & Hbacks & Hst2).
    exists (d :: ds), w2. cbn [map_M].
    rewrite (bind_Return _ _ _ _ _ Hd), (bind_Return _ _ _ _ _ Hds).
    cbn. rewrite Hback, Hbacks. split; [reflexivity |].
    split; [reflexivity | congruence].
Qed.

(** X4. [export_session_data] answers with the dictionary of a session
    that has the session id asked for, active or ended, and reading the
    dictionary back gives that session; it answers [None] exactly when no
    session, active or ended, has that id. The manager is not changed. *)
Theorem export_session_data_finds (sid : string) (e : Env)
    (m : ConversationManager.t) :
  exists r e',
    ConversationManager.export_session_data sid (e, m) = (Return r, (e', m))
    /\ match r with
       | Some data =>
           exists s,
             SessionDict.from_dict data = Return s
             /\ ConversationSession.id s = sid
             /\ (s ∈ map snd (ConversationManager.active_sessions m)
                 \/ s ∈ ConversationManager.session_history m)
       | None =>
           forall s,
             s ∈ map snd (ConversationManager.active_sessions m)
             \/ s ∈ ConversationManager.session_history m ->
             ConversationSession.id s <> sid
       end.
Proof.
  unfold ConversationManager.export_session_data, bind, get_self. cbn [snd].
  destruct (ConversationManager.session_of_id sid m) as [s |] eqn:Hfind.
  - destruct (to_dict_run s (e, m)) as (d & [e' m'] & Hd & Hback & Hst).
    cbn in Hst. subst m'. rewrite Hd. exists (Some d), e'.
    split; [reflexivity |]. exists s. split; [exact Hback |].
    unfold ConversationManager.session_of_id in Hfind.
    destruct (find _ (map snd (ConversationManager.active_sessions m)))
      as [s' |] eqn:Hactive.
    + injection Hfind as ->. apply find_some in Hactive as [Hin Hid].
      apply bool_decide_eq_true in Hid. rewrite <- list_elem_of_In in Hin. auto.
    + apply find_some in Hfind as [Hin Hid].
      apply bool_decide_eq_true in Hid. rewrite <- list_elem_of_In in Hin. auto.
  - exists None, e. split; [reflexivity |].
    unfold ConversationManager.session_of_id in Hfind.
    destruct (find _ (map snd (ConversationManager.active_sessions m)))
      as [s' |] eqn:Hactive; [discriminate |].
    intros s [Hin | Hin]; rewrite list_elem_of_In in Hin.
    + apply (find_none _ _ Hactive) in Hin.
      now apply bool_decide_eq_false in Hin.
    + apply (find_none _ _ Hfind) in Hin.
      now apply bool_decide_eq_false in Hin.
Qed.

(** X5. [get_user_sessions] returns the dictionaries of the sessions of the
    user, active and ended, each once: read back they are those sessions
    in some order, and they are sorted on their start time, the most
    recent first. The manager is not changed. *)
Theorem get_user_sessions_sorted (uid : string) (e : Env)
    (m : ConversationManager.t) :
  exists ds e',
    ConversationManager.get_user_sessions uid (e, m) = (Return ds, (e', m))
    /\ StronglySorted
         (fun a b =>
            default 0 (SessionDict.start_time b)
            <= default 0 (SessionDict.start_time a)) ds
    /\ Permutation (map SessionDict.from_dict ds)
         (map Return (ConversationManager.sessions_of_user uid m))
    /\ Forall (fun s => ConversationSession.user_id s = Some uid)
         (ConversationManager.sessions_of_user uid m).
Proof.
  unfold ConversationManager.get_user_sessions, bind, get_self. cbn [snd].
  destruct (to_dicts_run (ConversationManager.sessions_of_user uid m) (e, m))
    as (ds & [e' m'] & Hds & Hback & Hst).
  cbn in Hst. subst m'. rewrite Hds.
  do 2 eexists. split; [reflexivity |]. split; [apply sort_desc_sorted |].
  split.
  - rewrite <- Hback. apply Permutation_map. apply sort_desc_perm.
  - unfold ConversationManager.sessions_of_user. apply Forall_app. split;
      apply Forall_forall; intros s Hs;
      now apply list_elem_of_filter in Hs as [Hs _].
Qed.

End SessionDicts.

(** ** What the manager reports on a session (models/conversation.py) *)

Section SessionReports.
Import ConversationSession.

Lemma drop_flat_map_messages_of (k : nat) :
  forall xs : list exchange,
    drop (2 * k) (flat_map messages_of xs) = flat_map messages_of (drop k xs).
Proof.
  induction k as [| k IH]; intros xs; [reflexivity |].
  destruct xs as [| x xs]; [reflexivity |].
  replace (2 * S k)%nat with (S (S (2 * k))) by lia. cbn [flat_map messages_of app drop].
  apply IH.
Qed.

(** The window of a session that started empty holds the messages of its
    last 25 exchanges. *)
Lemma window_of_last_exchanges id cl us st md (xs : list exchange) :
  conversation_history (add_interactions xs (init id cl us st md)) =
  flat_map messages_of (last_n 25 xs).
Proof.
  rewrite add_interactions_history by (cbn; lia).
  cbn [init conversation_history]. rewrite app_nil_l.
  unfold last_n. rewrite length_flat_map_messages_of.
  replace (2 * length xs - 50)%nat with (2 * (length xs - 25))%nat by lia.
  apply drop_flat_map_messages_of.
Qed.

Lemma user_messages_of (l : list exchange) :
  filter (fun msg => role msg = "user" /\ is_Some (confidence msg))
    (flat_map messages_of l) =
  map (fun x =>
         mkMessage "user" (user_message x) (Some (now_user x))
           (Some (reported_confidence x))) l.
Proof.
  induction l as [| x l IH]; [reflexivity |].
  cbn [flat_map messages_of app map].
  rewrite filter_cons_True by (cbn; split; [reflexivity | eauto]).
  rewrite filter_cons_False by (cbn; intros [H _]; discriminate H).
  now rewrite IH.
Qed.

(** X6. The average confidence the manager computes for a session that
    started empty is the float [sum(confidences) / len(confidences)] over
    the confidences reported with its last 25 exchanges, the ones whose
    messages the window still holds, added from the left with every
    addition rounded, and 0 when no exchange was added. *)
Theorem average_confidence_of_window id cl us st md (xs : list exchange) :
  ConversationManager._calculate_average_confidence
    (add_interactions xs (init id cl us st md)) =
  match last_n 25 xs with
  | [] => 0%Q
  | _ =>
      fdiv (fsum (map reported_confidence (last_n 25 xs)))
        (inject_Z (Z.of_nat (length (last_n 25 xs))))
  end.
Proof.
  unfold ConversationManager._calculate_average_confidence.
  rewrite window_of_last_exchanges, user_messages_of.
  destruct (last_n 25 xs) as [| x l]; [reflexivity |].
  cbn [map]. rewrite !map_map. cbn [confidence default length].
  rewrite length_map. reflexivity.
Qed.

Lemma find_after_none {A : Type} (f : A -> bool) (l : list A) (x : A) :
  (forall y, y ∈ l -> f y = false) ->
  find f (l ++ [x]) = if f x then Some x else None.
Proof.
  induction l as [| y l IH]; intros Hnone; [reflexivity |].
  cbn. rewrite (Hnone y) by left. apply IH. intros z Hz. apply Hnone. now right.
Qed.

(** X7. The analytics of a session remain available after it has ended.
    When the active session of a client is ended and the history holds no
    other session of that client, [get_session_analytics] reports the
    ended session: the status ["ended"], the end time [end_session] read
    from the clock, as duration the seconds from start to end, and the
    counter, the window length and the average confidence the session had;
    the report reads no clock and changes nothing. *)
Theorem session_analytics_after_end (k : string) (e : Env)
    (m : ConversationManager.t) (s : t) :
  NoDup (map fst (ConversationManager.active_sessions m)) ->
  Dict.get k (ConversationManager.active_sessions m) = Some s ->
  client_id s = k ->
  (forall h, h ∈ ConversationManager.session_history m -> client_id h <> k) ->
  exists w1,
    ConversationManager.end_session k (e, m) =
    (Return (Some (ended (clock e (ticks e)) s)), w1)
    /\ ConversationManager.get_session_analytics k w1 =
       (Return
          (Some
             {| SessionAnalytics.session_id := id s;
                SessionAnalytics.client_id := k;
                SessionAnalytics.user_id := user_id s;
                SessionAnalytics.duration :=
                  total_seconds (clock e (ticks e)) (start_time s);
                SessionAnalytics.total_interactions := total_interactions s;
                SessionAnalytics.status := "ended";
                SessionAnalytics.start_time := start_time s;
                SessionAnalytics.end_time := Some (clock e (ticks e));
                SessionAnalytics.conversation_length :=
                  Z.of_nat (length (conversation_history s));
                SessionAnalytics.average_confidence :=
                  ConversationManager._calculate_average_confidence s |}),
        w1).
Proof.
  intros Hnd Hget Hk Hhist.
  rewrite (end_session_run k e m s Hget). eexists. split; [reflexivity |].
  unfold ConversationManager.get_session_analytics, bind, get_self.
  cbn [snd]. unfold ConversationManager.session_of_client.
  cbn [ConversationManager.active_sessions
         ConversationManager.session_history].
  rewrite (get_del_same k _ Hnd).
  rewrite find_after_none.
  - cbn [ended client_id]. rewrite bool_decide_eq_true_2 by exact Hk.
    cbn. now rewrite Hk.
  - intros h Hh. apply bool_decide_eq_false_2. now apply Hhist.
Qed.

End SessionReports.

(** The first client of a manager with two sessions is ended. *)
Lemma session_analytics_after_end_witness :
  exists w1 r,
    ConversationManager.get_session_analytics "client-a" w1 =
    (Return (Some r), w1)
    /\ SessionAnalytics.status r = "ended"
    /\ SessionAnalytics.duration r = 7200%Q.
Proof.
  assert (Hnd : NoDup
                  (map fst
                     (ConversationManager.active_sessions
                        Scenario.two_sessions)))
    by (apply (bool_decide_unpack _); vm_compute; exact I).
  destruct (session_analytics_after_end "client-a" Scenario.two_hours_later
              Scenario.two_sessions
              (ConversationSession.init "session-a" "client-a" None 0 [])
              Hnd eq_refl eq_refl)
    as (w1 & _ & Hreport).
  { intros h Hh. inversion Hh. }
  exists w1. eexists. split; [exact Hreport |]. split; reflexivity.
Defined.

(** ** The store of the pipeline (services/voice_pipeline.py) *)

Section PipelineStore.
Import VoicePipeline.

Lemma length_extended_history (h : list Message) u a :
  length (extended_history h u a) = Nat.min (length h + 2) 20.
Proof.
  rewrite extended_history_last_n, length_last_n, length_app.
  cbn [length]. lia.
Qed.

Lemma after_access_configuration (sid : string) (e : Env) (p : t) :
  set_active_sessions (active_sessions p) (snd (after_access sid e p)) = p.
Proof.
  unfold after_access. destruct p as [dg el gq rg th mx st store]. cbn.
  destruct (store !! sid); reflexivity.
Qed.

(** The state in which a retrieval or a generation that raises leaves
    the [try] block: the session id has been looked up, so it has a
    context. *)
Lemma retrieval_raises_at audio sid t0 (e : Env) (p : t) tr transcript conf
    ex :
  DeepgramService.transcribe_audio_chunk (deepgram p) audio (calls e) =
    Return tr ->
  usable tr = Some (transcript, conf) ->
  Qltb conf (min_confidence_threshold p) = false ->
  RAGService.retrieve_context (rag p) transcript
    (SessionContext.user_id
       (accessed_context sid (logged (Transcribe audio) e) p))
    (SessionContext.history
       (accessed_context sid (logged (Transcribe audio) e) p))
    (calls e ++ [Transcribe audio]) = Raise ex ->
  exists e',
    process_audio_chunk_try audio sid t0 (e, p) =
    (Raise ex, (e', snd (after_access sid (logged (Transcribe audio) e) p)))
    /\ clock e' = clock e.
Proof.
  intros Htr Hus Hgate Hrag. unfold process_audio_chunk_try.
  unfold get_self at 1. unfold bind at 1. cbn [snd].
  unfold invoke at 1. unfold bind at 1. cbn [fst snd].
  rewrite Htr, Hus, Hgate.
  rewrite (bind_Return _ _ _ _ _ (_get_session_context_run _ _ _)).
  pose proof (after_access_env sid (logged (Transcribe audio) e) p)
    as [Hcalls Hclock].
  destruct (after_access sid (logged (Transcribe audio) e) p) as [e2 p2].
  cbn [fst snd] in *.
  unfold invoke at 1. unfold bind at 1. cbn [fst snd].
  rewrite Hcalls. cbn [logged calls]. rewrite Hrag.
  eexists. split; [reflexivity |]. exact Hclock.
Qed.

Lemma generation_raises_at audio sid t0 (e : Env) (p : t) tr transcript conf
    rag_context ex :
  DeepgramService.transcribe_audio_chunk (deepgram p) audio (calls e) =
    Return tr ->
  usable tr = Some (transcript, conf) ->
  Qltb conf (min_confidence_threshold p) = false ->
  RAGService.retrieve_context (rag p) transcript
    (SessionContext.user_id
       (accessed_context sid (logged (Transcribe audio) e) p))
    (SessionContext.history
       (accessed_context sid (logged (Transcribe audio) e) p))
    (calls e ++ [Transcribe audio]) = Return rag_context ->
  GroqService.generate_response (groq p) transcript rag_context
    (SessionContext.history
       (accessed_context sid (logged (Transcribe audio) e) p))
    _get_customer_service_prompt
    (calls e ++
     [Transcribe audio;
      Retrieve transcript
        (SessionContext.user_id
           (accessed_context sid (logged (Transcribe audio) e) p))
        (SessionContext.history
           (accessed_context sid (logged (Transcribe audio) e) p))]) =
    Raise ex ->
  exists e',
    process_audio_chunk_try audio sid t0 (e, p) =
    (Raise ex, (e', snd (after_access sid (logged (Transcribe audio) e) p)))
    /\ clock e' = clock e.
Proof.
  intros Htr Hus Hgate Hrag Hgen. unfold process_audio_chunk_try.
  unfold get_self at 1. unfold bind at 1. cbn [snd].
  unfold invoke at 1. unfold bind at 1. cbn [fst snd].
  rewrite Htr, Hus, Hgate.
  rewrite (bind_Return _ _ _ _ _ (_get_session_context_run _ _ _)).
  pose proof (after_access_env sid (logged (Transcribe audio) e) p)
    as [Hcalls Hclock].
  destruct (after_access sid (logged (Transcribe audio) e) p) as [e2 p2].
  cbn [fst snd] in *.
  unfold invoke at 1. unfold bind at 1. cbn [fst snd].
  rewrite Hcalls. cbn [logged calls]. rewrite Hrag.
  unfold invoke at 1. unfold bind at 1. cbn [fst snd logged calls].
  rewrite Hcalls. cbn [logged calls]. rewrite <- app_assoc. cbn [app].
  rewrite Hgen. eexists. split; [reflexivity |]. exact Hclock.
Qed.

(** The [try] block when the transcription gives nothing to work on. *)
Lemma process_audio_chunk_try_silent audio sid t0 (e : Env) (p : t) tr :
  DeepgramService.transcribe_audio_chunk (deepgram p) audio (calls e) =
    Return tr ->
  usable tr = None ->
  process_audio_chunk_try audio sid t0 (e, p) =
  (Return
     {| VoiceResponse.audio_data := None;
        VoiceResponse.transcript := "";
        VoiceResponse.ai_response := "";
        VoiceResponse.confidence := 0%Q;
        VoiceResponse.processing_time :=
          Qred (seconds_of (clock e (ticks e)) - t0);
        VoiceResponse.session_id := sid |},
   (tick (logged (Transcribe audio) e), p)).
Proof.
  intros Htr Hus. unfold process_audio_chunk_try.
  unfold get_self at 1. unfold bind at 1. cbn [snd].
  unfold invoke at 1. unfold bind at 1. cbn [fst snd].
  rewrite Htr, Hus. reflexivity.
Qed.

(** The clock is the same after a run of the [try] block that passes the
    gate and gets its answers. *)
Lemma process_audio_chunk_try_passed_clock audio sid t0 (e : Env) (p : t)
    tr transcript conf rag_context generated :
  DeepgramService.transcribe_audio_chunk (deepgram p) audio (calls e) =
    Return tr ->
  usable tr = Some (transcript, conf) ->
  Qltb conf (min_confidence_threshold p) = false ->
  RAGService.retrieve_context (rag p) transcript
    (SessionContext.user_id
       (accessed_context sid (logged (Transcribe audio) e) p))
    (SessionContext.history
       (accessed_context sid (logged (Transcribe audio) e) p))
    (calls e ++ [Transcribe audio]) = Return rag_context ->
  GroqService.generate_response (groq p) transcript rag_context
    (SessionContext.history
       (accessed_context sid (logged (Transcribe audio) e) p))
    _get_customer_service_prompt
    (calls e ++
     [Transcribe audio;
      Retrieve transcript
        (SessionContext.user_id
           (accessed_context sid (logged (Transcribe audio) e) p))
        (SessionContext.history
           (accessed_context sid (logged (Transcribe audio) e) p))]) =
    Return generated ->
  clock (fst (snd (process_audio_chunk_try audio sid t0 (e, p)))) = clock e.
Proof.
  intros Htr Hus Hgate Hrag Hgen.
  unfold process_audio_chunk_try.
  unfold get_self at 1. unfold bind at 1. cbn [snd].
  unfold invoke at 1. unfold bind at 1. cbn [fst snd].
  rewrite Htr, Hus, Hgate.
  rewrite (bind_Return _ _ _ _ _ (_get_session_context_run _ _ _)).
  set (e1 := logged (Transcribe audio) e) in *.
  set (c0 := accessed_context sid e1 p) in *.
  pose proof (after_access_lookup sid e1 p) as Hc0.
  pose proof (after_access_env sid e1 p) as [Hcalls Hclock].
  destruct (after_access sid e1 p) as [e2 p2] eqn:Hacc. cbn [fst snd] in *.
  fold c0 in Hc0.
  unfold invoke at 1. unfold bind at 1. cbn [fst snd].
  rewrite Hcalls. cbn [e1 logged calls]. rewrite Hrag.
  unfold invoke at 1. unfold bind at 1. cbn [fst snd logged calls].
  rewrite Hcalls. cbn [e1 logged calls]. rewrite <- app_assoc. cbn [app].
  rewrite Hgen.
  rewrite (bind_Return _ _ _ _ _ (text_to_speech_run _ _ _ _)).
  rewrite (bind_Return _ _ _ _ _ (_update_session_context_run _ _ _ _ _)).
  destruct (after_access_known sid
              (logged
                 (Synthesize
                    (GroqService.optimize_for_voice
                       (reply_or_apology generated)))
                 (logged
                    (Generate transcript rag_context
                       (SessionContext.history c0)
                       _get_customer_service_prompt)
                    (logged
                       (Retrieve transcript (SessionContext.user_id c0)
                          (SessionContext.history c0)) e2))) p2 c0 Hc0)
    as [Hacc' Hctx'].
  rewrite Hacc', Hctx'. cbn [fst snd].
  rewrite (bind_Return _ _ _ _ _ (time_time_run _ _)).
  cbn. exact Hclock.
Qed.

(** What the [try] block does to the store, whatever the capabilities
    answer: nothing, or the look-up of the session id, or the look-up and
    the update of its context. *)
Lemma process_audio_chunk_try_store audio sid t0 (e : Env) (p : t) :
  exists o e' p',
    process_audio_chunk_try audio sid t0 (e, p) = (o, (e', p'))
    /\ clock e' = clock e
    /\ set_active_sessions (active_sessions p) p' = p
    /\ (active_sessions p' = active_sessions p
        \/ active_sessions p' =
           active_sessions
             (snd (after_access sid (logged (Transcribe audio) e) p))
        \/ exists u a now,
             active_sessions p' =
             <[sid :=
                 updated_context
                   (accessed_context sid (logged (Transcribe audio) e) p)
                   u a now]>
               (active_sessions
                  (snd (after_access sid (logged (Transcribe audio) e) p))))
    /\ match o with
       | Return r => VoiceResponse.session_id r = sid
       | Raise _ => True
       end.
Proof.
  assert (Hsame : set_active_sessions (active_sessions p) p = p)
    by (destruct p; reflexivity).
  destruct (DeepgramService.transcribe_audio_chunk (deepgram p) audio
              (calls e)) as [tr | ex] eqn:Htr.
  - destruct (usable tr) as [[transcript conf] |] eqn:Hus.
    + destruct (Qltb conf (min_confidence_threshold p)) eqn:Hgate.
      * rewrite (process_audio_chunk_try_clarifies audio sid t0 e p tr
                   transcript conf Htr Hus Hgate).
        do 3 eexists. split; [reflexivity |]. cbn. auto.
      * destruct (RAGService.retrieve_context (rag p) transcript
                    (SessionContext.user_id
                       (accessed_context sid (logged (Transcribe audio) e) p))
                    (SessionContext.history
                       (accessed_context sid (logged (Transcribe audio) e) p))
                    (calls e ++ [Transcribe audio]))
          as [rag_context | ex] eqn:Hrag.
        -- destruct (GroqService.generate_response (groq p) transcript
                       rag_context
                       (SessionContext.history
                          (accessed_context sid
                             (logged (Transcribe audio) e) p))
                       _get_customer_service_prompt
                       (calls e ++
                        [Transcribe audio;
                         Retrieve transcript
                           (SessionContext.user_id
                              (accessed_context sid
                                 (logged (Transcribe audio) e) p))
                           (SessionContext.history
                              (accessed_context sid
                                 (logged (Transcribe audio) e) p))]))
             as [generated | ex] eqn:Hgen.
           ++ destruct (process_audio_chunk_try_passed audio sid t0 e p tr
                          transcript conf Htr Hus Hgate rag_context generated
                          Hrag Hgen)
                as (e' & audio_response & now & t_end & Hrun & Hcalls).
              pose proof (process_audio_chunk_try_passed_clock audio sid t0 e
                            p tr transcript conf rag_context generated Htr
                            Hus Hgate Hrag Hgen) as Hclock.
              rewrite Hrun in Hclock |- *. cbn [fst snd] in Hclock.
              do 3 eexists. split; [reflexivity |].
              split; [exact Hclock |].
              split.
              { unfold set_active_sessions at 1.
                cbn [deepgram elevenlabs groq rag min_confidence_threshold
                       max_processing_time enable_streaming set_active_sessions].
                apply after_access_configuration. }
              split; [| reflexivity].
              right. right. do 3 eexists. reflexivity.
           ++ destruct (generation_raises_at audio sid t0 e p tr transcript
                          conf rag_context ex Htr Hus Hgate Hrag Hgen)
                as (e' & Hrun & Hclock).
              rewrite Hrun. do 3 eexists. split; [reflexivity |].
              split; [exact Hclock |].
              split; [apply after_access_configuration |]. auto.
        -- destruct (retrieval_raises_at audio sid t0 e p tr transcript conf
                       ex Htr Hus Hgate Hrag) as (e' & Hrun & Hclock).
           rewrite Hrun. do 3 eexists. split; [reflexivity |].
           split; [exact Hclock |].
           split; [apply after_access_configuration |]. auto.
    + rewrite (process_audio_chunk_try_silent audio sid t0 e p tr Htr Hus).
      do 3 eexists. split; [reflexivity |]. cbn. auto.
  - rewrite (transcription_raises audio sid t0 e p ex Htr).
    do 3 eexists. split; [reflexivity |]. cbn. auto.
Qed.

Lemma process_audio_chunk_store audio sid (e : Env) (p : t) :
  exists resp e' p',
    process_audio_chunk audio sid (e, p) = (Return resp, (e', p'))
    /\ VoiceResponse.session_id resp = sid
    /\ clock e' = clock e
    /\ set_active_sessions (active_sessions p) p' = p
    /\ (active_sessions p' = active_sessions p
        \/ active_sessions p' =
           active_sessions
             (snd (after_access sid (logged (Transcribe audio) (tick e)) p))
        \/ exists u a now,
             active_sessions p' =
             <[sid :=
                 updated_context
                   (accessed_context sid (logged (Transcribe audio) (tick e))
                      p)
                   u a now]>
               (active_sessions
                  (snd
                     (after_access sid (logged (Transcribe audio) (tick e))
                        p)))).
Proof.
  rewrite process_audio_chunk_unfold.
  destruct (process_audio_chunk_try_store audio sid
              (seconds_of (clock e (ticks e))) (tick e) p)
    as (o & e1 & p1 & Hrun & Hclock & Hconf & Hstore & Hid).
  destruct o as [r | ex].
  - rewrite (try_except_Return _ _ _ _ _ Hrun). exists r, e1, p1. auto.
  - rewrite (try_except_Raise _ _ _ _ _ Hrun), process_audio_chunk_except_run.
    do 3 eexists. split; [reflexivity |]. cbn. auto.
Qed.

(** One call: the response, the configuration and the other contexts. *)
Lemma process_audio_chunk_frame audio sid (e : Env)
    (p : t) :
  exists resp e' p',
    process_audio_chunk audio sid (e, p) = (Return resp, (e', p'))
    /\ VoiceResponse.session_id resp = sid
    /\ set_active_sessions (active_sessions p) p' = p
    /\ (forall sid', sid' <> sid ->
          active_sessions p' !! sid' = active_sessions p !! sid').
Proof.
  destruct (process_audio_chunk_store audio sid e p)
    as (resp & e' & p' & Hrun & Hid & _ & Hconf & Hstore).
  exists resp, e', p'. split; [exact Hrun |]. split; [exact Hid |].
  split; [exact Hconf |].
  intros sid' Hne.
  destruct Hstore as [Hst | [Hst | (u & a & now & Hst)]]; rewrite Hst.
  - reflexivity.
  - apply after_access_lookup_ne. congruence.
  - rewrite lookup_insert_ne by congruence.
    apply after_access_lookup_ne. congruence.
Qed.

(** X8. A call of [process_audio_chunk] answers with a response that
    carries the session id of the call, whatever the capabilities do, and
    it touches the context of that session id only: the contexts of the
    other session ids, the services and the configuration stay as they
    were. The context of the session id itself stays as it was, or is
    created fresh (a call that fails after the gate leaves it so), or is
    the old or fresh context with one more exchange. *)
Theorem process_audio_chunk_touches_one_session audio sid (e : Env) (p : t) :
  exists resp e' p',
    process_audio_chunk audio sid (e, p) = (Return resp, (e', p'))
    /\ VoiceResponse.session_id resp = sid
    /\ set_active_sessions (active_sessions p) p' = p
    /\ (forall sid', sid' <> sid ->
          active_sessions p' !! sid' = active_sessions p !! sid')
    /\ (active_sessions p' !! sid = active_sessions p !! sid
        \/ (active_sessions p !! sid = None
            /\ exists now,
                 active_sessions p' !! sid = Some (fresh_context now))
        \/ exists c u a now,
             active_sessions p' !! sid = Some (updated_context c u a now)
             /\ (active_sessions p !! sid = Some c
                 \/ active_sessions p !! sid = None
                    /\ exists t, c = fresh_context t)).
Proof.
  destruct (process_audio_chunk_store audio sid e p)
    as (resp & e' & p' & Hrun & Hid & _ & Hconf & Hstore).
  exists resp, e', p'. split; [exact Hrun |]. split; [exact Hid |].
  split; [exact Hconf |].
  set (e1 := logged (Transcribe audio) (tick e)) in *.
  assert (Hacc : active_sessions p !! sid = Some (accessed_context sid e1 p)
                 \/ active_sessions p !! sid = None
                    /\ exists t, accessed_context sid e1 p = fresh_context t).
  { unfold accessed_context. destruct (active_sessions p !! sid); cbn; eauto. }
  destruct Hstore as [Hst | [Hst | (u & a & now & Hst)]]; rewrite Hst.
  - auto.
  - split; [intros sid' Hne; now apply after_access_lookup_ne |].
    rewrite after_access_lookup.
    destruct Hacc as [Hacc | [Hnone [t Hfresh]]].
    + left. now rewrite Hacc.
    + right. left. split; [exact Hnone |]. exists t. now rewrite Hfresh.
  - split.
    + intros sid' Hne. rewrite lookup_insert_ne by congruence.
      now apply after_access_lookup_ne.
    + right. right. exists (accessed_context sid e1 p), u, a, now.
      split; [apply lookup_insert_eq | exact Hacc].
Qed.

Lemma same_configuration_trans (p p1 p2 : t) :
  set_active_sessions (active_sessions p) p1 = p ->
  set_active_sessions (active_sessions p1) p2 = p1 ->
  set_active_sessions (active_sessions p) p2 = p.
Proof.
  destruct p, p1, p2. unfold set_active_sessions. cbn.
  intros H1 H2. congruence.
Qed.

(** One call keeps every context of the store in step: the history has
    two messages for each exchange counted, up to 20. *)
Lemma process_audio_chunk_in_step audio sid (e : Env) (p : t) :
  (forall sid' c,
      active_sessions p !! sid' = Some c ->
      length (SessionContext.history c) =
      Nat.min (2 * Z.to_nat (SessionContext.total_interactions c)) 20
      /\ 0 <= SessionContext.total_interactions c) ->
  exists resp e' p',
    process_audio_chunk audio sid (e, p) = (Return resp, (e', p'))
    /\ VoiceResponse.session_id resp = sid
    /\ set_active_sessions (active_sessions p) p' = p
    /\ forall sid' c,
         active_sessions p' !! sid' = Some c ->
         (length (SessionContext.history c) =
          Nat.min (2 * Z.to_nat (SessionContext.total_interactions c)) 20
          /\ 0 <= SessionContext.total_interactions c)
         /\ (is_Some (active_sessions p !! sid') \/ sid' = sid).
Proof.
  intros Hinv.
  destruct (process_audio_chunk_store audio sid e p)
    as (resp & e' & p' & Hrun & Hid & _ & Hconf & Hstore).
  exists resp, e', p'. split; [exact Hrun |]. split; [exact Hid |].
  split; [exact Hconf |].
  set (e1 := logged (Transcribe audio) (tick e)) in *.
  assert (Hacc : length (SessionContext.history (accessed_context sid e1 p)) =
                 Nat.min
                   (2 * Z.to_nat
                          (SessionContext.total_interactions
                             (accessed_context sid e1 p))) 20
                 /\ 0 <= SessionContext.total_interactions
                           (accessed_context sid e1 p)).
  { unfold accessed_context.
    destruct (active_sessions p !! sid) as [c |] eqn:Hc; cbn.
    - now apply (Hinv sid).
    - split; [reflexivity | lia]. }
  intros sid' c Hc.
  destruct (decide (sid' = sid)) as [-> | Hne].
  - split; [| now right].
    destruct Hstore as [Hst | [Hst | (u & a & now & Hst)]]; rewrite Hst in Hc.
    + now apply (Hinv sid).
    + rewrite after_access_lookup in Hc. injection Hc as <-. exact Hacc.
    + rewrite lookup_insert_eq in Hc. injection Hc as <-.
      destruct Hacc as [Hlen Hpos]. cbn [updated_context
        SessionContext.history SessionContext.total_interactions].
      rewrite length_extended_history, Hlen. split; lia.
  - assert (Hsame : active_sessions p' !! sid' = active_sessions p !! sid').
    { destruct Hstore as [Hst | [Hst | (u & a & now & Hst)]]; rewrite Hst.
      - reflexivity.
      - apply after_access_lookup_ne. congruence.
      - rewrite lookup_insert_ne by congruence.
        apply after_access_lookup_ne. congruence. }
    rewrite Hsame in Hc. split; [now apply (Hinv sid') |].
    left. now rewrite Hc.
Qed.

Lemma process_audio_chunks_in_step (chunks : list (bytes * string)) :
  forall (e : Env) (p : t),
    (forall sid c,
        active_sessions p !! sid = Some c ->
        length (SessionContext.history c) =
        Nat.min (2 * Z.to_nat (SessionContext.total_interactions c)) 20
        /\ 0 <= SessionContext.total_interactions c) ->
    exists rs e' p',
      process_audio_chunks chunks (e, p) = (Return rs, (e', p'))
      /\ map VoiceResponse.session_id rs = map snd chunks
      /\ set_active_sessions (active_sessions p) p' = p
      /\ forall sid c,
           active_sessions p' !! sid = Some c ->
           (length (SessionContext.history c) =
            Nat.min (2 * Z.to_nat (SessionContext.total_interactions c)) 20
            /\ 0 <= SessionContext.total_interactions c)
           /\ (is_Some (active_sessions p !! sid) \/ sid ∈ map snd chunks).
Proof.
  induction chunks as [| [audio sid0] chunks IH]; intros e p Hinv.
  - exists [], e, p. split; [reflexivity |]. split; [reflexivity |].
    split; [destruct p; reflexivity |].
    intros sid c Hc. split; [now apply (Hinv sid) |]. left. now rewrite Hc.
  - destruct (process_audio_chunk_in_step audio sid0 e p Hinv)
      as (resp & e1 & p1 & Hrun & Hid & Hconf & Hinv1).
    destruct (IH e1 p1 (fun sid c Hc => proj1 (Hinv1 sid c Hc)))
      as (rs & e2 & p2 & Hruns & Hids & Hconf2 & Hinv2).
    exists (resp :: rs), e2, p2.
    unfold process_audio_chunks in *. cbn [map_M fst snd].
    rewrite (bind_Return _ _ _ _ _ Hrun), (bind_Return _ _ _ _ _ Hruns).
    split; [reflexivity |]. cbn [map snd]. rewrite Hid, Hids.
    split; [reflexivity |].
    split; [exact (same_configuration_trans p p1 p2 Hconf Hconf2) |].
    intros sid c Hc. destruct (Hinv2 sid c Hc) as [Hwf Hkey].
    split; [exact Hwf |].
    destruct Hkey as [[c1 Hc1] | Hin].
    + destruct (Hinv1 sid c1 Hc1) as [_ [Hp | ->]]; [now left |].
      right. left.
    + right. now right.
Qed.

(** X9. Whatever calls of [process_audio_chunk] a pipeline receives after
    [__init__], and whatever its capabilities answer, every call returns
    a response with the session id it was made for, and the store stays
    in step: it holds contexts only for session ids that were called,
    and in every context the history has two messages for each exchange
    counted, up to the ceiling of 20 messages. *)
Theorem pipeline_store_in_step (dg : DeepgramService.t)
    (el : ElevenLabsService.t) (gq : GroqService.t) (rg : RAGService.t)
    (chunks : list (bytes * string)) (e : Env) :
  exists rs e' p',
    process_audio_chunks chunks (e, init dg el gq rg) =
    (Return rs, (e', p'))
    /\ map VoiceResponse.session_id rs = map snd chunks
    /\ forall sid c,
         active_sessions p' !! sid = Some c ->
         sid ∈ map snd chunks
         /\ 0 <= SessionContext.total_interactions c
         /\ length (SessionContext.history c) =
            Nat.min (2 * Z.to_nat (SessionContext.total_interactions c)) 20.
Proof.
  destruct (process_audio_chunks_in_step chunks e (init dg el gq rg))
    as (rs & e' & p' & Hrun & Hids & _ & Hinv).
  { intros sid c Hc. cbn in Hc. now rewrite lookup_empty in Hc. }
  exists rs, e', p'. split; [exact Hrun |]. split; [exact Hids |].
  intros sid c Hc. destruct (Hinv sid c Hc) as [[Hlen Hpos] Hkey].
  split; [| split; assumption].
  destruct Hkey as [[c0 Hc0] | Hin]; [| exact Hin].
  cbn in Hc0. now rewrite lookup_empty in Hc0.
Qed.

End PipelineStore.

(** ** The edges of a call (services/voice_pipeline.py) *)

Section PipelineEdges.
Import VoicePipeline.

(** X10. When the transcription answers with nothing, or with a result
    that has no transcript or an empty one, whatever confidence it
    reports, [process_audio_chunk] answers with the silent response: no
    audio, empty transcript and reply, confidence 0. The transcription is
    the only capability called, so nothing is synthesized, and the store
    of contexts is left as it was. *)
Theorem empty_transcription_is_silent audio sid (e : Env) (p : t) tr :
  DeepgramService.transcribe_audio_chunk (deepgram p) audio (calls e) =
    Return tr ->
  (forall r s,
      tr = Some r -> DeepgramService.transcript r = Some s -> s = "") ->
  process_audio_chunk audio sid (e, p) =
  (Return
     {| VoiceResponse.audio_data := None;
        VoiceResponse.transcript := "";
        VoiceResponse.ai_response := "";
        VoiceResponse.confidence := 0%Q;
        VoiceResponse.processing_time :=
          Qred (seconds_of (clock e (S (ticks e)))
                - seconds_of (clock e (ticks e)));
        VoiceResponse.session_id := sid |},
   ({| clock := clock e; ticks := S (S (ticks e));
       calls := calls e ++ [Transcribe audio] |},
    p)).
Proof.
  intros Htr Hempty.
  assert (Hus : usable tr = None).
  { unfold usable. destruct tr as [r |]; [| reflexivity].
    destruct (DeepgramService.transcript r) as [s |] eqn:Hs; [| reflexivity].
    rewrite (Hempty r s eq_refl Hs). reflexivity. }
  rewrite process_audio_chunk_unfold.
  rewrite (try_except_Return _ _ _ _ _
             (process_audio_chunk_try_silent audio sid _ (tick e) p tr Htr
                Hus)).
  reflexivity.
Qed.

(** X11. A generation that answers with nothing, or with an empty text,
    is not an error of the call: the reply is the fixed apology for not
    being able to process the request, it is spoken with a pause between
    its two sentences, and the exchange of the transcript and that
    apology goes into the context of the session like any other. *)
Theorem empty_generation_apologises audio sid (e : Env) (p : t) r s
    rag_context generated :
  let c0 :=
    default (fresh_context (seconds_of (clock e (S (ticks e)))))
      (active_sessions p !! sid) in
  DeepgramService.transcribe_audio_chunk (deepgram p) audio (calls e) =
    Return (Some r) ->
  DeepgramService.transcript r = Some s ->
  s <> "" ->
  ~ (default 0 (DeepgramService.confidence r)
     < min_confidence_threshold p)%Q ->
  RAGService.retrieve_context (rag p) s (SessionContext.user_id c0)
    (SessionContext.history c0) (calls e ++ [Transcribe audio]) =
    Return rag_context ->
  GroqService.generate_response (groq p) s rag_context
    (SessionContext.history c0) _get_customer_service_prompt
    (calls e ++
     [Transcribe audio;
      Retrieve s (SessionContext.user_id c0) (SessionContext.history c0)]) =
    Return generated ->
  generated = None \/ generated = Some "" ->
  exists resp e' p' now,
    process_audio_chunk audio sid (e, p) = (Return resp, (e', p'))
    /\ VoiceResponse.transcript resp = s
    /\ VoiceResponse.ai_response resp = apology_text
    /\ apology_text <> error_response
    /\ active_sessions p' !! sid = Some (updated_context c0 s apology_text now)
    /\ last (calls e') =
       Some
         (Synthesize
            "I apologize, but I'm having trouble processing your request right now. ... Could you please try again?").
Proof.
  intros c0 Htr Hs Hne Hgate Hrag Hgen Hnothing.
  destruct (process_audio_chunk_succeeds audio sid e p r s rag_context
              generated Htr Hs Hne Hgate Hrag Hgen)
    as (resp & e' & p' & now & Hrun & Ht & Ha & _ & Hctx & _ & Hcalls).
  assert (Hreply : reply_or_apology generated = apology_text)
    by (destruct Hnothing as [-> | ->]; reflexivity).
  rewrite Hreply in *.
  exists resp, e', p', now. split; [exact Hrun |]. split; [exact Ht |].
  split; [exact Ha |]. split; [discriminate |]. split; [exact Hctx |].
  rewrite Hcalls.
  rewrite last_app. cbn [last]. vm_compute. reflexivity.
Qed.

(** X12. A call for an unknown session id that passes the gate and whose
    retrieval then raises answers with the error outcome, and yet it
    leaves the session id in the store: the context created for the
    look-up stays, with an empty history and a counter of 0, and its
    start time is the clock reading of the look-up. Generation is not
    called. *)
Theorem failed_retrieval_registers_session audio sid (e : Env) (p : t) r s
    ex :
  active_sessions p !! sid = None ->
  DeepgramService.transcribe_audio_chunk (deepgram p) audio (calls e) =
    Return (Some r) ->
  DeepgramService.transcript r = Some s ->
  s <> "" ->
  ~ (default 0 (DeepgramService.confidence r)
     < min_confidence_threshold p)%Q ->
  RAGService.retrieve_context (rag p) s None []
    (calls e ++ [Transcribe audio]) = Raise ex ->
  exists resp e' p',
    process_audio_chunk audio sid (e, p) = (Return resp, (e', p'))
    /\ VoiceResponse.transcript resp = ""
    /\ VoiceResponse.ai_response resp = error_response
    /\ active_sessions p' !! sid =
       Some (fresh_context (seconds_of (clock e (S (ticks e)))))
    /\ calls e' =
       calls e ++
       [Transcribe audio; Retrieve s None []; Synthesize error_response].
Proof.
  intros Hnone Htr Hs Hne Hgate Hrag.
  apply Qltb_false_iff in Hgate.
  assert (Htry :
            process_audio_chunk_try audio sid (seconds_of (clock e (ticks e)))
              (tick e, p) =
            (Raise ex,
             (logged (Retrieve s None [])
                (tick (logged (Transcribe audio) (tick e))),
              set_active_sessions
                (<[sid := fresh_context (seconds_of (clock e (S (ticks e))))]>
                   (active_sessions p))
                p))).
  { unfold process_audio_chunk_try.
    unfold get_self at 1. unfold bind at 1. cbn [snd].
    unfold invoke at 1. unfold bind at 1. cbn [fst snd tick calls].
    rewrite Htr, (usable_Some r s Hs Hne), Hgate.
    rewrite (bind_Return _ _ _ _ _ (_get_session_context_run _ _ _)).
    unfold after_access, accessed_context. rewrite Hnone.
    cbn [default fresh_context SessionContext.user_id SessionContext.history].
    unfold invoke at 1. unfold bind at 1. cbn [fst snd tick logged calls].
    rewrite Hrag. reflexivity. }
  rewrite process_audio_chunk_unfold.
  rewrite (try_except_Raise _ _ _ _ _ Htry), process_audio_chunk_except_run.
  do 3 eexists. split; [reflexivity |]. cbn.
  split; [reflexivity |]. split; [reflexivity |].
  split; [apply lookup_insert_eq |]. now rewrite <- !app_assoc.
Qed.

(** X13. [cleanup_session] removes the context of the session id and
    nothing else: the other contexts, the services and the configuration
    stay, and the clock is not read. Afterwards [get_session_analytics]
    answers [None] for the session id, without reading the clock and
    without creating a context; for a session id the store does not know
    [cleanup_session] changes nothing. *)
Theorem cleanup_session_forgets sid (e : Env) (p : t) :
  exists p',
    cleanup_session sid (e, p) = (Return tt, (e, p'))
    /\ active_sessions p' = delete sid (active_sessions p)
    /\ set_active_sessions (active_sessions p) p' = p
    /\ get_session_analytics sid (e, p') = (Return None, (e, p'))
    /\ match active_sessions p !! sid with
       | None => p' = p
       | Some _ => True
       end.
Proof.
  unfold cleanup_session, bind, get_self. cbn [snd].
  destruct (active_sessions p !! sid) as [c |] eqn:Hc.
  - eexists. split; [reflexivity |]. cbn.
    split; [reflexivity |]. split; [destruct p; reflexivity |].
    split; [| exact I].
    unfold get_session_analytics, bind, get_self. cbn.
    now rewrite lookup_delete_eq.
  - exists p. split; [reflexivity |].
    split; [symmetry; now apply delete_id |].
    split; [destruct p; reflexivity |].
    split; [| reflexivity].
    unfold get_session_analytics, bind, get_self. cbn. now rewrite Hc.
Qed.

(** X14. After a call that passes the gate and gets its answers,
    [get_session_analytics] of the pipeline reports on the session: the
    counter is the one of before plus one, the conversation length is the
    one of before plus two, at most 20, the last interaction is the time
    of the update, the user id is the one of the context. The report
    reads the clock once and leaves the store as it is. *)
Theorem session_analytics_after_chunk audio sid (e : Env) (p : t) r s
    rag_context generated :
  let c0 :=
    default (fresh_context (seconds_of (clock e (S (ticks e)))))
      (active_sessions p !! sid) in
  DeepgramService.transcribe_audio_chunk (deepgram p) audio (calls e) =
    Return (Some r) ->
  DeepgramService.transcript r = Some s ->
  s <> "" ->
  ~ (default 0 (DeepgramService.confidence r)
     < min_confidence_threshold p)%Q ->
  RAGService.retrieve_context (rag p) s (SessionContext.user_id c0)
    (SessionContext.history c0) (calls e ++ [Transcribe audio]) =
    Return rag_context ->
  GroqService.generate_response (groq p) s rag_context
    (SessionContext.history c0) _get_customer_service_prompt
    (calls e ++
     [Transcribe audio;
      Retrieve s (SessionContext.user_id c0) (SessionContext.history c0)]) =
    Return generated ->
  exists resp e' p' report now,
    process_audio_chunk audio sid (e, p) = (Return resp, (e', p'))
    /\ get_session_analytics sid (e', p') =
       (Return (Some report), (tick e', p'))
    /\ PipelineSessionAnalytics.session_id report = sid
    /\ PipelineSessionAnalytics.total_interactions report =
       SessionContext.total_interactions c0 + 1
    /\ PipelineSessionAnalytics.conversation_length report =
       Z.of_nat (Nat.min (length (SessionContext.history c0) + 2) 20)
    /\ PipelineSessionAnalytics.last_interaction report = now
    /\ SessionContext.last_interaction
         <$> (active_sessions p' !! sid) = Some (Some now)
    /\ PipelineSessionAnalytics.duration report =
       Qred (seconds_of (clock e' (ticks e'))
             - SessionContext.start_time c0)
    /\ PipelineSessionAnalytics.user_id report = SessionContext.user_id c0.
Proof.
  intros c0 Htr Hs Hne Hgate Hrag Hgen.
  destruct (process_audio_chunk_succeeds audio sid e p r s rag_context
              generated Htr Hs Hne Hgate Hrag Hgen)
    as (resp & e' & p' & now & Hrun & _ & _ & _ & Hctx & _ & _).
  fold c0 in Hctx.
  exists resp, e', p'. eexists. exists now. split; [exact Hrun |].
  unfold get_session_analytics, bind, get_self. cbn [snd].
  rewrite Hctx. cbn [time_time]. split; [reflexivity |].
  cbn [PipelineSessionAnalytics.session_id
         PipelineSessionAnalytics.total_interactions
         PipelineSessionAnalytics.conversation_length
         PipelineSessionAnalytics.last_interaction
         PipelineSessionAnalytics.duration PipelineSessionAnalytics.user_id
         updated_context SessionContext.history SessionContext.user_id
         SessionContext.start_time SessionContext.total_interactions
         SessionContext.last_interaction default fmap option_fmap option_map].
  rewrite length_extended_history. repeat split; reflexivity.
Qed.

End PipelineEdges.

(** ** Streaming (services/voice_pipeline.py) *)

Section Streaming.
Import VoicePipeline.

Lemma stream_loop_run (events : list StreamEvent.t) (sid : string) :
  forall (e : Env) (p : t),
    exists rs ex e' p',
      stream_loop events sid (e, p) = (Return (rs, ex), (e', p'))
      /\ (length rs <=
          length
            (filter
               (fun ev => Is_true (default false (StreamEvent.is_final ev)))
               events))%nat
      /\ Forall (fun r => VoiceResponse.session_id r = sid) rs
      /\ set_active_sessions (active_sessions p) p' = p
      /\ (forall sid', sid' <> sid ->
            active_sessions p' !! sid' = active_sessions p !! sid')
      /\ (Forall
            (fun ev =>
               Is_true (default false (StreamEvent.is_final ev)) ->
               is_Some (StreamEvent.transcript ev)) events ->
          process_audio_chunks
            (replicate
               (length
                  (filter
                     (fun ev =>
                        Is_true (default false (StreamEvent.is_final ev)))
                     events))
               (mock_audio, sid)) (e, p) =
          (Return rs, (e', p'))).
Proof.
  induction events as [| ev events IH]; intros e p.
  - exists [], None, e, p. split; [reflexivity |]. cbn.
    split; [lia |]. split; [constructor |].
    split; [destruct p; reflexivity |]. auto.
  - cbn [stream_loop].
    destruct (default false (StreamEvent.is_final ev)) eqn:Hfinal.
    + rewrite filter_cons_True by (rewrite Hfinal; exact I).
      destruct (StreamEvent.transcript ev) as [transcript |] eqn:Htranscript.
      * destruct (process_audio_chunk_frame mock_audio sid
                    e p)
          as (resp & e1 & p1 & Hrun & Hid & Hconf & Hframe).
        destruct (IH e1 p1)
          as (rs & ex & e2 & p2 & Hloop & Hlen & Hids & Hconf2 & Hframe2
              & Hall).
        exists (resp :: rs), ex, e2, p2.
        assert (Htry :
                  try_except
                    (bind (process_audio_chunk mock_audio sid)
                       (fun response => ret (inl response)))
                    (fun e0 : exn =>
                       ret (inr e0 : VoiceResponse.t + exn)) (e, p) =
                  (Return (inl resp), (e1, p1))).
        { unfold try_except, bind. now rewrite Hrun. }
        rewrite (bind_Return _ _ _ _ _ Htry), (bind_Return _ _ _ _ _ Hloop).
        split; [reflexivity |]. cbn [length replicate].
        split; [lia |]. split; [now constructor |].
        split; [exact (same_configuration_trans p p1 p2 Hconf Hconf2) |].
        split.
        -- intros sid' Hne. rewrite (Hframe2 sid' Hne). now apply Hframe.
        -- intros Hev. apply Forall_cons in Hev as [_ Hev].
           unfold process_audio_chunks in *. cbn [map_M fst snd].
           rewrite (bind_Return _ _ _ _ _ Hrun).
           now rewrite (bind_Return _ _ _ _ _ (Hall Hev)).
      * exists [], (Some "KeyError: 'transcript'"), e, p.
        split; [reflexivity |]. cbn [length].
        split; [lia |]. split; [constructor |].
        split; [destruct p; reflexivity |]. split; [auto |].
        intros Hev. apply Forall_cons in Hev as [Hev _].
        rewrite Hfinal, Htranscript in Hev.
        destruct (Hev I) as [? ?]. discriminate.
    + rewrite filter_cons_False by (rewrite Hfinal; exact id).
      destruct (IH e p)
        as (rs & ex & e2 & p2 & Hloop & Hlen & Hids & Hconf2 & Hframe2
            & Hall).
      exists rs, ex, e2, p2. split; [exact Hloop |].
      split; [exact Hlen |]. split; [exact Hids |].
      split; [exact Hconf2 |]. split; [exact Hframe2 |].
      intros Hev. apply Forall_cons in Hev as [_ Hev]. now apply Hall.
Qed.

(** X15. [process_streaming_audio] never raises, whatever the stream of
    transcriptions holds and however it ends. It yields at most one
    response for each final transcription, each with the session id of
    the stream, and it changes the context of no other session id. What a
    final transcription says plays no role: when every final
    transcription has a transcript, the responses and the state are those
    of as many calls of [process_audio_chunk] with the placeholder audio. *)
Theorem streaming_processes_placeholder_audio (events : list StreamEvent.t)
    (ends : option exn) (sid : string) (e : Env) (p : t) :
  exists rs e' p',
    process_streaming_audio events ends sid (e, p) = (Return rs, (e', p'))
    /\ (length rs <=
        length
          (filter
             (fun ev => Is_true (default false (StreamEvent.is_final ev)))
             events))%nat
    /\ Forall (fun r => VoiceResponse.session_id r = sid) rs
    /\ (forall sid', sid' <> sid ->
          active_sessions p' !! sid' = active_sessions p !! sid')
    /\ (Forall
          (fun ev =>
             Is_true (default false (StreamEvent.is_final ev)) ->
             is_Some (StreamEvent.transcript ev)) events ->
        process_audio_chunks
          (replicate
             (length
                (filter
                   (fun ev =>
                      Is_true (default false (StreamEvent.is_final ev)))
                   events))
             (mock_audio, sid)) (e, p) =
        (Return rs, (e', p'))).
Proof.
  destruct (stream_loop_run events sid e p)
    as (rs & ex & e' & p' & Hloop & Hlen & Hids & _ & Hframe & Hall).
  exists rs, e', p'. unfold process_streaming_audio.
  rewrite (bind_Return _ _ _ _ _ Hloop). cbn [fst].
  split; [reflexivity |]. auto.
Qed.

End Streaming.

(** A transcription that is sure of an empty transcript: the response is
    silent and only the transcription was called. *)
Lemma empty_transcription_is_silent_witness :
  exists resp w',
    VoicePipeline.process_audio_chunk [] "session-1"
      (Scenario.env0, Scenario.pipeline Scenario.hears_silence) =
    (Return resp, w')
    /\ VoiceResponse.audio_data resp = None
    /\ calls (fst w') = [Transcribe []].
Proof.
  do 2 eexists. split.
  - apply (empty_transcription_is_silent [] "session-1" Scenario.env0
             (Scenario.pipeline Scenario.hears_silence)
             (Some (DeepgramService.mk_result (Some "") (Some 0.99%Q)))).
    + reflexivity.
    + intros r s Hr Hs. injection Hr as <-. cbn in Hs. now injection Hs as <-.
  - split; reflexivity.
Defined.

(** A generation that has nothing to say: the caller hears the apology. *)
Lemma empty_generation_apologises_witness :
  ~ (0.9 < VoicePipeline.min_confidence_threshold
             (VoicePipeline.init (Scenario.hears 0.9) Scenario.voice
                Scenario.speechless Scenario.finds_nothing))%Q
  /\ exists resp w',
       VoicePipeline.process_audio_chunk [] "session-1"
         (Scenario.env0,
          VoicePipeline.init (Scenario.hears 0.9) Scenario.voice
            Scenario.speechless Scenario.finds_nothing) =
       (Return resp, w')
       /\ VoiceResponse.ai_response resp = VoicePipeline.apology_text.
Proof.
  assert (Hgate : ~ (0.9 < VoicePipeline.min_confidence_threshold
                             (VoicePipeline.init (Scenario.hears 0.9)
                                Scenario.voice Scenario.speechless
                                Scenario.finds_nothing))%Q)
    by (intros H; vm_compute in H; discriminate H).
  split; [exact Hgate |].
  destruct (empty_generation_apologises [] "session-1" Scenario.env0
              (VoicePipeline.init (Scenario.hears 0.9) Scenario.voice
                 Scenario.speechless Scenario.finds_nothing)
              (DeepgramService.mk_result (Some "what is my bill")
                 (Some 0.9%Q))
              "what is my bill" "" None
              eq_refl eq_refl ltac:(discriminate) Hgate eq_refl eq_refl
              (or_introl eq_refl))
    as (resp & e' & p' & now & Hrun & _ & Ha & _).
  exists resp, (e', p'). split; [exact Hrun | exact Ha].
Defined.

(** A retrieval whose index is down, for a session id not seen before:
    the caller gets the error outcome and the session id is in the
    store. *)
Lemma failed_retrieval_registers_session_witness :
  VoicePipeline.active_sessions
    (VoicePipeline.init (Scenario.hears 0.9) Scenario.voice Scenario.replies
       Scenario.index_down) !! "session-1" = None
  /\ exists resp w',
       VoicePipeline.process_audio_chunk [] "session-1"
         (Scenario.env0,
          VoicePipeline.init (Scenario.hears 0.9) Scenario.voice
            Scenario.replies Scenario.index_down) =
       (Return resp, w')
       /\ VoiceResponse.ai_response resp = VoicePipeline.error_response
       /\ SessionContext.total_interactions
            <$> (VoicePipeline.active_sessions (snd w') !! "session-1") =
          Some 0.
Proof.
  split; [reflexivity |].
  destruct (failed_retrieval_registers_session [] "session-1" Scenario.env0
              (VoicePipeline.init (Scenario.hears 0.9) Scenario.voice
                 Scenario.replies Scenario.index_down)
              (DeepgramService.mk_result (Some "what is my bill")
                 (Some 0.9%Q))
              "what is my bill" "index unavailable"
              eq_refl eq_refl eq_refl ltac:(discriminate)
              ltac:(intros H; vm_compute in H; discriminate H) eq_refl)
    as (resp & e' & p' & Hrun & _ & Ha & Hctx & _).
  exists resp, (e', p'). split; [exact Hrun |]. split; [exact Ha |].
  cbn [snd]. now rewrite Hctx.
Defined.

(** The first chunk of a session, heard with the confidence 0.9: the
    pipeline then reports one interaction and two messages. *)
Lemma session_analytics_after_chunk_witness :
  exists w1 report w2,
    snd (VoicePipeline.process_audio_chunk [] "session-1"
           (Scenario.env0, Scenario.pipeline (Scenario.hears 0.9))) = w1
    /\ VoicePipeline.get_session_analytics "session-1" w1 =
       (Return (Some report), w2)
    /\ PipelineSessionAnalytics.total_interactions report = 1
    /\ PipelineSessionAnalytics.conversation_length report = 2.
Proof.
  destruct (session_analytics_after_chunk [] "session-1" Scenario.env0
              (Scenario.pipeline (Scenario.hears 0.9))
              (DeepgramService.mk_result (Some "what is my bill")
                 (Some 0.9%Q))
              "what is my bill" "" (Some "Your bill is $5.")
              eq_refl eq_refl ltac:(discriminate)
              ltac:(intros H; vm_compute in H; discriminate H)
              eq_refl eq_refl)
    as (resp & e' & p' & report & now & Hrun & Hreport & _ & Htotal & Hlen
        & _).
  exists (e', p'), report, (tick e', p'). rewrite Hrun.
  split; [reflexivity |]. split; [exact Hreport |].
  split; [exact Htotal | exact Hlen].
Defined.

(** ** The text that is spoken (services/groq_service.py) *)

Section VoiceText.

Lemma in_app_string (c : ascii) (x y : string) :
  In c (list_ascii_of_string (x +:+ y)) <->
  In c (list_ascii_of_string x) \/ In c (list_ascii_of_string y).
Proof. induction x as [| a x IH]; simpl; [tauto | rewrite IH; tauto]. Qed.

Lemma prefix_empty (s : string) : String.prefix EmptyString s = true.
Proof. destruct s; reflexivity. Qed.

Lemma contains_char (c : ascii) (s : string) :
  Str.contains (String c EmptyString) s = false <->
  ~ In c (list_ascii_of_string s).
Proof.
  induction s as [| a s IH]; cbn; [tauto |].
  destruct (ascii_dec c a) as [-> | Hne]; cbn.
  - rewrite prefix_empty.
    split; [discriminate | intros H; exfalso; apply H; now left].
  - rewrite IH. split; [intros H [Ha | Hin]; [congruence | tauto] | tauto].
Qed.

(** A replacement brings in no character that neither the text nor the
    new string has. *)
Lemma replace_from_keeps_out (c : ascii) (old new : string) :
  ~ In c (list_ascii_of_string new) ->
  forall (s : string) (k : nat),
    ~ In c (list_ascii_of_string s) ->
    ~ In c (list_ascii_of_string (Str.replace_from k old new s)).
Proof.
  intros Hnew. induction s as [| a s IH]; intros k Hs; [exact Hs |].
  cbn [Str.replace_from]. cbn in Hs.
  destruct k as [| k]; [| apply IH; tauto].
  destruct (String.prefix old (String a s)).
  - rewrite in_app_string. intros [H | H]; [tauto |].
    revert H. apply IH. tauto.
  - cbn. intros [H | H]; [tauto |]. revert H. apply IH. tauto.
Qed.

Lemma replace_keeps_out (c : ascii) (old new s : string) :
  ~ In c (list_ascii_of_string new) ->
  ~ In c (list_ascii_of_string s) ->
  ~ In c (list_ascii_of_string (Str.replace old new s)).
Proof. intros Hnew Hs. now apply replace_from_keeps_out. Qed.

(** Replacing a character removes it. *)
Lemma replace_removes (c : ascii) (new s : string) :
  ~ In c (list_ascii_of_string new) ->
  ~ In c (list_ascii_of_string (Str.replace (String c EmptyString) new s)).
Proof.
  intros Hnew. unfold Str.replace.
  induction s as [| a s IH]; [cbn; tauto |].
  cbn [Str.replace_from String.prefix String.length Nat.sub].
  destruct (ascii_dec c a) as [-> | Hne].
  - rewrite prefix_empty, in_app_string. tauto.
  - cbn. intros [H | H]; [congruence | tauto].
Qed.

(** A replacement whose pattern does not occur changes nothing. *)
Lemma replace_absent (old new s : string) :
  Str.contains old s = false -> Str.replace old new s = s.
Proof.
  unfold Str.replace. induction s as [| a s IH]; intros Hno; [reflexivity |].
  cbn [Str.contains] in Hno. apply orb_false_iff in Hno as [Hprefix Hrest].
  cbn [Str.replace_from]. rewrite Hprefix. now rewrite IH.
Qed.

(** X16. The text [optimize_for_voice] returns has none of the marks it
    is meant to take out, whatever the text it is given: no asterisk, no
    underscore, and none of the signs [&], [@], [#], [%] and [$], which
    are spoken as words. *)
Theorem optimize_for_voice_removes_marks (text : string) :
  Forall
    (fun mark => Str.contains mark (GroqService.optimize_for_voice text) = false)
    ["*"; "_"; "&"; "@"; "#"; "%"; "$"].
Proof.
  unfold GroqService.optimize_for_voice, GroqService.replacements.
  cbn [fold_left fst snd].
  repeat constructor; apply contains_char;
    repeat
      (first
         [ apply replace_removes; cbn; intuition discriminate
         | apply replace_keeps_out; [cbn; intuition discriminate |] ]).
Qed.

(** X17. [optimize_for_voice] leaves a text as it is when none of the
    patterns it replaces occurs in it: the two markdown marks, the three
    abbreviations, the five signs, and a full stop, a question mark or an
    exclamation mark followed by a space. *)
Theorem optimize_for_voice_plain (text : string) :
  Forall (fun old => Str.contains old text = false)
    (["**"; "*"; "_"] ++ map fst GroqService.replacements
     ++ [". "; "? "; "! "]) ->
  GroqService.optimize_for_voice text = text.
Proof.
  intros Hno. cbn [map fst GroqService.replacements app] in Hno.
  repeat (apply Forall_cons in Hno as [? Hno]).
  unfold GroqService.optimize_for_voice, GroqService.replacements.
  cbn [fold_left fst snd].
  repeat
    match goal with
    | H : Str.contains ?old text = false |- _ =>
        rewrite (replace_absent old _ text H)
    end.
  reflexivity.
Qed.

End VoiceText.

(** A reply in plain words is spoken as it is. *)
Lemma optimize_for_voice_plain_witness :
  GroqService.optimize_for_voice "Your bill is five dollars, due on Monday" =
  "Your bill is five dollars, due on Monday".
Proof.
  apply optimize_for_voice_plain.
  repeat constructor.
Defined.

(** ** Intents and categories (services/analytics_service.py) *)

Section Classification.
Import AnalyticsService.

Lemma filter_map_split {A B : Type} (P : B -> Prop) `{forall b, Decision (P b)}
    (f : A -> B) (L : list A) :
  forall (l1 : list B) (y : B) (l2 : list B),
    filter P (map f L) = l1 ++ y :: l2 ->
    exists L1 x L2,
      L = L1 ++ x :: L2 /\ f x = y
      /\ filter P (map f L1) = l1 /\ filter P (map f L2) = l2.
Proof.
  induction L as [| a L IH]; intros l1 y l2 Heq.
  - destruct l1; discriminate Heq.
  - cbn [map] in Heq. destruct (decide (P (f a))) as [Hp | Hn].
    + rewrite filter_cons_True in Heq by exact Hp.
      destruct l1 as [| b l1]; cbn in Heq; injection Heq as Hhead Htail.
      * exists [], a, L. auto.
      * destruct (IH l1 y l2 Htail) as (L1 & x & L2 & -> & Hx & H1 & H2).
        exists (a :: L1), x, L2. cbn [map app].
        rewrite filter_cons_True by exact Hp. subst. auto.
    + rewrite filter_cons_False in Heq by exact Hn.
      destruct (IH l1 y l2 Heq) as (L1 & x & L2 & -> & Hx & H1 & H2).
      exists (a :: L1), x, L2. cbn [map app].
      rewrite filter_cons_False by exact Hn. auto.
Qed.

Lemma count_in_nonneg (keywords : list string) (s : string) :
  0 <= Str.count_in keywords s.
Proof. unfold Str.count_in. lia. Qed.

Lemma lower_char_idempotent (c : ascii) :
  Str.lower_char (Str.lower_char c) = Str.lower_char c.
Proof. destruct c as [[] [] [] [] [] [] [] []]; reflexivity. Qed.

Lemma lower_idempotent (s : string) : Str.lower (Str.lower s) = Str.lower s.
Proof.
  induction s as [| c s IH]; [reflexivity |].
  cbn [Str.lower]. now rewrite lower_char_idempotent, IH.
Qed.

(** X18. [_classify_intent] answers with an intent of its table that no
    other intent outscores, the score of an intent being the number of
    its keywords that occur in the message in lower case. When some
    keyword occurs, the intents that stand before the answer in the
    table score strictly less, so of the intents with the highest score
    the first is chosen; when no keyword occurs the answer is
    ["general_question"]. The case of the letters plays no role. *)
Theorem classify_intent_highest_score (message : string) :
  let score := fun keywords => Str.count_in keywords (Str.lower message) in
  (exists before keywords after,
      intent_patterns =
      before ++ (_classify_intent message, keywords) :: after
      /\ (forall p, p ∈ intent_patterns -> score (snd p) <= score keywords)
      /\ (0 < score keywords ->
          forall p, p ∈ before -> score (snd p) < score keywords)
      /\ (score keywords = 0 -> _classify_intent message = "general_question"))
  /\ _classify_intent (Str.lower message) = _classify_intent message.
Proof.
  intros score. split.
  2: { unfold _classify_intent. now rewrite lower_idempotent. }
  unfold _classify_intent.
  set (scores :=
         filter (fun kv : string * Z => 0 < snd kv)
           (map (fun p : string * list string =>
                   (fst p, Str.count_in (snd p) (Str.lower message)))
              intent_patterns)).
  destruct (Dict.argmax Z.ltb scores) as [intent |] eqn:Hmax.
  - destruct (argmax_split scores intent Hmax)
      as (l1 & v & l2 & Hscores & Hbefore & Hafter).
    destruct (filter_map_split _ _ intent_patterns l1 (intent, v) l2 Hscores)
      as (L1 & [name keywords] & L2 & Htable & Hx & H1 & H2).
    cbn [fst snd] in Hx. injection Hx as -> Hv.
    assert (Hpos : 0 < v).
    { assert (Hin : (intent, v) ∈ scores)
        by (rewrite Hscores, elem_of_app, elem_of_cons; auto).
      apply list_elem_of_filter in Hin as [Hin _]. exact Hin. }
    assert (Hside : forall (L : list (string * list string)) l p,
               filter (fun kv : string * Z => 0 < snd kv)
                 (map (fun p : string * list string =>
                         (fst p, Str.count_in (snd p) (Str.lower message)))
                    L) = l ->
               p ∈ L ->
               score (snd p) <= 0 \/ (fst p, score (snd p)) ∈ l).
    { intros L l p <- Hp.
      destruct (decide (0 < score (snd p))) as [Hs | Hs]; [right | left; lia].
      apply list_elem_of_filter. split; [exact Hs |].
      apply list_elem_of_fmap. now exists p. }
    exists L1, keywords, L2. split; [exact Htable |].
    fold (score keywords) in Hv. rewrite Hv.
    split; [| split].
    + intros p Hp. rewrite Htable in Hp.
      apply elem_of_app in Hp as [Hp | Hp];
        [| apply elem_of_cons in Hp as [-> | Hp]].
      * destruct (Hside L1 l1 p H1 Hp) as [Hle | Hin]; [lia |].
        specialize (Hbefore _ Hin). cbn in Hbefore. lia.
      * cbn [snd]. lia.
      * destruct (Hside L2 l2 p H2 Hp) as [Hle | Hin]; [lia |].
        specialize (Hafter _ Hin). cbn in Hafter. lia.
    + intros _ p Hp.
      destruct (Hside L1 l1 p H1 Hp) as [Hle | Hin]; [lia |].
      specialize (Hbefore _ Hin). cbn in Hbefore. lia.
    + lia.
  - assert (Hnone : scores = [])
      by (destruct scores; [reflexivity | discriminate Hmax]).
    assert (Hzero : forall p, p ∈ intent_patterns -> score (snd p) = 0).
    { intros p Hp.
      pose proof (count_in_nonneg (snd p) (Str.lower message)) as Hge.
      destruct (decide (0 < score (snd p))) as [Hs | Hs];
        [| unfold score in *; lia].
      assert (Hin : (fst p, score (snd p)) ∈ scores).
      { apply list_elem_of_filter. split; [exact Hs |].
        apply list_elem_of_fmap. now exists p. }
      rewrite Hnone in Hin. inversion Hin. }
    exists (take 7 intent_patterns),
      ["question"; "ask"; "wondering"; "curious"; "information"], [].
    split; [reflexivity |].
    assert (Hlast : score
                      ["question"; "ask"; "wondering"; "curious";
                       "information"] = 0).
    { apply (Hzero ("general_question", _)).
      unfold intent_patterns. repeat constructor. }
    rewrite Hlast. split; [| split].
    + intros p Hp. rewrite (Hzero p Hp). lia.
    + lia.
    + reflexivity.
Qed.

Lemma find_split {A : Type} (f : A -> bool) (l : list A) (x : A) :
  find f l = Some x ->
  exists l1 l2,
    l = l1 ++ x :: l2 /\ f x = true /\ forall y, y ∈ l1 -> f y = false.
Proof.
  induction l as [| a l IH]; [discriminate |].
  cbn [find]. destruct (f a) eqn:Ha.
  - intros [= ->]. exists [], l. split; [reflexivity |].
    split; [exact Ha |]. intros y Hy. inversion Hy.
  - intros Hfind. destruct (IH Hfind) as (l1 & l2 & -> & Hx & Hbefore).
    exists (a :: l1), l2. split; [reflexivity |]. split; [exact Hx |].
    intros y Hy. apply elem_of_cons in Hy as [-> | Hy]; auto.
Qed.

(** X19. [_categorize_question] answers with the first category of its
    table that has a keyword occurring in the question in lower case:
    no category that stands before the answer has one. It answers
    ["other"], the last category, exactly when no keyword of any
    category occurs. *)
Theorem categorize_question_first_match (question : string) :
  (exists before keywords after,
      categories = before ++ (_categorize_question question, keywords) :: after
      /\ (forall p,
            p ∈ before -> Str.any_in (snd p) (Str.lower question) = false)
      /\ (Str.any_in keywords (Str.lower question) = true
          \/ _categorize_question question = "other" /\ after = []))
  /\ (_categorize_question question = "other" <->
      forall p, p ∈ categories ->
                Str.any_in (snd p) (Str.lower question) = false).
Proof.
  unfold _categorize_question.
  destruct (find (fun p : string * list string =>
                    Str.any_in (snd p) (Str.lower question)) categories)
    as [[name keywords] |] eqn:Hfind.
  - destruct (find_split _ _ _ Hfind) as (l1 & l2 & Htable & Hx & Hbefore).
    cbn [fst snd] in *. split.
    + exists l1, keywords, l2. auto.
    + split.
      * intros ->. exfalso.
        assert (Hin : ("other", keywords) ∈ categories)
          by (rewrite Htable, elem_of_app, elem_of_cons; auto).
        unfold categories in Hin.
        repeat (apply elem_of_cons in Hin as [[= <-] | Hin]; []).
        apply elem_of_cons in Hin as [[= ->] | Hin];
          [discriminate Hx | inversion Hin].
      * intros Hnone.
        assert (Hin : (name, keywords) ∈ categories)
          by (rewrite Htable, elem_of_app, elem_of_cons; auto).
        specialize (Hnone _ Hin). cbn [snd] in Hnone. congruence.
  - assert (Hnone : forall p, p ∈ categories ->
                      Str.any_in (snd p) (Str.lower question) = false).
    { intros p Hp. apply list_elem_of_In in Hp.
      exact (find_none _ _ Hfind p Hp). }
    split.
    + exists (take 5 categories), [], []. split; [reflexivity |].
      split; [| auto].
      intros p Hp. apply Hnone. now apply elem_of_take in Hp as (i & Hp & _); 
        apply list_elem_of_lookup_2 in Hp.
    + split; auto.
Qed.

End Classification.

(** ** Common questions (services/analytics_service.py) *)

Section CommonQuestionsReport.
Import AnalyticsService.

Lemma StronglySorted_take {A : Type} (R : A -> A -> Prop) (l : list A) :
  StronglySorted R l -> forall n, StronglySorted R (take n l).
Proof.
  intros Hl. induction Hl as [| a l Hsorted IH Hall]; intros n.
  - rewrite take_nil. constructor.
  - destruct n as [| n]; cbn; constructor; [apply IH |].
    apply Forall_forall. intros x Hx.
    apply (proj1 (Forall_forall _ _) Hall).
    now apply elem_of_take in Hx as (i & Hx%list_elem_of_lookup_2 & _).
Qed.


Lemma StronglySorted_app_between {A : Type} (R : A -> A -> Prop)
    (l1 l2 : list A) :
  StronglySorted R (l1 ++ l2) ->
  forall x y, x ∈ l1 -> y ∈ l2 -> R x y.
Proof.
  induction l1 as [| a l1 IH]; intros Hsorted x y Hx Hy; [inversion Hx |].
  cbn in Hsorted. apply StronglySorted_inv in Hsorted as [Hrest Hall].
  apply elem_of_cons in Hx as [-> | Hx]; [| now apply IH].
  apply (proj1 (Forall_forall _ _) Hall). apply elem_of_app. now right.
Qed.


Lemma total_increment {K : Type} `{EqDecision K} (k : K) (d : list (K * Z)) :
  foldr Z.add 0 (map snd (increment k d)) = foldr Z.add 0 (map snd d) + 1.
Proof.
  unfold increment. induction d as [| [k0 v0] d IH]; [reflexivity |].
  cbn [Dict.get Dict.set].
  case_decide as Hk; cbn [map snd foldr default].
  - unfold id. lia.
  - rewrite IH. lia.
Qed.

Lemma total_counter {K : Type} `{EqDecision K} (xs : list K) :
  foldr Z.add 0 (map snd (counter xs)) = Z.of_nat (length xs).
Proof.
  unfold counter.
  assert (Hgen : forall d : list (K * Z),
             foldr Z.add 0
               (map snd (fold_left (fun d x => increment x d) xs d)) =
             foldr Z.add 0 (map snd d) + Z.of_nat (length xs)).
  { induction xs as [| x xs IH]; intros d; cbn [fold_left length].
    - lia.
    - rewrite IH, total_increment. lia. }
  rewrite Hgen. reflexivity.
Qed.


End CommonQuestionsReport.

(** ** What a saved call logs (services/analytics_service.py) *)

Section SavedCalls.
Import AnalyticsService.

Lemma set_keys_NoDup {V : Type} (k : string) (v : V)
    (d : list (string * V)) :
  NoDup (map fst d) -> NoDup (map fst (Dict.set k v d)).
Proof.
  intros Hnd. destruct (decide (k ∈ map fst d)) as [Hin | Hout].
  - now rewrite set_present.
  - rewrite set_absent by exact Hout. rewrite map_app. cbn [map fst].
    apply NoDup_app. split; [exact Hnd |]. split.
    + intros y Hy Hy'. apply list_elem_of_singleton in Hy' as ->.
      contradiction.
    + apply NoDup_singleton.
Qed.

(** The pattern table stays in step with the log of interactions: its
    keys are distinct, its counts are positive, and they add up to no
    more than the number of logged interactions. *)
Lemma updated_patterns_in_step (question : string)
    (patterns : list (string * Z)) (n : nat) :
  NoDup (map fst patterns)
  /\ (forall p c, Dict.get p patterns = Some c -> 1 <= c)
  /\ foldr Z.add 0 (map snd patterns) <= Z.of_nat n ->
  NoDup (map fst (updated_patterns question patterns))
  /\ (forall p c,
        Dict.get p (updated_patterns question patterns) = Some c -> 1 <= c)
  /\ foldr Z.add 0 (map snd (updated_patterns question patterns)) <=
     Z.of_nat (S n).
Proof.
  intros (Hnd & Hpos & Htotal). unfold updated_patterns.
  case_decide as Hwords; [| split; [exact Hnd | split; [exact Hpos | lia]]].
  set (pattern :=
         Str.join " "
           (first_n 3
              (Str.split (Str.remove_punctuation (Str.lower question))))).
  split; [now apply set_keys_NoDup |]. split.
  - intros p c. rewrite get_set. case_decide as Hp.
    + intros [= <-].
      destruct (Dict.get pattern patterns) as [c0 |] eqn:Hc0; cbn.
      * specialize (Hpos _ _ Hc0). unfold id. lia.
      * lia.
    + apply Hpos.
  - fold (increment pattern patterns). rewrite total_increment. lia.
Qed.

Lemma process_interaction_logs sid msg (e : Env) (a : t) :
  exists e' a' new,
    process_interaction sid msg (e, a) = (Return tt, (e', a'))
    /\ call_logs a' = call_logs a
    /\ error_logs a' = error_logs a
    /\ interaction_logs a' = interaction_logs a ++ new
    /\ map InteractionData.user_message new =
       map (fun m => Str.strip (Str.lower (content m)))
         (filter (fun m => role m = "user") [msg])
    /\ Forall
         (fun l =>
            InteractionData.session_id l = sid
            /\ InteractionData.intent l =
               _classify_intent (InteractionData.user_message l)
            /\ InteractionData.question_category l =
               _categorize_question (InteractionData.user_message l)) new
    /\ (NoDup (map fst (question_patterns a))
        /\ (forall p c, Dict.get p (question_patterns a) = Some c -> 1 <= c)
        /\ foldr Z.add 0 (map snd (question_patterns a)) <=
           Z.of_nat (length (interaction_logs a)) ->
        NoDup (map fst (question_patterns a'))
        /\ (forall p c, Dict.get p (question_patterns a') = Some c -> 1 <= c)
        /\ foldr Z.add 0 (map snd (question_patterns a')) <=
           Z.of_nat (length (interaction_logs a'))).
Proof.
  unfold process_interaction. case_decide as Hrole.
  - do 2 eexists.
    exists [ {| InteractionData.session_id := sid;
                InteractionData.timestamp :=
                  default (clock e (ticks e)) (timestamp msg);
                InteractionData.user_message :=
                  Str.strip (Str.lower (content msg));
                InteractionData.confidence := default 1%Q (confidence msg);
                InteractionData.intent :=
                  _classify_intent (Str.strip (Str.lower (content msg)));
                InteractionData.question_category :=
                  _categorize_question (Str.strip (Str.lower (content msg)))
             |} ].
    split; [reflexivity |].
    cbn [snd call_logs error_logs interaction_logs question_patterns].
    split; [reflexivity |]. split; [reflexivity |]. split; [reflexivity |].
    split; [now rewrite filter_cons_True by exact Hrole |].
    split; [repeat constructor |].
    intros Hstep. rewrite length_app, Nat.add_1_r.
    now apply updated_patterns_in_step.
  - exists e, a, []. split; [reflexivity |].
    split; [reflexivity |]. split; [reflexivity |].
    split; [now rewrite app_nil_r |].
    split; [now rewrite filter_cons_False by exact Hrole |].
    split; [constructor | auto].
Qed.

Lemma process_interactions_logs sid history :
  forall (e : Env) (a : t),
  exists e' a' new,
    for_each history (process_interaction sid) (e, a) = (Return tt, (e', a'))
    /\ call_logs a' = call_logs a
    /\ error_logs a' = error_logs a
    /\ interaction_logs a' = interaction_logs a ++ new
    /\ map InteractionData.user_message new =
       map (fun m => Str.strip (Str.lower (content m)))
         (filter (fun m => role m = "user") history)
    /\ Forall
         (fun l =>
            InteractionData.session_id l = sid
            /\ InteractionData.intent l =
               _classify_intent (InteractionData.user_message l)
            /\ InteractionData.question_category l =
               _categorize_question (InteractionData.user_message l)) new
    /\ (NoDup (map fst (question_patterns a))
        /\ (forall p c, Dict.get p (question_patterns a) = Some c -> 1 <= c)
        /\ foldr Z.add 0 (map snd (question_patterns a)) <=
           Z.of_nat (length (interaction_logs a)) ->
        NoDup (map fst (question_patterns a'))
        /\ (forall p c, Dict.get p (question_patterns a') = Some c -> 1 <= c)
        /\ foldr Z.add 0 (map snd (question_patterns a')) <=
           Z.of_nat (length (interaction_logs a'))).
Proof.
  induction history as [| msg history IH]; intros e a.
  - exists e, a, []. split; [reflexivity |].
    split; [reflexivity |]. split; [reflexivity |].
    split; [now rewrite app_nil_r |]. split; [reflexivity |].
    split; [constructor | auto].
  - destruct (process_interaction_logs sid msg e a)
      as (e1 & a1 & new1 & Hrun1 & Hcalls1 & Herr1 & Hlogs1 & Htexts1 & Hall1
          & Hstep1).
    destruct (IH e1 a1)
      as (e2 & a2 & new2 & Hrun2 & Hcalls2 & Herr2 & Hlogs2 & Htexts2 & Hall2
          & Hstep2).
    exists e2, a2, (new1 ++ new2). cbn [for_each].
    rewrite (bind_Return _ _ _ _ _ Hrun1). split; [exact Hrun2 |].
    split; [congruence |]. split; [congruence |].
    split; [rewrite Hlogs2, Hlogs1; now rewrite app_assoc |].
    split.
    { rewrite map_app, Htexts1, Htexts2, <- map_app, <- filter_app.
      reflexivity. }
    split; [now apply Forall_app |]. auto.
Qed.

(** [save_call_data] is the loop over the history of the session, run
    after the record of the call has been logged. *)
Lemma save_call_data_unfold (session : ConversationSession.t) (e : Env)
    (a : t) :
  exists e0 call,
    (forall result,
        for_each (ConversationSession.conversation_history session)
          (process_interaction (ConversationSession.id session))
          (e0,
           {| call_logs := call_logs a ++ [call];
              interaction_logs := interaction_logs a;
              error_logs := error_logs a;
              performance_metrics := performance_metrics a;
              question_patterns := question_patterns a;
              intent_categories := intent_categories a |}) =
        (Return tt, result) ->
        save_call_data session (e, a) = (Return tt, result))
    /\ CallData.session_id call = ConversationSession.id session
    /\ CallData.status call = ConversationSession.status session
    /\ CallData.total_interactions call =
       ConversationSession.total_interactions session
    /\ CallData.conversation_history call =
       ConversationSession.conversation_history session
    /\ match ConversationSession.end_time session with
       | Some t_end =>
           CallData.end_time call = t_end
           /\ CallData.duration call =
              total_seconds t_end (ConversationSession.start_time session)
       | None =>
           CallData.end_time call = clock e (ticks e)
           /\ CallData.duration call =
              total_seconds (clock e (S (ticks e)))
                (ConversationSession.start_time session)
       end.
Proof.
  unfold save_call_data, ConversationSession.get_duration.
  destruct (ConversationSession.end_time session) as [t_end |] eqn:Hend.
  - exists e, (call_data_of session t_end). split.
    + intros result Hrun. apply try_except_Return.
      unfold ret at 1. unfold bind at 1.
      unfold ret at 1. unfold bind at 1.
      unfold get_self at 1. unfold bind at 1. cbn [snd].
      unfold put_self at 1. unfold bind at 1. cbn [fst].
      unfold _process_interactions.
      now apply try_except_Return.
    + repeat split; reflexivity.
  - eexists (tick (tick e)), _. split.
    + intros result Hrun. apply try_except_Return.
      unfold datetime_now at 1. unfold bind at 1. cbn [fst snd].
      unfold datetime_now at 1. unfold bind at 1. unfold bind at 1.
      cbn [fst snd ret].
      unfold get_self at 1. unfold bind at 1. cbn [snd].
      unfold put_self at 1. unfold bind at 1. cbn [fst].
      unfold _process_interactions.
      apply try_except_Return. exact Hrun.
    + repeat split; reflexivity.
Qed.

(** X21. [save_call_data] logs the call and the questions of its users,
    and never raises. The log of calls gets one record, with the id, the
    status, the counter and the history of the session; for a session
    that has ended it carries the end time of the session and the
    seconds from start to end, for one that has not, the end time is one
    reading of the clock and the duration is taken at the next. The log
    of interactions gets one entry for each message of a user, in their
    order, with the text in lower case and stripped, the id of the
    session, and the intent and the category of that text. The log of
    errors stays. *)
Theorem save_call_data_logs (session : ConversationSession.t) (e : Env)
    (a : t) :
  exists e' a' call new,
    save_call_data session (e, a) = (Return tt, (e', a'))
    /\ call_logs a' = call_logs a ++ [call]
    /\ CallData.session_id call = ConversationSession.id session
    /\ CallData.status call = ConversationSession.status session
    /\ CallData.total_interactions call =
       ConversationSession.total_interactions session
    /\ CallData.conversation_history call =
       ConversationSession.conversation_history session
    /\ match ConversationSession.end_time session with
       | Some t_end =>
           CallData.end_time call = t_end
           /\ CallData.duration call =
              total_seconds t_end (ConversationSession.start_time session)
       | None =>
           CallData.end_time call = clock e (ticks e)
           /\ CallData.duration call =
              total_seconds (clock e (S (ticks e)))
                (ConversationSession.start_time session)
       end
    /\ interaction_logs a' = interaction_logs a ++ new
    /\ map InteractionData.user_message new =
       map (fun m => Str.strip (Str.lower (content m)))
         (filter (fun m => role m = "user")
            (ConversationSession.conversation_history session))
    /\ Forall
         (fun l =>
            InteractionData.session_id l = ConversationSession.id session
            /\ InteractionData.intent l =
               _classify_intent (InteractionData.user_message l)
            /\ InteractionData.question_category l =
               _categorize_question (InteractionData.user_message l)) new
    /\ error_logs a' = error_logs a.
Proof.
  destruct (save_call_data_unfold session e a)
    as (e0 & call & Hunfold & Hid & Hstatus & Htotal & Hhistory & Htimes).
  destruct (process_interactions_logs (ConversationSession.id session)
              (ConversationSession.conversation_history session) e0
              {| call_logs := call_logs a ++ [call];
                 interaction_logs := interaction_logs a;
                 error_logs := error_logs a;
                 performance_metrics := performance_metrics a;
                 question_patterns := question_patterns a;
                 intent_categories := intent_categories a |})
    as (e' & a' & new & Hrun & Hcalls & Herr & Hlogs & Htexts & Hall & _).
  exists e', a', call, new. cbn in Hcalls, Herr, Hlogs.
  split; [now apply Hunfold |]. repeat split; assumption.
Qed.

End SavedCalls.

(** ** The bounds of what is reported (services/analytics_service.py) *)

Section AnalyticsBounds.
Import AnalyticsService.

Lemma length_filter_le {A : Type} (P : A -> Prop) `{forall x, Decision (P x)}
    (l : list A) :
  (length (filter P l) <= length l)%nat.
Proof.
  induction l as [| x l IH]; [reflexivity |].
  destruct (decide (P x)).
  - rewrite filter_cons_True by assumption. cbn. lia.
  - rewrite filter_cons_False by assumption. cbn. lia.
Qed.

Lemma length_filter_mono {A : Type} (P Q : A -> Prop)
    `{forall x, Decision (P x)} `{forall x, Decision (Q x)} (l : list A) :
  (forall x, P x -> Q x) ->
  (length (filter P l) <= length (filter Q l))%nat.
Proof.
  intros Himp. induction l as [| x l IH]; [reflexivity |].
  destruct (decide (P x)) as [Hp | Hp].
  - rewrite (filter_cons_True P) by assumption.
    rewrite (filter_cons_True Q) by auto. cbn. lia.
  - rewrite (filter_cons_False P) by assumption.
    destruct (decide (Q x)).
    + rewrite (filter_cons_True Q) by assumption. cbn. lia.
    + rewrite (filter_cons_False Q) by assumption. exact IH.
Qed.

Lemma entry_le_total (d : list (string * Z)) (k : string) (c : Z) :
  (forall kv, kv ∈ d -> 0 <= snd kv) ->
  (k, c) ∈ d -> c <= foldr Z.add 0 (map snd d).
Proof.
  induction d as [| kv d IH]; intros Hpos Hin; [inversion Hin |].
  cbn [map foldr].
  assert (Hrest : 0 <= foldr Z.add 0 (map snd d)).
  { clear IH Hin. induction d as [| kv' d IH]; cbn; [lia |].
    assert (0 <= snd kv') by (apply Hpos; right; left).
    assert (0 <= foldr Z.add 0 (map snd d)); [| lia].
    apply IH. intros x Hx. apply Hpos.
    apply elem_of_cons in Hx as [-> | Hx]; [left | right; now right]. }
  apply elem_of_cons in Hin as [<- | Hin]; [cbn; lia |].
  assert (0 <= snd kv) by (apply Hpos; left).
  assert (c <= foldr Z.add 0 (map snd d)); [| lia].
  apply IH; [| exact Hin]. intros x Hx. apply Hpos. now right.
Qed.

Lemma save_call_data_in_step (session : ConversationSession.t) (e : Env)
    (a : t) :
  NoDup (map fst (question_patterns a))
  /\ (forall p c, Dict.get p (question_patterns a) = Some c -> 1 <= c)
  /\ foldr Z.add 0 (map snd (question_patterns a)) <=
     Z.of_nat (length (interaction_logs a)) ->
  exists e' a',
    save_call_data session (e, a) = (Return tt, (e', a'))
    /\ length (call_logs a') = S (length (call_logs a))
    /\ length (interaction_logs a') =
       (length (interaction_logs a)
        + length
            (filter (fun m => role m = "user")
               (ConversationSession.conversation_history session)))%nat
    /\ error_logs a' = error_logs a
    /\ (NoDup (map fst (question_patterns a'))
        /\ (forall p c, Dict.get p (question_patterns a') = Some c -> 1 <= c)
        /\ foldr Z.add 0 (map snd (question_patterns a')) <=
           Z.of_nat (length (interaction_logs a'))).
Proof.
  intros Hstep.
  destruct (save_call_data_unfold session e a) as (e0 & call & Hunfold & _).
  destruct (process_interactions_logs (ConversationSession.id session)
              (ConversationSession.conversation_history session) e0
              {| call_logs := call_logs a ++ [call];
                 interaction_logs := interaction_logs a;
                 error_logs := error_logs a;
                 performance_metrics := performance_metrics a;
                 question_patterns := question_patterns a;
                 intent_categories := intent_categories a |})
    as (e' & a' & new & Hrun & Hcalls & Herr & Hlogs & Htexts & _ & Hkeep).
  exists e', a'. cbn in Hcalls, Herr, Hlogs, Hkeep.
  split; [now apply Hunfold |].
  split; [rewrite Hcalls, length_app; cbn; lia |].
  split.
  { rewrite Hlogs, length_app. f_equal.
    rewrite <- (length_map InteractionData.user_message new), Htexts.
    now rewrite length_map. }
  split; [exact Herr |]. now apply Hkeep.
Qed.

Lemma saved_calls_in_step (sessions : list ConversationSession.t) :
  forall (e : Env) (a : t),
    NoDup (map fst (question_patterns a))
    /\ (forall p c, Dict.get p (question_patterns a) = Some c -> 1 <= c)
    /\ foldr Z.add 0 (map snd (question_patterns a)) <=
       Z.of_nat (length (interaction_logs a)) ->
    exists e' a',
      for_each sessions save_call_data (e, a) = (Return tt, (e', a'))
      /\ length (call_logs a') =
         (length (call_logs a) + length sessions)%nat
      /\ length (interaction_logs a') =
         (length (interaction_logs a)
          + length
              (filter (fun m => role m = "user")
                 (flat_map ConversationSession.conversation_history
                    sessions)))%nat
      /\ error_logs a' = error_logs a
      /\ (NoDup (map fst (question_patterns a'))
          /\ (forall p c,
                Dict.get p (question_patterns a') = Some c -> 1 <= c)
          /\ foldr Z.add 0 (map snd (question_patterns a')) <=
             Z.of_nat (length (interaction_logs a'))).
Proof.
  induction sessions as [| session sessions IH]; intros e a Hstep.
  - exists e, a. split; [reflexivity |]. cbn.
    rewrite !Nat.add_0_r. auto.
  - destruct (save_call_data_in_step session e a Hstep)
      as (e1 & a1 & Hrun1 & Hcalls1 & Hlogs1 & Herr1 & Hstep1).
    destruct (IH e1 a1 Hstep1)
      as (e2 & a2 & Hrun2 & Hcalls2 & Hlogs2 & Herr2 & Hstep2).
    exists e2, a2. cbn [for_each flat_map].
    rewrite (bind_Return _ _ _ _ _ Hrun1). split; [exact Hrun2 |].
    split; [cbn [length]; lia |].
    split; [rewrite filter_app, length_app; lia |].
    split; [congruence | exact Hstep2].
Qed.

(** X22. Whatever calls are saved, one after the other, into a service
    as [__init__] leaves it, every one of them is logged, every message
    of a user in their histories is logged as an interaction, and the
    pattern table stays in step with the interactions: its patterns are
    distinct and their counts add up to no more than the number of
    interactions. So in the report of [get_common_questions] every
    pattern has a count of at least 1 and a percentage between 0 and
    100. *)
Theorem saved_calls_keep_patterns_in_step
    (sessions : list ConversationSession.t) (limit : Z) (e : Env) :
  exists e' a',
    for_each sessions save_call_data (e, init) = (Return tt, (e', a'))
    /\ length (call_logs a') = length sessions
    /\ length (interaction_logs a') =
       length
         (filter (fun m => role m = "user")
            (flat_map ConversationSession.conversation_history sessions))
    /\ error_logs a' = []
    /\ NoDup (map fst (question_patterns a'))
    /\ foldr Z.add 0 (map snd (question_patterns a')) <=
       Z.of_nat (length (interaction_logs a'))
    /\ match fst (get_common_questions limit (e', a')) with
       | Return (CommonQuestions.questions q) =>
           Forall
             (fun x =>
                1 <= CommonQuestions.count x
                /\ (0 <= CommonQuestions.percentage x)%Q
                /\ (CommonQuestions.percentage x <= 100)%Q)
             (CommonQuestions.common_patterns q)
       | Return CommonQuestions.empty_list => interaction_logs a' = []
       | Raise _ => False
       end.
Proof.
  destruct (saved_calls_in_step sessions e init)
    as (e' & a' & Hrun & Hcalls & Hlogs & Herr & Hnd & Hpos & Htotal).
  { cbn. split; [constructor |]. split; [discriminate | lia]. }
  exists e', a'. split; [exact Hrun |]. split; [exact Hcalls |].
  split; [exact Hlogs |]. split; [exact Herr |]. split; [exact Hnd |].
  split; [exact Htotal |].
  unfold get_common_questions, try_except, bind, get_self. cbn [snd].
  destruct (interaction_logs a') as [| log logs] eqn:Hinter; [reflexivity |].
  cbn [fst ret CommonQuestions.common_patterns].
  rewrite <- Hinter in Htotal |- *.
  apply Forall_forall. intros x Hx.
  apply list_elem_of_fmap in Hx as ([p c] & -> & Hpc).
  unfold most_common_n, most_common, first_n in Hpc.
  apply elem_of_take in Hpc as (i & Hpc%list_elem_of_lookup_2 & _).
  rewrite (sort_desc_perm snd (question_patterns a')) in Hpc.
  assert (Hc : 1 <= c) by (apply (Hpos p), elem_get; assumption).
  assert (Hle : c <= foldr Z.add 0 (map snd (question_patterns a'))).
  { apply (entry_le_total _ p); [| exact Hpc].
    intros [p' c'] Hkv. cbn.
    assert (1 <= c') by (apply (Hpos p'), elem_get; assumption). lia. }
  cbn [common_pattern CommonQuestions.count CommonQuestions.percentage
         fst snd].
  split; [exact Hc |].
  apply round2_percent; apply (percentage_between c); lia.
Qed.

End AnalyticsBounds.

Section CallAnalyticsBounds.
Import AnalyticsService.

Lemma same_day_within_week (start now : datetime) :
  date_of start = date_of now -> now - timedelta_days 7 <= start.
Proof.
  unfold date_of, timedelta_days, microseconds_per_day,
    microseconds_per_hour, microseconds_per_second.
  intros Hday.
  pose proof (Z.div_mod start (24 * (3600 * 1000000)) ltac:(lia)) as Hs.
  pose proof (Z.mod_pos_bound start (24 * (3600 * 1000000)) ltac:(lia)) as Hsb.
  pose proof (Z.div_mod now (24 * (3600 * 1000000)) ltac:(lia)) as Hn.
  pose proof (Z.mod_pos_bound now (24 * (3600 * 1000000)) ltac:(lia)) as Hnb.
  rewrite Hday in Hs. lia.
Qed.

(** X23. What [get_call_analytics] reports is always within bounds,
    whatever has been logged: the calls of today are among those of the
    week, those among the calls of the month, those among all calls;
    the success rate, the error rate and the user satisfaction lie
    between 0 and 100; the peak hour is an hour of the day; and the
    hourly distribution adds up to the number of calls. The logs are
    not changed. *)
Theorem call_analytics_within_bounds (e : Env) (a : t) :
  exists r e',
    get_call_analytics (e, a) = (Return r, (e', a))
    /\ Analytics.total_calls (Analytics.overview_of r) =
       Z.of_nat (length (call_logs a))
    /\ 0 <= Analytics.calls_today (Analytics.overview_of r)
       <= Analytics.calls_this_week (Analytics.overview_of r)
    /\ Analytics.calls_this_week (Analytics.overview_of r)
       <= Analytics.calls_this_month (Analytics.overview_of r)
       <= Analytics.total_calls (Analytics.overview_of r)
    /\ (0 <= Analytics.success_rate (Analytics.overview_of r) <= 100)%Q
    /\ (0 <= Analytics.error_rate (Analytics.performance_of r) <= 100)%Q
    /\ (0 <= Analytics.user_satisfaction (Analytics.performance_of r)
        <= 100)%Q
    /\ 0 <= Analytics.peak_hour (Analytics.overview_of r) < 24
    /\ foldr Z.add 0
         (map snd (Analytics.hourly_distribution (Analytics.trends_of r))) =
       Analytics.total_calls (Analytics.overview_of r).
Proof.
  destruct (call_logs a) as [| call logs] eqn:Hlogs.
  - exists _get_empty_analytics, e. split.
    + unfold get_call_analytics, try_except, bind, get_self. cbn [snd].
      now rewrite Hlogs.
    + cbn. repeat split; (lia || discriminate).
  - destruct (get_call_analytics_run e a) as (trends & e' & Hrun & Hhours).
    { rewrite Hlogs. discriminate. }
    eexists _, e'. split; [exact Hrun |].
    cbn [Analytics.overview_of Analytics.performance_of Analytics.trends_of].
    rewrite Hhours. unfold overview_at.
    cbn [Analytics.total_calls Analytics.calls_today
           Analytics.calls_this_week Analytics.calls_this_month
           Analytics.success_rate Analytics.peak_hour].
    rewrite <- Hlogs.
    assert (Hlen : 0 < Z.of_nat (length (call_logs a)))
      by (rewrite Hlogs; cbn; lia).
    split; [reflexivity |].
    unfold count_calls. split; [| split].
    { split; [lia |]. apply inj_le. apply length_filter_mono.
      intros c Hc. cbn in *. now apply same_day_within_week. }
    { split; apply inj_le.
      - apply length_filter_mono. intros c Hc. cbn in *.
        unfold timedelta_days, microseconds_per_day, microseconds_per_hour,
          microseconds_per_second in *. lia.
      - apply length_filter_le. }
    split.
    { rewrite decide_True by exact Hlen.
      apply round2_percent; apply percentage_between; try exact Hlen;
        unfold count_status; split; try lia;
        apply inj_le, length_filter_le. }
    split.
    { unfold _get_error_rate. rewrite Hlogs, <- Hlogs.
      apply round2_percent; apply percentage_between; try exact Hlen;
        unfold count_status; split; try lia;
        apply inj_le, length_filter_le. }
    split.
    { unfold _estimate_user_satisfaction.
      destruct (interaction_logs a) as [| log ilogs] eqn:Hinter;
        [split; discriminate |].
      rewrite count_indicators_spec. cbn [fst snd].
      case_decide as Hzero; [split; discriminate |].
      apply round2_percent; apply percentage_between; lia. }
    split.
    { rewrite hour_distribution_start_hours.
      assert (Hne : start_hours (call_logs a) <> [])
        by (rewrite Hlogs; discriminate).
      pose proof (peak_hour_of_tally (start_hours (call_logs a)) Hne)
        as Hpeak.
      cbn zeta in Hpeak. destruct Hpeak as (_ & i & Hi & _).
      apply list_elem_of_lookup_2 in Hi.
      unfold start_hours in Hi |- *.
      apply list_elem_of_fmap in Hi as (c & -> & _).
      unfold hour_of. apply Z.mod_pos_bound. lia. }
    rewrite hour_distribution_start_hours.
    fold (counter (start_hours (call_logs a))).
    rewrite total_counter. unfold start_hours. now rewrite length_map.
Qed.

End CallAnalyticsBounds.

(** ** Errors (services/analytics_service.py) *)

Section Errors.
Import AnalyticsService.

(** X24. [log_error] appends the error to the log of errors, stamped
    with the clock, and touches no other log. [get_error_analytics]
    changes nothing and reports the number of logged errors, error
    types whose counts add up to that number, and as recent errors the
    ten logged errors with the latest times, or all of them when there
    are fewer, the latest first: no logged error that is left out is
    later than one that is reported. *)
Theorem error_analytics_report (e : Env) (a : t) :
  (exists r,
      get_error_analytics (e, a) = (Return r, (e, a))
      /\ ErrorAnalytics.total_errors r = Z.of_nat (length (error_logs a))
      /\ foldr Z.add 0 (map snd (ErrorAnalytics.error_types r)) =
         ErrorAnalytics.total_errors r
      /\ length (ErrorAnalytics.recent_errors r) =
         Nat.min 10 (length (error_logs a))
      /\ StronglySorted
           (fun x y => ErrorData.timestamp y <= ErrorData.timestamp x)
           (ErrorAnalytics.recent_errors r)
      /\ (forall x, x ∈ ErrorAnalytics.recent_errors r -> x ∈ error_logs a)
      /\ (forall x y,
            x ∈ error_logs a -> x ∉ ErrorAnalytics.recent_errors r ->
            y ∈ ErrorAnalytics.recent_errors r ->
            ErrorData.timestamp x <= ErrorData.timestamp y))
  /\ forall error_type error_message session_id,
       exists a',
         log_error error_type error_message session_id (e, a) =
         (Return tt, (tick e, a'))
         /\ error_logs a' =
            error_logs a ++
            [ {| ErrorData.timestamp := clock e (ticks e);
                 ErrorData.error_type := error_type;
                 ErrorData.error_message := error_message;
                 ErrorData.session_id := session_id |} ]
         /\ call_logs a' = call_logs a
         /\ interaction_logs a' = interaction_logs a
         /\ question_patterns a' = question_patterns a.
Proof.
  split.
  - unfold get_error_analytics, bind, get_self. cbn [snd].
    destruct (error_logs a) as [| err errs] eqn:Herrs.
    + eexists. split; [reflexivity |]. cbn.
      repeat split; try constructor; intros x; inversion 1.
    + eexists. split; [reflexivity |]. rewrite <- Herrs.
      cbn [ErrorAnalytics.total_errors ErrorAnalytics.error_types
             ErrorAnalytics.recent_errors].
      pose proof (sort_desc_perm ErrorData.timestamp (error_logs a)) as Hperm.
      pose proof (sort_desc_sorted ErrorData.timestamp (error_logs a))
        as Hsorted.
      set (sorted := sort_desc ErrorData.timestamp (error_logs a)) in *.
      unfold first_n.
      split; [reflexivity |].
      split; [rewrite total_counter; now rewrite length_map |].
      split; [rewrite length_take, (Permutation_length Hperm); lia |].
      split; [now apply StronglySorted_take |].
      split.
      * intros x Hx.
        apply elem_of_take in Hx as (i & Hx%list_elem_of_lookup_2 & _).
        now rewrite Hperm in Hx.
      * intros x y Hx Hout Hy. rewrite <- Hperm in Hx.
        rewrite <- (take_drop 10 sorted) in Hx, Hsorted.
        apply elem_of_app in Hx as [Hx | Hx]; [contradiction |].
        exact (StronglySorted_app_between _ _ _ Hsorted y x Hy Hx).
  - intros error_type error_message session_id.
    unfold log_error, bind, datetime_now, get_self, put_self. cbn [fst snd].
    eexists. split; [reflexivity |]. cbn. auto.
Qed.

End Errors.

(** ** The daily trend (services/analytics_service.py) *)

Section DailyTrend.
Import AnalyticsService.

Lemma trend_from_days {A : Type} (lookup : date -> A) (n : nat) :
  forall (i : Z) (e : Env) (a : t),
    trend_from lookup i n (e, a) =
    (Return
       (map
          (fun k : nat =>
             (date_of (clock e (ticks e + k)) - (i + Z.of_nat k),
              lookup (date_of (clock e (ticks e + k)) - (i + Z.of_nat k))))
          (seq 0 n)),
     (Nat.iter n tick e, a)).
Proof.
  induction n as [| n IH]; intros i e a; [reflexivity |].
  cbn [trend_from]. unfold datetime_now at 1. unfold bind at 1.
  cbn [fst snd]. rewrite (bind_Return _ _ _ _ _ (IH (i + 1) (tick e) a)).
  unfold ret. rewrite Nat.iter_succ_r. f_equal. f_equal.
  cbn [seq map]. rewrite Nat.add_0_r, Z.add_0_r. f_equal.
  rewrite <- seq_shift, map_map. apply map_ext. intros k.
  cbn [tick clock ticks]. rewrite <- Nat.add_succ_comm.
  replace (i + 1 + Z.of_nat k) with (i + Z.of_nat (S k)) by lia.
  reflexivity.
Qed.

Lemma daily_counts_dates (logs : list CallData.t) :
  forall d : list (date * Z),
    fold_left
      (fun d call => increment (date_of (CallData.start_time call)) d) logs d =
    fold_left (fun d h => increment h d)
      (map (fun call => date_of (CallData.start_time call)) logs) d.
Proof.
  induction logs as [| c logs IH]; intros d; [reflexivity |]. cbn. apply IH.
Qed.

Lemma occurrences_map {A : Type} (f : A -> Z) (h : Z) (l : list A) :
  occurrences h (map f l) = Z.of_nat (length (filter (fun x => f x = h) l)).
Proof.
  unfold occurrences. f_equal.
  induction l as [| x l IH]; [reflexivity |]. cbn [map].
  destruct (decide (f x = h)) as [Hx | Hx].
  - rewrite !filter_cons_True by exact Hx. cbn. now rewrite IH.
  - rewrite !filter_cons_False by exact Hx. exact IH.
Qed.

Lemma daily_count (logs : list CallData.t) (day : date) :
  default 0
    (Dict.get day
       (fold_left
          (fun d call => increment (date_of (CallData.start_time call)) d)
          logs [])) =
  Z.of_nat
    (length
       (filter (fun call => date_of (CallData.start_time call) = day) logs)).
Proof.
  rewrite daily_counts_dates.
  destruct (tally_spec
              (map (fun call => date_of (CallData.start_time call)) logs))
    as (_ & Hget & _).
  cbn zeta in Hget. rewrite Hget. rewrite <- occurrences_map.
  case_decide as Hin; [reflexivity |].
  cbn [default]. now rewrite occurrences_absent.
Qed.

(** X25. [_get_daily_call_trend] returns 30 entries, the oldest day
    first, and reads the clock 30 times: the entry of place [j] is for
    the day that lies [29 - j] days before the date of one of the
    readings, and it counts the logged calls that started on that day,
    0 when there is none. When the 30 readings fall on one day, the
    entries are the 30 days that end with it, in their order. *)
Theorem daily_call_trend_counts (e : Env) (a : t) :
  let calls_on := fun day : date =>
    Z.of_nat
      (length
         (filter (fun call => date_of (CallData.start_time call) = day)
            (call_logs a))) in
  _get_daily_call_trend (e, a) =
  (Return
     (map
        (fun j : nat =>
           let day :=
             date_of (clock e (ticks e + (29 - j))) - Z.of_nat (29 - j) in
           (day, calls_on day))
        (seq 0 30)),
   (Nat.iter 30 tick e, a))
  /\ forall today,
       (forall k, (k < 30)%nat -> date_of (clock e (ticks e + k)) = today) ->
       fst (_get_daily_call_trend (e, a)) =
       Return
         (map (fun j : nat =>
                 (today - 29 + Z.of_nat j,
                  calls_on (today - 29 + Z.of_nat j)))
            (seq 0 30)).
Proof.
  intros calls_on.
  assert (Hrun :
            _get_daily_call_trend (e, a) =
            (Return
               (map
                  (fun j : nat =>
                     let day :=
                       date_of (clock e (ticks e + (29 - j)))
                       - Z.of_nat (29 - j) in
                     (day, calls_on day))
                  (seq 0 30)),
             (Nat.iter 30 tick e, a))).
  { unfold _get_daily_call_trend, trend.
    unfold get_self at 1. unfold bind at 1. cbn [snd].
    rewrite (bind_Return _ _ _ _ _ (trend_from_days _ 30 0 e a)).
    unfold ret. f_equal. f_equal.
    rewrite <- map_rev.
    replace (rev (seq 0 30)) with (map (fun j => 29 - j)%nat (seq 0 30))
      by reflexivity.
    rewrite map_map. apply map_ext. intros j. cbn zeta.
    rewrite Z.add_0_l. f_equal. apply daily_count. }
  split; [exact Hrun |].
  intros today Htoday. rewrite Hrun. cbn [fst]. f_equal.
  apply map_ext_in. intros j Hj. apply in_seq in Hj. cbn zeta.
  rewrite Htoday by lia.
  replace (today - Z.of_nat (29 - j)) with (today - 29 + Z.of_nat j) by lia.
  reflexivity.
Qed.

End DailyTrend.

(** ** The websocket endpoint (main.py) *)

Section EndpointRuns.
Import Endpoint.

Lemma end_session_returns (k : string) (e : Env) (m : ConversationManager.t) :
  exists r e' m',
    ConversationManager.end_session k (e, m) = (Return r, (e', m')).
Proof.
  unfold ConversationManager.end_session, bind, get_self. cbn [snd].
  destruct (Dict.get k (ConversationManager.active_sessions m));
    do 3 eexists; reflexivity.
Qed.

Lemma end_sessions_return (keys : list string) :
  forall (e : Env) (m : ConversationManager.t),
  exists e' m',
    for_each keys
      (fun client_id =>
         bind (ConversationManager.end_session client_id)
           (fun _ => ret tt)) (e, m) =
    (Return tt, (e', m')).
Proof.
  induction keys as [| k keys IH]; intros e m.
  - do 2 eexists. reflexivity.
  - destruct (end_session_returns k e m) as (r & e1 & m1 & Hrun).
    destruct (IH e1 m1) as (e2 & m2 & Hrest).
    exists e2, m2. cbn [for_each].
    rewrite (bind_Return _ _ _ _ _
               (bind_Return _ (fun _ => ret tt) _ _ _ Hrun)).
    exact Hrest.
Qed.

(** [create_session] always returns the session it has built at the
    first reading of the clock. *)
Lemma create_session_returns (uuid4 client_id : string)
    (user_id : option string) (e : Env) (m : ConversationManager.t) :
  exists e' m',
    ConversationManager.create_session uuid4 client_id user_id (e, m) =
    (Return
       (ConversationSession.init uuid4 client_id user_id (clock e (ticks e))
          [("created_by", "voice_assistant"); ("version", "1.0")]),
     (e', m')).
Proof.
  unfold ConversationManager.create_session.
  unfold datetime_now at 1. unfold bind at 1. cbn [fst snd].
  unfold get_self at 1. unfold bind at 1. cbn [snd].
  case_decide as Hfull.
  - unfold ConversationManager._cleanup_old_sessions.
    unfold datetime_now at 1. unfold bind at 1. unfold bind at 1.
    unfold bind at 1. cbn [fst snd]. unfold get_self at 1. cbn [snd].
    destruct (end_sessions_return
                (ConversationManager.sessions_to_remove
                   (clock (tick e) (ticks (tick e)))
                   (ConversationManager.active_sessions m))
                (tick (tick e)) m) as (e1 & m1 & Hrun).
    rewrite Hrun. do 2 eexists. reflexivity.
  - do 2 eexists. reflexivity.
Qed.

Lemma on_process_run {A : Type} (m : M Main.t A) (e : Env) (s : t) o e' p' :
  m (e, process s) = (o, (e', p')) ->
  on_process m (e, s) =
  (o,
   (e',
    {| process := p'; active_connections := active_connections s;
       sent := sent s |})).
Proof. intros H. unfold on_process. cbn [fst snd]. now rewrite H. Qed.

(** The sending of a frame: it goes out, or the step raises and the
    state stays; a reply with audio never goes out. *)
Lemma send_run (websocket : Websocket.t) (frame : Websocket.Frame)
    (e : Env) (s : t) :
  (send websocket frame (e, s) =
   (Return tt,
    (e,
     {| process := process s; active_connections := active_connections s;
        sent := sent s ++ [frame] |}))
   /\ forall audio transcript confidence,
        frame <> Websocket.ai_response (Some audio) transcript confidence)
  \/ exists ex, send websocket frame (e, s) = (Raise ex, (e, s)).
Proof.
  unfold send. cbn [fst snd].
  destruct frame as [[audio |] transcript confidence | sid message | message];
    cbn [Websocket.json_dumps]; try (right; eexists; reflexivity);
    match goal with
    | |- context [Websocket.send_text ?w ?f ?l] =>
        destruct (Websocket.send_text w f l) as [[] | ex]
    end;
    try (right; eexists; reflexivity);
    left; (split; [reflexivity | discriminate]).
Qed.

(** The loop for a session without history: the manager and the
    connections stay, no frame with audio goes out, and the analytics
    stay or get the one record of the call. *)
Lemma serve_run (websocket : Websocket.t) (session : ConversationSession.t)
    (incoming : list Websocket.Incoming) :
  ConversationSession.conversation_history session = [] ->
  forall (e : Env) (s : t),
  exists o e' s' new,
    serve websocket session incoming (e, s) = (o, (e', s'))
    /\ Main.conversation_manager (process s') =
       Main.conversation_manager (process s)
    /\ active_connections s' = active_connections s
    /\ sent s' = sent s ++ new
    /\ Forall
         (fun frame =>
            forall audio transcript confidence,
              frame <>
              Websocket.ai_response (Some audio) transcript confidence) new
    /\ (Main.analytics_service (process s') =
        Main.analytics_service (process s)
        \/ exists call,
             AnalyticsService.call_logs
               (Main.analytics_service (process s')) =
             AnalyticsService.call_logs (Main.analytics_service (process s))
             ++ [call]
             /\ CallData.session_id call = ConversationSession.id session
             /\ CallData.status call = ConversationSession.status session
             /\ CallData.total_interactions call =
                ConversationSession.total_interactions session
             /\ CallData.conversation_history call = []
             /\ AnalyticsService.interaction_logs
                  (Main.analytics_service (process s')) =
                AnalyticsService.interaction_logs
                  (Main.analytics_service (process s))
             /\ AnalyticsService.question_patterns
                  (Main.analytics_service (process s')) =
                AnalyticsService.question_patterns
                  (Main.analytics_service (process s))
             /\ AnalyticsService.error_logs
                  (Main.analytics_service (process s')) =
                AnalyticsService.error_logs
                  (Main.analytics_service (process s))).
Proof.
  intros Hhistory.
  assert (Hstop : forall ex (e : Env) (s : t),
             exists o e' s' new,
               (Raise ex : outcome unit, (e, s)) = (o, (e', s'))
               /\ Main.conversation_manager (process s') =
                  Main.conversation_manager (process s)
               /\ active_connections s' = active_connections s
               /\ sent s' = sent s ++ new
               /\ Forall
                    (fun frame =>
                       forall audio transcript confidence,
                         frame <>
                         Websocket.ai_response (Some audio) transcript
                           confidence) new
               /\ (Main.analytics_service (process s') =
                   Main.analytics_service (process s)
                   \/ exists call,
                        AnalyticsService.call_logs
                          (Main.analytics_service (process s')) =
                        AnalyticsService.call_logs
                          (Main.analytics_service (process s))
                        ++ [call]
                        /\ CallData.session_id call =
                           ConversationSession.id session
                        /\ CallData.status call =
                           ConversationSession.status session
                        /\ CallData.total_interactions call =
                           ConversationSession.total_interactions session
                        /\ CallData.conversation_history call = []
                        /\ AnalyticsService.interaction_logs
                             (Main.analytics_service (process s')) =
                           AnalyticsService.interaction_logs
                             (Main.analytics_service (process s))
                        /\ AnalyticsService.question_patterns
                             (Main.analytics_service (process s')) =
                           AnalyticsService.question_patterns
                             (Main.analytics_service (process s))
                        /\ AnalyticsService.error_logs
                             (Main.analytics_service (process s')) =
                           AnalyticsService.error_logs
                             (Main.analytics_service (process s)))).
  { intros ex e s. exists (Raise ex), e, s, [].
    split; [reflexivity |]. rewrite app_nil_r.
    repeat split; auto. }
  induction incoming as [| message incoming IH]; intros e s.
  - apply Hstop.
  - destruct message as [data | | | | ex |]; cbn [serve].
    + (* an audio chunk *)
      destruct (process_audio_chunk_returns data
                  (ConversationSession.id session) e
                  (Main.voice_pipeline (process s)))
        as (response & [e1 p1] & Hchunk).
      assert (Hstep :
                on_process (Main.audio_chunk session data) (e, s) =
                (Return response,
                 (e1,
                  {| process :=
                       {| Main.voice_pipeline := p1;
                          Main.analytics_service :=
                            Main.analytics_service (process s);
                          Main.conversation_manager :=
                            Main.conversation_manager (process s) |};
                     active_connections := active_connections s;
                     sent := sent s |}))).
      { apply on_process_run. unfold Main.audio_chunk, Main.on_voice_pipeline.
        cbn [fst snd]. now rewrite Hchunk. }
      rewrite (bind_Return _ _ _ _ _ Hstep).
      match goal with
      | |- context [bind (send ?w ?f) ?k (?e0, ?s0)] =>
          destruct (send_run w f e0 s0) as [[Hsent Hframe] | [ex Hsent]]
      end.
      * rewrite (bind_Return _ _ _ _ _ Hsent).
        match goal with
        | |- context [serve _ _ _ (?e0, ?s0)] =>
            destruct (IH e0 s0)
              as (o & e' & s' & new & Hrun & Hm & Hconn & Hnew & Hall & Ha)
        end.
        cbn [process active_connections sent Main.conversation_manager
               Main.analytics_service] in Hm, Hconn, Hnew, Ha.
        eexists o, e', s', (_ :: new). split; [exact Hrun |].
        split; [exact Hm |]. split; [exact Hconn |].
        split; [rewrite Hnew, <- app_assoc; reflexivity |].
        split; [constructor; assumption | exact Ha].
      * rewrite (bind_Raise _ _ _ _ _ Hsent).
        do 3 eexists. exists []. split; [reflexivity |].
        cbn [process active_connections sent Main.conversation_manager
               Main.analytics_service].
        rewrite app_nil_r. repeat split; auto.
    + (* the start of the call *)
      match goal with
      | |- context [bind (send ?w ?f) ?k (?e0, ?s0)] =>
          destruct (send_run w f e0 s0) as [[Hsent Hframe] | [ex Hsent]]
      end.
      * rewrite (bind_Return _ _ _ _ _ Hsent).
        match goal with
        | |- context [serve _ _ _ (?e0, ?s0)] =>
            destruct (IH e0 s0)
              as (o & e' & s' & new & Hrun & Hm & Hconn & Hnew & Hall & Ha)
        end.
        cbn [process active_connections sent] in Hm, Hconn, Hnew, Ha.
        eexists o, e', s', (_ :: new). split; [exact Hrun |].
        split; [exact Hm |]. split; [exact Hconn |].
        split; [rewrite Hnew, <- app_assoc; reflexivity |].
        split; [constructor; assumption | exact Ha].
      * rewrite (bind_Raise _ _ _ _ _ Hsent). apply Hstop.
    + (* the end of the call *)
      destruct (save_call_data_unfold session e
                  (Main.analytics_service (process s)))
        as (e0 & call & Hsave & Hid & Hstatus & Htotal & Hhist & _).
      rewrite Hhistory in Hsave, Hhist. specialize (Hsave _ eq_refl).
      assert (Hstep :
                on_process
                  (Main.on_analytics_service
                     (AnalyticsService.save_call_data session)) (e, s) =
                (Return tt,
                 (e0,
                  {| process :=
                       {| Main.voice_pipeline :=
                            Main.voice_pipeline (process s);
                          Main.analytics_service :=
                            {| AnalyticsService.call_logs :=
                                 AnalyticsService.call_logs
                                   (Main.analytics_service (process s))
                                 ++ [call];
                               AnalyticsService.interaction_logs :=
                                 AnalyticsService.interaction_logs
                                   (Main.analytics_service (process s));
                               AnalyticsService.error_logs :=
                                 AnalyticsService.error_logs
                                   (Main.analytics_service (process s));
                               AnalyticsService.performance_metrics :=
                                 AnalyticsService.performance_metrics
                                   (Main.analytics_service (process s));
                               AnalyticsService.question_patterns :=
                                 AnalyticsService.question_patterns
                                   (Main.analytics_service (process s));
                               AnalyticsService.intent_categories :=
                                 AnalyticsService.intent_categories
                                   (Main.analytics_service (process s)) |};
                          Main.conversation_manager :=
                            Main.conversation_manager (process s) |};
                     active_connections := active_connections s;
                     sent := sent s |}))).
      { apply on_process_run. unfold Main.on_analytics_service.
        cbn [fst snd]. now rewrite Hsave. }
      rewrite (bind_Return _ _ _ _ _ Hstep).
      match goal with
      | |- context [send ?w ?f (?e1, ?s1)] =>
          destruct (send_run w f e1 s1) as [[Hsent Hframe] | [ex Hsent]]
      end.
      * rewrite Hsent. do 3 eexists. eexists [_].
        split; [reflexivity |].
        cbn [process active_connections sent Main.conversation_manager
               Main.analytics_service AnalyticsService.call_logs
               AnalyticsService.interaction_logs
               AnalyticsService.question_patterns
               AnalyticsService.error_logs].
        split; [reflexivity |]. split; [reflexivity |].
        split; [reflexivity |]. split; [repeat constructor; exact Hframe |].
        right. exists call. repeat split; assumption.
      * rewrite Hsent. do 3 eexists. exists [].
        split; [reflexivity |].
        cbn [process active_connections sent Main.conversation_manager
               Main.analytics_service AnalyticsService.call_logs
               AnalyticsService.interaction_logs
               AnalyticsService.question_patterns
               AnalyticsService.error_logs].
        rewrite app_nil_r.
        split; [reflexivity |]. split; [reflexivity |].
        split; [reflexivity |]. split; [constructor |].
        right. exists call. repeat split; assumption.
    + apply IH.
    + apply Hstop.
    + apply Hstop.
Qed.

(** The endpoint from the connection to the end of its [finally] block,
    in terms of the session created at the start and of the ending of
    the session of the client at the end. *)
Lemma websocket_endpoint_run (websocket : Websocket.t)
    (uuid4 client_id : string) (incoming : list Websocket.Incoming)
    (e : Env) (s : t) :
  let session :=
    ConversationSession.init uuid4 client_id None (clock e (ticks e))
      [("created_by", "voice_assistant"); ("version", "1.0")] in
  exists e1 m1 e2 r e3 m3 p' a' new,
    ConversationManager.create_session uuid4 client_id None
      (e, Main.conversation_manager (process s)) =
    (Return session, (e1, m1))
    /\ ConversationManager.end_session client_id (e2, m1) =
       (Return r, (e3, m3))
    /\ websocket_endpoint websocket uuid4 client_id incoming (e, s) =
       (Return tt,
        (e3,
         {| process :=
              {| Main.voice_pipeline := p';
                 Main.analytics_service := a';
                 Main.conversation_manager := m3 |};
            active_connections :=
              Dict.del client_id
                (Dict.set client_id websocket (active_connections s));
            sent := sent s ++ new |}))
    /\ Forall
         (fun frame =>
            forall audio transcript confidence,
              frame <>
              Websocket.ai_response (Some audio) transcript confidence) new
    /\ (a' = Main.analytics_service (process s)
        \/ exists call,
             AnalyticsService.call_logs a' =
             AnalyticsService.call_logs (Main.analytics_service (process s))
             ++ [call]
             /\ CallData.session_id call = uuid4
             /\ CallData.status call = "active"
             /\ CallData.total_interactions call = 0
             /\ CallData.conversation_history call = []
             /\ AnalyticsService.interaction_logs a' =
                AnalyticsService.interaction_logs
                  (Main.analytics_service (process s))
             /\ AnalyticsService.question_patterns a' =
                AnalyticsService.question_patterns
                  (Main.analytics_service (process s))
             /\ AnalyticsService.error_logs a' =
                AnalyticsService.error_logs
                  (Main.analytics_service (process s))).
Proof.
  intros session.
  destruct (create_session_returns uuid4 client_id None e
              (Main.conversation_manager (process s)))
    as (e1 & m1 & Hcreate).
  fold session in Hcreate.
  set (s0 :=
         {| process := process s;
            active_connections :=
              Dict.set client_id websocket (active_connections s);
            sent := sent s |}).
  assert (Hconnect :
            on_process (Main.connect uuid4 client_id) (e, s0) =
            (Return session,
             (e1,
              {| process :=
                   {| Main.voice_pipeline := Main.voice_pipeline (process s);
                      Main.analytics_service :=
                        Main.analytics_service (process s);
                      Main.conversation_manager := m1 |};
                 active_connections := active_connections s0;
                 sent := sent s0 |}))).
  { apply on_process_run. unfold Main.connect, Main.on_conversation_manager.
    cbn [fst snd s0 process]. now rewrite Hcreate. }
  match type of Hconnect with
  | _ = (_, (_, ?s1)) =>
      destruct (serve_run websocket session incoming eq_refl e1 s1)
        as (o & e2 & [[p' a' m'] conn' sent'] & new & Hserve & Hm & Hconn
            & Hsent & Hall & Ha)
  end.
  cbn [process active_connections sent Main.conversation_manager
         Main.analytics_service s0] in Hm, Hconn, Hsent, Ha.
  subst m' conn' sent'.
  destruct (end_session_returns client_id e2 m1) as (r & e3 & m3 & Hend).
  exists e1, m1, e2, r, e3, m3, p', a', new.
  split; [exact Hcreate |]. split; [exact Hend |].
  split; [| split; [exact Hall |]].
  - unfold websocket_endpoint.
    unfold get_self at 1. unfold bind at 1. cbn [snd].
    unfold put_self at 1. unfold bind at 1. cbn [fst]. fold s0.
    unfold try_finally.
    assert (Hbody :
              try_except
                (bind (on_process (Main.connect uuid4 client_id))
                   (fun session => serve websocket session incoming))
                (fun _ => ret tt) (e, s0) =
              (Return tt,
               (e2,
                {| process :=
                     {| Main.voice_pipeline := p';
                        Main.analytics_service := a';
                        Main.conversation_manager := m1 |};
                   active_connections :=
                     Dict.set client_id websocket (active_connections s);
                   sent := sent s ++ new |}))).
    { unfold try_except. rewrite (bind_Return _ _ _ _ _ Hconnect), Hserve.
      destruct o as [[] | ex]; reflexivity. }
    rewrite Hbody. unfold disconnected.
    unfold get_self at 1. unfold bind at 1. unfold bind at 1.
    unfold bind at 1. cbn [snd active_connections].
    rewrite get_set, decide_True by reflexivity.
    unfold put_self at 1. cbn [fst process sent].
    unfold on_process, Main.on_conversation_manager, bind.
    cbn [fst snd process Main.conversation_manager active_connections sent].
    rewrite Hend. reflexivity.
  - destruct Ha as [Ha | (call & Hcall & Hid & Hstatus & Htotal & Hrest)].
    + now left.
    + right. exists call. cbn in Hid, Hstatus, Htotal. auto.
Qed.

End EndpointRuns.

Section Endpoint.
Import Endpoint.

(** X28. No reply with audio ever reaches the client: of the frames the
    endpoint sends, none carries audio, whatever the client sends. A
    reply of the pipeline that carries audio cannot be written as JSON:
    the loop ends there with a [TypeError], nothing is sent, and what
    the client sent after the chunk is not handled. *)
Theorem endpoint_never_sends_audio (websocket : Websocket.t)
    (uuid4 client_id : string) (incoming : list Websocket.Incoming)
    (e : Env) (s : t) :
  (exists e' s' new,
      websocket_endpoint websocket uuid4 client_id incoming (e, s) =
      (Return tt, (e', s'))
      /\ sent s' = sent s ++ new
      /\ Forall
           (fun frame =>
              forall audio transcript confidence,
                frame <>
                Websocket.ai_response (Some audio) transcript confidence)
           new)
  /\ forall session data response e1 p1,
       VoicePipeline.process_audio_chunk data (ConversationSession.id session)
         (e, Main.voice_pipeline (process s)) =
       (Return response, (e1, p1)) ->
       is_Some (VoiceResponse.audio_data response) ->
       exists s',
         serve websocket session (Websocket.audio_chunk data :: incoming)
           (e, s) =
         (Raise "TypeError: Object of type bytes is not JSON serializable",
          (e1, s'))
         /\ sent s' = sent s
         /\ Main.analytics_service (process s') =
            Main.analytics_service (process s)
         /\ Main.voice_pipeline (process s') = p1.
Proof.
  split.
  - destruct (websocket_endpoint_run websocket uuid4 client_id incoming e s)
      as (e1 & m1 & e2 & r & e3 & m3 & p' & a' & new & _ & _ & Hrun & Hall
          & _).
    do 2 eexists. exists new. split; [exact Hrun |]. split; [reflexivity |].
    exact Hall.
  - intros session data response e1 p1 Hchunk [audio Haudio].
    cbn [serve].
    assert (Hstep :
              on_process (Main.audio_chunk session data) (e, s) =
              (Return response,
               (e1,
                {| process :=
                     {| Main.voice_pipeline := p1;
                        Main.analytics_service :=
                          Main.analytics_service (process s);
                        Main.conversation_manager :=
                          Main.conversation_manager (process s) |};
                   active_connections := active_connections s;
                   sent := sent s |}))).
    { apply on_process_run. unfold Main.audio_chunk, Main.on_voice_pipeline.
      cbn [fst snd]. now rewrite Hchunk. }
    rewrite (bind_Return _ _ _ _ _ Hstep).
    eexists. split.
    + unfold bind, send. cbn [fst snd]. rewrite Haudio.
      cbn [Websocket.json_dumps]. reflexivity.
    + cbn. auto.
Qed.

End Endpoint.

(** ** The connections of one process, interleaved (main.py) *)

Section SharedSessions.
Import SharedManager.

Lemma get_split {V : Type} (k : string) (v : V) (d : list (string * V)) :
  Dict.get k d = Some v ->
  exists pre rest, d = pre ++ (k, v) :: rest /\ k ∉ map fst pre.
Proof.
  induction d as [| [k0 v0] d IH]; cbn; intros Hget; [discriminate |].
  case_decide as Hk.
  - injection Hget as ->. subst k0. exists [], d. split; [reflexivity |].
    cbn. apply not_elem_of_nil.
  - destruct (IH Hget) as (pre & rest & -> & Hout).
    exists ((k0, v0) :: pre), rest. split; [reflexivity |].
    cbn. apply not_elem_of_cons. split; assumption.
Qed.

Lemma elem_of_set {V : Type} (k : string) (v : V) (d : list (string * V))
    (kv : string * V) :
  kv ∈ Dict.set k v d -> kv = (k, v) \/ kv ∈ d.
Proof.
  induction d as [| [k0 v0] d IH]; cbn.
  - intros H. apply list_elem_of_singleton in H. now left.
  - case_decide as Hk.
    + intros H. apply elem_of_cons in H as [-> | H]; [now left |].
      right. now right.
    + intros H. apply elem_of_cons in H as [-> | H]; [right; left |].
      destruct (IH H) as [-> | Hin]; [now left | right; now right].
Qed.

Lemma set_values_NoDup {V : Type} (k : string) (v : V)
    (d : list (string * V)) :
  NoDup (map snd d) -> v ∉ map snd d -> NoDup (map snd (Dict.set k v d)).
Proof.
  induction d as [| [k0 v0] d IH]; cbn; intros Hnd Hout.
  - apply NoDup_singleton.
  - apply NoDup_cons in Hnd as [Hv0 Hnd].
    apply not_elem_of_cons in Hout as [Hne Hout].
    case_decide as Hk; cbn.
    + apply NoDup_cons. split; assumption.
    + apply NoDup_cons. split; [| now apply IH].
      intros Hin. apply list_elem_of_fmap in Hin as (kv & Heq & Hkv).
      apply elem_of_set in Hkv as [-> | Hkv].
      * cbn in Heq. congruence.
      * apply Hv0. apply list_elem_of_fmap. now exists kv.
Qed.

Lemma get_map_values {V W : Type} (g : string * V -> string * W)
    (k : string) (d : list (string * V)) :
  (forall kv, fst (g kv) = fst kv) ->
  Dict.get k (map g d) = (fun v => snd (g (k, v))) <$> Dict.get k d.
Proof.
  intros Hg. induction d as [| [k0 v0] d IH]; [reflexivity |]. cbn.
  specialize (Hg (k0, v0)). destruct (g (k0, v0)) as [k1 w1] eqn:Hkv.
  cbn in Hg. subst k1.
  case_decide as Hk; [subst k0; cbn; now rewrite Hkv | exact IH].
Qed.

Lemma del_map_values {V W : Type} (g : string * V -> string * W)
    (k : string) (d : list (string * V)) :
  (forall kv, fst (g kv) = fst kv) ->
  Dict.del k (map g d) = map g (Dict.del k d).
Proof.
  intros Hg. induction d as [| [k0 v0] d IH]; [reflexivity |]. cbn.
  pose proof (Hg (k0, v0)) as Hk0.
  destruct (g (k0, v0)) as [k1 w1] eqn:Hkv. cbn in Hk0. subst k1.
  case_decide; [reflexivity |]. cbn. now rewrite IH, Hkv.
Qed.

Lemma set_map_values {V W : Type} (g : string * V -> string * W)
    (k : string) (v : V) (d : list (string * V)) :
  (forall kv, fst (g kv) = fst kv) ->
  Dict.set k (snd (g (k, v))) (map g d) = map g (Dict.set k v d).
Proof.
  intros Hg. induction d as [| [k0 v0] d IH]; cbn.
  - pose proof (Hg (k, v)) as Hk. destruct (g (k, v)); cbn in *. now subst.
  - pose proof (Hg (k0, v0)) as Hk0.
    destruct (g (k0, v0)) as [k1 w1] eqn:Hkv. cbn in Hk0. subst k1.
    case_decide as Hk.
    + subst k0. cbn. f_equal.
      pose proof (Hg (k, v)) as Hk. destruct (g (k, v)); cbn in *. now subst.
    + cbn. now rewrite IH, Hkv.
Qed.

Lemma end_session_absent (k : string) (e : Env)
    (m : ConversationManager.t) :
  Dict.get k (ConversationManager.active_sessions m) = None ->
  ConversationManager.end_session k (e, m) = (Return None, (e, m)).
Proof.
  intros Hget. unfold ConversationManager.end_session, bind, get_self.
  cbn [snd]. now rewrite Hget.
Qed.

Lemma map_agree {A B : Type} (f g : A -> B) (l : list A) :
  (forall x, x ∈ l -> f x = g x) -> map f l = map g l.
Proof.
  induction l as [| x l IH]; intros H; [reflexivity |]. cbn.
  rewrite (H x) by left. f_equal. apply IH. intros y Hy. apply H. now right.
Qed.

(** [end_session], step by step. *)
Lemma shared_end_session_run (k : string) (e : Env) (m : t) :
  end_session k (e, m) =
  match Dict.get k (active_sessions m) with
  | Some a =>
      (Return (Some a),
       (tick e,
        {| objects :=
             <[a := ConversationSession.ended (clock e (ticks e))
                      (deref a m)]> (objects m);
           active_sessions := Dict.del k (active_sessions m);
           session_history := session_history m ++ [a];
           max_active_sessions := max_active_sessions m |}))
  | None => (Return None, (e, m))
  end.
Proof.
  unfold end_session, bind, get_self. cbn [snd].
  destruct (Dict.get k (active_sessions m)); reflexivity.
Qed.

Lemma deref_insert (a b : nat) (o : ConversationSession.t)
    (l : list ConversationSession.t) hist act mx :
  (b < length l)%nat ->
  deref a
    {| objects := <[b := o]> l; active_sessions := act;
       session_history := hist; max_active_sessions := mx |} =
  if decide (a = b) then o else l !!! a.
Proof.
  intros Hb. unfold deref. cbn [objects].
  case_decide as Hab.
  - subst. now apply list_lookup_total_insert_eq.
  - apply list_lookup_total_insert_ne. congruence.
Qed.

Lemma ended_keeps (k : string) (a : nat) (t_end : datetime) (m : t) :
  consistent m -> Dict.get k (active_sessions m) = Some a ->
  let m' :=
    {| objects :=
         <[a := ConversationSession.ended t_end (deref a m)]> (objects m);
       active_sessions := Dict.del k (active_sessions m);
       session_history := session_history m ++ [a];
       max_active_sessions := max_active_sessions m |} in
  consistent m' /\ keeps m m'
  /\ (forall kv, kv ∈ active_sessions m' -> kv ∈ active_sessions m)
  /\ (forall b, b ∈ session_history m' ->
        b ∈ session_history m \/ b ∈ map snd (active_sessions m))
  /\ (forall b, b <> a -> deref b m' = deref b m)
  /\ by_value m' =
     {| ConversationManager.active_sessions :=
          Dict.del k (ConversationManager.active_sessions (by_value m));
        ConversationManager.session_history :=
          ConversationManager.session_history (by_value m)
          ++ [ConversationSession.ended t_end (deref a m)];
        ConversationManager.max_active_sessions := max_active_sessions m |}.
Proof.
  intros (Hkeys & Hvals & Hact & Hhist & Hobj) Hget m'.
  destruct (get_split k a _ Hget) as (pre & rest & Hd & Hout).
  assert (Hdel : Dict.del k (active_sessions m) = pre ++ rest).
  { rewrite Hd. now apply del_app_fresh. }
  assert (Ha : (a < length (objects m))%nat /\ a ∉ session_history m).
  { apply (Hact (k, a)). rewrite Hd. apply elem_of_app. right. left. }
  destruct Ha as [Ha Hnew].
  assert (Hsub : forall kv, kv ∈ pre ++ rest -> kv ∈ active_sessions m).
  { intros kv Hkv. rewrite Hd. apply elem_of_app in Hkv as [Hkv | Hkv];
      apply elem_of_app; [now left | right; now right]. }
  assert (Hfresh : a ∉ map snd (pre ++ rest)).
  { rewrite Hd in Hvals. rewrite map_app in Hvals |- *. cbn in Hvals.
    apply NoDup_app in Hvals as (Hpre & Hdisj & Hrest).
    apply NoDup_cons in Hrest as [Ha' Hrest].
    intros Hin. apply elem_of_app in Hin as [Hin | Hin]; [| contradiction].
    apply (Hdisj a Hin). left. }
  assert (Hderef : forall b, deref b m' =
            if decide (b = a)
            then ConversationSession.ended t_end (deref a m)
            else deref b m).
  { intros b. unfold m'. rewrite deref_insert by exact Ha. reflexivity. }
  split; [| split; [| split; [| split; [| split]]]].
  - unfold consistent. cbn [active_sessions session_history objects m'].
    rewrite Hdel, length_insert.
    split.
    { rewrite Hd in Hkeys. rewrite map_app in Hkeys |- *. cbn in Hkeys.
      apply NoDup_app in Hkeys as (Hpre & Hdisj & Hrest).
      apply NoDup_cons in Hrest as [_ Hrest].
      apply NoDup_app. split; [exact Hpre |]. split; [| exact Hrest].
      intros x Hx Hx'. apply (Hdisj x Hx). now right. }
    split.
    { rewrite Hd in Hvals. rewrite map_app in Hvals |- *. cbn in Hvals.
      apply NoDup_app in Hvals as (Hpre & Hdisj & Hrest).
      apply NoDup_cons in Hrest as [_ Hrest].
      apply NoDup_app. split; [exact Hpre |]. split; [| exact Hrest].
      intros x Hx Hx'. apply (Hdisj x Hx). now right. }
    split.
    { intros kv Hkv. destruct (Hact kv (Hsub kv Hkv)) as [Hlt Hnot].
      split; [exact Hlt |]. intros Hin.
      apply elem_of_app in Hin as [Hin | Hin]; [contradiction |].
      apply list_elem_of_singleton in Hin. apply Hfresh.
      apply list_elem_of_fmap. now exists kv. }
    split.
    { intros b Hb. apply elem_of_app in Hb as [Hb | Hb]; [now apply Hhist |].
      apply list_elem_of_singleton in Hb. now subst. }
    intros b Hb. fold m'. rewrite (Hderef b).
    destruct (Hobj b Hb) as (Htotal & Hconv & Hstatus).
    destruct (Hobj a Ha) as (Htotal' & Hconv' & _).
    destruct (decide (b = a)) as [-> | Hba].
    + cbn. split; [exact Htotal' |]. split; [exact Hconv' |].
      rewrite decide_True; [reflexivity |].
      apply elem_of_app. right. left.
    + split; [exact Htotal |]. split; [exact Hconv |]. rewrite Hstatus.
      destruct (decide (b ∈ session_history m)) as [Hin | Hnin].
      * rewrite decide_True; [reflexivity |]. apply elem_of_app. now left.
      * rewrite decide_False; [reflexivity |]. intros Hin.
        apply elem_of_app in Hin as [Hin | Hin]; [contradiction |].
        apply list_elem_of_singleton in Hin. contradiction.
  - unfold keeps. cbn [objects session_history max_active_sessions m'].
    rewrite length_insert. split; [lia |]. split; [reflexivity |].
    split; [| now exists [a]].
    intros b Hb. fold m'. rewrite (Hderef b).
    destruct (decide (b = a)) as [-> | Hba]; split; reflexivity.
  - cbn [active_sessions m']. rewrite Hdel. exact Hsub.
  - cbn [session_history m']. intros b Hb.
    apply elem_of_app in Hb as [Hb | Hb]; [now left |].
    apply list_elem_of_singleton in Hb. subst b. right.
    apply list_elem_of_fmap. exists (k, a). split; [reflexivity |].
    rewrite Hd. apply elem_of_app. right. left.
  - intros b Hb. rewrite (Hderef b). now rewrite decide_False.
  - unfold by_value.
    cbn [ConversationManager.active_sessions
           ConversationManager.session_history].
    cbn [active_sessions session_history max_active_sessions m'].
    fold m'. rewrite del_map_values by reflexivity.
    rewrite map_app, Hdel. cbn [map].
    rewrite (Hderef a), decide_True by reflexivity.
    f_equal.
    + apply map_agree. intros kv Hkv. f_equal.
      rewrite (Hderef (snd kv)). rewrite decide_False; [reflexivity |].
      intros Heq. apply Hfresh. rewrite <- Heq.
      apply list_elem_of_fmap. now exists kv.
    + f_equal. apply map_agree. intros b Hb.
      rewrite (Hderef b). rewrite decide_False; [reflexivity |].
      intros ->. contradiction.
Qed.

Lemma keeps_refl (m : t) : keeps m m.
Proof.
  split; [lia |]. split; [reflexivity |]. split; [auto |].
  exists []. now rewrite app_nil_r.
Qed.

Lemma keeps_trans (m1 m2 m3 : t) : keeps m1 m2 -> keeps m2 m3 -> keeps m1 m3.
Proof.
  intros (Hlen & Hmax & Hid & new & Hnew) (Hlen' & Hmax' & Hid' & new' & Hnew').
  split; [lia |]. split; [congruence |]. split.
  - intros a Ha. destruct (Hid a Ha) as [H1 H2].
    destruct (Hid' a ltac:(lia)) as [H1' H2']. split; congruence.
  - exists (new ++ new'). rewrite Hnew', Hnew. now rewrite app_assoc.
Qed.

(** The sessions of the given clients ended one after the other. *)
Lemma shared_end_sessions (keys : list string) :
  forall (e : Env) (m : t),
    consistent m ->
    exists e' m',
      for_each keys (fun client_id => bind (end_session client_id)
                                        (fun _ => ret tt)) (e, m) =
      (Return tt, (e', m'))
      /\ consistent m' /\ keeps m m'
      /\ (forall kv, kv ∈ active_sessions m' -> kv ∈ active_sessions m)
      /\ (forall b, b ∈ session_history m' ->
            b ∈ session_history m \/ b ∈ map snd (active_sessions m))
      /\ (forall b, b ∉ map snd (active_sessions m) ->
            deref b m' = deref b m)
      /\ clock e' = clock e /\ (ticks e <= ticks e')%nat
      /\ for_each keys
           (fun client_id =>
              bind (ConversationManager.end_session client_id)
                (fun _ => ret tt)) (e, by_value m) =
         (Return tt, (e', by_value m')).
Proof.
  induction keys as [| k keys IH]; intros e m Hm.
  - exists e, m. split; [reflexivity |]. split; [exact Hm |].
    split; [apply keeps_refl |]. repeat (split; [now auto |]).
    reflexivity.
  - cbn [for_each]. unfold bind at 1. unfold bind at 1.
    unfold bind at 2. unfold bind at 2.
    rewrite shared_end_session_run.
    pose proof (get_map_values (fun kv => (fst kv, deref (snd kv) m)) k
                  (active_sessions m) ltac:(reflexivity)) as Hvalue.
    change (map (fun kv => (fst kv, deref (snd kv) m)) (active_sessions m))
      with (ConversationManager.active_sessions (by_value m)) in Hvalue.
    cbn [snd] in Hvalue.
    destruct (Dict.get k (active_sessions m)) as [a |] eqn:Hget.
    + destruct (ended_keeps k a (clock e (ticks e)) m Hm Hget)
        as (Hm1 & Hkeeps & Hsub & Hhist & Hsame & Hvalue1).
      cbn zeta in Hm1, Hkeeps, Hsub, Hhist, Hsame, Hvalue1.
      match type of Hm1 with
      | consistent ?m1 =>
          destruct (IH (tick e) m1 Hm1)
            as (e' & m' & Hrun & Hm' & Hkeeps' & Hsub' & Hhist' & Hsame'
                & Hclock & Hticks & Hrun')
      end.
      cbn [fmap option_fmap option_map] in Hvalue.
      rewrite (end_session_run k e (by_value m) _ Hvalue).
      change (ConversationManager.max_active_sessions (by_value m))
        with (max_active_sessions m).
      rewrite <- Hvalue1.
      exists e', m'. unfold ret at 1. split; [exact Hrun |].
      split; [exact Hm' |].
      split; [exact (keeps_trans _ _ _ Hkeeps Hkeeps') |].
      split; [intros kv Hkv; apply Hsub, Hsub', Hkv |].
      split.
      { intros b Hb. destruct (Hhist' b Hb) as [Hb' | Hb'].
        - apply Hhist, Hb'.
        - right. apply list_elem_of_fmap in Hb' as (kv & -> & Hkv).
          apply list_elem_of_fmap. exists kv. split; [reflexivity |].
          apply Hsub, Hkv. }
      split.
      { intros b Hb. rewrite Hsame'.
        - apply Hsame. intros ->. apply Hb.
          apply list_elem_of_fmap. exists (k, a). split; [reflexivity |].
          now apply get_Some_elem.
        - intros Hin. apply Hb.
          apply list_elem_of_fmap in Hin as (kv & -> & Hkv).
          apply list_elem_of_fmap. exists kv. split; [reflexivity |].
          apply Hsub, Hkv. }
      split; [exact Hclock |]. split; [cbn in Hticks; lia | exact Hrun'].
    + unfold ret at 1.
      destruct (IH e m Hm)
        as (e' & m' & Hrun & Hm' & Hkeeps' & Hsub' & Hhist' & Hsame'
            & Hclock & Hticks & Hrun').
      cbn [fmap option_fmap option_map] in Hvalue.
      rewrite (end_session_absent k e (by_value m) Hvalue).
      exists e', m'. repeat (split; [assumption |]). assumption.
Qed.

Lemma sessions_to_remove_by_value (current_time : datetime) (m : t) :
  ConversationManager.sessions_to_remove current_time
    (ConversationManager.active_sessions (by_value m)) =
  sessions_to_remove current_time m.
Proof.
  unfold ConversationManager.sessions_to_remove, sessions_to_remove, by_value.
  cbn [ConversationManager.active_sessions].
  induction (active_sessions m) as [| kv d IH]; [reflexivity |].
  cbn [map].
  destruct (decide
              (ConversationManager.is_old current_time (deref (snd kv) m)
               = true)) as [Hold | Hyoung].
  - rewrite !filter_cons_True by exact Hold. cbn [map fst]. now rewrite IH.
  - rewrite !filter_cons_False by exact Hyoung. exact IH.
Qed.

Lemma values_below (m : t) :
  consistent m ->
  forall a, a ∈ map snd (active_sessions m) -> (a < length (objects m))%nat.
Proof.
  intros (_ & _ & Hact & _) a Ha.
  apply list_elem_of_fmap in Ha as (kv & -> & Hkv). now apply Hact.
Qed.

(** [create_session]: the new object takes the next address, whatever
    is cleaned up before it is admitted. *)
Lemma shared_create_session (uuid4 client_id : string)
    (user_id : option string) (e : Env) (m : t) :
  consistent m ->
  exists e' m',
    create_session uuid4 client_id user_id (e, m) =
    (Return (length (objects m)), (e', m'))
    /\ consistent m' /\ keeps m m'
    /\ Dict.get client_id (active_sessions m') = Some (length (objects m))
    /\ deref (length (objects m)) m' =
       ConversationSession.init uuid4 client_id user_id (clock e (ticks e))
         [("created_by", "voice_assistant"); ("version", "1.0")]
    /\ clock e' = clock e /\ (ticks e <= ticks e')%nat
    /\ ConversationManager.create_session uuid4 client_id user_id
         (e, by_value m) =
       (Return
          (ConversationSession.init uuid4 client_id user_id
             (clock e (ticks e))
             [("created_by", "voice_assistant"); ("version", "1.0")]),
        (e', by_value m')).
Proof.
  intros Hm.
  set (session :=
         ConversationSession.init uuid4 client_id user_id (clock e (ticks e))
           [("created_by", "voice_assistant"); ("version", "1.0")]).
  set (m1 :=
         {| objects := objects m ++ [session];
            active_sessions := active_sessions m;
            session_history := session_history m;
            max_active_sessions := max_active_sessions m |}).
  assert (Hderef1 : forall a, (a < length (objects m))%nat ->
            deref a m1 = deref a m).
  { intros a Ha. unfold deref, m1. cbn [objects].
    now apply lookup_total_app_l. }
  assert (Hnew1 : deref (length (objects m)) m1 = session).
  { unfold deref, m1. cbn [objects].
    now apply list_lookup_total_middle. }
  assert (Hm1 : consistent m1).
  { destruct Hm as (Hkeys & Hvals & Hact & Hhist & Hobj).
    unfold consistent, m1. cbn [objects active_sessions session_history].
    rewrite length_app. cbn [length].
    split; [exact Hkeys |]. split; [exact Hvals |].
    split; [intros kv Hkv; destruct (Hact kv Hkv); split; [lia | assumption] |].
    split; [intros a Ha; specialize (Hhist a Ha); lia |].
    intros a Ha. fold m1.
    destruct (decide (a = length (objects m))) as [-> | Hne].
    - rewrite Hnew1. cbn. split; [reflexivity |]. split; [reflexivity |].
      rewrite decide_False; [reflexivity |].
      intros Hin. specialize (Hhist _ Hin). lia.
    - rewrite Hderef1 by lia. apply Hobj. lia. }
  assert (Hkeeps1 : keeps m m1).
  { unfold keeps, m1. cbn [objects session_history max_active_sessions].
    rewrite length_app. split; [lia |]. split; [reflexivity |].
    split; [| exists []; now rewrite app_nil_r].
    intros a Ha. fold m1. now rewrite Hderef1. }
  assert (Hclean : exists e2 m2,
            (if decide (max_active_sessions m <= length (active_sessions m))%nat
             then _cleanup_old_sessions else ret tt) (tick e, m1) =
            (Return tt, (e2, m2))
            /\ consistent m2 /\ keeps m1 m2
            /\ (forall kv, kv ∈ active_sessions m2 -> kv ∈ active_sessions m1)
            /\ (forall b, b ∈ session_history m2 ->
                  b ∈ session_history m1 \/ b ∈ map snd (active_sessions m1))
            /\ (forall b, b ∉ map snd (active_sessions m1) ->
                  deref b m2 = deref b m1)
            /\ clock e2 = clock e /\ (ticks e <= ticks e2)%nat
            /\ (if decide
                     (ConversationManager.max_active_sessions (by_value m)
                      <= length
                           (ConversationManager.active_sessions (by_value m)))%nat
                then ConversationManager._cleanup_old_sessions else ret tt)
                 (tick e, by_value m) =
               (Return tt, (e2, by_value m2))).
  { assert (Hvalue1 : by_value m1 = by_value m).
    { unfold by_value, m1.
      cbn [objects active_sessions session_history max_active_sessions].
      fold m1. destruct Hm as (_ & _ & Hact & Hhist & _).
      f_equal.
      - apply map_agree. intros kv Hkv. f_equal. apply Hderef1.
        now apply Hact.
      - apply map_agree. intros a Ha. apply Hderef1. now apply Hhist. }
    assert (Hsize : length (ConversationManager.active_sessions (by_value m))
                    = length (active_sessions m)).
    { unfold by_value. cbn [ConversationManager.active_sessions].
      apply length_map. }
    change (ConversationManager.max_active_sessions (by_value m))
      with (max_active_sessions m).
    rewrite Hsize.
    case_decide as Hfull.
    - unfold _cleanup_old_sessions.
      unfold datetime_now at 1. unfold bind at 1. cbn [fst snd].
      unfold get_self at 1. unfold bind at 1. cbn [snd].
      destruct (shared_end_sessions
                  (sessions_to_remove (clock (tick e) (ticks (tick e))) m1)
                  (tick (tick e)) m1 Hm1)
        as (e2 & m2 & Hrun & Hm2 & Hkeeps2 & Hsub & Hhist & Hsame & Hclock
            & Hticks & Hrun').
      exists e2, m2. split; [exact Hrun |]. split; [exact Hm2 |].
      split; [exact Hkeeps2 |]. split; [exact Hsub |].
      split; [exact Hhist |]. split; [exact Hsame |].
      split; [exact Hclock |]. split; [cbn in Hticks; lia |].
      unfold ConversationManager._cleanup_old_sessions.
      unfold datetime_now at 1. unfold bind at 1. cbn [fst snd].
      unfold get_self at 1. unfold bind at 1. cbn [snd].
      rewrite <- Hvalue1 at 1 2. rewrite sessions_to_remove_by_value.
      exact Hrun'.
    - exists (tick e), m1. split; [reflexivity |]. split; [exact Hm1 |].
      split; [apply keeps_refl |]. repeat (split; [now auto |]).
      split; [cbn; lia |]. now rewrite Hvalue1. }
  destruct Hclean
    as (e2 & m2 & Hrun & Hm2 & Hkeeps2 & Hsub & Hhist2 & Hsame & Hclock
        & Hticks & Hrun').
  assert (Hfresh : length (objects m) ∉ map snd (active_sessions m1)).
  { intros Hin. pose proof (values_below m Hm _ Hin). lia. }
  assert (Hfresh2 : length (objects m) ∉ map snd (active_sessions m2)).
  { intros Hin. apply Hfresh.
    apply list_elem_of_fmap in Hin as (kv & -> & Hkv).
    apply list_elem_of_fmap. exists kv. split; [reflexivity |].
    apply Hsub, Hkv. }
  set (m3 :=
         {| objects := objects m2;
            active_sessions :=
              Dict.set client_id (length (objects m)) (active_sessions m2);
            session_history := session_history m2;
            max_active_sessions := max_active_sessions m2 |}).
  exists e2, m3. split.
  { unfold create_session.
    unfold datetime_now at 1. unfold bind at 1. cbn [fst snd].
    unfold get_self at 1. unfold bind at 1. cbn [snd].
    unfold put_self at 1. unfold bind at 1. cbn [fst].
    fold session. fold m1.
    unfold bind at 1. rewrite Hrun.
    unfold get_self, put_self, bind, ret. cbn [fst snd]. reflexivity. }
  assert (Hderef3 : forall a, deref a m3 = deref a m2) by reflexivity.
  assert (Hlen : (length (objects m) < length (objects m2))%nat).
  { destruct Hkeeps2 as [Hlen _]. unfold m1 in Hlen. cbn [objects] in Hlen.
    rewrite length_app in Hlen. cbn [length] in Hlen. lia. }
  split; [| split; [| split; [| split; [| split; [| split]]]]].
  - destruct Hm2 as (Hkeys & Hvals & Hact & Hhist & Hobj).
    unfold consistent, m3. cbn [objects active_sessions session_history].
    split; [now apply set_keys_NoDup |].
    split; [now apply set_values_NoDup |].
    split.
    { intros kv Hkv. apply elem_of_set in Hkv as [-> | Hkv];
        [| now apply Hact].
      cbn [snd]. split; [exact Hlen |]. intros Hin.
      destruct (Hhist2 _ Hin) as [Hin' | Hin'].
      - destruct Hm as (_ & _ & _ & Hhist0 & _).
        specialize (Hhist0 _ Hin'). lia.
      - contradiction. }
    split; [exact Hhist |]. exact Hobj.
  - apply (keeps_trans _ m1); [exact Hkeeps1 |].
    apply (keeps_trans _ m2); [exact Hkeeps2 |].
    unfold keeps, m3. cbn [objects session_history max_active_sessions].
    split; [lia |]. split; [reflexivity |]. split; [auto |].
    exists []. now rewrite app_nil_r.
  - unfold m3. cbn [active_sessions]. now rewrite get_set, decide_True.
  - rewrite Hderef3, Hsame by exact Hfresh. exact Hnew1.
  - exact Hclock.
  - exact Hticks.
  - unfold ConversationManager.create_session.
    unfold datetime_now at 1. unfold bind at 1. cbn [fst snd].
    unfold get_self at 1. unfold bind at 1. cbn [snd].
    fold session. unfold bind at 1. rewrite Hrun'.
    unfold get_self, put_self, bind, ret. cbn [fst snd].
    f_equal. f_equal. unfold by_value, m3.
    cbn [objects active_sessions session_history max_active_sessions
           ConversationManager.active_sessions
           ConversationManager.session_history
           ConversationManager.max_active_sessions].
    fold m3. f_equal.
    rewrite <- (set_map_values (fun kv => (fst kv, deref (snd kv) m3)))
      by reflexivity.
    cbn [snd]. rewrite Hderef3, Hsame by exact Hfresh. now rewrite Hnew1.
Qed.

(** Seen session by session, the manager that shares its objects is the
    [ConversationManager] of the other sections: [end_session] and
    [create_session] do to the sessions what they do there. *)
Lemma shared_manager_by_value (m : t) :
  consistent m ->
  (forall k e,
      exists r e' m',
        end_session k (e, m) = (Return r, (e', m'))
        /\ consistent m'
        /\ ConversationManager.end_session k (e, by_value m) =
           (Return ((fun session => deref session m') <$> r),
            (e', by_value m')))
  /\ (forall uuid4 client_id user_id e,
        exists session e' m',
          create_session uuid4 client_id user_id (e, m) =
          (Return session, (e', m'))
          /\ consistent m'
          /\ ConversationManager.create_session uuid4 client_id user_id
               (e, by_value m) =
             (Return (deref session m'), (e', by_value m'))).
Proof.
  intros Hm. split.
  - intros k e. rewrite shared_end_session_run.
    pose proof (get_map_values (fun kv => (fst kv, deref (snd kv) m)) k
                  (active_sessions m) ltac:(reflexivity)) as Hvalue.
    change (map (fun kv => (fst kv, deref (snd kv) m)) (active_sessions m))
      with (ConversationManager.active_sessions (by_value m)) in Hvalue.
    cbn [snd] in Hvalue.
    destruct (Dict.get k (active_sessions m)) as [a |] eqn:Hget;
      cbn [fmap option_fmap option_map] in Hvalue.
    + destruct (ended_keeps k a (clock e (ticks e)) m Hm Hget)
        as (Hm1 & _ & _ & _ & _ & Hvalue1).
      cbn zeta in Hm1, Hvalue1.
      do 3 eexists. split; [reflexivity |]. split; [exact Hm1 |].
      rewrite (end_session_run k e (by_value m) _ Hvalue).
      change (ConversationManager.max_active_sessions (by_value m))
        with (max_active_sessions m).
      rewrite <- Hvalue1. cbn [fmap option_fmap option_map].
      do 3 f_equal. destruct Hm as (_ & _ & Hact & _).
      destruct (Hact (k, a) (get_Some_elem _ _ _ Hget)) as [Hlt _].
      symmetry. unfold deref. cbn [objects].
      now apply list_lookup_total_insert_eq.
    + do 3 eexists. split; [reflexivity |]. split; [exact Hm |].
      now apply end_session_absent.
  - intros uuid4 client_id user_id e.
    destruct (shared_create_session uuid4 client_id user_id e m Hm)
      as (e' & m' & Hrun & Hm' & _ & _ & Hnew & _ & _ & Hvalue).
    do 3 eexists. split; [exact Hrun |]. split; [exact Hm' |].
    rewrite Hnew. exact Hvalue.
Qed.

End SharedSessions.

Section Interleaving.
Import SharedManager.
Import Server.

Lemma del_keys_NoDup {V : Type} (k : string) (d : list (string * V)) :
  NoDup (map fst d) -> NoDup (map fst (Dict.del k d)).
Proof.
  induction d as [| [k0 v0] d IH]; cbn; intros Hnd; [constructor |].
  apply NoDup_cons in Hnd as [Hk0 Hnd].
  case_decide as Hk; [exact Hnd |]. cbn. apply NoDup_cons.
  split; [| now apply IH].
  intros Hin. apply Hk0. clear -Hin.
  induction d as [| [k1 v1] d IH]; cbn in *; [inversion Hin |].
  case_decide as Hk.
  - now right.
  - cbn in Hin. apply elem_of_cons in Hin as [-> | Hin]; [left | right; auto].
Qed.

Lemma holds_keeps (m m' : SharedManager.t) (h : Handler) :
  keeps m m' -> holds m h -> holds m' h.
Proof.
  intros (Hlen & _ & Hid & _) Hh session Hs.
  destruct (Hh session Hs) as (Hlt & Hu & Hc).
  destruct (Hid session Hlt) as [Hu' Hc'].
  split; [lia |]. split; congruence.
Qed.

(** The [finally] block: the client leaves the connections, and the
    session its entry refers to at that time is ended. *)
Lemma finally_run (h : Handler) (e : Env) (s : t) :
  consistent (conversation_manager s) ->
  NoDup (map fst (active_connections s)) ->
  exists e' m',
    finally h (e, s) =
    (Return (at_stage finished h),
     (e',
      {| voice_pipeline := voice_pipeline s;
         analytics_service := analytics_service s;
         conversation_manager := m';
         active_connections :=
           Dict.del (client_id h) (active_connections s) |}))
    /\ SharedManager.end_session (client_id h) (e, conversation_manager s) =
       (Return (Dict.get (client_id h)
                  (SharedManager.active_sessions (conversation_manager s))),
        (e', m'))
    /\ consistent m' /\ keeps (conversation_manager s) m'
    /\ Dict.get (client_id h) (Dict.del (client_id h) (active_connections s))
       = None
    /\ Dict.get (client_id h) (SharedManager.active_sessions m') = None
    /\ clock e' = clock e /\ (ticks e <= ticks e')%nat.
Proof.
  intros Hm Hconns.
  assert (Hdel : forall s0 : t,
            (match Dict.get (client_id h) (active_connections s) with
             | Some _ =>
                 put_self
                   {| voice_pipeline := voice_pipeline s;
                      analytics_service := analytics_service s;
                      conversation_manager := conversation_manager s;
                      active_connections :=
                        Dict.del (client_id h) (active_connections s) |}
             | None => ret tt
             end) (e, s) =
            (Return tt,
             (e,
              {| voice_pipeline := voice_pipeline s;
                 analytics_service := analytics_service s;
                 conversation_manager := conversation_manager s;
                 active_connections :=
                   Dict.del (client_id h) (active_connections s) |}))).
  { intros _.
    destruct (Dict.get (client_id h) (active_connections s)) eqn:Hget;
      [reflexivity |].
    unfold ret. f_equal. f_equal. destruct s as [vp an cm conns].
    cbn [voice_pipeline analytics_service conversation_manager
           active_connections] in *.
    f_equal. apply get_None in Hget. clear -Hget.
    induction conns as [| [k0 v0] conns IH]; [reflexivity |].
    cbn in *. apply not_elem_of_cons in Hget as [Hne Hout].
    rewrite decide_False by exact Hne. f_equal. now apply IH. }
  pose proof (shared_end_session_run (client_id h) e (conversation_manager s))
    as Hend.
  destruct (Dict.get (client_id h)
              (SharedManager.active_sessions (conversation_manager s)))
    as [a |] eqn:Hget.
  - destruct (ended_keeps (client_id h) a (clock e (ticks e))
                (conversation_manager s) Hm Hget)
      as (Hm' & Hkeeps & _).
    cbn zeta in Hm', Hkeeps.
    eexists (tick e), _. split; [| split; [exact Hend |]].
    + unfold finally. unfold get_self at 1. unfold bind at 1. cbn [snd].
      unfold bind at 1. rewrite (Hdel s).
      unfold on_conversation_manager, bind, ret.
      cbn [fst snd conversation_manager voice_pipeline analytics_service
             active_connections].
      rewrite Hend. reflexivity.
    + split; [exact Hm' |]. split; [exact Hkeeps |].
      split; [now apply get_del_same |].
      split; [| split; [reflexivity | cbn; lia]].
      cbn [SharedManager.active_sessions]. apply get_del_same.
      now destruct Hm.
  - exists e, (conversation_manager s). split; [| split; [exact Hend |]].
    + unfold finally. unfold get_self at 1. unfold bind at 1. cbn [snd].
      unfold bind at 1. rewrite (Hdel s).
      unfold on_conversation_manager, bind, ret.
      cbn [fst snd conversation_manager voice_pipeline analytics_service
             active_connections].
      rewrite Hend. reflexivity.
    + split; [exact Hm |]. split; [apply keeps_refl |].
      split; [now apply get_del_same |].
      split; [exact Hget |]. split; [reflexivity | lia].
Qed.


Lemma end_session_ends_entry (k : string) (e e' : Env)
    (m m' : SharedManager.t) r :
  SharedManager.end_session k (e, m) = (Return r, (e', m')) ->
  ends_entry k m m'.
Proof.
  rewrite shared_end_session_run. unfold ends_entry.
  destruct (Dict.get k (SharedManager.active_sessions m)) as [a |].
  - intros [= <- <- <-]. exists (clock e (ticks e)).
    repeat split; reflexivity.
  - now intros [= <- <- <-].
Qed.

(** A stretch that ends in the [finally] block, the manager and the
    connections being what they were at its start. *)
Lemma finally_closes (h h0 : Handler) (e1 : Env) (s s1 : t) :
  consistent (conversation_manager s) ->
  NoDup (map fst (active_connections s)) ->
  conversation_manager s1 = conversation_manager s ->
  active_connections s1 = active_connections s ->
  client_id h0 = client_id h -> uuid4 h0 = uuid4 h ->
  stage h <> finished ->
  exists e' s',
    finally h0 (e1, s1) = (Return (at_stage finished h0), (e', s'))
    /\ advances h s (at_stage finished h0) s'
    /\ analytics_service s' = analytics_service s1.
Proof.
  intros Hm Hconns Hcm Hac Hclient Huuid Hstage.
  rewrite <- Hcm in Hm. rewrite <- Hac in Hconns.
  destruct (finally_run h0 e1 s1 Hm Hconns)
    as (e' & m' & Hrun & Hend & Hm' & Hkeeps & Hgone & Hnone & _).
  do 2 eexists. split; [exact Hrun |]. split; [| reflexivity].
  unfold advances.
  cbn [conversation_manager active_connections at_stage client_id uuid4
         stage].
  rewrite <- Hcm.
  split; [exact Hm' |]. split; [exact Hkeeps |].
  split; [now apply del_keys_NoDup |].
  split; [intros session; discriminate |].
  split.
  { unfold steps_left at 1. cbn [stage at_stage].
    unfold steps_left. destruct (stage h); try lia. contradiction. }
  split; [exact Hclient |]. split; [exact Huuid |].
  intros _. rewrite <- Hclient.
  split; [exact Hgone |]. split; [exact Hnone |].
  exact (end_session_ends_entry _ _ _ _ _ _ Hend).
Qed.


(** A stretch that ends at an [await], the manager and the connections
    being what they were at its start. *)
Lemma goes_on (h h' : Handler) (s s1 : t) :
  consistent (conversation_manager s) ->
  NoDup (map fst (active_connections s)) ->
  holds (conversation_manager s) h ->
  conversation_manager s1 = conversation_manager s ->
  active_connections s1 = active_connections s ->
  session_of h' = session_of h ->
  stage h' <> finished ->
  (steps_left h' < steps_left h)%nat ->
  client_id h' = client_id h -> uuid4 h' = uuid4 h ->
  advances h s h' s1.
Proof.
  intros Hm Hconns Hholds Hcm Hac Hsession Hstage Hsteps Hclient Huuid.
  unfold advances. rewrite Hcm, Hac.
  split; [exact Hm |]. split; [apply keeps_refl |]. split; [exact Hconns |].
  split.
  { intros session Hs. rewrite Hsession in Hs.
    rewrite Hclient, Huuid. now apply Hholds. }
  split; [exact Hsteps |]. split; [exact Hclient |]. split; [exact Huuid |].
  intros Hfin. contradiction.
Qed.

(** Whatever the other handlers have done, a handler that has not
    returned runs to its next [await] or to the end of its [finally]
    block, without raising. *)
Lemma resume_advances (h : Handler) (e : Env) (s : t) :
  consistent (conversation_manager s) ->
  NoDup (map fst (active_connections s)) ->
  holds (conversation_manager s) h ->
  stage h <> finished ->
  exists h' e' s',
    resume h (e, s) = (Return h', (e', s')) /\ advances h s h' s'.
Proof.
  intros Hm Hconns Hholds Hstage.
  unfold resume.
  destruct (stage h) as [| session | session response | session text next |]
    eqn:Hat; [| | | | contradiction].
  - (* the connection is registered and the session created *)
    unfold get_self at 1. unfold bind at 1. cbn [snd].
    unfold put_self at 1. unfold bind at 1. cbn [fst].
    unfold in_try, bind at 1, on_conversation_manager.
    cbn [fst snd conversation_manager voice_pipeline analytics_service
           active_connections].
    destruct (shared_create_session (uuid4 h) (client_id h) None e
                (conversation_manager s) Hm)
      as (e' & m' & Hrun & Hm' & Hkeeps & Hget & Hnew & _).
    rewrite Hrun. cbn [fst snd]. unfold ret.
    do 3 eexists. split; [reflexivity |].
    unfold advances.
    cbn [conversation_manager active_connections at_stage client_id uuid4
           stage].
    split; [exact Hm' |]. split; [exact Hkeeps |].
    split; [now apply set_keys_NoDup |].
    split.
    { intros a Ha. unfold session_of in Ha. cbn [stage at_stage] in Ha.
      injection Ha as <-. cbn [uuid4 client_id at_stage].
      rewrite Hnew. cbn. split; [| split; reflexivity].
      destruct Hm' as (_ & _ & Hact & _).
      apply (Hact (client_id h, length (SharedManager.objects
                                          (conversation_manager s)))).
      now apply get_Some_elem. }
    split.
    { unfold steps_left. cbn [stage at_stage incoming]. rewrite Hat. lia. }
    split; [reflexivity |]. split; [reflexivity |]. discriminate.
  - (* what the client sent is handled *)
    assert (Hsession : session_of h = Some session).
    { unfold session_of. now rewrite Hat. }
    destruct (incoming h) as [| message incoming'] eqn:Hin.
    { unfold in_try, raise.
      destruct (finally_closes h h e s s Hm Hconns eq_refl eq_refl eq_refl
                  eq_refl ltac:(rewrite Hat; discriminate))
        as (e' & s' & Hrun & Hadv & _).
      do 3 eexists. split; [exact Hrun | exact Hadv]. }
    set (h0 := {| websocket := websocket h; uuid4 := uuid4 h;
                  client_id := client_id h; incoming := incoming';
                  sent := sent h; stage := receiving session |}).
    assert (Hfinally : forall e1 s1,
              conversation_manager s1 = conversation_manager s ->
              active_connections s1 = active_connections s ->
              exists h' e' s',
                finally h0 (e1, s1) = (Return h', (e', s'))
                /\ advances h s h' s').
    { intros e1 s1 Hcm Hac.
      destruct (finally_closes h h0 e1 s s1 Hm Hconns Hcm Hac eq_refl
                  eq_refl ltac:(rewrite Hat; discriminate))
        as (e' & s' & Hrun & Hadv & _).
      do 3 eexists. split; [exact Hrun | exact Hadv]. }
    assert (Hon : forall next_stage s1,
              conversation_manager s1 = conversation_manager s ->
              active_connections s1 = active_connections s ->
              (next_stage = receiving session
               \/ (exists response, next_stage = replying session response)
               \/ exists text next, next_stage = sending session text next) ->
              advances h s (at_stage next_stage h0) s1).
    { intros next_stage s1 Hcm Hac Hnext.
      apply goes_on; try assumption; try reflexivity.
      - unfold session_of. cbn [stage at_stage]. rewrite Hat.
        destruct Hnext as [-> | [(response & ->) | (text & next & ->)]];
          reflexivity.
      - cbn [stage at_stage].
        destruct Hnext as [-> | [(response & ->) | (text & next & ->)]];
          discriminate.
      - unfold steps_left. cbn [stage at_stage incoming h0].
        rewrite Hat, Hin. cbn [length].
        destruct Hnext as [-> | [(response & ->) | (text & next & ->)]];
          lia. }
    destruct message as [data | | | | ex |];
      cbv beta iota zeta delta
        [in_try bind session_object get_self ret raise on_voice_pipeline
           on_analytics_service json_dumps fst snd];
      fold h0.
    + (* an audio chunk *)
      destruct (VoicePipeline.process_audio_chunk data
                  (ConversationSession.id
                     (SharedManager.deref session (conversation_manager s)))
                  (e, voice_pipeline s))
        as [[response | ex] [e1 p1]] eqn:Hchunk.
      * do 3 eexists. split; [reflexivity |].
        apply Hon; [reflexivity | reflexivity |]. right. left. eauto.
      * apply Hfinally; reflexivity.
    + (* the start of the call *)
      cbn [Websocket.json_dumps].
      do 3 eexists. split; [reflexivity |].
      apply Hon; [reflexivity | reflexivity |]. right. right. eauto.
    + (* the end of the call *)
      destruct (AnalyticsService.save_call_data
                  (SharedManager.deref session (conversation_manager s))
                  (e, analytics_service s))
        as [[[] | ex] [e1 a1]] eqn:Hsave.
      * cbn [Websocket.json_dumps].
        do 3 eexists. split; [reflexivity |].
        apply Hon; [reflexivity | reflexivity |]. right. right. eauto.
      * apply Hfinally; reflexivity.
    + (* a message of another type *)
      do 3 eexists. split; [reflexivity |].
      apply Hon; [reflexivity | reflexivity |]. now left.
    + apply Hfinally; reflexivity.
    + apply Hfinally; reflexivity.
  - (* the response is written as JSON *)
    cbv beta iota zeta delta [in_try bind ret json_dumps fst snd].
    destruct (Websocket.json_dumps
                (Websocket.ai_response (VoiceResponse.audio_data response)
                   (VoiceResponse.transcript response)
                   (VoiceResponse.confidence response)))
      as [text | ex] eqn:Hdumps.
    + do 3 eexists. split; [reflexivity |].
      apply goes_on; try assumption; try reflexivity.
      * unfold session_of. cbn [stage at_stage]. now rewrite Hat.
      * discriminate.
      * unfold steps_left. cbn [stage at_stage incoming]. rewrite Hat. lia.
    + destruct (finally_closes h h e s s Hm Hconns eq_refl eq_refl eq_refl
                  eq_refl ltac:(rewrite Hat; discriminate))
        as (e' & s' & Hrun & Hadv & _).
      do 3 eexists. split; [exact Hrun | exact Hadv].
  - (* the text is sent *)
    destruct (Websocket.send_text (websocket h) text (sent h)) as [[] | ex].
    + set (h0 := {| websocket := websocket h; uuid4 := uuid4 h;
                    client_id := client_id h; incoming := incoming h;
                    sent := sent h ++ [text];
                    stage := sending session text next |}).
      destruct next.
      * unfold ret. do 3 eexists. split; [reflexivity |].
        apply goes_on; try assumption; try reflexivity.
        -- unfold session_of. cbn [stage at_stage]. now rewrite Hat.
        -- discriminate.
        -- unfold steps_left. cbn [stage at_stage incoming h0].
           rewrite Hat. lia.
      * destruct (finally_closes h h0 e s s Hm Hconns eq_refl eq_refl eq_refl
                    eq_refl ltac:(rewrite Hat; discriminate))
          as (e' & s' & Hrun & Hadv & _).
        do 3 eexists. split; [exact Hrun | exact Hadv].
    + destruct (finally_closes h h e s s Hm Hconns eq_refl eq_refl eq_refl
                  eq_refl ltac:(rewrite Hat; discriminate))
        as (e' & s' & Hrun & Hadv & _).
      do 3 eexists. split; [exact Hrun | exact Hadv].
Qed.


(** The first stretch of a handler: its socket is registered and its
    session created, whatever is cleaned up on the way. *)
Lemma resume_accepted (h : Handler) (e : Env) (s : t) :
  consistent (conversation_manager s) ->
  stage h = accepted ->
  let session := length (objects (conversation_manager s)) in
  exists e' m',
    resume h (e, s) =
    (Return (at_stage (receiving session) h),
     (e',
      {| voice_pipeline := voice_pipeline s;
         analytics_service := analytics_service s;
         conversation_manager := m';
         active_connections :=
           Dict.set (client_id h) (websocket h) (active_connections s) |}))
    /\ Dict.get (client_id h) (active_sessions m') = Some session
    /\ deref session m' =
       ConversationSession.init (uuid4 h) (client_id h) None
         (clock e (ticks e))
         [("created_by", "voice_assistant"); ("version", "1.0")].
Proof.
  intros Hm Hat session. unfold resume. rewrite Hat.
  unfold get_self at 1. unfold bind at 1. cbn [snd].
  unfold put_self at 1. unfold bind at 1. cbn [fst].
  unfold in_try, bind at 1, on_conversation_manager.
  cbn [fst snd conversation_manager voice_pipeline analytics_service
         active_connections].
  destruct (shared_create_session (uuid4 h) (client_id h) None e
              (conversation_manager s) Hm)
    as (e' & m' & Hrun & _ & _ & Hget & Hnew & _).
  rewrite Hrun. cbn [fst snd]. unfold ret.
  exists e', m'. split; [reflexivity |]. split; [exact Hget | exact Hnew].
Qed.

Lemma sound_step (p p' : Process) : sound p -> step p p' -> sound p'.
Proof.
  intros (Hm & Hconns & Hholds) Hstep.
  destruct Hstep as [p h Hat | p i h h' e' s' Hi Hat Hrun | p e' vp Hc Ht];
    unfold sound; cbn [env shared handlers].
  - split; [exact Hm |]. split; [exact Hconns |].
    apply Forall_app. split; [exact Hholds |].
    constructor; [| constructor].
    intros session Hs. unfold session_of in Hs. rewrite Hat in Hs.
    discriminate Hs.
  - assert (Hh : holds (conversation_manager (shared p)) h).
    { apply (proj1 (Forall_forall _ _) Hholds).
      now apply list_elem_of_lookup_2 with i. }
    destruct (resume_advances h (env p) (shared p) Hm Hconns Hh Hat)
      as (h2 & e2 & s2 & Hrun2 & Hadv).
    rewrite Hrun in Hrun2. injection Hrun2 as <- <- <-.
    destruct Hadv as (Hm' & Hkeeps & Hconns' & Hh' & _).
    split; [exact Hm' |]. split; [exact Hconns' |].
    apply Forall_insert; [| exact Hh'].
    apply (Forall_impl _ _ _ Hholds). intros h0. now apply holds_keeps.
  - cbn [conversation_manager active_connections]. auto.
Qed.

Lemma sound_starts (p : Process) : starts p -> sound p.
Proof.
  intros (Hm & Hconns & Hhandlers). unfold sound.
  rewrite Hm, Hconns, Hhandlers.
  split; [| split; [constructor | constructor]].
  unfold consistent. cbn.
  split; [constructor |]. split; [constructor |].
  split; [intros kv Hkv; inversion Hkv |].
  split; [intros a Ha; inversion Ha |]. intros a Ha. lia.
Qed.

Lemma sound_runs (p0 p : Process) : starts p0 -> runs p0 p -> sound p.
Proof.
  intros Hstart Hruns. apply sound_starts in Hstart.
  induction Hruns as [| p1 p2 p3 Hstep _ IH]; [exact Hstart |].
  apply IH. now apply (sound_step p1).
Qed.

(** A handler that is given its turns returns. *)
Lemma runs_to_return (n : nat) :
  forall (p : Process) (i : nat) (h : Handler),
    sound p -> handlers p !! i = Some h -> (steps_left h <= n)%nat ->
    exists q h_end,
      runs p q /\ handlers q !! i = Some h_end /\ stage h_end = finished.
Proof.
  induction n as [| n IH]; intros p i h Hsound Hi Hn.
  - exists p, h. split; [apply rtc_refl |]. split; [exact Hi |].
    unfold steps_left in Hn. destruct (stage h); try lia. reflexivity.
  - assert (Hcases : stage h = finished \/ stage h <> finished).
    { destruct (stage h); [right | right | right | right | left];
        discriminate || reflexivity. }
    destruct Hcases as [Hend | Hat].
    { exists p, h. split; [apply rtc_refl |]. now split. }
    pose proof Hsound as (Hm & Hconns & Hholds).
    assert (Hh : holds (conversation_manager (shared p)) h).
    { apply (proj1 (Forall_forall _ _) Hholds).
      now apply list_elem_of_lookup_2 with i. }
    destruct (resume_advances h (env p) (shared p) Hm Hconns Hh Hat)
      as (h' & e' & s' & Hrun & _ & _ & _ & _ & Hsteps & _).
    pose proof (step_resume p i h h' e' s' Hi Hat Hrun) as Hstep.
    match type of Hstep with
    | step _ ?p' =>
        destruct (IH p' i h' (sound_step _ _ Hsound Hstep))
          as (q & h_end & Hruns & Hq & Hfin)
    end.
    + cbn [handlers]. apply list_lookup_insert_eq.
      now apply lookup_lt_Some with h.
    + lia.
    + exists q, h_end. split; [| now split].
      eapply rtc_l; [exact Hstep | exact Hruns].
Qed.

(** A schedule is a run. *)
Lemma turn_runs (i : nat) (p : Process) : runs p (turn i p).
Proof.
  unfold turn.
  destruct (handlers p !! i) as [h |] eqn:Hi; [| apply rtc_refl].
  destruct (stage h) eqn:Hat; try apply rtc_refl;
    destruct (resume h (env p, shared p)) as [[h' | ex] [e' s']] eqn:Hrun;
    try apply rtc_refl;
    apply rtc_once; apply (step_resume p i h h' e' s' Hi);
      try exact Hrun; rewrite Hat; discriminate.
Qed.

Lemma schedule_runs (turns : list nat) :
  forall p, runs p (schedule turns p).
Proof.
  induction turns as [| i turns IH]; intros p; [apply rtc_refl |].
  cbn [schedule fold_left]. eapply rtc_trans; [apply turn_runs |].
  apply IH.
Qed.

Lemma accepted_runs (hs : list Handler) (p : Process) :
  Forall (fun h => stage h = accepted) hs ->
  runs p {| env := env p; shared := shared p; handlers := handlers p ++ hs |}.
Proof.
  revert p. induction hs as [| h hs IH]; intros p Hall.
  - rewrite app_nil_r. destruct p. apply rtc_refl.
  - apply Forall_cons in Hall as [Hh Hall].
    eapply rtc_l; [apply (step_accept p h Hh) |].
    specialize (IH {| env := env p; shared := shared p;
                      handlers := handlers p ++ [h] |} Hall).
    cbn [env shared handlers] in IH. rewrite <- app_assoc in IH. exact IH.
Qed.


(** X26. Under any interleaving of the handlers of any connections, a
    handler that has not returned runs to its next [await] without
    raising, and it does so a bounded number of times before it returns:
    given its turns, it returns. In its first stretch it registers its socket and creates its
    session, a new object that the entry of its client then refers to:
    active, with the id and the client of the handler, no user, no
    interaction and the time of the clock as start. When it returns, its [finally] block has taken its client out of the
    connections and has ended the session that the entry of the client
    referred to at that time: that session was active, it gets its end
    time and the status ["ended"] and goes to the end of the history,
    no other session changes, and the client has no entry any more.
    That session is the one the handler created only as long as no
    later connection of the same client has replaced the entry; with no
    entry the manager stays as it is. Every session of the history is
    ended, with no interaction and an empty history. *)
Theorem finally_ends_the_entry_of_the_client (p0 p : Process) (i : nat)
    (h : Handler) :
  starts p0 -> runs p0 p ->
  handlers p !! i = Some h -> stage h <> finished ->
  exists h' e' s',
    resume h (env p, shared p) = (Return h', (e', s'))
    /\ step p
         {| env := e'; shared := s'; handlers := <[i := h']> (handlers p) |}
    /\ (steps_left h' < steps_left h)%nat
    /\ (exists q h_end,
          runs p q /\ handlers q !! i = Some h_end
          /\ stage h_end = finished)
    /\ client_id h' = client_id h
    /\ (stage h = accepted ->
        let session :=
          length (SharedManager.objects (conversation_manager (shared p))) in
        stage h' = receiving session
        /\ Dict.get (client_id h) (active_connections s') = Some (websocket h)
        /\ Dict.get (client_id h)
             (SharedManager.active_sessions (conversation_manager s'))
           = Some session
        /\ SharedManager.deref session (conversation_manager s') =
           ConversationSession.init (uuid4 h) (client_id h) None
             (clock (env p) (ticks (env p)))
             [("created_by", "voice_assistant"); ("version", "1.0")])
    /\ (stage h' = finished ->
        Dict.get (client_id h) (active_connections s') = None
        /\ Dict.get (client_id h)
             (SharedManager.active_sessions (conversation_manager s')) = None
        /\ match
             Dict.get (client_id h)
               (SharedManager.active_sessions
                  (conversation_manager (shared p)))
           with
           | Some session =>
               exists t_end,
                 SharedManager.deref session (conversation_manager s') =
                 ConversationSession.ended t_end
                   (SharedManager.deref session
                      (conversation_manager (shared p)))
                 /\ ConversationSession.status
                      (SharedManager.deref session
                         (conversation_manager (shared p))) = "active"
                 /\ SharedManager.session_history (conversation_manager s') =
                    SharedManager.session_history
                      (conversation_manager (shared p)) ++ [session]
                 /\ forall other,
                      other <> session ->
                      SharedManager.deref other (conversation_manager s') =
                      SharedManager.deref other
                        (conversation_manager (shared p))
           | None => conversation_manager s' = conversation_manager (shared p)
           end)
    /\ Forall
         (fun session =>
            let object :=
              SharedManager.deref session (conversation_manager s') in
            ConversationSession.status object = "ended"
            /\ ConversationSession.total_interactions object = 0
            /\ ConversationSession.conversation_history object = [])
         (SharedManager.session_history (conversation_manager s')).
Proof.
  intros Hstart Hruns Hi Hat.
  destruct (sound_runs p0 p Hstart Hruns) as (Hm & Hconns & Hholds).
  assert (Hh : holds (conversation_manager (shared p)) h).
  { apply (proj1 (Forall_forall _ _) Hholds).
    now apply list_elem_of_lookup_2 with i. }
  destruct (resume_advances h (env p) (shared p) Hm Hconns Hh Hat)
    as (h' & e' & s' & Hrun & Hm' & Hkeeps & Hconns' & Hh' & Hsteps
        & Hclient & _ & Hfin).
  exists h', e', s'. split; [exact Hrun |].
  split; [now apply (step_resume p i h h' e' s') |].
  split; [exact Hsteps |].
  split.
  { apply (runs_to_return (steps_left h) p i h); [| exact Hi | lia].
    exact (sound_runs p0 p Hstart Hruns). }
  split; [exact Hclient |].
  split.
  { intros Hacc session.
    destruct (resume_accepted h (env p) (shared p) Hm Hacc)
      as (e2 & m2 & Hrun2 & Hget & Hnew).
    rewrite Hrun in Hrun2. injection Hrun2 as -> -> ->.
    cbn [stage at_stage conversation_manager active_connections].
    split; [reflexivity |].
    split; [now rewrite get_set, decide_True |].
    split; [exact Hget | exact Hnew]. }
  split.
  - intros Hend. destruct (Hfin Hend) as (Hgone & Hnone & Hentry).
    split; [exact Hgone |]. split; [exact Hnone |].
    unfold ends_entry in Hentry.
    destruct (Dict.get (client_id h)
                (SharedManager.active_sessions
                   (conversation_manager (shared p))))
      as [session |] eqn:Hget; [| exact Hentry].
    destruct Hentry as (t_end & Hobjects & _ & Hhistory & _).
    destruct Hm as (_ & _ & Hact & _ & Hobj).
    destruct (Hact (client_id h, session) (get_Some_elem _ _ _ Hget))
      as [Hlt Hnew].
    cbn [snd] in Hlt, Hnew.
    exists t_end. unfold SharedManager.deref. rewrite Hobjects.
    split; [now apply list_lookup_total_insert_eq |].
    split.
    { destruct (Hobj session Hlt) as (_ & _ & Hstatus).
      unfold SharedManager.deref in Hstatus. rewrite Hstatus.
      now rewrite decide_False. }
    split; [exact Hhistory |].
    intros other Hne. apply list_lookup_total_insert_ne. congruence.
  - destruct Hm' as (_ & _ & _ & Hhist & Hobj).
    apply Forall_forall. intros session Hsession. cbn zeta.
    destruct (Hobj session (Hhist session Hsession))
      as (Htotal & Hconv & Hstatus).
    rewrite decide_True in Hstatus by exact Hsession. auto.
Qed.

(** X27. Under any interleaving, the call that [end_call] saves is the
    session of the handler as it is at that time, for the handler holds
    the object that the manager holds. The record has the id the
    session was created with, no interaction and an empty history,
    whatever audio was exchanged, and its status is ["ended"] when the
    session has been ended in the meantime, by the [finally] block of
    another connection of the same client or by the cleaning of old
    sessions, and ["active"] otherwise. The handler then awaits the
    sending of the farewell; it logs no question and no error, leaves
    the pattern table as it is, and touches neither the manager nor the
    connections. *)
Theorem end_call_saves_the_session_as_it_is (p0 p : Process) (i : nat)
    (h : Handler) (session : nat) (rest : list Websocket.Incoming) :
  starts p0 -> runs p0 p ->
  handlers p !! i = Some h ->
  stage h = receiving session ->
  incoming h = Websocket.end_call :: rest ->
  exists h' e' s' call,
    resume h (env p, shared p) = (Return h', (e', s'))
    /\ stage h' =
       sending session (Websocket.call_ended Endpoint.farewell) leave
    /\ incoming h' = rest
    /\ AnalyticsService.call_logs (analytics_service s') =
       AnalyticsService.call_logs (analytics_service (shared p)) ++ [call]
    /\ CallData.session_id call = uuid4 h
    /\ CallData.total_interactions call = 0
    /\ CallData.conversation_history call = []
    /\ CallData.status call =
       ConversationSession.status
         (SharedManager.deref session (conversation_manager (shared p)))
    /\ CallData.status call =
       (if decide
             (session ∈
                SharedManager.session_history
                  (conversation_manager (shared p)))
        then "ended" else "active")
    /\ AnalyticsService.interaction_logs (analytics_service s') =
       AnalyticsService.interaction_logs (analytics_service (shared p))
    /\ AnalyticsService.question_patterns (analytics_service s') =
       AnalyticsService.question_patterns (analytics_service (shared p))
    /\ AnalyticsService.error_logs (analytics_service s') =
       AnalyticsService.error_logs (analytics_service (shared p))
    /\ conversation_manager s' = conversation_manager (shared p)
    /\ active_connections s' = active_connections (shared p).
Proof.
  intros Hstart Hruns Hi Hat Hin.
  destruct (sound_runs p0 p Hstart Hruns) as (Hm & Hconns & Hholds).
  assert (Hh : holds (conversation_manager (shared p)) h).
  { apply (proj1 (Forall_forall _ _) Hholds).
    now apply list_elem_of_lookup_2 with i. }
  destruct (Hh session) as (Hlt & Hid & Hclient).
  { unfold session_of. now rewrite Hat. }
  destruct Hm as (_ & _ & _ & _ & Hobj).
  destruct (Hobj session Hlt) as (Htotal & Hconv & Hstatus).
  set (object :=
         SharedManager.deref session (conversation_manager (shared p))) in *.
  destruct (save_call_data_unfold object (env p)
              (analytics_service (shared p)))
    as (e0 & call & Hsave & Hcid & Hcstatus & Hctotal & Hchist & _).
  rewrite Hconv in Hsave. specialize (Hsave _ eq_refl).
  unfold resume. rewrite Hat, Hin.
  cbv beta iota zeta delta
    [in_try bind session_object get_self ret raise on_voice_pipeline
       on_analytics_service json_dumps fst snd].
  fold object. rewrite Hsave. cbn [Websocket.json_dumps].
  do 3 eexists. exists call. split; [reflexivity |].
  cbn [stage at_stage incoming analytics_service conversation_manager
         active_connections AnalyticsService.call_logs
         AnalyticsService.interaction_logs AnalyticsService.question_patterns
         AnalyticsService.error_logs].
  split; [reflexivity |]. split; [reflexivity |]. split; [reflexivity |].
  split; [congruence |]. split; [congruence |]. split; [congruence |].
  split; [exact Hcstatus |]. split; [congruence |].
  repeat split; reflexivity.
Qed.

End Interleaving.

(** Two connections of one client. The first connects, the second
    connects and takes the entry of the client; the first goes away and
    its [finally] block ends the session of the second; the second ends
    its call, which is saved as ended, and its own [finally] block finds
    no entry. The session of the first is left as it was created: it is
    active for good, and neither among the active sessions nor in the
    history. *)
Lemma a_connection_ends_the_session_of_another :
  let p := Server.schedule [0; 1; 0; 1; 1]%nat Scenario.two_connections in
  Server.runs Scenario.opening p
  /\ map Server.stage (Server.handlers p) = [Server.finished; Server.finished]
  /\ map (fun call => (CallData.session_id call, CallData.status call))
       (AnalyticsService.call_logs
          (Server.analytics_service (Server.shared p))) =
     [("session-2", "ended")]
  /\ SharedManager.active_sessions
       (Server.conversation_manager (Server.shared p)) = []
  /\ SharedManager.session_history
       (Server.conversation_manager (Server.shared p)) = [1%nat]
  /\ map (fun object =>
            (ConversationSession.id object, ConversationSession.status object))
       (SharedManager.objects
          (Server.conversation_manager (Server.shared p))) =
     [("session-1", "active"); ("session-2", "ended")].
Proof.
  split.
  - eapply rtc_trans; [| apply schedule_runs].
    apply (accepted_runs
             [ Scenario.caller "session-1" [Websocket.disconnect];
               Scenario.caller "session-2" [Websocket.end_call] ]
             Scenario.opening).
    repeat constructor.
  - vm_compute. repeat split; reflexivity.
Qed.

(** The first of two connections of one client goes away after the
    second has connected: its [finally] block ends the session of the
    second, the only one of the history. *)
Lemma finally_ends_the_entry_of_the_client_witness :
  let p := Server.schedule [0; 1]%nat Scenario.two_connections in
  exists h h' w',
    Server.handlers p !! 0%nat = Some h
    /\ Server.resume h (Server.env p, Server.shared p) = (Return h', w')
    /\ Server.stage h' = Server.finished
    /\ map ConversationSession.id
         (map (fun session =>
                 SharedManager.deref session
                   (Server.conversation_manager (snd w')))
            (SharedManager.session_history
               (Server.conversation_manager (snd w')))) = ["session-2"].
Proof.
  intros p.
  destruct (Server.handlers p !! 0%nat) as [h |] eqn:Hi;
    [| vm_compute in Hi; discriminate Hi].
  assert (Hh : Some h =
               Some {| Server.websocket := Scenario.socket;
                       Server.uuid4 := "session-1";
                       Server.client_id := "client-1";
                       Server.incoming := [Websocket.disconnect];
                       Server.sent := [];
                       Server.stage := Server.receiving 0 |}).
  { rewrite <- Hi. vm_compute. reflexivity. }
  injection Hh as Hh.
  destruct (finally_ends_the_entry_of_the_client Scenario.opening p 0 h)
    as (h' & e' & s' & Hrun & _).
  - repeat split.
  - eapply rtc_trans; [| apply schedule_runs].
    apply (accepted_runs
             [ Scenario.caller "session-1" [Websocket.disconnect];
               Scenario.caller "session-2" [Websocket.end_call] ]
             Scenario.opening).
    repeat constructor.
  - exact Hi.
  - rewrite Hh. discriminate.
  - exists h, h', (e', s'). split; [reflexivity |]. split; [exact Hrun |].
    rewrite Hh in Hrun. vm_compute in Hrun. injection Hrun as <- <- <-.
    split; reflexivity.
Defined.

(** The second connection then ends its call: its session, which the
    first connection has ended, is saved as ended. *)
Lemma end_call_saves_the_session_as_it_is_witness :
  let p := Server.schedule [0; 1; 0]%nat Scenario.two_connections in
  exists h h' w' call,
    Server.handlers p !! 1%nat = Some h
    /\ Server.resume h (Server.env p, Server.shared p) = (Return h', w')
    /\ AnalyticsService.call_logs (Server.analytics_service (snd w')) = [call]
    /\ CallData.session_id call = "session-2"
    /\ CallData.status call = "ended".
Proof.
  intros p.
  destruct (Server.handlers p !! 1%nat) as [h |] eqn:Hi;
    [| vm_compute in Hi; discriminate Hi].
  assert (Hh : Some h =
               Some {| Server.websocket := Scenario.socket;
                       Server.uuid4 := "session-2";
                       Server.client_id := "client-1";
                       Server.incoming := [Websocket.end_call];
                       Server.sent := [];
                       Server.stage := Server.receiving 1 |}).
  { rewrite <- Hi. vm_compute. reflexivity. }
  injection Hh as Hh.
  destruct (end_call_saves_the_session_as_it_is Scenario.opening p 1 h 1 [])
    as (h' & e' & s' & call & Hrun & _ & _ & Hlogs & Hid & _ & _ & _
        & Hstatus & _).
  - repeat split.
  - eapply rtc_trans; [| apply schedule_runs].
    apply (accepted_runs
             [ Scenario.caller "session-1" [Websocket.disconnect];
               Scenario.caller "session-2" [Websocket.end_call] ]
             Scenario.opening).
    repeat constructor.
  - exact Hi.
  - now rewrite Hh.
  - now rewrite Hh.
  - exists h, h', (e', s'), call. split; [reflexivity |].
    split; [exact Hrun |]. split; [exact Hlogs |].
    split; [now rewrite Hid, Hh |]. rewrite Hstatus. reflexivity.
Defined.

(** ** A client that connects again (models/conversation.py) *)

Section Reconnection.
Import ConversationManager.

(** X29. When a client that has an active session gets a new one from
    [create_session], below the ceiling, the new session takes the place
    of the old one: the old session is not ended and does not go to the
    history, it is gone. The clients and their order, the other sessions
    and the history stay as they were. *)
Theorem create_session_replaces_active_session (uuid4 client_id : string)
    (user_id : option string) (e : Env) (m : t)
    (old : ConversationSession.t) :
  Dict.get client_id (active_sessions m) = Some old ->
  (length (active_sessions m) < max_active_sessions m)%nat ->
  exists session m',
    create_session uuid4 client_id user_id (e, m) =
    (Return session, (tick e, m'))
    /\ ConversationSession.id session = uuid4
    /\ ConversationSession.start_time session = clock e (ticks e)
    /\ Dict.get client_id (active_sessions m') = Some session
    /\ (forall k, k <> client_id ->
          Dict.get k (active_sessions m') = Dict.get k (active_sessions m))
    /\ map fst (active_sessions m') = map fst (active_sessions m)
    /\ session_history m' = session_history m.
Proof.
  intros Hold Hroom. unfold create_session.
  unfold datetime_now at 1. unfold bind at 1. cbn [fst snd].
  unfold get_self at 1. unfold bind at 1. cbn [snd].
  rewrite decide_False by lia.
  do 2 eexists. split; [reflexivity |].
  cbn [active_sessions session_history ConversationSession.init
         ConversationSession.id ConversationSession.start_time].
  split; [reflexivity |]. split; [reflexivity |].
  split; [now rewrite get_set, decide_True |].
  split; [intros k Hk; now rewrite get_set, decide_False |].
  split; [| reflexivity].
  apply set_present. apply dec_stable. intros Hout.
  apply get_None in Hout. congruence.
Qed.

End Reconnection.

(** The client of the first session connects once more. *)
Lemma create_session_replaces_active_session_witness :
  exists session m',
    ConversationManager.create_session "session-2" "client-1" None
      (fst (snd Scenario.connected),
       Main.conversation_manager (snd (snd Scenario.connected))) =
    (Return session, m')
    /\ ConversationManager.session_history (snd m') = []
    /\ length (ConversationManager.active_sessions (snd m')) = 1%nat.
Proof.
  destruct (create_session_replaces_active_session "session-2" "client-1"
              None (fst (snd Scenario.connected))
              (Main.conversation_manager (snd (snd Scenario.connected)))
              Scenario.session eq_refl)
    as (session & m' & Hrun & _ & _ & _ & _ & Hkeys & Hhist).
  - apply Nat.ltb_lt. vm_compute. reflexivity.
  - exists session, (tick (fst (snd Scenario.connected)), m').
    split; [exact Hrun |]. split; [exact Hhist |].
    cbn [snd]. rewrite <- (length_map fst), Hkeys. reflexivity.
Defined.

(** ** All sessions (models/conversation.py) *)

Section AllSessions.
Import ConversationManager.

Lemma get_durations_run (sessions : list ConversationSession.t) :
  forall (e : Env) (m : t),
  exists durations e',
    map_M ConversationSession.get_duration sessions (e, m) =
    (Return durations, (e', m))
    /\ length durations = length sessions
    /\ ticks e' =
       (ticks e
        + length
            (filter (fun s => ConversationSession.end_time s = None)
               sessions))%nat.
Proof.
  induction sessions as [| s sessions IH]; intros e m.
  - exists [], e. cbn. split; [reflexivity |]. split; [reflexivity | lia].
  - cbn [map_M]. unfold ConversationSession.get_duration at 1.
    destruct (ConversationSession.end_time s) as [t_end |] eqn:Hend.
    + destruct (IH e m) as (ds & e' & Hrun & Hlen & Hticks).
      unfold ret at 1. unfold bind at 1.
      rewrite (bind_Return _ _ _ _ _ Hrun).
      do 2 eexists. split; [reflexivity |]. cbn [length].
      split; [lia |].
      rewrite filter_cons_False by (rewrite Hend; discriminate). exact Hticks.
    + destruct (IH (tick e) m) as (ds & e' & Hrun & Hlen & Hticks).
      unfold datetime_now at 1. unfold bind at 1. unfold bind at 1.
      cbn [fst snd ret].
      rewrite (bind_Return _ _ _ _ _ Hrun).
      do 2 eexists. split; [reflexivity |]. cbn [length].
      split; [lia |].
      rewrite filter_cons_True by exact Hend. cbn [length tick ticks] in *.
      lia.
Qed.

(** X30. [get_all_sessions_analytics] leaves the manager as it is and
    reports the active sessions, the ended ones and their total, which
    is their sum, and the interactions of all of them together; with no
    session at all every number is 0. The clock is read once for each
    session that has no end time. Once a session is ended with
    [end_session], the report has one active session less, one completed
    session more and the same total. *)
Theorem all_sessions_analytics_counts (e : Env) (m : t) :
  (exists r e',
      get_all_sessions_analytics (e, m) = (Return r, (e', m))
      /\ AllSessionsAnalytics.active_sessions r =
         Z.of_nat (length (active_sessions m))
      /\ AllSessionsAnalytics.completed_sessions r =
         Z.of_nat (length (session_history m))
      /\ AllSessionsAnalytics.total_sessions r =
         AllSessionsAnalytics.active_sessions r
         + AllSessionsAnalytics.completed_sessions r
      /\ AllSessionsAnalytics.total_interactions r =
         fold_left Z.add
           (map ConversationSession.total_interactions
              (map snd (active_sessions m) ++ session_history m)) 0
      /\ (AllSessionsAnalytics.total_sessions r = 0 ->
          AllSessionsAnalytics.average_duration r = 0%Q
          /\ AllSessionsAnalytics.average_interactions_per_session r = 0%Q)
      /\ ticks e' =
         (ticks e
          + length
              (filter (fun s => ConversationSession.end_time s = None)
                 (map snd (active_sessions m) ++ session_history m)))%nat)
  /\ forall k session e1 m1 r1 e2,
       end_session k (e, m) = (Return (Some session), (e1, m1)) ->
       get_all_sessions_analytics (e1, m1) = (Return r1, (e2, m1)) ->
       AllSessionsAnalytics.active_sessions r1 =
       Z.of_nat (length (active_sessions m)) - 1
       /\ AllSessionsAnalytics.completed_sessions r1 =
          Z.of_nat (length (session_history m)) + 1
       /\ AllSessionsAnalytics.total_sessions r1 =
          Z.of_nat (length (active_sessions m))
          + Z.of_nat (length (session_history m)).
Proof.
  assert (Hreport : forall (e : Env) (m : t),
             exists r e',
               get_all_sessions_analytics (e, m) = (Return r, (e', m))
               /\ AllSessionsAnalytics.active_sessions r =
                  Z.of_nat (length (active_sessions m))
               /\ AllSessionsAnalytics.completed_sessions r =
                  Z.of_nat (length (session_history m))
               /\ AllSessionsAnalytics.total_sessions r =
                  AllSessionsAnalytics.active_sessions r
                  + AllSessionsAnalytics.completed_sessions r
               /\ AllSessionsAnalytics.total_interactions r =
                  fold_left Z.add
                    (map ConversationSession.total_interactions
                       (map snd (active_sessions m) ++ session_history m)) 0
               /\ (AllSessionsAnalytics.total_sessions r = 0 ->
                   AllSessionsAnalytics.average_duration r = 0%Q
                   /\ AllSessionsAnalytics.average_interactions_per_session r
                      = 0%Q)
               /\ ticks e' =
                  (ticks e
                   + length
                       (filter
                          (fun s => ConversationSession.end_time s = None)
                          (map snd (active_sessions m) ++ session_history m)))%nat).
  { clear e m. intros e m.
    unfold get_all_sessions_analytics, bind at 1, get_self. cbn [snd].
    destruct (map snd (active_sessions m) ++ session_history m)
      as [| s sessions] eqn:Hall.
    - apply app_eq_nil in Hall as [Hactive Hhist].
      apply map_eq_nil in Hactive. rewrite Hactive, Hhist.
      do 2 eexists. split; [reflexivity |]. cbn.
      repeat split; reflexivity || lia.
    - destruct (get_durations_run (s :: sessions) e m)
        as (ds & e' & Hrun & Hlen & Hticks).
      rewrite (bind_Return _ _ _ _ _ Hrun).
      do 2 eexists. split; [reflexivity |].
      cbn [AllSessionsAnalytics.active_sessions
             AllSessionsAnalytics.completed_sessions
             AllSessionsAnalytics.total_sessions
             AllSessionsAnalytics.total_interactions].
      split; [reflexivity |]. split; [reflexivity |].
      split.
      { rewrite <- Hall, length_app, length_map. lia. }
      split; [reflexivity |].
      split; [cbn [length]; lia | exact Hticks]. }
  split; [apply Hreport |].
  intros k session e1 m1 r1 e2 Hend Hrun.
  destruct (Hreport e1 m1)
    as (r & e' & Hrun' & Hactive & Hcompleted & Htotal & _).
  rewrite Hrun' in Hrun. injection Hrun as <- <-.
  rewrite Htotal, Hactive, Hcompleted. clear Hrun' Htotal Hactive Hcompleted.
  unfold end_session, bind, get_self in Hend. cbn [snd] in Hend.
  destruct (Dict.get k (active_sessions m)) as [s |] eqn:Hget;
    [| discriminate Hend].
  cbn in Hend. injection Hend as _ _ <-.
  cbn [active_sessions session_history]. rewrite length_app. cbn [length].
  assert (Hdel : length (active_sessions m) =
                 S (length (Dict.del k (active_sessions m)))).
  { clear -Hget. induction (active_sessions m) as [| [k0 v0] d IH];
      [discriminate Hget |].
    cbn in Hget |- *. case_decide; [reflexivity |]. cbn. f_equal.
    now apply IH. }
  lia.
Qed.

End AllSessions.
